(** * Roster engine: constraint-model builder, compliance oracle, conflict resolver

    A shallow embedding of [core/models.py], [agents/compliance.py],
    [agents/generator.py] and [agents/conflict_resolution.py], of
    [agents/cost.py], [agents/coverage_eval.py] and
    [agents/skill_station.py], and of the two cell parsers of
    [agents/data_context.py], followed by the properties established about
    them.

    Modelling conventions.
    - A Python [date] is its proleptic ordinal, an integer of [Z];
      [(a - b).days] is [a - b] and [//] is [Z.div] (both floor).
    - A Python [time] built by [time(h, m)] or [strptime(_, "%H:%M")] is
      the pair (hour, minute).
    - Hours are Python floats in the source.  The sections on the oracle,
      the generator and the resolver model them as rationals of [Q],
      compared with [Qle_bool]: that is exact where single catalogue
      values are compared and where the values are whole half hours, on
      which float sums do not round.  [Module Float64] has the oracle and
      the resolver once more on binary64 floats, for the statements that
      the rounding of a sum decides.
    - A Python [dict] is an association list in insertion order, with
      Python's update rule (an existing key keeps its position).
    - The f-string of a violation or log line is kept as the tuple of the
      values it formats.
    - A Python [str] is the string of its characters; the texts read from
      the workbooks are taken to be ASCII.
    - The rates and loadings of [agents/cost.py] and the ratios of
      [agents/coverage_eval.py] are floats in the source and exact
      rationals here. *)

From Stdlib Require Import List ZArith QArith Qround String Ascii Bool Lia Arith.
From Stdlib Require Import Permutation Sorted Lqa PrimFloat.
Import ListNotations.

Local Open Scope string_scope.
Local Open Scope list_scope.
Local Open Scope Z_scope.

(* ===================================================================== *)
(** ** Python containers *)

(** Keys with a boolean equality that decides Leibniz equality. *)
Class Key (K : Type) := {
  keqb : K -> K -> bool;
  keqb_spec : forall a b, keqb a b = true <-> a = b
}.

#[export] Instance Key_string : Key string :=
  {| keqb := String.eqb; keqb_spec := String.eqb_eq |}.

#[export] Instance Key_Z : Key Z :=
  {| keqb := Z.eqb; keqb_spec := Z.eqb_eq |}.

#[export] Instance Key_nat : Key nat :=
  {| keqb := Nat.eqb; keqb_spec := Nat.eqb_eq |}.

Lemma pair_keqb_spec {A B} `{Key A} `{Key B} (a b : A * B) :
  (keqb (fst a) (fst b) && keqb (snd a) (snd b))%bool = true <-> a = b.
Proof.
  destruct a as [a1 a2], b as [b1 b2]; simpl.
  rewrite andb_true_iff, !keqb_spec. split.
  - intros [-> ->]; reflexivity.
  - intros E; inversion E; auto.
Qed.

#[export] Instance Key_pair {A B} `{Key A} `{Key B} : Key (A * B) :=
  {| keqb := fun a b => (keqb (fst a) (fst b) && keqb (snd a) (snd b))%bool;
     keqb_spec := pair_keqb_spec |}.

Module PyDict.
Section Dict.
Context {K V : Type} `{Key K}.

Definition dict := list (K * V).

(** [d.get(k)] *)
Fixpoint get (k : K) (d : dict) : option V :=
  match d with
  | [] => None
  | (k', v) :: r => if keqb k k' then Some v else get k r
  end.

(** [d.get(k, dflt)] *)
Definition get_or (k : K) (dflt : V) (d : dict) : V :=
  match get k d with Some v => v | None => dflt end.

(** [k in d] *)
Definition mem (k : K) (d : dict) : bool :=
  match get k d with Some _ => true | None => false end.

(** [d[k] = v]: an existing key keeps its place, a new one goes last. *)
Fixpoint set (k : K) (v : V) (d : dict) : dict :=
  match d with
  | [] => [(k, v)]
  | (k', v') :: r => if keqb k k' then (k', v) :: r else (k', v') :: set k v r
  end.

Definition keys (d : dict) : list K := map fst d.
Definition values (d : dict) : list V := map snd d.
End Dict.
Arguments dict : clear implicits.
End PyDict.

Abbreviation dict := PyDict.dict.

(** [x in l] for a list. *)
Definition list_mem {K} `{Key K} (k : K) (l : list K) : bool :=
  existsb (keqb k) l.

(** [enumerate(l)] *)
Fixpoint enumerate_from {A} (i : nat) (l : list A) : list (nat * A) :=
  match l with
  | [] => []
  | x :: r => (i, x) :: enumerate_from (S i) r
  end.
Definition enumerate {A} (l : list A) := enumerate_from 0 l.

(** [zip(l, l[1:])] *)
Definition adjacent_pairs {A} (l : list A) : list (A * A) := combine l (tl l).

(** Python's [sorted] is stable; [le x y] says that [x] may stand before
    [y].  Folding from the right and inserting before the first element
    that [x] may precede keeps equal keys in their original order. *)
Fixpoint insert_by {A} (le : A -> A -> bool) (x : A) (l : list A) : list A :=
  match l with
  | [] => [x]
  | y :: r => if le x y then x :: l else y :: insert_by le x r
  end.

Definition sorted_by {A} (le : A -> A -> bool) (l : list A) : list A :=
  fold_right (insert_by le) [] l.

(** [set(l)] followed by [sorted]: duplicates go, order is the key order. *)
Fixpoint dedup {K} `{Key K} (l : list K) : list K :=
  match l with
  | [] => []
  | x :: r => if list_mem x r then dedup r else x :: dedup r
  end.

(* ===================================================================== *)
(** ** Dates, times and hours *)

Definition date := Z.

Record time := mk_time { hour : Z; minute : Z }.

Definition minutes_of (t : time) : Z := 60 * hour t + minute t.

(** [a <= b] on [time] values: lexicographic on (hour, minute). *)
Definition time_le (a b : time) : bool :=
  (hour a <? hour b) || ((hour a =? hour b) && (minute a <=? minute b)).

Definition Qlt_bool (a b : Q) : bool := negb (Qle_bool b a).

(** Python's [round] on a float, to the nearest integer, ties to even. *)
Definition py_round (q : Q) : Z :=
  let fl := Qfloor q in
  let r := (q - inject_Z fl)%Q in
  if Qlt_bool r (1 # 2) then fl
  else if Qlt_bool (1 # 2) r then fl + 1
  else if Z.even fl then fl else fl + 1.

(* ===================================================================== *)
(** ** core/models.py *)

Inductive ContractType := FULL_TIME | PART_TIME | CASUAL.

Inductive SkillTag := KITCHEN | COUNTER | MCCAFe | DESSERT | DELIVERY | MANAGER.

Definition SkillTag_eqb (a b : SkillTag) : bool :=
  match a, b with
  | KITCHEN, KITCHEN | COUNTER, COUNTER | MCCAFe, MCCAFe
  | DESSERT, DESSERT | DELIVERY, DELIVERY | MANAGER, MANAGER => true
  | _, _ => false
  end.

Lemma SkillTag_eqb_spec a b : SkillTag_eqb a b = true <-> a = b.
Proof. destruct a, b; simpl; split; congruence. Qed.

#[export] Instance Key_SkillTag : Key SkillTag :=
  {| keqb := SkillTag_eqb; keqb_spec := SkillTag_eqb_spec |}.

Definition ContractType_eqb (a b : ContractType) : bool :=
  match a, b with
  | FULL_TIME, FULL_TIME | PART_TIME, PART_TIME | CASUAL, CASUAL => true
  | _, _ => false
  end.

Record Employee := mk_Employee {
  e_id : string;
  e_name : string;
  e_contract_type : ContractType;
  e_skill_tags : list SkillTag
}.

Record EmployeeAvailability := mk_EmployeeAvailability {
  av_employee_id : string;
  allowed_shift_codes_by_date : dict date (list string)
}.

Record ShiftAssignment := mk_ShiftAssignment {
  a_employee_id : string;
  a_date : date;
  a_shift_code : string;
  a_station : option SkillTag;
  a_store_id : string
}.

Record Roster := mk_Roster {
  r_store_id : string;
  r_start_date : date;
  r_end_date : date;
  r_assignments : list ShiftAssignment
}.

Inductive ViolationSeverity := HARD | SOFT.

(** The values a violation message formats, one constructor per f-string. *)
Inductive Message :=
| MsgMinHours (name id : string) (total min_h : Q) (ct : ContractType)
| MsgMaxHours (name id : string) (total max_h : Q) (ct : ContractType)
| MsgWeeklyMin (name id : string) (total : Q) (week : Z) (min_w : Q) (ct : ContractType)
| MsgWeeklyMax (name id : string) (total : Q) (week : Z) (max_w : Q) (ct : ContractType)
| MsgCasualShift (name id : string) (hours : Q) (on : date)
| MsgRest (name id : string) (rest : Q) (prev_date : date) (prev_code : string)
          (next_date : date) (next_code : string)
| MsgConsecutive (name id : string) (streak : Z) (ending : date)
| MsgUnknownEmployee (id : string) (on : date).

Record Violation := mk_Violation {
  v_severity : ViolationSeverity;
  v_code : string;
  v_message : Message;
  v_employee_id : option string;
  v_date : option date
}.

Record SystemContext := mk_SystemContext {
  employees : dict string Employee;
  availability : dict string EmployeeAvailability;
  demand_by_date : dict date (dict SkillTag Z);
  manager_template_by_weekday : dict Z Z
}.

(* ===================================================================== *)
(** ** agents/compliance.py: the catalogue *)

Record ShiftTemplate := mk_tpl {
  tpl_start : time;
  tpl_end : time;
  tpl_hours : Q
}.

Definition DEFAULT_SHIFT_TEMPLATES : dict string ShiftTemplate :=
  [ ("S",  mk_tpl (mk_time 6 30) (mk_time 15 0)  (17 # 2));
    ("1F", mk_tpl (mk_time 6 30) (mk_time 15 30) 9%Q);
    ("2F", mk_tpl (mk_time 14 0) (mk_time 23 0)  9%Q);
    ("3F", mk_tpl (mk_time 8 0)  (mk_time 20 0)  12%Q);
    ("SC", mk_tpl (mk_time 11 0) (mk_time 20 0)  9%Q) ].

Definition DEFAULT_SHIFT_HOURS : Q := 8%Q.

Definition CONTRACT_HOURS_BOUNDS (ct : ContractType) : option (Q * Q) :=
  match ct with
  | FULL_TIME => Some (70%Q, 76%Q)
  | PART_TIME => Some (40%Q, 64%Q)
  | CASUAL => Some (16%Q, 48%Q)
  end.

Definition WEEKLY_CONTRACT_HOURS_BOUNDS (ct : ContractType) : option (Q * Q) :=
  match ct with
  | FULL_TIME => Some (35%Q, 38%Q)
  | PART_TIME => Some (20%Q, 32%Q)
  | CASUAL => Some (8%Q, 24%Q)
  end.

Definition MIN_SHIFT_HOURS_CASUAL : Q := 3%Q.
Definition MIN_REST_HOURS_BETWEEN_DAYS : Q := 10%Q.
Definition MAX_CONSECUTIVE_WORKING_DAYS : Z := 6.

(* ===================================================================== *)
(** ** agents/compliance.py: [ComplianceAgent.check_roster]

    [SHIFT_TEMPLATES] is the module constant: the defaults above, with the
    rows of the optional workbook laid over them.  The workbook is data
    outside the program, so the table is a parameter of everything below;
    [DEFAULT_SHIFT_TEMPLATES] is its value when no workbook is found. *)

Section Compliance.
Variable SHIFT_TEMPLATES : dict string ShiftTemplate.

(** [float(tpl["hours"])] when the code has a template, else the default. *)
Definition template_hours (shift_code : string) : Q :=
  match PyDict.get shift_code SHIFT_TEMPLATES with
  | Some tpl => tpl_hours tpl
  | None => DEFAULT_SHIFT_HOURS
  end.

(** Step 1: total hours per employee.  The addition is that of the
    rationals; [Float64.add_hours] is the addition of the floats. *)
Definition add_hours {K} `{Key K} (k : K) (h : Q) (d : dict K Q) : dict K Q :=
  PyDict.set k (PyDict.get_or k 0%Q d + h)%Q d.

Definition total_hours_by_emp (assignments : list ShiftAssignment) : dict string Q :=
  fold_left
    (fun hours_by_emp assignment =>
       add_hours (a_employee_id assignment)
                 (template_hours (a_shift_code assignment)) hours_by_emp)
    assignments [].

(** Step 2: the two-week total against the contract bounds. *)
Definition check_contract_hours (emp_id : string) (emp : Employee)
           (hours_by_emp : dict string Q) : list Violation :=
  let total_hours := PyDict.get_or emp_id 0%Q hours_by_emp in
  match CONTRACT_HOURS_BOUNDS (e_contract_type emp) with
  | None => []
  | Some (min_h, max_h) =>
      (if Qlt_bool total_hours min_h
       then [mk_Violation SOFT "MIN_HOURS_NOT_MET"
               (MsgMinHours (e_name emp) (e_id emp) total_hours min_h
                            (e_contract_type emp))
               (Some (e_id emp)) None]
       else [])
      ++
      (if Qlt_bool max_h total_hours
       then [mk_Violation HARD "MAX_HOURS_EXCEEDED"
               (MsgMaxHours (e_name emp) (e_id emp) total_hours max_h
                            (e_contract_type emp))
               (Some (e_id emp)) None]
       else [])
  end.

(** Step 2b: hours per (employee, week index); an assignment dated
    before the roster start is skipped.  The totals are exact sums;
    [Float64.weekly_hours_of] has the floats the program adds up. *)
Definition weekly_hours_of (roster : Roster) : dict (string * Z) Q :=
  fold_left
    (fun weekly_hours assignment =>
       let hours := template_hours (a_shift_code assignment) in
       if a_date assignment <? r_start_date roster then weekly_hours
       else
         let days_from_start := a_date assignment - r_start_date roster in
         let week_index := days_from_start / 7 in
         add_hours (a_employee_id assignment, week_index) hours weekly_hours)
    (r_assignments roster) [].

(** The body of [for week_index in (0, 1)]. *)
Definition check_week (emp_id : string) (emp : Employee) (min_w max_w : Q)
           (weekly_hours : dict (string * Z) Q) (week_index : Z) : list Violation :=
  match PyDict.get (emp_id, week_index) weekly_hours with
  | None => []
  | Some total_week =>
      (if Qlt_bool total_week min_w
       then [mk_Violation SOFT "WEEKLY_MIN_HOURS_NOT_MET"
               (MsgWeeklyMin (e_name emp) (e_id emp) total_week (week_index + 1)
                             min_w (e_contract_type emp))
               (Some (e_id emp)) None]
       else [])
      ++
      (if Qlt_bool max_w total_week
       then
         let over := (total_week - max_w)%Q in
         if Qle_bool over 2%Q then []
         else [mk_Violation SOFT "WEEKLY_MAX_HOURS_EXCEEDED"
                 (MsgWeeklyMax (e_name emp) (e_id emp) total_week (week_index + 1)
                               max_w (e_contract_type emp))
                 (Some (e_id emp)) None]
       else [])
  end.

Definition CHECKED_WEEKS : list Z := [0; 1].

Definition check_weekly_hours (emp_id : string) (emp : Employee)
           (weekly_hours : dict (string * Z) Q) : list Violation :=
  match WEEKLY_CONTRACT_HOURS_BOUNDS (e_contract_type emp) with
  | None => []
  | Some (min_w, max_w) =>
      flat_map (check_week emp_id emp min_w max_w weekly_hours) CHECKED_WEEKS
  end.

(** Step 3: minimum shift length of casuals. *)
Definition check_casual_shift (ctx : SystemContext) (a : ShiftAssignment)
  : list Violation :=
  match PyDict.get (a_employee_id a) (employees ctx) with
  | None => []
  | Some emp =>
      match PyDict.get (a_shift_code a) SHIFT_TEMPLATES with
      | None => []
      | Some tpl =>
          let hours := tpl_hours tpl in
          if ContractType_eqb (e_contract_type emp) CASUAL
             && Qlt_bool hours MIN_SHIFT_HOURS_CASUAL
          then [mk_Violation HARD "MIN_SHIFT_LENGTH_CASUAL"
                  (MsgCasualShift (e_name emp) (e_id emp) hours (a_date a))
                  (Some (e_id emp)) (Some (a_date a))]
          else []
      end
  end.

(** [_rest_hours_between]: hours from the end of the earlier shift to the
    start of the later one, 24.0 when a template is missing. *)
Definition rest_hours_between (prev_assignment next_assignment : ShiftAssignment) : Q :=
  match PyDict.get (a_shift_code prev_assignment) SHIFT_TEMPLATES,
        PyDict.get (a_shift_code next_assignment) SHIFT_TEMPLATES with
  | Some tpl_prev, Some tpl_next =>
      let delta_minutes :=
        (a_date next_assignment - a_date prev_assignment) * 1440
        + minutes_of (tpl_start tpl_next) - minutes_of (tpl_end tpl_prev) in
      (inject_Z delta_minutes / 60)%Q
  | _, _ => 24%Q
  end.

(** [sorted([a for a in roster.assignments if a.employee_id == emp_id],
    key=lambda x: x.date)] *)
Definition emp_assignments_sorted (emp_id : string) (assignments : list ShiftAssignment)
  : list ShiftAssignment :=
  sorted_by (fun x y => a_date x <=? a_date y)
            (filter (fun a => String.eqb (a_employee_id a) emp_id) assignments).

(** Step 4: rest between shifts on consecutive days. *)
Definition check_rest_pair (emp : Employee) (pn : ShiftAssignment * ShiftAssignment)
  : list Violation :=
  let (prev, nxt) := pn in
  if negb (a_date nxt - a_date prev =? 1) then []
  else
    let rest_hours := rest_hours_between prev nxt in
    if Qlt_bool rest_hours MIN_REST_HOURS_BETWEEN_DAYS
    then [mk_Violation HARD "INSUFFICIENT_REST"
            (MsgRest (e_name emp) (e_id emp) rest_hours
                     (a_date prev) (a_shift_code prev)
                     (a_date nxt) (a_shift_code nxt))
            (Some (e_id emp)) (Some (a_date nxt))]
    else [].

Definition check_rest (emp_id : string) (emp : Employee)
           (assignments : list ShiftAssignment) : list Violation :=
  flat_map (check_rest_pair emp)
           (adjacent_pairs (emp_assignments_sorted emp_id assignments)).

(** Step 5: the walk over adjacent pairs; a violation ends it ([break]). *)
Fixpoint consecutive_walk (emp : Employee) (streak : Z)
         (pairs : list (ShiftAssignment * ShiftAssignment)) : list Violation :=
  match pairs with
  | [] => []
  | (prev, nxt) :: rest =>
      let streak := if a_date nxt - a_date prev =? 1 then streak + 1 else 1 in
      if MAX_CONSECUTIVE_WORKING_DAYS <? streak
      then [mk_Violation HARD "MAX_CONSECUTIVE_DAYS_EXCEEDED"
              (MsgConsecutive (e_name emp) (e_id emp) streak (a_date nxt))
              (Some (e_id emp)) (Some (a_date nxt))]
      else consecutive_walk emp streak rest
  end.

Definition check_consecutive (emp_id : string) (emp : Employee)
           (assignments : list ShiftAssignment) : list Violation :=
  let emp_assignments := emp_assignments_sorted emp_id assignments in
  match emp_assignments with
  | [] => []
  | _ => consecutive_walk emp 1 (adjacent_pairs emp_assignments)
  end.

(** Step 6: assignments of employees the context does not know. *)
Definition check_unknown_employee (ctx : SystemContext) (a : ShiftAssignment)
  : list Violation :=
  if PyDict.mem (a_employee_id a) (employees ctx) then []
  else [mk_Violation HARD "UNKNOWN_EMPLOYEE"
          (MsgUnknownEmployee (a_employee_id a) (a_date a))
          (Some (a_employee_id a)) (Some (a_date a))].

(** [for emp_id, emp in ctx.employees.items()] *)
Definition for_employees {B} (ctx : SystemContext)
           (body : string -> Employee -> list B) : list B :=
  flat_map (fun kv => body (fst kv) (snd kv)) (employees ctx).

Definition check_roster (ctx : SystemContext) (roster : Roster) : list Violation :=
  let hours_by_emp := total_hours_by_emp (r_assignments roster) in
  let weekly_hours := weekly_hours_of roster in
  for_employees ctx (fun emp_id emp => check_contract_hours emp_id emp hours_by_emp)
  ++ for_employees ctx (fun emp_id emp => check_weekly_hours emp_id emp weekly_hours)
  ++ flat_map (check_casual_shift ctx) (r_assignments roster)
  ++ for_employees ctx (fun emp_id emp => check_rest emp_id emp (r_assignments roster))
  ++ for_employees ctx (fun emp_id emp => check_consecutive emp_id emp (r_assignments roster))
  ++ flat_map (check_unknown_employee ctx) (r_assignments roster).

(** The violations of one code, and of one code and employee. *)
Definition with_code (code : string) (vs : list Violation) : list Violation :=
  filter (fun v => String.eqb (v_code v) code) vs.

Definition with_code_of (code emp : string) (vs : list Violation) : list Violation :=
  filter (fun v => String.eqb (v_code v) code
                   && match v_employee_id v with
                      | Some e => String.eqb e emp
                      | None => false
                      end) vs.
End Compliance.

(* ===================================================================== *)
(** ** The solver boundary

    What [generate_initial_roster] hands to CP-SAT: integer variables with
    a declared range, linear constraints (some enforced only under a
    literal) and a linear objective.  A variable is named by the key under
    which the builder stores it. *)

Inductive Var :=
| X (e_idx d_idx s_idx : nat)
| OT (e_idx : nat) (w_idx : Z)
| UNDER_COV (d_idx : nat)
| NO_MGR (d_idx : nat)
| NO_MGR_OPEN (d_idx : nat)
| NO_MGR_CLOSE (d_idx : nat)
| GAP_MGR_LUNCH (d_idx : nat)
| GAP_MGR_DINNER (d_idx : nat).

(** A linear expression: weighted variables plus a constant. *)
Record LinearExpr := mk_lin { lin_terms : list (Z * Var); lin_const : Z }.

Definition lin_sum (vars : list Var) : LinearExpr :=
  mk_lin (map (fun v => (1, v)) vars) 0.
Definition lin_of_const (c : Z) : LinearExpr := mk_lin [] c.
Definition lin_add (a b : LinearExpr) : LinearExpr :=
  mk_lin (lin_terms a ++ lin_terms b) (lin_const a + lin_const b).
Definition lin_scale (k : Z) (a : LinearExpr) : LinearExpr :=
  mk_lin (map (fun cv => (k * fst cv, snd cv)) (lin_terms a)) (k * lin_const a).
Definition lin_sub (a b : LinearExpr) : LinearExpr := lin_add a (lin_scale (-1) b).

Inductive Rel := REL_LE | REL_GE | REL_EQ.

(** [model.Add(lhs rel rhs)], with [.OnlyEnforceIf(lit)] when [c_enforce]
    is [Some (b, true)] and [.OnlyEnforceIf(lit.Not())] when it is
    [Some (b, false)]. *)
Record Constraint := mk_constraint {
  c_lhs : LinearExpr;
  c_rel : Rel;
  c_rhs : LinearExpr;
  c_enforce : option (Var * bool)
}.

Definition Add (lhs : LinearExpr) (rel : Rel) (rhs : LinearExpr) : Constraint :=
  mk_constraint lhs rel rhs None.

(** [NewBoolVar] declares the range 0..1, [NewIntVar(lo, hi, _)] lo..hi. *)
Record VarDecl := mk_decl { d_var : Var; d_lo : Z; d_hi : Z }.
Definition NewBoolVar (v : Var) : VarDecl := mk_decl v 0 1.
Definition NewIntVar (lo hi : Z) (v : Var) : VarDecl := mk_decl v lo hi.

Record CpModel := mk_model {
  m_vars : list VarDecl;
  m_constraints : list Constraint;
  m_objective : LinearExpr
}.

Definition Valuation := Var -> Z.

Definition eval_lin (val : Valuation) (e : LinearExpr) : Z :=
  fold_right (fun cv acc => fst cv * val (snd cv) + acc) (lin_const e) (lin_terms e).

Definition rel_holds (r : Rel) (a b : Z) : bool :=
  match r with
  | REL_LE => a <=? b
  | REL_GE => b <=? a
  | REL_EQ => a =? b
  end.

Definition constraint_holds (val : Valuation) (c : Constraint) : bool :=
  let body := rel_holds (c_rel c) (eval_lin val (c_lhs c)) (eval_lin val (c_rhs c)) in
  match c_enforce c with
  | None => body
  | Some (b, true) => if val b =? 1 then body else true
  | Some (b, false) => if val b =? 0 then body else true
  end.

Definition in_range (val : Valuation) (d : VarDecl) : bool :=
  (d_lo d <=? val (d_var d)) && (val (d_var d) <=? d_hi d).

(** A valuation the solver may return with status OPTIMAL or FEASIBLE. *)
Definition satisfies (val : Valuation) (m : CpModel) : bool :=
  forallb (in_range val) (m_vars m) && forallb (constraint_holds val) (m_constraints m).

Inductive SolverStatus := UNKNOWN | MODEL_INVALID | FEASIBLE | INFEASIBLE | OPTIMAL.

Definition status_accepted (s : SolverStatus) : bool :=
  match s with
  | OPTIMAL | FEASIBLE => true
  | _ => false
  end.

(* ===================================================================== *)
(** ** agents/generator.py *)

Definition HOURS_SCALE : Q := 2%Q.

(** The test on [start] in the loop that fills [OPENING_SHIFT_CODES]. *)
Definition is_opening_start (start : time) : bool :=
  (hour start <? 7) || ((hour start =? 7) && (minute start =? 0)).

(** The test on [end] in the loop that fills [CLOSING_SHIFT_CODES]. *)
Definition is_closing_end (end_ : time) : bool :=
  (22 <? hour end_) || ((hour end_ =? 22) && (minute end_ =? 0)).

Inductive GenError :=
| NoEmployees            (* ValueError("No employees found in context.") *)
| NoShiftCodes           (* ValueError("No shift codes discovered ...") *)
| SolverFailed (status : SolverStatus).  (* RuntimeError *)

Inductive GenResult :=
| Raised (err : GenError)
| Returned (roster : Roster).

Section Generator.
Variable SHIFT_TEMPLATES : dict string ShiftTemplate.

Definition _rest_hours_between_codes (code_prev code_next : string) : Q :=
  match PyDict.get code_prev SHIFT_TEMPLATES, PyDict.get code_next SHIFT_TEMPLATES with
  | Some tpl_prev, Some tpl_next =>
      (* day2 - day1 is one day *)
      let delta_minutes :=
        1 * 1440 + minutes_of (tpl_start tpl_next) - minutes_of (tpl_end tpl_prev) in
      (inject_Z delta_minutes / 60)%Q
  | _, _ => 24%Q
  end.

Definition _covers_lunch_window (shift_code : string) : bool :=
  match PyDict.get shift_code SHIFT_TEMPLATES with
  | None => false
  | Some tpl =>
      time_le (tpl_start tpl) (mk_time 14 0) && time_le (mk_time 11 0) (tpl_end tpl)
  end.

Definition _covers_dinner_window (shift_code : string) : bool :=
  match PyDict.get shift_code SHIFT_TEMPLATES with
  | None => false
  | Some tpl =>
      time_le (tpl_start tpl) (mk_time 21 0) && time_le (mk_time 17 0) (tpl_end tpl)
  end.

Definition OPENING_SHIFT_CODES : list string :=
  map fst (filter (fun ct => is_opening_start (tpl_start (snd ct))) SHIFT_TEMPLATES).

Definition CLOSING_SHIFT_CODES : list string :=
  map fst (filter (fun ct => is_closing_end (tpl_end (snd ct))) SHIFT_TEMPLATES).

(** [while current <= end_date: dates.append(current); current += 1 day] *)
Definition planning_dates (start_date end_date : date) : list date :=
  map (fun i => start_date + Z.of_nat i)
      (seq 0 (Z.to_nat (end_date - start_date + 1))).

(** [availability_map]: emp_id -> date -> set of codes.  A Python set of
    strings iterates in an order the language leaves open; the builder's
    output does not depend on it beyond the numbering of shift codes, and
    the model lists each set in the order [dedup] leaves. *)
Definition availability_map_of (ctx : SystemContext)
  : dict string (dict date (list string)) :=
  fold_left
    (fun amap kv =>
       let inner :=
         fold_left (fun inner dc => PyDict.set (fst dc) (dedup (snd dc)) inner)
                   (allowed_shift_codes_by_date (snd kv)) [] in
       PyDict.set (fst kv) inner amap)
    (availability ctx) [].

Definition all_shift_codes_of (availability_map : dict string (dict date (list string)))
  : list string :=
  fold_left
    (fun acc by_date =>
       fold_left
         (fun acc codes =>
            fold_left (fun acc code => if list_mem code acc then acc else (acc ++ [code])%list)
                      codes acc)
         (PyDict.values by_date) acc)
    (PyDict.values availability_map) [].

(** [{key(v): idx for idx, v in enumerate(l)}] *)
Definition index_dict {A K} `{Key K} (key : A -> K) (l : list A) : dict K nat :=
  fold_left (fun d iv => PyDict.set (key (snd iv)) (fst iv) d) (enumerate l) [].

(** [sorted(availability_map.get(emp_id, {}).get(dt, set()))] *)
Definition sorted_allowed (availability_map : dict string (dict date (list string)))
           (emp_id : string) (dt : date) : list string :=
  sorted_by String.leb
            (PyDict.get_or dt [] (PyDict.get_or emp_id [] availability_map)).

(** The indexing helpers and the two caches the later loops read. *)
Record Tables := mk_tables {
  t_employees : list Employee;
  t_dates : list date;
  t_all_shift_codes : list string;
  t_emp_index : dict string nat;
  t_date_index : dict date nat;
  t_shift_index : dict string nat;
  t_allowed_shift_codes : dict (string * date) (list string);
  t_x : dict (nat * nat * nat) Var
}.

(** [emp_index[...]], [date_index[...]], [shift_index[...]]: every key
    asked for was entered when the dictionary was built. *)
Definition e_idx_of (t : Tables) (emp : Employee) : nat :=
  PyDict.get_or (e_id emp) 0%nat (t_emp_index t).
Definition d_idx_of (t : Tables) (dt : date) : nat :=
  PyDict.get_or dt 0%nat (t_date_index t).
Definition s_idx_of (t : Tables) (code : string) : nat :=
  PyDict.get_or code 0%nat (t_shift_index t).

Definition employee_dates (employees_ : list Employee) (dates : list date)
  : list (Employee * date) :=
  flat_map (fun emp => map (fun dt => (emp, dt)) dates) employees_.

Definition build_tables (ctx : SystemContext) (start_date end_date : date) : Tables :=
  let employees_ := PyDict.values (employees ctx) in
  let dates := planning_dates start_date end_date in
  let availability_map := availability_map_of ctx in
  let all_shift_codes := all_shift_codes_of availability_map in
  let emp_index := index_dict e_id employees_ in
  let date_index := index_dict (fun dt : date => dt) dates in
  let shift_index := index_dict (fun c : string => c) all_shift_codes in
  let allowed_shift_codes :=
    fold_left
      (fun cache ed =>
         let allowed_codes := sorted_allowed availability_map (e_id (fst ed)) (snd ed) in
         match allowed_codes with
         | [] => cache
         | _ => PyDict.set (e_id (fst ed), snd ed) allowed_codes cache
         end)
      (employee_dates employees_ dates) [] in
  let x :=
    fold_left
      (fun x ed =>
         let allowed_codes := sorted_allowed availability_map (e_id (fst ed)) (snd ed) in
         let e_idx := PyDict.get_or (e_id (fst ed)) 0%nat emp_index in
         let d_idx := PyDict.get_or (snd ed) 0%nat date_index in
         fold_left
           (fun x code =>
              let s_idx := PyDict.get_or code 0%nat shift_index in
              PyDict.set (e_idx, d_idx, s_idx) (X e_idx d_idx s_idx) x)
           allowed_codes x)
      (employee_dates employees_ dates) [] in
  mk_tables employees_ dates all_shift_codes emp_index date_index shift_index
            allowed_shift_codes x.

(** [allowed_shift_codes.get((emp.id, dt), [])] *)
Definition codes_of (t : Tables) (emp : Employee) (dt : date) : list string :=
  PyDict.get_or (e_id emp, dt) [] (t_allowed_shift_codes t).

(** [x.get((e_idx, d_idx, shift_index[code]))] *)
Definition x_get (t : Tables) (emp : Employee) (dt : date) (code : string) : option Var :=
  PyDict.get (e_idx_of t emp, d_idx_of t dt, s_idx_of t code) (t_x t).

(** The variables of one employee and day that exist, in code order. *)
Definition vars_of_codes (t : Tables) (emp : Employee) (dt : date)
           (codes : list string) : list Var :=
  flat_map (fun code => match x_get t emp dt code with
                        | Some var => [var]
                        | None => []
                        end) codes.

Definition nonempty {A} (l : list A) : bool :=
  match l with [] => false | _ :: _ => true end.

(** What a block of the builder adds to the model. *)
Definition Posted : Type := list VarDecl * list Constraint.
Definition post_all {A} (f : A -> Posted) (l : list A) : Posted :=
  (flat_map (fun a => fst (f a)) l, flat_map (fun a => snd (f a)) l).

(** 1) At most one shift per employee per day. *)
Definition one_shift_per_day (t : Tables) : list Constraint :=
  flat_map
    (fun ed : Employee * date =>
       let (emp, dt) := ed in
       let codes := codes_of t emp dt in
       if nonempty codes then
         let vars_for_emp_day := vars_of_codes t emp dt codes in
         if nonempty vars_for_emp_day
         then [Add (lin_sum vars_for_emp_day) REL_LE (lin_of_const 1)]
         else []
       else [])
    (employee_dates (t_employees t) (t_dates t)).

(** The terms [units * var] of one employee over some dates; a code
    without a template contributes no term. *)
Definition hour_terms (t : Tables) (emp : Employee) (dates : list date)
  : list (Z * Var) :=
  flat_map
    (fun dt =>
       flat_map
         (fun code =>
            match PyDict.get code SHIFT_TEMPLATES with
            | None => []
            | Some tpl =>
                let hours := tpl_hours tpl in
                let units := py_round (hours * HOURS_SCALE) in
                match x_get t emp dt code with
                | Some var => [(units, var)]
                | None => []
                end
            end)
         (codes_of t emp dt))
    dates.

(** 2) Contract maximum over the whole horizon. *)
Definition contract_max_hours (t : Tables) : list Constraint :=
  flat_map
    (fun emp =>
       match CONTRACT_HOURS_BOUNDS (e_contract_type emp) with
       | None => []
       | Some (_, max_hours) =>
           let max_units := py_round (max_hours * HOURS_SCALE) in
           let terms := hour_terms t emp (t_dates t) in
           if nonempty terms
           then [Add (mk_lin terms 0) REL_LE (lin_of_const max_units)]
           else []
       end)
    (t_employees t).

Definition week_index_by_date (start_date dt : date) : Z := (dt - start_date) / 7.

(** [set(week_index_by_date[dt] for dt in dates)]; a set of small
    non-negative integers iterates in increasing order. *)
Definition week_indices (start_date : date) (dates : list date) : list Z :=
  sorted_by Z.leb (dedup (map (week_index_by_date start_date) dates)).

(** 2b) Weekly maximum with an overtime slack. *)
Definition weekly_max_hours (t : Tables) (start_date : date) : Posted :=
  post_all
    (fun emp =>
       match WEEKLY_CONTRACT_HOURS_BOUNDS (e_contract_type emp) with
       | None => ([], [])
       | Some (_, max_week_hours) =>
           let max_week_units := py_round (max_week_hours * HOURS_SCALE) in
           let e_idx := e_idx_of t emp in
           post_all
             (fun w_idx =>
                let week_terms :=
                  hour_terms t emp
                    (filter (fun dt => week_index_by_date start_date dt =? w_idx)
                            (t_dates t)) in
                if nonempty week_terms then
                  let ot := OT e_idx w_idx in
                  ([NewIntVar 0 (max_week_units * 2) ot],
                   [Add (mk_lin week_terms 0) REL_LE
                        (lin_add (lin_of_const max_week_units) (lin_sum [ot]))])
                else ([], []))
             (week_indices start_date (t_dates t))
       end)
    (t_employees t).

(** 3) Ten hours of rest between the shifts of consecutive days. *)
Definition rest_exclusions (t : Tables) : list Constraint :=
  flat_map
    (fun emp =>
       flat_map
         (fun dd : date * date =>
            let (day, next_day) := dd in
            let today_codes := codes_of t emp day in
            let next_codes := codes_of t emp next_day in
            if negb (nonempty today_codes) || negb (nonempty next_codes) then []
            else
              flat_map
                (fun code_today =>
                   flat_map
                     (fun code_next =>
                        let rest_h := _rest_hours_between_codes code_today code_next in
                        if Qlt_bool rest_h MIN_REST_HOURS_BETWEEN_DAYS then
                          match x_get t emp day code_today,
                                x_get t emp next_day code_next with
                          | Some var_today, Some var_next =>
                              [Add (lin_sum [var_today; var_next]) REL_LE (lin_of_const 1)]
                          | _, _ => []
                          end
                        else [])
                     next_codes)
                today_codes)
         (adjacent_pairs (t_dates t)))
    (t_employees t).

(** 4) Demand and under-coverage per day. *)
Definition demand_today_of (ctx : SystemContext) (dt : date) : Z :=
  fold_right Z.add 0 (PyDict.values (PyDict.get_or dt [] (demand_by_date ctx))).

Definition day_vars_of (t : Tables) (dt : date) : list Var :=
  flat_map (fun emp => vars_of_codes t emp dt (codes_of t emp dt)) (t_employees t).

Definition demand_constraint (ctx : SystemContext) (t : Tables) (dt : date) : Constraint :=
  let demand_today := demand_today_of ctx dt in
  let uc := UNDER_COV (d_idx_of t dt) in
  let day_vars := day_vars_of t dt in
  if nonempty day_vars && (0 <? demand_today)
  then Add (lin_add (lin_sum day_vars) (lin_sum [uc])) REL_GE (lin_of_const demand_today)
  else Add (lin_sum [uc]) REL_EQ (lin_of_const 0).

Definition demand_coverage (ctx : SystemContext) (t : Tables) : Posted :=
  post_all
    (fun dt =>
       ([NewIntVar 0 (Z.of_nat (List.length (t_employees t))) (UNDER_COV (d_idx_of t dt))],
        [demand_constraint ctx t dt]))
    (t_dates t).

(** 5) Soft manager coverage. *)
Definition manager_ids_of (t : Tables) : list string :=
  map e_id (filter (fun emp => list_mem MANAGER (e_skill_tags emp)) (t_employees t)).

Definition manager_vars (t : Tables) (keep : string -> bool) (dt : date) : list Var :=
  flat_map
    (fun emp =>
       if list_mem (e_id emp) (manager_ids_of t)
       then vars_of_codes t emp dt (filter keep (codes_of t emp dt))
       else [])
    (t_employees t).

(** An indicator [b]: the sum is 0 if [b], at least 1 if not [b]. *)
Definition absence_indicator (b : Var) (vars : list Var) : Posted :=
  ([NewBoolVar b],
   [mk_constraint (lin_sum vars) REL_EQ (lin_of_const 0) (Some (b, true));
    mk_constraint (lin_sum vars) REL_GE (lin_of_const 1) (Some (b, false))]).

Definition posted_app (a b : Posted) : Posted :=
  ((fst a ++ fst b)%list, (snd a ++ snd b)%list).

Definition manager_day (t : Tables) (dt : date) : Posted :=
  let d_idx := d_idx_of t dt in
  let manager_day_vars := manager_vars t (fun _ => true) dt in
  let opening_mgr_day_vars :=
    manager_vars t (fun code => list_mem code OPENING_SHIFT_CODES) dt in
  let closing_mgr_day_vars :=
    manager_vars t (fun code => list_mem code CLOSING_SHIFT_CODES) dt in
  if negb (nonempty manager_day_vars) then ([], [])
  else
    posted_app (absence_indicator (NO_MGR d_idx) manager_day_vars)
      (posted_app
         (if nonempty opening_mgr_day_vars
          then absence_indicator (NO_MGR_OPEN d_idx) opening_mgr_day_vars
          else ([], []))
         (if nonempty closing_mgr_day_vars
          then absence_indicator (NO_MGR_CLOSE d_idx) closing_mgr_day_vars
          else ([], []))).

Definition manager_coverage (t : Tables) : Posted :=
  if nonempty (manager_ids_of t) then post_all (manager_day t) (t_dates t)
  else ([], []).

(** 6) Two managers over the lunch and dinner peaks, as a gap. *)
Definition peak_gap (gap : Var) (vars : list Var) : Posted :=
  if nonempty vars
  then ([NewIntVar 0 2 gap],
        [Add (lin_sum [gap]) REL_GE (lin_sub (lin_of_const 2) (lin_sum vars))])
  else ([], []).

Definition peak_day (t : Tables) (dt : date) : Posted :=
  let d_idx := d_idx_of t dt in
  posted_app
    (peak_gap (GAP_MGR_LUNCH d_idx) (manager_vars t _covers_lunch_window dt))
    (peak_gap (GAP_MGR_DINNER d_idx) (manager_vars t _covers_dinner_window dt)).

Definition peak_two_managers (t : Tables) : Posted :=
  if nonempty (manager_ids_of t) then post_all (peak_day t) (t_dates t)
  else ([], []).

Definition indicators_of (pick : Var -> bool) (p : Posted) : list Var :=
  filter pick (map d_var (fst p)).

(** The objective: 1000 x under-coverage + overtime + 100 x manager
    absence + 50 x opening absence + 50 x closing absence + 10 x gap. *)
Definition objective_of (uc ot mgr peak : Posted) : LinearExpr :=
  let total_under_cov := lin_sum (map d_var (fst uc)) in
  let total_overtime := lin_sum (map d_var (fst ot)) in
  let total_manager_absence :=
    lin_sum (indicators_of (fun v => match v with NO_MGR _ => true | _ => false end) mgr) in
  let total_opening_absence :=
    lin_sum (indicators_of (fun v => match v with NO_MGR_OPEN _ => true | _ => false end) mgr) in
  let total_closing_absence :=
    lin_sum (indicators_of (fun v => match v with NO_MGR_CLOSE _ => true | _ => false end) mgr) in
  let total_peak_two_gap := lin_sum (map d_var (fst peak)) in
  lin_add (lin_scale 1000 total_under_cov)
    (lin_add total_overtime
       (lin_add (lin_scale 100 total_manager_absence)
          (lin_add (lin_scale 50 total_opening_absence)
             (lin_add (lin_scale 50 total_closing_absence)
                (lin_scale 10 total_peak_two_gap))))).

(** The model as the calls of the builder record it, a value over the
    integers: building it cannot fail here, and the limits of CP-SAT on the
    size of a number are outside the embedding. *)
Definition build_model (ctx : SystemContext) (start_date end_date : date) : CpModel :=
  let t := build_tables ctx start_date end_date in
  let ot := weekly_max_hours t start_date in
  let uc := demand_coverage ctx t in
  let mgr := manager_coverage t in
  let peak := peak_two_managers t in
  mk_model
    (map NewBoolVar (PyDict.values (t_x t))
       ++ fst ot ++ fst uc ++ fst mgr ++ fst peak)
    (one_shift_per_day t ++ contract_max_hours t ++ snd ot ++ rest_exclusions t
       ++ snd uc ++ snd mgr ++ snd peak)
    (objective_of uc ot mgr peak).

(** Reading the solution back: one assignment per variable of [x] that
    the solver set to 1, in the order of [x.items()].  Every index kept
    in [x] addresses an entry of the list it was taken from. *)
Definition decode (t : Tables) (val : Valuation) (store_id : string)
  : list ShiftAssignment :=
  flat_map
    (fun kv : (nat * nat * nat) * Var =>
       let '((e_idx, d_idx, s_idx), var) := kv in
       if val var =? 1 then
         match nth_error (t_employees t) e_idx,
               nth_error (t_dates t) d_idx,
               nth_error (t_all_shift_codes t) s_idx with
         | Some emp, Some dt, Some shift_code =>
             [mk_ShiftAssignment (e_id emp) dt shift_code None store_id]
         | _, _, _ => []
         end
       else [])
    (t_x t).

(** The solver is the one opaque collaborator: a function from the model
    to a status and a value for every variable.  The library calls that
    build the model are recorded as the model they build, over the
    integers; the library itself holds 64-bit integers, and what it does
    with a number outside that range is not part of the program and not
    part of the embedding. *)
Variable Solve : CpModel -> SolverStatus * Valuation.

Definition generate_initial_roster (ctx : SystemContext) (store_id : string)
           (start_date end_date : date) : GenResult :=
  let t := build_tables ctx start_date end_date in
  if negb (nonempty (t_employees t)) then Raised NoEmployees
  else if negb (nonempty (t_all_shift_codes t)) then Raised NoShiftCodes
  else
    let model := build_model ctx start_date end_date in
    let (status, val) := Solve model in
    if negb (status_accepted status) then Raised (SolverFailed status)
    else Returned (mk_Roster store_id start_date end_date (decode t val store_id)).
End Generator.

(* ===================================================================== *)
(** ** agents/conflict_resolution.py

    [rebalance_hours] copies the list [roster.assignments] and then
    assigns to the [employee_id] attribute of its elements.  The elements
    are objects shared with the caller's roster, so the model keeps them in
    a store: a reference is a natural number, the store maps each reference
    to the current value of its object, and a roster holds references. *)

Definition ref := nat.
Definition Heap := ref -> ShiftAssignment.

(** [a.employee_id = new_id] *)
Definition set_employee_id (h : Heap) (a : ref) (new_id : string) : Heap :=
  fun r =>
    if Nat.eqb r a
    then mk_ShiftAssignment new_id (a_date (h a)) (a_shift_code (h a))
                            (a_station (h a)) (a_store_id (h a))
    else h r.

(** A [Roster] object: its scalar fields and its list of references. *)
Record RosterObj := mk_RosterObj {
  ro_store_id : string;
  ro_start_date : date;
  ro_end_date : date;
  ro_assignments : list ref
}.

(** The value a roster object denotes in a store. *)
Definition roster_value (h : Heap) (r : RosterObj) : Roster :=
  mk_Roster (ro_store_id r) (ro_start_date r) (ro_end_date r) (map h (ro_assignments r)).

(** The values the log lines format. *)
Inductive LogLine :=
| LogNoOverloaded (iteration : nat)
| LogReassigning (shift_code : string) (on : date) (from_id to_id : string)
| LogNoFeasible (iteration : nat).

Section Resolver.
Variable SHIFT_TEMPLATES : dict string ShiftTemplate.

(** [SHIFT_HOURS = {code: float(tpl["hours"]) for code, tpl in ...}] *)
Definition SHIFT_HOURS : dict string Q :=
  map (fun ct => (fst ct, tpl_hours (snd ct))) SHIFT_TEMPLATES.

(** [SHIFT_HOURS.get(shift_code, DEFAULT_SHIFT_HOURS)] *)
Definition shift_hours_of (shift_code : string) : Q :=
  PyDict.get_or shift_code DEFAULT_SHIFT_HOURS SHIFT_HOURS.

(** Exact sums; [Float64._compute_hours_by_employee] has the floats. *)
Definition _compute_hours_by_employee (assignments : list ShiftAssignment)
  : dict string Q :=
  fold_left
    (fun hours_by_emp a =>
       add_hours (a_employee_id a) (shift_hours_of (a_shift_code a)) hours_by_emp)
    assignments [].

(** [availability_map] as [_find_replacement_employee] builds it, with
    [setdefault] and item assignment. *)
Definition resolver_availability_map (ctx : SystemContext)
  : dict string (dict date (list string)) :=
  fold_left
    (fun amap kv =>
       let emp_id := fst kv in
       let amap :=
         if PyDict.mem emp_id amap then amap else PyDict.set emp_id [] amap in
       fold_left
         (fun amap dc =>
            PyDict.set emp_id
              (PyDict.set (fst dc) (dedup (snd dc)) (PyDict.get_or emp_id [] amap))
              amap)
         (allowed_shift_codes_by_date (snd kv)) amap)
    (availability ctx) [].

Inductive Candidacy := NotEligible | UnderMin | Normal.

(** The body of the loop over [ctx.employees.items()]. *)
Definition candidacy (availability_map : dict string (dict date (list string)))
           (assigned_on_date : list string) (hours_by_emp : dict string Q)
           (date_ : date) (shift_code : string) (shift_hours : Q)
           (exclude_emp_id : string) (emp_id : string) (emp : Employee) : Candidacy :=
  if String.eqb emp_id exclude_emp_id then NotEligible
  else if negb (list_mem shift_code
                  (PyDict.get_or date_ [] (PyDict.get_or emp_id [] availability_map)))
  then NotEligible
  else if list_mem emp_id assigned_on_date then NotEligible
  else
    match CONTRACT_HOURS_BOUNDS (e_contract_type emp) with
    | None => NotEligible
    | Some (min_h, max_h) =>
        let current_h := PyDict.get_or emp_id 0%Q hours_by_emp in
        if Qlt_bool max_h (current_h + shift_hours)%Q then NotEligible
        else if Qlt_bool current_h min_h then UnderMin
        else Normal
    end.

Definition _find_replacement_employee (ctx : SystemContext)
           (assignments : list ShiftAssignment) (hours_by_emp : dict string Q)
           (date_ : date) (shift_code : string) (shift_hours : Q)
           (exclude_emp_id : string) : option string :=
  let assigned_on_date :=
    map a_employee_id (filter (fun a => a_date a =? date_) assignments) in
  let availability_map := resolver_availability_map ctx in
  let verdict kv :=
    candidacy availability_map assigned_on_date hours_by_emp date_ shift_code
              shift_hours exclude_emp_id (fst kv) (snd kv) in
  let under_min :=
    map fst (filter (fun kv => match verdict kv with UnderMin => true | _ => false end)
                    (employees ctx)) in
  let normal :=
    map fst (filter (fun kv => match verdict kv with Normal => true | _ => false end)
                    (employees ctx)) in
  match under_min with
  | first :: _ => Some first
  | [] => match normal with
          | first :: _ => Some first
          | [] => None
          end
  end.

(** The state the passes of one iteration thread: the store, the local
    hours map, the progress flag and the log. *)
Record RepairState := mk_state {
  rs_heap : Heap;
  rs_hours_by_emp : dict string Q;
  rs_progress_made : bool;
  rs_logs : list LogLine
}.

(** [for a in emp_assignments]: the first shift that has a candidate. *)
Fixpoint first_movable (ctx : SystemContext) (h : Heap) (assignments : list ref)
         (hours_by_emp : dict string Q) (overloaded_id : string)
         (emp_assignments : list ref) : option (ref * string * Q) :=
  match emp_assignments with
  | [] => None
  | a :: rest =>
      let shift_hours := shift_hours_of (a_shift_code (h a)) in
      match _find_replacement_employee ctx (map h assignments) hours_by_emp
              (a_date (h a)) (a_shift_code (h a)) shift_hours overloaded_id with
      | None => first_movable ctx h assignments hours_by_emp overloaded_id rest
      | Some candidate_id => Some (a, candidate_id, shift_hours)
      end
  end.

(** [emp_assignments], latest dates first ([sort(..., reverse=True)]
    keeps the original order of equal dates). *)
Definition emp_refs_latest_first (h : Heap) (assignments : list ref)
           (overloaded_id : string) : list ref :=
  sorted_by (fun x y => a_date (h y) <=? a_date (h x))
            (filter (fun r => String.eqb (a_employee_id (h r)) overloaded_id) assignments).

(** The body of [for overloaded_id in overloaded_ids].  The two lookups
    [ctx.employees[overloaded_id]] and [CONTRACT_HOURS_BOUNDS[...]]
    succeed for every id the caller collected. *)
Definition relieve (ctx : SystemContext) (assignments : list ref)
           (st : RepairState) (overloaded_id : string) : RepairState :=
  match PyDict.get overloaded_id (employees ctx) with
  | None => st
  | Some emp =>
      match CONTRACT_HOURS_BOUNDS (e_contract_type emp) with
      | None => st
      | Some (_, max_h) =>
          let hours_by_emp := rs_hours_by_emp st in
          let h := rs_heap st in
          let current_h := PyDict.get_or overloaded_id 0%Q hours_by_emp in
          if Qle_bool current_h max_h then st
          else
            match first_movable ctx h assignments hours_by_emp overloaded_id
                    (emp_refs_latest_first h assignments overloaded_id) with
            | None => st
            | Some (a, candidate_id, shift_hours) =>
                let hours_by_emp :=
                  PyDict.set overloaded_id
                    (PyDict.get_or overloaded_id 0%Q hours_by_emp - shift_hours)%Q
                    hours_by_emp in
                let hours_by_emp :=
                  PyDict.set candidate_id
                    (PyDict.get_or candidate_id 0%Q hours_by_emp + shift_hours)%Q
                    hours_by_emp in
                mk_state (set_employee_id h a candidate_id) hours_by_emp true
                  (rs_logs st ++
                     [LogReassigning (a_shift_code (h a)) (a_date (h a))
                                     overloaded_id candidate_id])
            end
      end
  end.

Definition overloaded_ids_of (ctx : SystemContext) (hours_by_emp : dict string Q)
  : list string :=
  flat_map
    (fun kv : string * Employee =>
       match CONTRACT_HOURS_BOUNDS (e_contract_type (snd kv)) with
       | None => []
       | Some (_, max_h) =>
           if Qlt_bool max_h (PyDict.get_or (fst kv) 0%Q hours_by_emp)
           then [fst kv] else []
       end)
    (employees ctx).

(** [for iteration in range(self.max_iterations)] *)
Fixpoint repair_loop (ctx : SystemContext) (assignments : list ref)
         (iterations : list nat) (h : Heap) (logs : list LogLine)
  : Heap * list LogLine :=
  match iterations with
  | [] => (h, logs)
  | iteration :: later =>
      let hours_by_emp := _compute_hours_by_employee (map h assignments) in
      let overloaded_ids := overloaded_ids_of ctx hours_by_emp in
      match overloaded_ids with
      | [] => (h, logs ++ [LogNoOverloaded iteration])
      | _ =>
          let st :=
            fold_left (relieve ctx assignments) overloaded_ids
                      (mk_state h hours_by_emp false logs) in
          if rs_progress_made st
          then repair_loop ctx assignments later (rs_heap st) (rs_logs st)
          else (rs_heap st, rs_logs st ++ [LogNoFeasible iteration])
      end
  end.

(** The result: the store after the call, the new roster object and the
    log.  [assignments = list(roster.assignments)] is a new list of the
    same references. *)
Definition rebalance_hours (max_iterations : Z) (ctx : SystemContext)
           (h : Heap) (roster : RosterObj) : Heap * RosterObj * list LogLine :=
  let assignments := ro_assignments roster in
  let (h', logs) :=
    repair_loop ctx assignments (seq 0 (Z.to_nat max_iterations)) h [] in
  let new_roster :=
    mk_RosterObj (ro_store_id roster) (ro_start_date roster) (ro_end_date roster)
                 assignments in
  (h', new_roster, logs).
End Resolver.

(* ===================================================================== *)
(** ** agents/cost.py

    [estimate_cost] sums floats; the loadings 1.25 and 1.15 are taken as the
    rationals 5/4 and 23/20 and the sum is exact, so the model leaves the
    rounding of float arithmetic out. *)

(** [date.weekday()]: 0 is Monday, 6 is Sunday; the ordinal 1 is a
    Monday. *)
Definition weekday (d : date) : Z := (d + 6) mod 7.

Definition BASE_HOURLY_RATES (ct : ContractType) : option Q :=
  match ct with
  | FULL_TIME => Some 26%Q
  | PART_TIME => Some 28%Q
  | CASUAL => Some 32%Q
  end.

Definition WEEKEND_LOADING : Q := 5 # 4.
Definition LATE_NIGHT_LOADING : Q := 23 # 20.

Section Cost.
Variable SHIFT_TEMPLATES : dict string ShiftTemplate.

(** The body of [for a in roster.assignments]. *)
Definition add_cost (ctx : SystemContext) (total_cost : Q) (a : ShiftAssignment) : Q :=
  match PyDict.get (a_employee_id a) (employees ctx) with
  | None => total_cost
  | Some emp =>
      let (hours, end_time) :=
        match PyDict.get (a_shift_code a) SHIFT_TEMPLATES with
        | Some tpl => (tpl_hours tpl, Some (tpl_end tpl))
        | None => (DEFAULT_SHIFT_HOURS, None)
        end in
      let base_rate :=
        match BASE_HOURLY_RATES (e_contract_type emp) with
        | Some rate => rate
        | None => 32%Q          (* BASE_HOURLY_RATES[ContractType.CASUAL] *)
        end in
      let multiplier := 1%Q in
      let multiplier :=
        if 5 <=? weekday (a_date a) then (multiplier * WEEKEND_LOADING)%Q
        else multiplier in
      let multiplier :=
        match end_time with
        | Some end_time =>
            if 22 <=? hour end_time then (multiplier * LATE_NIGHT_LOADING)%Q
            else multiplier
        | None => multiplier
        end in
      (total_cost + hours * base_rate * multiplier)%Q
  end.

Definition estimate_cost (ctx : SystemContext) (roster : Roster) : Q :=
  fold_left (add_cost ctx) (r_assignments roster) 0%Q.
End Cost.

(* ===================================================================== *)
(** ** core/models.py: [RosterEvaluationMetrics], and agents/coverage_eval.py

    The scores are floats; the model computes them as exact rationals. *)

Record RosterEvaluationMetrics := mk_metrics {
  coverage_score : Q;
  peak_coverage_score : Q;
  manager_coverage_score : Q;
  labour_cost_estimate : Q;
  fairness_score : Q;
  manager_opening_coverage : Q;
  manager_closing_coverage : Q;
  manager_peak_two_coverage_score : Q
}.

(** [s.add(x)] on a set of strings; only the size of these sets is read. *)
Definition set_add (x : string) (s : list string) : list string :=
  if list_mem x s then s else (s ++ [x])%list.

(** [by_date.setdefault(dt, set()).add(emp_id)] *)
Definition add_on (by_date : dict date (list string)) (dt : date) (emp_id : string)
  : dict date (list string) :=
  PyDict.set dt (set_add emp_id (PyDict.get_or dt [] by_date)) by_date.

(** [max(x, 0.0)] *)
Definition max_0 (x : Q) : Q := if Qlt_bool x 0 then 0%Q else x.

(** The eight dictionaries the first loop of [evaluate] fills. *)
Record AssignedSets := mk_sets {
  assigned_by_date : dict date (list string);
  lunch_assigned_by_date : dict date (list string);
  dinner_assigned_by_date : dict date (list string);
  manager_by_date : dict date (list string);
  manager_opening_by_date : dict date (list string);
  manager_closing_by_date : dict date (list string);
  manager_lunch_by_date : dict date (list string);
  manager_dinner_by_date : dict date (list string)
}.

(** The running totals of the second loop. *)
Record Totals := mk_totals {
  total_demand : Q;
  total_shortfall : Q;
  total_lunch_demand : Q;
  total_lunch_shortfall : Q;
  total_dinner_demand : Q;
  total_dinner_shortfall : Q;
  weekday_staff_total : Q;
  weekday_days : Z;
  weekend_staff_total : Q;
  weekend_days : Z;
  total_days : Z;
  days_with_manager : Z;
  days_with_manager_opening : Z;
  days_with_manager_closing : Z;
  total_peak_windows : Z;
  peak_windows_with_two_managers : Z
}.

Section CoverageEval.
Variable SHIFT_TEMPLATES : dict string ShiftTemplate.

Definition _covers_window (shift_code : string) (window_start window_end : time) : bool :=
  match PyDict.get shift_code SHIFT_TEMPLATES with
  | None => false
  | Some tpl =>
      time_le (tpl_start tpl) window_end && time_le window_start (tpl_end tpl)
  end.

Definition lunch_start : time := mk_time 11 0.
Definition lunch_end : time := mk_time 14 0.
Definition dinner_start : time := mk_time 17 0.
Definition dinner_end : time := mk_time 21 0.
Definition opening_start : time := mk_time 6 30.
Definition opening_end : time := mk_time 8 0.
Definition closing_start : time := mk_time 22 0.
Definition closing_end : time := mk_time 23 0.

(** The body of [for a in roster.assignments]. *)
Definition collect (ctx : SystemContext) (s : AssignedSets) (a : ShiftAssignment)
  : AssignedSets :=
  let dt := a_date a in
  let emp_id := a_employee_id a in
  let shift_code := a_shift_code a in
  let assigned := add_on (assigned_by_date s) dt emp_id in
  let lunch :=
    if _covers_window shift_code lunch_start lunch_end
    then add_on (lunch_assigned_by_date s) dt emp_id else lunch_assigned_by_date s in
  let dinner :=
    if _covers_window shift_code dinner_start dinner_end
    then add_on (dinner_assigned_by_date s) dt emp_id else dinner_assigned_by_date s in
  match PyDict.get emp_id (employees ctx) with
  | None =>
      mk_sets assigned lunch dinner (manager_by_date s) (manager_opening_by_date s)
              (manager_closing_by_date s) (manager_lunch_by_date s)
              (manager_dinner_by_date s)
  | Some emp =>
      if list_mem MANAGER (e_skill_tags emp) then
        mk_sets assigned lunch dinner
          (add_on (manager_by_date s) dt emp_id)
          (if _covers_window shift_code opening_start opening_end
           then add_on (manager_opening_by_date s) dt emp_id
           else manager_opening_by_date s)
          (if _covers_window shift_code closing_start closing_end
           then add_on (manager_closing_by_date s) dt emp_id
           else manager_closing_by_date s)
          (if _covers_window shift_code lunch_start lunch_end
           then add_on (manager_lunch_by_date s) dt emp_id
           else manager_lunch_by_date s)
          (if _covers_window shift_code dinner_start dinner_end
           then add_on (manager_dinner_by_date s) dt emp_id
           else manager_dinner_by_date s)
      else
        mk_sets assigned lunch dinner (manager_by_date s) (manager_opening_by_date s)
                (manager_closing_by_date s) (manager_lunch_by_date s)
                (manager_dinner_by_date s)
  end.

(** [len(by_date.get(current, set()))] *)
Definition size_on (by_date : dict date (list string)) (current : date) : Z :=
  Z.of_nat (List.length (PyDict.get_or current [] by_date)).

(** The body of [while current <= end_date]. *)
Definition tally (ctx : SystemContext) (s : AssignedSets) (t : Totals) (current : date)
  : Totals :=
  let demand_today := inject_Z (demand_today_of ctx current) in
  let assigned_today := inject_Z (size_on (assigned_by_date s) current) in
  let shortfall := max_0 (demand_today - assigned_today) in
  let lunch_assigned := inject_Z (size_on (lunch_assigned_by_date s) current) in
  let dinner_assigned := inject_Z (size_on (dinner_assigned_by_date s) current) in
  let lunch_demand_today := demand_today in
  let dinner_demand_today := demand_today in
  let is_weekend := 5 <=? weekday current in
  let lunch_mgrs := size_on (manager_lunch_by_date s) current in
  let dinner_mgrs := size_on (manager_dinner_by_date s) current in
  let store_open := Qlt_bool 0 demand_today in
  mk_totals
    (total_demand t + demand_today)
    (total_shortfall t + shortfall)
    (total_lunch_demand t + lunch_demand_today)
    (total_lunch_shortfall t + max_0 (lunch_demand_today - lunch_assigned))
    (total_dinner_demand t + dinner_demand_today)
    (total_dinner_shortfall t + max_0 (dinner_demand_today - dinner_assigned))
    (if is_weekend then weekday_staff_total t else weekday_staff_total t + assigned_today)
    (if is_weekend then weekday_days t else weekday_days t + 1)
    (if is_weekend then weekend_staff_total t + assigned_today else weekend_staff_total t)
    (if is_weekend then weekend_days t + 1 else weekend_days t)
    (total_days t + 1)
    (if 0 <? size_on (manager_by_date s) current
     then days_with_manager t + 1 else days_with_manager t)
    (if 0 <? size_on (manager_opening_by_date s) current
     then days_with_manager_opening t + 1 else days_with_manager_opening t)
    (if 0 <? size_on (manager_closing_by_date s) current
     then days_with_manager_closing t + 1 else days_with_manager_closing t)
    (if store_open then total_peak_windows t + 2 else total_peak_windows t)
    (if store_open
     then peak_windows_with_two_managers t
          + (if 2 <=? lunch_mgrs then 1 else 0)
          + (if 2 <=? dinner_mgrs then 1 else 0)
     else peak_windows_with_two_managers t).

Definition no_sets : AssignedSets := mk_sets [] [] [] [] [] [] [] [].
Definition zero_totals : Totals := mk_totals 0 0 0 0 0 0 0 0 0 0 0 0 0 0 0 0.

(** What the closing block of [evaluate] makes of the totals. *)
Definition metrics_of (t : Totals) : RosterEvaluationMetrics :=
  let total_peak_demand := (total_lunch_demand t + total_dinner_demand t)%Q in
  let total_peak_shortfall := (total_lunch_shortfall t + total_dinner_shortfall t)%Q in
  let weekend_uplift :=
    if (0 <? weekday_days t) && (0 <? weekend_days t) then
      let weekday_avg := (weekday_staff_total t / inject_Z (weekday_days t))%Q in
      let weekend_avg := (weekend_staff_total t / inject_Z (weekend_days t))%Q in
      if Qlt_bool 0 weekday_avg then (weekend_avg / weekday_avg)%Q else 0%Q
    else 0%Q in
  let has_days := 0 <? total_days t in
  mk_metrics
    (if Qlt_bool 0 (total_demand t)
     then (1 - total_shortfall t / total_demand t)%Q else 0%Q)
    (if Qlt_bool 0 total_peak_demand
     then (1 - total_peak_shortfall / total_peak_demand)%Q else 0%Q)
    (if has_days then (inject_Z (days_with_manager t) / inject_Z (total_days t))%Q
     else 0%Q)
    0%Q
    weekend_uplift
    (if has_days
     then (inject_Z (days_with_manager_opening t) / inject_Z (total_days t))%Q else 0%Q)
    (if has_days
     then (inject_Z (days_with_manager_closing t) / inject_Z (total_days t))%Q else 0%Q)
    (if 0 <? total_peak_windows t
     then (inject_Z (peak_windows_with_two_managers t)
           / inject_Z (total_peak_windows t))%Q
     else 0%Q).

Definition evaluate (ctx : SystemContext) (roster : Roster) (start_date end_date : date)
  : RosterEvaluationMetrics :=
  let sets := fold_left (collect ctx) (r_assignments roster) no_sets in
  let totals := fold_left (tally ctx sets) (planning_dates start_date end_date)
                          zero_totals in
  metrics_of totals.
End CoverageEval.

(* ===================================================================== *)
(** ** agents/skill_station.py

    [assign_stations] assigns to the [station] attribute of the assignment
    objects of the roster it is given and returns a new roster object over
    the same list; the objects live in the store of the resolver's model. *)

(** [a.station = s] *)
Definition set_station (h : Heap) (a : ref) (s : option SkillTag) : Heap :=
  fun r =>
    if Nat.eqb r a
    then mk_ShiftAssignment (a_employee_id (h a)) (a_date (h a)) (a_shift_code (h a))
                            s (a_store_id (h a))
    else h r.

(** [assignments_by_date.setdefault(a.date, []).append(a)] over the roster. *)
Definition group_by_date (h : Heap) (assignments : list ref) : dict date (list ref) :=
  fold_left
    (fun by_date a =>
       PyDict.set (a_date (h a))
                  (PyDict.get_or (a_date (h a)) [] by_date ++ [a])%list by_date)
    assignments [].

(** [{emp_id: emp.skill_tags for emp_id, emp in ctx.employees.items()}] *)
Definition skills_by_emp_of (ctx : SystemContext) : dict string (list SkillTag) :=
  fold_left (fun d kv => PyDict.set (fst kv) (e_skill_tags (snd kv)) d)
            (employees ctx) [].

(** [remaining_demand[s] -= 1] *)
Definition take_one (remaining_demand : dict SkillTag Z) (s : SkillTag)
  : dict SkillTag Z :=
  PyDict.set s (PyDict.get_or s 0 remaining_demand - 1) remaining_demand.

(** The body of the first pass: a station of the demand that is among the
    employee's skills and still needs staff, in the order of the skills. *)
Definition first_pass (skills_by_emp : dict string (list SkillTag))
           (st : Heap * dict SkillTag Z * list ref) (a : ref)
  : Heap * dict SkillTag Z * list ref :=
  let '(h, remaining_demand, unassigned) := st in
  let emp_skills := PyDict.get_or (a_employee_id (h a)) [] skills_by_emp in
  match find (fun s => 0 <? PyDict.get_or s 0 remaining_demand) emp_skills with
  | Some chosen_station =>
      (set_station h a (Some chosen_station),
       take_one remaining_demand chosen_station, unassigned)
  | None => (h, remaining_demand, (unassigned ++ [a])%list)
  end.

(** The body of the second pass: any station that still needs staff, in
    the order of the demand; [a.station = a.station or None] writes back
    the value the attribute has. *)
Definition second_pass (st : Heap * dict SkillTag Z) (a : ref)
  : Heap * dict SkillTag Z :=
  let (h, remaining_demand) := st in
  match find (fun sc : SkillTag * Z => 0 <? snd sc) remaining_demand with
  | Some (chosen_station, _) =>
      (set_station h a (Some chosen_station), take_one remaining_demand chosen_station)
  | None => (h, remaining_demand)
  end.

(** The body of [for dt, day_assignments in assignments_by_date.items()]. *)
Definition assign_day (ctx : SystemContext) (skills_by_emp : dict string (list SkillTag))
           (h : Heap) (day : date * list ref) : Heap :=
  let (dt, day_assignments) := day in
  let demand := PyDict.get_or dt [] (demand_by_date ctx) in
  let remaining_demand := demand in
  let '(h, remaining_demand, unassigned) :=
    fold_left (first_pass skills_by_emp) day_assignments (h, remaining_demand, []) in
  fst (fold_left second_pass unassigned (h, remaining_demand)).

Definition assign_stations (ctx : SystemContext) (h : Heap) (roster : RosterObj)
  : Heap * RosterObj :=
  let assignments_by_date := group_by_date h (ro_assignments roster) in
  let skills_by_emp := skills_by_emp_of ctx in
  let h' := fold_left (assign_day ctx skills_by_emp) assignments_by_date h in
  (h', mk_RosterObj (ro_store_id roster) (ro_start_date roster) (ro_end_date roster)
                    (ro_assignments roster)).

(* ===================================================================== *)
(** ** Python strings

    A [str] is the list of its characters, with ASCII texts in mind:
    [lower] maps the letters A-Z and [strip] removes the ASCII white space
    of [str.isspace]. *)

Definition lower_char (c : ascii) : ascii :=
  let n := nat_of_ascii c in
  if (Nat.leb 65 n && Nat.leb n 90)%bool then ascii_of_nat (n + 32) else c.

(** [s.lower()] *)
Fixpoint lower (s : string) : string :=
  match s with
  | EmptyString => EmptyString
  | String c r => String (lower_char c) (lower r)
  end.

Definition is_space (c : ascii) : bool :=
  let n := nat_of_ascii c in
  ((Nat.leb 9 n && Nat.leb n 13) || (Nat.leb 28 n && Nat.leb n 32))%bool.

Fixpoint lstrip (s : string) : string :=
  match s with
  | EmptyString => EmptyString
  | String c r => if is_space c then lstrip r else s
  end.

Fixpoint rstrip (s : string) : string :=
  match s with
  | EmptyString => EmptyString
  | String c r =>
      match rstrip r with
      | EmptyString => if is_space c then EmptyString else String c EmptyString
      | r' => String c r'
      end
  end.

(** [s.strip()] *)
Definition strip (s : string) : string := rstrip (lstrip s).

(** [s.startswith(p)] *)
Definition startswith (s p : string) : bool := String.prefix p s.

(** [p in s] *)
Fixpoint contains (p s : string) : bool :=
  String.prefix p s
  || match s with
     | EmptyString => false
     | String _ r => contains p r
     end.

(* ===================================================================== *)
(** ** agents/compliance.py: [_load_shift_templates_from_excel]

    The workbook is read by pandas.  The model starts from what the reading
    hands to the loop: [None] when the file, the sheet or one of the two
    columns is missing, and otherwise the rows that passed the two [notna]
    filters.  Of a row it keeps the text of the code cell (stripped), the
    numeric hours, and the start and end time parsed from the time cell,
    [None] when the cell is not of the form "HH:MM - HH:MM" ("Varies"). *)

Record SheetRow := mk_row {
  row_code : string;
  row_hours : Q;
  row_times : option (time * time)
}.

(** The body of [for _, row in df.iterrows()]: the entry the row adds to
    [templates], if any.  [hours] is never [None] for a row that passed
    the filter on [hours_num]. *)
Definition row_template (row : SheetRow) : option (string * ShiftTemplate) :=
  let code := row_code row in
  if (String.eqb code "" || String.eqb (lower code) "code")%bool then None
  else
    let hours := row_hours row in
    let start_t := option_map fst (row_times row) in
    let end_t := option_map snd (row_times row) in
    let fallback_tpl := PyDict.get code DEFAULT_SHIFT_TEMPLATES in
    let start_t :=
      match start_t, fallback_tpl with
      | None, Some fallback => Some (tpl_start fallback)
      | _, _ => start_t
      end in
    let end_t :=
      match end_t, fallback_tpl with
      | None, Some fallback => Some (tpl_end fallback)
      | _, _ => end_t
      end in
    match start_t, end_t with
    | Some start_t, Some end_t => Some (code, mk_tpl start_t end_t hours)
    | _, _ => None
    end.

(** [d.update(other)] *)
Definition dict_update {K V} `{Key K} (d other : dict K V) : dict K V :=
  fold_left (fun d kv => PyDict.set (fst kv) (snd kv) d) other d.

(** One turn of the loop: [templates[code] = {...}], or [continue]. *)
Definition add_row (templates : dict string ShiftTemplate) (row : SheetRow)
  : dict string ShiftTemplate :=
  match row_template row with
  | Some (code, tpl) => PyDict.set code tpl templates
  | None => templates
  end.

Definition _load_shift_templates_from_excel (sheet : option (list SheetRow))
  : dict string ShiftTemplate :=
  match sheet with
  | None => DEFAULT_SHIFT_TEMPLATES
  | Some rows =>
      let templates := fold_left add_row rows [] in
      match templates with
      | [] => DEFAULT_SHIFT_TEMPLATES
      | _ :: _ =>
          let merged := DEFAULT_SHIFT_TEMPLATES in
          dict_update merged templates
      end
  end.

(* ===================================================================== *)
(** ** agents/data_context.py: the two cell parsers *)

(** [_parse_contract_type]; [None] stands for the [ValueError]. *)
Definition _parse_contract_type (raw : string) : option ContractType :=
  let s := lower (strip raw) in
  if startswith s "full" then Some FULL_TIME
  else if startswith s "part" then Some PART_TIME
  else if startswith s "casual" then Some CASUAL
  else None.

Definition _parse_skill_tags (raw : string) : list SkillTag :=
  let s := lower (strip raw) in
  let tags := [] in
  let tags := if contains "kitchen" s then (tags ++ [KITCHEN])%list else tags in
  let tags := if contains "counter" s then (tags ++ [COUNTER])%list else tags in
  let tags :=
    if (contains "cafe" s || contains "mccafe" s)%bool
    then (tags ++ [MCCAFe])%list else tags in
  let tags := if contains "dessert" s then (tags ++ [DESSERT])%list else tags in
  match tags with
  | [] => [COUNTER]
  | _ => tags
  end.

(** The [value] of the members of the two enumerations. *)
Definition ContractType_value (ct : ContractType) : string :=
  match ct with
  | FULL_TIME => "full_time"
  | PART_TIME => "part_time"
  | CASUAL => "casual"
  end.

Definition SkillTag_value (tag : SkillTag) : string :=
  match tag with
  | KITCHEN => "kitchen"
  | COUNTER => "counter"
  | MCCAFe => "mccafe"
  | DESSERT => "dessert"
  | DELIVERY => "delivery"
  | MANAGER => "manager"
  end.

(* ===================================================================== *)
(** ** Hours as binary64 floats

    The oracle and the resolver once more, with the hours as the floats
    the program holds.  Python's [float] is the IEEE 754 binary64 format
    and so is the primitive type [float]: [+], [-], [/], [<] and [<=] are
    the same operations, rounding included, and a decimal literal denotes
    the nearest binary64 value in both.  Dates, times, employees,
    assignments, the store and the log are those of the sections above; the
    catalogue, the bounds and the violations carry floats. *)

Set Warnings "-inexact-float".

Module Float64.

Record ShiftTemplate := mk_tpl {
  tpl_start : time;
  tpl_end : time;
  tpl_hours : float
}.

Definition DEFAULT_SHIFT_TEMPLATES : dict string ShiftTemplate :=
  [ ("S",  mk_tpl (mk_time 6 30) (mk_time 15 0)  8.5%float);
    ("1F", mk_tpl (mk_time 6 30) (mk_time 15 30) 9%float);
    ("2F", mk_tpl (mk_time 14 0) (mk_time 23 0)  9%float);
    ("3F", mk_tpl (mk_time 8 0)  (mk_time 20 0)  12%float);
    ("SC", mk_tpl (mk_time 11 0) (mk_time 20 0)  9%float) ].

Definition DEFAULT_SHIFT_HOURS : float := 8%float.

Definition CONTRACT_HOURS_BOUNDS (ct : ContractType) : option (float * float) :=
  match ct with
  | FULL_TIME => Some (70%float, 76%float)
  | PART_TIME => Some (40%float, 64%float)
  | CASUAL => Some (16%float, 48%float)
  end.

Definition WEEKLY_CONTRACT_HOURS_BOUNDS (ct : ContractType) : option (float * float) :=
  match ct with
  | FULL_TIME => Some (35%float, 38%float)
  | PART_TIME => Some (20%float, 32%float)
  | CASUAL => Some (8%float, 24%float)
  end.

Definition MIN_SHIFT_HOURS_CASUAL : float := 3%float.
Definition MIN_REST_HOURS_BETWEEN_DAYS : float := 10%float.

(** The values a violation message formats, one constructor per f-string. *)
Inductive Message :=
| MsgMinHours (name id : string) (total min_h : float) (ct : ContractType)
| MsgMaxHours (name id : string) (total max_h : float) (ct : ContractType)
| MsgWeeklyMin (name id : string) (total : float) (week : Z) (min_w : float)
               (ct : ContractType)
| MsgWeeklyMax (name id : string) (total : float) (week : Z) (max_w : float)
               (ct : ContractType)
| MsgCasualShift (name id : string) (hours : float) (on : date)
| MsgRest (name id : string) (rest : float) (prev_date : date) (prev_code : string)
          (next_date : date) (next_code : string)
| MsgConsecutive (name id : string) (streak : Z) (ending : date)
| MsgUnknownEmployee (id : string) (on : date).

Record Violation := mk_Violation {
  v_severity : ViolationSeverity;
  v_code : string;
  v_message : Message;
  v_employee_id : option string;
  v_date : option date
}.

(** The float of a whole number; exact below 2^53. *)
Fixpoint float_of_pos (p : positive) : float :=
  match p with
  | xH => 1%float
  | xO q => (2 * float_of_pos q)%float
  | xI q => (2 * float_of_pos q + 1)%float
  end.

Definition float_of_Z (z : Z) : float :=
  match z with
  | Z0 => 0%float
  | Zpos p => float_of_pos p
  | Zneg p => (- float_of_pos p)%float
  end.

Section Compliance.
Variable SHIFT_TEMPLATES : dict string ShiftTemplate.

(** [float(tpl["hours"])] when the code has a template, else the default. *)
Definition template_hours (shift_code : string) : float :=
  match PyDict.get shift_code SHIFT_TEMPLATES with
  | Some tpl => tpl_hours tpl
  | None => DEFAULT_SHIFT_HOURS
  end.

(** [d[k] = d.get(k, 0.0) + h] *)
Definition add_hours {K} `{Key K} (k : K) (h : float) (d : dict K float)
  : dict K float :=
  PyDict.set k (PyDict.get_or k 0%float d + h)%float d.

(** Step 1: total hours per employee, added in roster order. *)
Definition total_hours_by_emp (assignments : list ShiftAssignment)
  : dict string float :=
  fold_left
    (fun hours_by_emp assignment =>
       add_hours (a_employee_id assignment)
                 (template_hours (a_shift_code assignment)) hours_by_emp)
    assignments [].

(** Step 2: the two-week total against the contract bounds. *)
Definition check_contract_hours (emp_id : string) (emp : Employee)
           (hours_by_emp : dict string float) : list Violation :=
  let total_hours := PyDict.get_or emp_id 0%float hours_by_emp in
  match CONTRACT_HOURS_BOUNDS (e_contract_type emp) with
  | None => []
  | Some (min_h, max_h) =>
      (if (total_hours <? min_h)%float
       then [mk_Violation SOFT "MIN_HOURS_NOT_MET"
               (MsgMinHours (e_name emp) (e_id emp) total_hours min_h
                            (e_contract_type emp))
               (Some (e_id emp)) None]
       else [])
      ++
      (if (max_h <? total_hours)%float
       then [mk_Violation HARD "MAX_HOURS_EXCEEDED"
               (MsgMaxHours (e_name emp) (e_id emp) total_hours max_h
                            (e_contract_type emp))
               (Some (e_id emp)) None]
       else [])
  end.

(** Step 2b: hours per (employee, week index), added in roster order; an
    assignment dated before the roster start is skipped. *)
Definition weekly_hours_of (roster : Roster) : dict (string * Z) float :=
  fold_left
    (fun weekly_hours assignment =>
       let hours := template_hours (a_shift_code assignment) in
       if a_date assignment <? r_start_date roster then weekly_hours
       else
         let days_from_start := a_date assignment - r_start_date roster in
         let week_index := days_from_start / 7 in
         add_hours (a_employee_id assignment, week_index) hours weekly_hours)
    (r_assignments roster) [].

(** The body of [for week_index in (0, 1)]. *)
Definition check_week (emp_id : string) (emp : Employee) (min_w max_w : float)
           (weekly_hours : dict (string * Z) float) (week_index : Z)
  : list Violation :=
  match PyDict.get (emp_id, week_index) weekly_hours with
  | None => []
  | Some total_week =>
      (if (total_week <? min_w)%float
       then [mk_Violation SOFT "WEEKLY_MIN_HOURS_NOT_MET"
               (MsgWeeklyMin (e_name emp) (e_id emp) total_week (week_index + 1)
                             min_w (e_contract_type emp))
               (Some (e_id emp)) None]
       else [])
      ++
      (if (max_w <? total_week)%float
       then
         let over := (total_week - max_w)%float in
         if (over <=? 2)%float then []
         else [mk_Violation SOFT "WEEKLY_MAX_HOURS_EXCEEDED"
                 (MsgWeeklyMax (e_name emp) (e_id emp) total_week (week_index + 1)
                               max_w (e_contract_type emp))
                 (Some (e_id emp)) None]
       else [])
  end.

Definition check_weekly_hours (emp_id : string) (emp : Employee)
           (weekly_hours : dict (string * Z) float) : list Violation :=
  match WEEKLY_CONTRACT_HOURS_BOUNDS (e_contract_type emp) with
  | None => []
  | Some (min_w, max_w) =>
      flat_map (check_week emp_id emp min_w max_w weekly_hours) CHECKED_WEEKS
  end.

(** Step 3: minimum shift length of casuals. *)
Definition check_casual_shift (ctx : SystemContext) (a : ShiftAssignment)
  : list Violation :=
  match PyDict.get (a_employee_id a) (employees ctx) with
  | None => []
  | Some emp =>
      match PyDict.get (a_shift_code a) SHIFT_TEMPLATES with
      | None => []
      | Some tpl =>
          let hours := tpl_hours tpl in
          if ContractType_eqb (e_contract_type emp) CASUAL
             && (hours <? MIN_SHIFT_HOURS_CASUAL)%float
          then [mk_Violation HARD "MIN_SHIFT_LENGTH_CASUAL"
                  (MsgCasualShift (e_name emp) (e_id emp) hours (a_date a))
                  (Some (e_id emp)) (Some (a_date a))]
          else []
      end
  end.

(** [_rest_hours_between]: [delta.total_seconds() / 3600.0], 24.0 when a
    template is missing. *)
Definition rest_hours_between (prev_assignment next_assignment : ShiftAssignment)
  : float :=
  match PyDict.get (a_shift_code prev_assignment) SHIFT_TEMPLATES,
        PyDict.get (a_shift_code next_assignment) SHIFT_TEMPLATES with
  | Some tpl_prev, Some tpl_next =>
      let delta_minutes :=
        (a_date next_assignment - a_date prev_assignment) * 1440
        + minutes_of (tpl_start tpl_next) - minutes_of (tpl_end tpl_prev) in
      (float_of_Z (60 * delta_minutes) / 3600)%float
  | _, _ => 24%float
  end.

(** Step 4: rest between shifts on consecutive days. *)
Definition check_rest_pair (emp : Employee) (pn : ShiftAssignment * ShiftAssignment)
  : list Violation :=
  let (prev, nxt) := pn in
  if negb (a_date nxt - a_date prev =? 1) then []
  else
    let rest_hours := rest_hours_between prev nxt in
    if (rest_hours <? MIN_REST_HOURS_BETWEEN_DAYS)%float
    then [mk_Violation HARD "INSUFFICIENT_REST"
            (MsgRest (e_name emp) (e_id emp) rest_hours
                     (a_date prev) (a_shift_code prev)
                     (a_date nxt) (a_shift_code nxt))
            (Some (e_id emp)) (Some (a_date nxt))]
    else [].

Definition check_rest (emp_id : string) (emp : Employee)
           (assignments : list ShiftAssignment) : list Violation :=
  flat_map (check_rest_pair emp)
           (adjacent_pairs (emp_assignments_sorted emp_id assignments)).

(** Step 5: the walk over adjacent pairs; a violation ends it ([break]). *)
Fixpoint consecutive_walk (emp : Employee) (streak : Z)
         (pairs : list (ShiftAssignment * ShiftAssignment)) : list Violation :=
  match pairs with
  | [] => []
  | (prev, nxt) :: rest =>
      let streak := if a_date nxt - a_date prev =? 1 then streak + 1 else 1 in
      if MAX_CONSECUTIVE_WORKING_DAYS <? streak
      then [mk_Violation HARD "MAX_CONSECUTIVE_DAYS_EXCEEDED"
              (MsgConsecutive (e_name emp) (e_id emp) streak (a_date nxt))
              (Some (e_id emp)) (Some (a_date nxt))]
      else consecutive_walk emp streak rest
  end.

Definition check_consecutive (emp_id : string) (emp : Employee)
           (assignments : list ShiftAssignment) : list Violation :=
  let emp_assignments := emp_assignments_sorted emp_id assignments in
  match emp_assignments with
  | [] => []
  | _ => consecutive_walk emp 1 (adjacent_pairs emp_assignments)
  end.

(** Step 6: assignments of employees the context does not know. *)
Definition check_unknown_employee (ctx : SystemContext) (a : ShiftAssignment)
  : list Violation :=
  if PyDict.mem (a_employee_id a) (employees ctx) then []
  else [mk_Violation HARD "UNKNOWN_EMPLOYEE"
          (MsgUnknownEmployee (a_employee_id a) (a_date a))
          (Some (a_employee_id a)) (Some (a_date a))].

Definition check_roster (ctx : SystemContext) (roster : Roster) : list Violation :=
  let hours_by_emp := total_hours_by_emp (r_assignments roster) in
  let weekly_hours := weekly_hours_of roster in
  for_employees ctx (fun emp_id emp => check_contract_hours emp_id emp hours_by_emp)
  ++ for_employees ctx (fun emp_id emp => check_weekly_hours emp_id emp weekly_hours)
  ++ flat_map (check_casual_shift ctx) (r_assignments roster)
  ++ for_employees ctx (fun emp_id emp => check_rest emp_id emp (r_assignments roster))
  ++ for_employees ctx (fun emp_id emp => check_consecutive emp_id emp (r_assignments roster))
  ++ flat_map (check_unknown_employee ctx) (r_assignments roster).

(** The violations of one code. *)
Definition with_code (code : string) (vs : list Violation) : list Violation :=
  filter (fun v => String.eqb (v_code v) code) vs.

(** [SHIFT_HOURS = {code: float(tpl["hours"]) for code, tpl in ...}] *)
Definition SHIFT_HOURS : dict string float :=
  map (fun ct => (fst ct, tpl_hours (snd ct))) SHIFT_TEMPLATES.

(** [SHIFT_HOURS.get(shift_code, DEFAULT_SHIFT_HOURS)] *)
Definition shift_hours_of (shift_code : string) : float :=
  PyDict.get_or shift_code DEFAULT_SHIFT_HOURS SHIFT_HOURS.

Definition _compute_hours_by_employee (assignments : list ShiftAssignment)
  : dict string float :=
  fold_left
    (fun hours_by_emp a =>
       add_hours (a_employee_id a) (shift_hours_of (a_shift_code a)) hours_by_emp)
    assignments [].

(** The body of the loop over [ctx.employees.items()]. *)
Definition candidacy (availability_map : dict string (dict date (list string)))
           (assigned_on_date : list string) (hours_by_emp : dict string float)
           (date_ : date) (shift_code : string) (shift_hours : float)
           (exclude_emp_id : string) (emp_id : string) (emp : Employee) : Candidacy :=
  if String.eqb emp_id exclude_emp_id then NotEligible
  else if negb (list_mem shift_code
                  (PyDict.get_or date_ [] (PyDict.get_or emp_id [] availability_map)))
  then NotEligible
  else if list_mem emp_id assigned_on_date then NotEligible
  else
    match CONTRACT_HOURS_BOUNDS (e_contract_type emp) with
    | None => NotEligible
    | Some (min_h, max_h) =>
        let current_h := PyDict.get_or emp_id 0%float hours_by_emp in
        if (max_h <? current_h + shift_hours)%float then NotEligible
        else if (current_h <? min_h)%float then UnderMin
        else Normal
    end.

Definition _find_replacement_employee (ctx : SystemContext)
           (assignments : list ShiftAssignment) (hours_by_emp : dict string float)
           (date_ : date) (shift_code : string) (shift_hours : float)
           (exclude_emp_id : string) : option string :=
  let assigned_on_date :=
    map a_employee_id (filter (fun a => a_date a =? date_) assignments) in
  let availability_map := resolver_availability_map ctx in
  let verdict kv :=
    candidacy availability_map assigned_on_date hours_by_emp date_ shift_code
              shift_hours exclude_emp_id (fst kv) (snd kv) in
  let under_min :=
    map fst (filter (fun kv => match verdict kv with UnderMin => true | _ => false end)
                    (employees ctx)) in
  let normal :=
    map fst (filter (fun kv => match verdict kv with Normal => true | _ => false end)
                    (employees ctx)) in
  match under_min with
  | first :: _ => Some first
  | [] => match normal with
          | first :: _ => Some first
          | [] => None
          end
  end.

(** The state the passes of one iteration thread: the store, the local
    hours map, the progress flag and the log. *)
Record RepairState := mk_state {
  rs_heap : Heap;
  rs_hours_by_emp : dict string float;
  rs_progress_made : bool;
  rs_logs : list LogLine
}.

(** [for a in emp_assignments]: the first shift that has a candidate. *)
Fixpoint first_movable (ctx : SystemContext) (h : Heap) (assignments : list ref)
         (hours_by_emp : dict string float) (overloaded_id : string)
         (emp_assignments : list ref) : option (ref * string * float) :=
  match emp_assignments with
  | [] => None
  | a :: rest =>
      let shift_hours := shift_hours_of (a_shift_code (h a)) in
      match _find_replacement_employee ctx (map h assignments) hours_by_emp
              (a_date (h a)) (a_shift_code (h a)) shift_hours overloaded_id with
      | None => first_movable ctx h assignments hours_by_emp overloaded_id rest
      | Some candidate_id => Some (a, candidate_id, shift_hours)
      end
  end.

(** The body of [for overloaded_id in overloaded_ids]. *)
Definition relieve (ctx : SystemContext) (assignments : list ref)
           (st : RepairState) (overloaded_id : string) : RepairState :=
  match PyDict.get overloaded_id (employees ctx) with
  | None => st
  | Some emp =>
      match CONTRACT_HOURS_BOUNDS (e_contract_type emp) with
      | None => st
      | Some (_, max_h) =>
          let hours_by_emp := rs_hours_by_emp st in
          let h := rs_heap st in
          let current_h := PyDict.get_or overloaded_id 0%float hours_by_emp in
          if (current_h <=? max_h)%float then st
          else
            match first_movable ctx h assignments hours_by_emp overloaded_id
                    (emp_refs_latest_first h assignments overloaded_id) with
            | None => st
            | Some (a, candidate_id, shift_hours) =>
                let hours_by_emp :=
                  PyDict.set overloaded_id
                    (PyDict.get_or overloaded_id 0%float hours_by_emp - shift_hours)%float
                    hours_by_emp in
                let hours_by_emp :=
                  PyDict.set candidate_id
                    (PyDict.get_or candidate_id 0%float hours_by_emp + shift_hours)%float
                    hours_by_emp in
                mk_state (set_employee_id h a candidate_id) hours_by_emp true
                  (rs_logs st ++
                     [LogReassigning (a_shift_code (h a)) (a_date (h a))
                                     overloaded_id candidate_id])
            end
      end
  end.

Definition overloaded_ids_of (ctx : SystemContext) (hours_by_emp : dict string float)
  : list string :=
  flat_map
    (fun kv : string * Employee =>
       match CONTRACT_HOURS_BOUNDS (e_contract_type (snd kv)) with
       | None => []
       | Some (_, max_h) =>
           if (max_h <? PyDict.get_or (fst kv) 0%float hours_by_emp)%float
           then [fst kv] else []
       end)
    (employees ctx).

(** [for iteration in range(self.max_iterations)] *)
Fixpoint repair_loop (ctx : SystemContext) (assignments : list ref)
         (iterations : list nat) (h : Heap) (logs : list LogLine)
  : Heap * list LogLine :=
  match iterations with
  | [] => (h, logs)
  | iteration :: later =>
      let hours_by_emp := _compute_hours_by_employee (map h assignments) in
      let overloaded_ids := overloaded_ids_of ctx hours_by_emp in
      match overloaded_ids with
      | [] => (h, logs ++ [LogNoOverloaded iteration])
      | _ =>
          let st :=
            fold_left (relieve ctx assignments) overloaded_ids
                      (mk_state h hours_by_emp false logs) in
          if rs_progress_made st
          then repair_loop ctx assignments later (rs_heap st) (rs_logs st)
          else (rs_heap st, rs_logs st ++ [LogNoFeasible iteration])
      end
  end.

Definition rebalance_hours (max_iterations : Z) (ctx : SystemContext)
           (h : Heap) (roster : RosterObj) : Heap * RosterObj * list LogLine :=
  let assignments := ro_assignments roster in
  let (h', logs) :=
    repair_loop ctx assignments (seq 0 (Z.to_nat max_iterations)) h [] in
  let new_roster :=
    mk_RosterObj (ro_store_id roster) (ro_start_date roster) (ro_end_date roster)
                 assignments in
  (h', new_roster, logs).
End Compliance.

End Float64.

(* ===================================================================== *)
(** * Notions used in the statements *)

(** The violation step 2 of the float oracle reports for a two-week total
    above the contract maximum. *)
Definition MAX_HOURS_violation (emp : Employee) (total_hours max_h : float)
  : Float64.Violation :=
  Float64.mk_Violation HARD "MAX_HOURS_EXCEEDED"
    (Float64.MsgMaxHours (e_name emp) (e_id emp) total_hours max_h
                         (e_contract_type emp))
    (Some (e_id emp)) None.

(** The violation step 2b of the float oracle reports for a week above the
    band. *)
Definition WEEKLY_MAX_violation (emp : Employee) (total_week : float)
           (week_index : Z) (max_w : float) : Float64.Violation :=
  Float64.mk_Violation SOFT "WEEKLY_MAX_HOURS_EXCEEDED"
    (Float64.MsgWeeklyMax (e_name emp) (e_id emp) total_week (week_index + 1) max_w
                          (e_contract_type emp))
    (Some (e_id emp)) None.

(** The weekly total exceeds the weekly maximum by at most 2.0 hours: it
    is above the maximum, and the excess [total_week - max_w], as the
    floats give it, is at most 2.0. *)
Definition exceeds_within_band (total_week max_w : float) : Prop :=
  (max_w <? total_week)%float = true /\ (total_week - max_w <=? 2)%float = true.

(** The weekly total exceeds the weekly maximum by more than 2.0 hours. *)
Definition exceeds_beyond_band (total_week max_w : float) : Prop :=
  (max_w <? total_week)%float = true /\ (total_week - max_w <=? 2)%float = false.

(** A violation is about an employee and a week of the roster: its
    [employee_id] is the employee's id and its message names the week,
    counted from 1. *)
Definition weekly_max_about (emp_id : string) (week_index : Z)
           (v : Float64.Violation) : bool :=
  match Float64.v_employee_id v, Float64.v_message v with
  | Some k, Float64.MsgWeeklyMax _ _ _ week _ _ =>
      String.eqb k emp_id && (week =? week_index + 1)
  | _, _ => false
  end.

(** An association list stands for a Python dict when it has every key
    once. *)
Definition is_dict {K V} (d : dict K V) : Prop := NoDup (PyDict.keys d).

(** [ctx.availability] is a dict, and so is the availability of every
    employee. *)
Definition availability_is_dicts (ctx : SystemContext) : Prop :=
  is_dict (availability ctx)
  /\ forall emp_id avail, In (emp_id, avail) (availability ctx) ->
                          is_dict (allowed_shift_codes_by_date avail).

(** No shift code can be discovered from availability: no availability
    entry lists a shift code for any date. *)
Definition no_shift_code_in_availability (ctx : SystemContext) : Prop :=
  forall emp_id avail dt codes,
    In (emp_id, avail) (availability ctx) ->
    In (dt, codes) (allowed_shift_codes_by_date avail) ->
    codes = [].

(** The three fatal conditions, on the context and the solver's status. *)
Definition fatal_condition (ctx : SystemContext) (status : SolverStatus) : Prop :=
  employees ctx = []
  \/ no_shift_code_in_availability ctx
  \/ (status <> OPTIMAL /\ status <> FEASIBLE).

(** Consecutive calendar days: [d; d+1; ...; d+n-1]. *)
Definition run_of_days (d : date) (n : nat) : list date :=
  map (fun i => d + Z.of_nat i) (seq 0 n).

(** The streak at each further date of a walk that stands at [prev] with
    streak [streak]: one more when the date is the next day, 1 otherwise. *)
Fixpoint running_streaks (prev : date) (streak : Z) (ds : list date) : list (Z * date) :=
  match ds with
  | [] => []
  | d :: later =>
      let s := if d - prev =? 1 then streak + 1 else 1 in
      (s, d) :: running_streaks d s later
  end.

(** The streak at every date of a date-sorted list. *)
Definition streaks_of (ds : list date) : list (Z * date) :=
  match ds with
  | [] => []
  | d :: later => (1, d) :: running_streaks d 1 later
  end.

(** The first date at which the streak is above the limit. *)
Definition first_overrun (ds : list date) : option (Z * date) :=
  find (fun sd => MAX_CONSECUTIVE_WORKING_DAYS <? fst sd) (streaks_of ds).

Definition MAX_CONSECUTIVE_violation (emp : Employee) (streak : Z) (day : date)
  : Violation :=
  mk_Violation HARD "MAX_CONSECUTIVE_DAYS_EXCEEDED"
    (MsgConsecutive (e_name emp) (e_id emp) streak day)
    (Some (e_id emp)) (Some day).

(** Every violation of [vs] carries one of the codes [cs]. *)
Definition only_codes (cs : list string) (vs : list Violation) : Prop :=
  Forall (fun v => In (v_code v) cs) vs.

(** The six steps of [check_roster], named. *)
Definition step_contract T ctx roster : list Violation :=
  for_employees ctx (fun emp_id emp =>
    check_contract_hours emp_id emp (total_hours_by_emp T (r_assignments roster))).

Definition step_weekly T ctx roster : list Violation :=
  for_employees ctx (fun emp_id emp =>
    check_weekly_hours emp_id emp (weekly_hours_of T roster)).

Definition step_casual T ctx roster : list Violation :=
  flat_map (check_casual_shift T ctx) (r_assignments roster).

Definition step_rest T ctx roster : list Violation :=
  for_employees ctx (fun emp_id emp => check_rest T emp_id emp (r_assignments roster)).

Definition step_consecutive ctx roster : list Violation :=
  for_employees ctx (fun emp_id emp => check_consecutive emp_id emp (r_assignments roster)).

Definition step_unknown ctx roster : list Violation :=
  flat_map (check_unknown_employee ctx) (r_assignments roster).



(** The hours of a list of assignments, by the catalogue. *)
Definition sum_hours (T : dict string ShiftTemplate) (l : list ShiftAssignment) : Q :=
  fold_right (fun a acc => (acc + template_hours T (a_shift_code a))%Q) 0%Q l.



(** No employee of the context has an allowed shift code on [dt]. *)
Definition no_staff_on (ctx : SystemContext) (dt : date) : Prop :=
  forall emp, In emp (PyDict.values (employees ctx)) ->
              sorted_allowed (availability_map_of ctx) (e_id emp) dt = [].

(** The constraint the docstring of the generator states for a date:
    total_assigned[d] + under_coverage[d] >= demand[d]. *)
Definition stated_demand_constraint (ctx : SystemContext) (t : Tables) (dt : date)
  : Constraint :=
  Add (lin_add (lin_sum (day_vars_of t dt)) (lin_sum [UNDER_COV (d_idx_of t dt)]))
      REL_GE (lin_of_const (demand_today_of ctx dt)).

(** The constraint posted for a day whose slack is pinned. *)
Definition under_coverage_is_zero (ctx : SystemContext) (start_date end_date : date)
           (dt : date) : Constraint :=
  Add (lin_sum [UNDER_COV (d_idx_of (build_tables ctx start_date end_date) dt)])
      REL_EQ (lin_of_const 0).

(** What an assignment is apart from who holds it. *)
Definition slot (a : ShiftAssignment) : date * string * option SkillTag * string :=
  (a_date a, a_shift_code a, a_station a, a_store_id a).

(** Every object keeps its date, shift code, station and store. *)
Definition same_slots (h h' : Heap) : Prop := forall r, slot (h' r) = slot (h r).

(** The hours of employee [e] in a list of assignments: the catalogue
    duration of each of their assignments, 8.0 for an unknown code. *)
Definition hours_of (T : dict string ShiftTemplate) (l : list ShiftAssignment)
           (e : string) : Q :=
  fold_right
    (fun a acc => if String.eqb (a_employee_id a) e
                  then (acc + shift_hours_of T (a_shift_code a))%Q else acc)
    0%Q l.

(** The hours the resolver aggregates for [e] over a roster. *)
Definition aggregated_hours (T : dict string ShiftTemplate) (roster : Roster)
           (e : string) : Q :=
  PyDict.get_or e 0%Q (_compute_hours_by_employee T (r_assignments roster)).

(** The local hours map agrees with the store. *)
Definition hours_consistent (T : dict string ShiftTemplate) (refs : list ref)
           (st : RepairState) : Prop :=
  forall e, (PyDict.get_or e 0%Q (rs_hours_by_emp st)
             == hours_of T (map (rs_heap st) refs) e)%Q.

(** Who was within their maximum in the store [h0] is within it in [h]. *)
Definition within_max_kept (T : dict string ShiftTemplate) (ctx : SystemContext)
           (refs : list ref) (h0 h : Heap) : Prop :=
  forall emp_id emp min_h max_h,
    In (emp_id, emp) (employees ctx) ->
    CONTRACT_HOURS_BOUNDS (e_contract_type emp) = Some (min_h, max_h) ->
    (hours_of T (map h0 refs) emp_id <= max_h)%Q ->
    (hours_of T (map h refs) emp_id <= max_h)%Q.

(** The triples (employee, date, code) for which a variable is created. *)
Definition variable_triples (ctx : SystemContext) (start_date end_date : date)
  : list (Employee * date * string) :=
  flat_map (fun ed : Employee * date =>
              map (fun code => (ed, code))
                  (sorted_allowed (availability_map_of ctx) (e_id (fst ed)) (snd ed)))
           (employee_dates (t_employees (build_tables ctx start_date end_date))
                           (t_dates (build_tables ctx start_date end_date))).

(** The key under which [x] stores the variable of a triple. *)
Definition key_of_triple (ctx : SystemContext) (start_date end_date : date)
           (tr : Employee * date * string) : nat * nat * nat :=
  (e_idx_of (build_tables ctx start_date end_date) (fst (fst tr)),
   d_idx_of (build_tables ctx start_date end_date) (snd (fst tr)),
   s_idx_of (build_tables ctx start_date end_date) (snd tr)).

Definition var_of_key (k : nat * nat * nat) : Var := X (fst (fst k)) (snd (fst k)) (snd k).

(** The assignment [decode] makes of a triple. *)
Definition decode_triple (ctx : SystemContext) (start_date end_date : date)
           (val : Valuation) (store_id : string)
           (tr : Employee * date * string) : list ShiftAssignment :=
  if val (var_of_key (key_of_triple ctx start_date end_date tr)) =? 1
  then [mk_ShiftAssignment (e_id (fst (fst tr))) (snd (fst tr)) (snd tr) None store_id]
  else [].

(** The triples of one employee. *)
Definition employee_block (ctx : SystemContext) (start_date end_date : date)
           (emp : Employee) : list (Employee * date * string) :=
  flat_map (fun dt => map (fun code => (emp, dt, code))
                          (sorted_allowed (availability_map_of ctx) (e_id emp) dt))
           (t_dates (build_tables ctx start_date end_date)).

(** The term a code contributes to the hours constraint of an employee. *)
Definition hours_term (T : dict string ShiftTemplate) (ctx : SystemContext)
           (start_date end_date : date)
           (emp : Employee) (dt : date) (code : string) : list (Z * Var) :=
  match PyDict.get code T with
  | None => []
  | Some tpl =>
      match x_get (build_tables ctx start_date end_date) emp dt code with
      | Some var => [(py_round (tpl_hours tpl * HOURS_SCALE), var)]
      | None => []
      end
  end.

(** The value of a list of terms [units * var]. *)
Definition eval_terms (val : Valuation) (terms : list (Z * Var)) : Z :=
  fold_right (fun cv acc => fst cv * val (snd cv) + acc) 0 terms.

(** Every code for which a variable is created has a template, and the
    hours of the template are a whole number of half hours. *)
Definition codes_known (T : dict string ShiftTemplate) (ctx : SystemContext)
           (start_date end_date : date) : Prop :=
  forall emp dt code,
    In (emp, dt, code) (variable_triples ctx start_date end_date) ->
    exists tpl,
      PyDict.get code T = Some tpl
      /\ (inject_Z (py_round (tpl_hours tpl * HOURS_SCALE)) == tpl_hours tpl * 2)%Q.

(** Folds that only ever add to a list. *)
Definition grows {A B} (f : list A -> B -> list A) : Prop :=
  forall acc b x, In x acc -> In x (f acc b).

(* ===================================================================== *)
(** * Notions used in the further properties *)

Definition UNKNOWN_EMPLOYEE_violation (a : ShiftAssignment) : Violation :=
  mk_Violation HARD "UNKNOWN_EMPLOYEE"
    (MsgUnknownEmployee (a_employee_id a) (a_date a))
    (Some (a_employee_id a)) (Some (a_date a)).

Definition MIN_HOURS_violation (emp : Employee) (total min_h : Q) : Violation :=
  mk_Violation SOFT "MIN_HOURS_NOT_MET"
    (MsgMinHours (e_name emp) (e_id emp) total min_h (e_contract_type emp))
    (Some (e_id emp)) None.

(** The two-week minimum of a contract type. *)
Definition contract_minimum (ct : ContractType) : Q :=
  match CONTRACT_HOURS_BOUNDS ct with
  | Some (min_h, _) => min_h
  | None => 0%Q
  end.

(** The codes [check_roster] emits, by severity. *)
Definition HARD_CODES : list string :=
  ["MAX_HOURS_EXCEEDED"; "MIN_SHIFT_LENGTH_CASUAL"; "INSUFFICIENT_REST";
   "MAX_CONSECUTIVE_DAYS_EXCEEDED"; "UNKNOWN_EMPLOYEE"].

Definition SOFT_CODES : list string :=
  ["MIN_HOURS_NOT_MET"; "WEEKLY_MIN_HOURS_NOT_MET"; "WEEKLY_MAX_HOURS_EXCEEDED"].

Definition classified (v : Violation) : Prop :=
  (v_severity v = HARD /\ In (v_code v) HARD_CODES)
  \/ (v_severity v = SOFT /\ In (v_code v) SOFT_CODES).

(** Some employee of the context has an allowed shift code on [dt]. *)
Definition staffed_on (ctx : SystemContext) (dt : date) : Prop :=
  exists emp, In emp (PyDict.values (employees ctx))
              /\ sorted_allowed (availability_map_of ctx) (e_id emp) dt <> [].

(** The number of assignments of a roster on a date. *)
Definition assigned_on (roster : Roster) (dt : date) : Z :=
  Z.of_nat (List.length (filter (fun a => a_date a =? dt) (r_assignments roster))).

(** [shift_code in availability_map.get(emp_id, {}).get(date_, set())], on
    the map [_find_replacement_employee] builds. *)
Definition available_to (ctx : SystemContext) (emp_id : string) (dt : date)
           (code : string) : bool :=
  list_mem code
    (PyDict.get_or dt [] (PyDict.get_or emp_id [] (resolver_availability_map ctx))).

(** The availability entry of [emp_id] lists [code] for [dt]. *)
Definition listed_available (ctx : SystemContext) (emp_id : string) (dt : date)
           (code : string) : Prop :=
  exists av codes,
    In (emp_id, av) (availability ctx)
    /\ In (dt, codes) (allowed_shift_codes_by_date av)
    /\ In code codes.

(** The four conditions the docstring of [_find_replacement_employee]
    lists. *)
Definition eligible (ctx : SystemContext) (assignments : list ShiftAssignment)
           (hours_by_emp : dict string Q) (date_ : date) (shift_code : string)
           (shift_hours : Q) (exclude_emp_id : string)
           (emp_id : string) (emp : Employee) : Prop :=
  emp_id <> exclude_emp_id
  /\ available_to ctx emp_id date_ shift_code = true
  /\ (forall a, In a assignments -> a_date a = date_ -> a_employee_id a <> emp_id)
  /\ exists min_h max_h,
       CONTRACT_HOURS_BOUNDS (e_contract_type emp) = Some (min_h, max_h)
       /\ (PyDict.get_or emp_id 0%Q hours_by_emp + shift_hours <= max_h)%Q.


(** No two assignments of the list have both the employee and the date in
    common. *)
Definition no_double_booking (l : list ShiftAssignment) : Prop :=
  NoDup (map (fun a => (a_employee_id a, a_date a)) l).

Definition is_reassigning (line : LogLine) : bool :=
  match line with LogReassigning _ _ _ _ => true | _ => false end.

(** The assignments whose employee id is a key of [ctx.employees]. *)
Definition of_known_employees (ctx : SystemContext) (l : list ShiftAssignment)
  : list ShiftAssignment :=
  filter (fun a => PyDict.mem (a_employee_id a) (employees ctx)) l.

(** Every head count of the demand is non-negative. *)
Definition demand_is_nonnegative (ctx : SystemContext) : Prop :=
  forall dt by_station station count,
    In (dt, by_station) (demand_by_date ctx) -> In (station, count) by_station ->
    0 <= count.

(** [a <= t <= b] on times of day. *)
Definition time_within (a b t : time) : bool := time_le a t && time_le t b.

(** What the second loop of [evaluate] keeps true of its totals. *)
Definition totals_in_order (t : Totals) : Prop :=
  (0 <= total_shortfall t /\ total_shortfall t <= total_demand t)%Q
  /\ (0 <= total_lunch_shortfall t /\ total_lunch_shortfall t <= total_lunch_demand t)%Q
  /\ (0 <= total_dinner_shortfall t
      /\ total_dinner_shortfall t <= total_dinner_demand t)%Q
  /\ (0 <= weekday_staff_total t)%Q /\ (0 <= weekend_staff_total t)%Q
  /\ 0 <= weekday_days t /\ 0 <= weekend_days t
  /\ 0 <= days_with_manager t <= total_days t
  /\ 0 <= days_with_manager_opening t <= total_days t
  /\ 0 <= days_with_manager_closing t <= total_days t
  /\ 0 <= peak_windows_with_two_managers t <= total_peak_windows t.

(** An assignment with its station taken off. *)
Definition without_station (a : ShiftAssignment) : ShiftAssignment :=
  mk_ShiftAssignment (a_employee_id a) (a_date a) (a_shift_code a) None (a_store_id a).

(** The assignment is placed at the station. *)
Definition placed_at (s : SkillTag) (a : ShiftAssignment) : bool :=
  match a_station a with
  | Some s' => SkillTag_eqb s' s
  | None => false
  end.

(** How many assignments of the roster are placed at the station on the
    date. *)
Definition placed_on (roster : Roster) (dt : date) (s : SkillTag) : Z :=
  Z.of_nat (List.length (filter (fun a => (a_date a =? dt) && placed_at s a)
                                (r_assignments roster))).

(** How many of the objects hold the station in the store. *)
Definition holders (h : Heap) (s : SkillTag) (l : list ref) : Z :=
  Z.of_nat (List.length (filter (fun r => placed_at s (h r)) l)).

(* ===================================================================== *)
(** * Reference inputs *)

(** A catalogue with one row of the workbook laid over the defaults: a late
    shift from 14:00 to 22:30. *)
Definition LATE_SHIFT : ShiftTemplate := mk_tpl (mk_time 14 0) (mk_time 22 30) (17 # 2).

Definition TEMPLATES_WITH_LATE : dict string ShiftTemplate :=
  PyDict.set "L" LATE_SHIFT DEFAULT_SHIFT_TEMPLATES.

Definition casual_e1 : Employee := mk_Employee "e1" "Ann" CASUAL [].

Definition ctx_one_casual : SystemContext :=
  mk_SystemContext [("e1", casual_e1)] [] [] [].

(** A float catalogue with three rows of the sheet laid over the defaults:
    "P" of 8.4 hours, "Q" of 8.8 hours and "XL" of 26.01 hours. *)
Definition TEMPLATES_P_Q : dict string Float64.ShiftTemplate :=
  PyDict.set "XL" (Float64.mk_tpl (mk_time 0 0) (mk_time 23 59) 26.01%float)
    (PyDict.set "Q" (Float64.mk_tpl (mk_time 8 0) (mk_time 16 48) 8.8%float)
       (PyDict.set "P" (Float64.mk_tpl (mk_time 8 0) (mk_time 16 24) 8.4%float)
          Float64.DEFAULT_SHIFT_TEMPLATES)).

(** The casual employee (weekly maximum 24 hours) holds "P", "Q" and "Q"
    on the first three days: the floats 8.4, 8.8 and 8.8 add up to
    26.000000000000004. *)
Definition roster_p_q_q : Roster :=
  mk_Roster "store_1" 100 113
    [mk_ShiftAssignment "e1" 100 "P" None "store_1";
     mk_ShiftAssignment "e1" 101 "Q" None "store_1";
     mk_ShiftAssignment "e1" 102 "Q" None "store_1"].

(** The casual employee holds one "XL" shift in the first week: 26.01
    hours. *)
Definition roster_one_long : Roster :=
  mk_Roster "store_1" 100 113 [mk_ShiftAssignment "e1" 100 "XL" None "store_1"].

(** The casual employee holds "2F", "S" and "S" in the first week: 9.0,
    8.5 and 8.5 hours, 26.0 in all, the weekly maximum plus 2.0. *)
Definition roster_at_the_band : Roster :=
  mk_Roster "store_1" 100 113
    [mk_ShiftAssignment "e1" 100 "2F" None "store_1";
     mk_ShiftAssignment "e1" 102 "S" None "store_1";
     mk_ShiftAssignment "e1" 104 "S" None "store_1"].

(** The casual employee holds "SC" on seven days in a row. *)
Definition roster_seven_days : Roster :=
  mk_Roster "store_1" 100 113
    (map (fun dt => mk_ShiftAssignment "e1" dt "SC" None "store_1")
         [100; 101; 102; 103; 104; 105; 106]).





(** One employee, available on day 100 alone; day 101 asks for two. *)
Definition ctx_shortfall : SystemContext :=
  mk_SystemContext
    [("e1", casual_e1)]
    [("e1", mk_EmployeeAvailability "e1" [(100, ["S"])])]
    [(100, [(KITCHEN, 1)]); (101, [(KITCHEN, 1); (COUNTER, 1)])]
    [].

(** The employee works the shift of day 100; every slack is 0. *)
Definition work_day_100 : Valuation :=
  fun v => match v with X 0 0 0 => 1 | _ => 0 end.

(** Two casual employees (two-week maximum 48 hours).  e1 holds six "2F"
    shifts, 54 hours; e2 holds none and is available for "2F" on day 105. *)
Definition casual_e2 : Employee := mk_Employee "e2" "Bob" CASUAL [].

Definition ctx_two_casuals : SystemContext :=
  mk_SystemContext
    [("e1", casual_e1); ("e2", casual_e2)]
    [("e2", mk_EmployeeAvailability "e2" [(105, ["2F"])])]
    [] [].

Definition six_late_shifts : list ShiftAssignment :=
  map (fun dt => mk_ShiftAssignment "e1" dt "2F" None "store_1")
      [100; 101; 102; 103; 104; 105].

(** The store before the call: the object of reference [r] is the [r]-th
    of the six assignments. *)
Definition heap_before : Heap :=
  fun r => nth r six_late_shifts (mk_ShiftAssignment "" 0 "" None "").

Definition roster_before : RosterObj :=
  mk_RosterObj "store_1" 100 113 [0; 1; 2; 3; 4; 5]%nat.

Definition rebalanced :=
  rebalance_hours DEFAULT_SHIFT_TEMPLATES 20 ctx_two_casuals heap_before roster_before.

Definition week_of_days : list date := [100; 101; 102; 103; 104; 105; 106].

(** One casual employee (two-week maximum 48 hours) who is available for
    the shift code "X" on each of seven days; the catalogue has no
    template for "X".  Each day asks for one person. *)
Definition ctx_unknown_code : SystemContext :=
  mk_SystemContext
    [("e1", casual_e1)]
    [("e1", mk_EmployeeAvailability "e1" (map (fun dt => (dt, ["X"])) week_of_days))]
    (map (fun dt => (dt, [(COUNTER, 1)])) week_of_days)
    [].

(** The employee works every day; every slack is 0. *)
Definition work_every_day : Valuation :=
  fun v => match v with X _ _ _ => 1 | _ => 0 end.

Definition roster_unknown_code : Roster :=
  mk_Roster "store_1" 100 106
    (map (fun dt => mk_ShiftAssignment "e1" dt "X" None "store_1") week_of_days).

(** The two casual employees; e1 is available for "S" on day 100 and
    nobody is available on day 101.  Day 100 asks for one person, day 101
    for two. *)
Definition ctx_no_staff_day : SystemContext :=
  mk_SystemContext
    [("e1", casual_e1); ("e2", casual_e2)]
    [("e1", mk_EmployeeAvailability "e1" [(100, ["S"])])]
    [(100, [(KITCHEN, 1)]); (101, [(KITCHEN, 1); (COUNTER, 1)])]
    [].

(** e1 works the shift of day 100 and the slack of day 101 is 2; every
    other variable is 0. *)
Definition slack_absorbs_day_101 : Valuation :=
  fun v => match v with X 0 0 0 => 1 | UNDER_COV 1 => 2 | _ => 0 end.

(** A float catalogue with two rows of the sheet laid over the defaults:
    "A" of 10.2 hours and "B" of 3.6 hours. *)
Definition TEMPLATES_A_B : dict string Float64.ShiftTemplate :=
  PyDict.set "B" (Float64.mk_tpl (mk_time 9 0) (mk_time 12 36) 3.6%float)
    (PyDict.set "A" (Float64.mk_tpl (mk_time 8 0) (mk_time 18 12) 10.2%float)
       Float64.DEFAULT_SHIFT_TEMPLATES).

(** The two casual employees (two-week maximum 48 hours); e2 is available
    for "B" on day 100. *)
Definition ctx_rounding : SystemContext :=
  mk_SystemContext
    [("e1", casual_e1); ("e2", casual_e2)]
    [("e2", mk_EmployeeAvailability "e2" [(100, ["B"])])]
    []
    [].

(** In roster order: "B" of e1 on day 100; "A" of e2 on days 101 to 104
    and "B" of e2 on day 105, 44.4 hours; "A" of e1 on days 101 to 105. *)
Definition rounding_shifts : list ShiftAssignment :=
  [mk_ShiftAssignment "e1" 100 "B" None "store_1"]
  ++ map (fun dt => mk_ShiftAssignment "e2" dt "A" None "store_1") [101; 102; 103; 104]
  ++ [mk_ShiftAssignment "e2" 105 "B" None "store_1"]
  ++ map (fun dt => mk_ShiftAssignment "e1" dt "A" None "store_1")
         [101; 102; 103; 104; 105].

Definition heap_rounding : Heap :=
  fun r => nth r rounding_shifts (mk_ShiftAssignment "" 0 "" None "").

Definition roster_rounding : RosterObj :=
  mk_RosterObj "store_1" 100 113 [0; 1; 2; 3; 4; 5; 6; 7; 8; 9; 10]%nat.

Definition rounded :=
  Float64.rebalance_hours TEMPLATES_A_B 20 ctx_rounding heap_rounding roster_rounding.

(* ===================================================================== *)
(** * Further reference inputs *)

(** The first five of the six late shifts: 45 hours, within the casual
    maximum of 48. *)
Definition roster_five_shifts : RosterObj :=
  mk_RosterObj "store_1" 100 113 [0; 1; 2; 3; 4]%nat.

(** The two casual employees, with a demand of one COUNTER on day 100. *)
Definition ctx_stations : SystemContext :=
  mk_SystemContext
    [("e1", casual_e1); ("e2", casual_e2)]
    []
    [(100, [(COUNTER, 1)])]
    [].

(** A "Shift Codes" sheet of three rows: the header, the day shift S with
    8 hours and no readable time, and a code M with 10 hours whose time
    cell reads "Varies". *)
Definition sheet_three_rows : list SheetRow :=
  [ mk_row "Code" 0 None;
    mk_row "S" 8 None;
    mk_row "M" 10 None ].

(** The late shift as a row of the sheet. *)
Definition row_late : SheetRow :=
  mk_row "L" (17 # 2) (Some (mk_time 14 0, mk_time 22 30)).

(* ===================================================================== *)
(** * Properties *)

(** ** Comparisons on hours *)

Lemma Qlt_bool_iff a b : Qlt_bool a b = true <-> (a < b)%Q.
Proof.
  unfold Qlt_bool. rewrite negb_true_iff. split.
  - intros E. apply Qnot_le_lt. intros L. apply Qle_bool_iff in L. congruence.
  - intros L. destruct (Qle_bool b a) eqn:E; auto.
    apply Qle_bool_iff in E. exfalso. apply (Qlt_not_le _ _ L E).
Qed.

Lemma Qlt_bool_false a b : Qlt_bool a b = false <-> (b <= a)%Q.
Proof.
  unfold Qlt_bool. rewrite negb_false_iff. apply Qle_bool_iff.
Qed.

(** ** Dictionaries *)

Lemma keqb_refl {K} `{Key K} (k : K) : keqb k k = true.
Proof. apply keqb_spec; reflexivity. Qed.

Lemma keqb_neq {K} `{Key K} (a b : K) : keqb a b = false <-> a <> b.
Proof.
  split.
  - intros E F. apply keqb_spec in F. congruence.
  - intros N. destruct (keqb a b) eqn:E; auto. apply keqb_spec in E. contradiction.
Qed.

Section DictFacts.
Context {K V : Type} `{Key K}.
Implicit Types (d : dict K V) (k : K) (v : V).

Lemma get_set_eq d k v : PyDict.get k (PyDict.set k v d) = Some v.
Proof.
  induction d as [|[k' v'] d IH]; simpl.
  - now rewrite keqb_refl.
  - destruct (keqb k k') eqn:E; simpl; rewrite E; auto.
Qed.

Lemma get_set_neq d k k' v :
  k <> k' -> PyDict.get k (PyDict.set k' v d) = PyDict.get k d.
Proof.
  intros N. induction d as [|[k0 v0] d IH]; simpl.
  - apply keqb_neq in N. now rewrite N.
  - destruct (keqb k' k0) eqn:E; simpl.
    + apply keqb_spec in E; subst k0.
      apply keqb_neq in N. now rewrite N.
    + destruct (keqb k k0); auto.
Qed.

Lemma get_In d k v : PyDict.get k d = Some v -> exists k', k' = k /\ In (k', v) d.
Proof.
  induction d as [|[k0 v0] d IH]; simpl; [discriminate|].
  destruct (keqb k k0) eqn:E.
  - intros [= ->]. apply keqb_spec in E. subst. eauto.
  - intros G. destruct (IH G) as (k' & -> & I). eauto.
Qed.

Lemma In_get d k v :
  NoDup (PyDict.keys d) -> In (k, v) d -> PyDict.get k d = Some v.
Proof.
  induction d as [|[k0 v0] d IH]; simpl; [tauto|].
  intros ND [E | I].
  - inversion E; subst. now rewrite keqb_refl.
  - inversion ND as [|? ? NI ND']; subst.
    destruct (keqb k k0) eqn:E.
    + apply keqb_spec in E; subst k0. exfalso. apply NI.
      change k with (fst (k, v)). now apply in_map.
    + now apply IH.
Qed.

Lemma get_none_not_key d k : PyDict.get k d = None -> ~ In k (PyDict.keys d).
Proof.
  induction d as [|[k0 v0] d IH]; simpl; [tauto|].
  destruct (keqb k k0) eqn:E; [discriminate|].
  intros G [E' | I]; [|now apply IH].
  subst k0. now rewrite keqb_refl in E.
Qed.
End DictFacts.

Lemma get_or_add_hours_eq {K} `{Key K} (k : K) h (d : dict K Q) :
  PyDict.get_or k 0%Q (add_hours k h d) = (PyDict.get_or k 0%Q d + h)%Q.
Proof. unfold add_hours, PyDict.get_or at 1. now rewrite get_set_eq. Qed.

Lemma get_or_add_hours_neq {K} `{Key K} (k k' : K) h (d : dict K Q) :
  k <> k' -> PyDict.get_or k 0%Q (add_hours k' h d) = PyDict.get_or k 0%Q d.
Proof. intros N. unfold add_hours, PyDict.get_or. now rewrite get_set_neq. Qed.

(** ** The parts of [check_roster] *)



(* ===================================================================== *)
(** ** Opening and closing shift codes *)

(** The opening test is the comparison [start <= 07:00]. *)
Lemma is_opening_start_spec (start : time) :
  0 <= minute start ->
  is_opening_start start = time_le start (mk_time 7 0).
Proof.
  intros M. unfold is_opening_start, time_le; simpl.
  destruct (hour start <? 7); simpl; auto.
  destruct (hour start =? 7); simpl; auto.
  destruct (Z.eqb_spec (minute start) 0), (Z.leb_spec (minute start) 0); auto; lia.
Qed.

Lemma in_OPENING_SHIFT_CODES T code :
  In code (OPENING_SHIFT_CODES T) <->
  exists tpl, In (code, tpl) T /\ is_opening_start (tpl_start tpl) = true.
Proof.
  unfold OPENING_SHIFT_CODES. rewrite in_map_iff. split.
  - intros ([c tpl] & E & I). simpl in E; subst c.
    apply filter_In in I. simpl in I. exists tpl. tauto.
  - intros (tpl & I & O). exists (code, tpl). split; auto.
    apply filter_In. auto.
Qed.

Lemma in_CLOSING_SHIFT_CODES T code :
  In code (CLOSING_SHIFT_CODES T) <->
  exists tpl, In (code, tpl) T /\ is_closing_end (tpl_end tpl) = true.
Proof.
  unfold CLOSING_SHIFT_CODES. rewrite in_map_iff. split.
  - intros ([c tpl] & E & I). simpl in E; subst c.
    apply filter_In in I. simpl in I. exists tpl. tauto.
  - intros (tpl & I & O). exists (code, tpl). split; auto.
    apply filter_In. auto.
Qed.

(** Opening is decided by the comparison the comment gives: a code is in
    [OPENING_SHIFT_CODES] exactly when a row of the catalogue gives it a
    start at or before 07:00. *)
Lemma opening_codes_spec T code :
  (forall c tpl, In (c, tpl) T -> 0 <= minute (tpl_start tpl)) ->
  (In code (OPENING_SHIFT_CODES T) <->
   exists tpl, In (code, tpl) T /\ time_le (tpl_start tpl) (mk_time 7 0) = true).
Proof.
  intros M. rewrite in_OPENING_SHIFT_CODES.
  split; intros (tpl & I & O); exists tpl; split; auto.
  - rewrite <- is_opening_start_spec; eauto.
  - rewrite is_opening_start_spec; eauto.
Qed.

(** C5.  Closing is not decided by [end >= 22:00]: the shift "L" of the
    catalogue ends at 22:30, which is at or after 22:00, and the loop leaves
    it out of [CLOSING_SHIFT_CODES], which holds "2F" alone. *)
Theorem closing_code_missed_after_2200 :
  PyDict.get "L" TEMPLATES_WITH_LATE = Some LATE_SHIFT
  /\ time_le (mk_time 22 0) (tpl_end LATE_SHIFT) = true
  /\ is_closing_end (tpl_end LATE_SHIFT) = false
  /\ list_mem "L" (CLOSING_SHIFT_CODES TEMPLATES_WITH_LATE) = false
  /\ CLOSING_SHIFT_CODES TEMPLATES_WITH_LATE = ["2F"].
Proof. repeat split; reflexivity. Qed.

(* ===================================================================== *)
(** ** The statuses and lists the generator tests *)

Lemma status_accepted_false s :
  status_accepted s = false <-> s <> OPTIMAL /\ s <> FEASIBLE.
Proof. destruct s; simpl; split; try tauto; intros; try split; congruence. Qed.

Lemma nonempty_false {A} (l : list A) : nonempty l = false <-> l = [].
Proof. destruct l; simpl; split; congruence. Qed.


(* ===================================================================== *)
(** ** Sorting *)

Lemma insert_by_perm {A} (le : A -> A -> bool) x l :
  Permutation (insert_by le x l) (x :: l).
Proof.
  induction l as [|y l IH]; simpl; auto.
  destruct (le x y); auto.
  rewrite IH. apply perm_swap.
Qed.

Lemma sorted_by_perm {A} (le : A -> A -> bool) l : Permutation (sorted_by le l) l.
Proof.
  induction l as [|x l IH]; simpl; auto.
  rewrite insert_by_perm. now constructor.
Qed.

Section SortedByKey.
Context {A : Type} (key : A -> Z).
Let le x y := key x <=? key y.
Let R x y := key x <= key y.

Lemma insert_by_sorted x l :
  StronglySorted R l -> StronglySorted R (insert_by le x l).
Proof.
  induction 1 as [|y l S IH F]; simpl.
  - repeat constructor.
  - unfold le at 1. destruct (Z.leb_spec (key x) (key y)) as [L | L].
    + constructor; [now constructor|].
      constructor; [exact L|].
      eapply Forall_impl; [|exact F]. unfold R. intros; lia.
    + constructor; auto.
      eapply Permutation_Forall; [symmetry; apply insert_by_perm|].
      constructor; auto. unfold R; lia.
Qed.

Lemma sorted_by_sorted l : StronglySorted R (sorted_by le l).
Proof.
  induction l as [|x l IH]; simpl; [constructor|].
  now apply insert_by_sorted.
Qed.

Lemma sorted_by_keys_sorted l :
  StronglySorted Z.le (map key (sorted_by le l)).
Proof.
  generalize (sorted_by_sorted l). generalize (sorted_by le l).
  induction 1 as [|y l' S IH F]; simpl; constructor; auto.
  rewrite Forall_map. exact F.
Qed.
End SortedByKey.

Lemma sorted_perm_eq (l1 l2 : list Z) :
  StronglySorted Z.le l1 -> StronglySorted Z.le l2 -> Permutation l1 l2 -> l1 = l2.
Proof.
  revert l2. induction l1 as [|a l1 IH]; intros l2 S1 S2 P.
  - apply Permutation_nil in P. now subst.
  - destruct l2 as [|b l2].
    { symmetry in P. apply Permutation_nil in P. discriminate. }
    inversion S1 as [|? ? S1' F1]; inversion S2 as [|? ? S2' F2]; subst.
    assert (a = b).
    { assert (Ia : In a (b :: l2)) by (eapply Permutation_in; eauto; now left).
      assert (Ib : In b (a :: l1))
        by (eapply Permutation_in; [symmetry; eauto|now left]).
      rewrite Forall_forall in F1, F2.
      destruct Ia as [-> | Ia]; auto.
      destruct Ib as [-> | Ib]; auto.
      specialize (F1 _ Ib). specialize (F2 _ Ia). lia. }
    subst b. f_equal. apply IH; auto.
    eapply Permutation_cons_inv; eauto.
Qed.

Lemma days_from_sorted d k n :
  StronglySorted Z.le (map (fun i => d + Z.of_nat i) (seq k n)).
Proof.
  revert k. induction n as [|n IH]; intros k; simpl; constructor; auto.
  rewrite Forall_map, Forall_forall. intros i I. apply in_seq in I. lia.
Qed.

Lemma emp_assignments_sorted_dates emp_id assignments ds :
  StronglySorted Z.le ds ->
  Permutation
    (map a_date (filter (fun a => String.eqb (a_employee_id a) emp_id) assignments)) ds ->
  map a_date (emp_assignments_sorted emp_id assignments) = ds.
Proof.
  intros S P. apply sorted_perm_eq; auto.
  - apply (sorted_by_keys_sorted a_date).
  - rewrite <- P. apply Permutation_map. apply sorted_by_perm.
Qed.

(* ===================================================================== *)
(** ** Consecutive working days *)

Lemma consecutive_walk_first_overrun emp later : forall a streak,
  consecutive_walk emp streak (combine (a :: later) later)
  = match find (fun sd => MAX_CONSECUTIVE_WORKING_DAYS <? fst sd)
               (running_streaks (a_date a) streak (map a_date later)) with
    | Some (s, day) => [MAX_CONSECUTIVE_violation emp s day]
    | None => []
    end.
Proof.
  induction later as [|b later IH]; intros a streak; [reflexivity|].
  cbn [combine consecutive_walk map running_streaks find fst].
  destruct (MAX_CONSECUTIVE_WORKING_DAYS
            <? (if a_date b - a_date a =? 1 then streak + 1 else 1)).
  - reflexivity.
  - apply IH.
Qed.

(** The walk of the code is the search for the first overrun. *)
Lemma check_consecutive_first_overrun emp_id emp assignments :
  check_consecutive emp_id emp assignments
  = match first_overrun (map a_date (emp_assignments_sorted emp_id assignments)) with
    | Some (s, day) => [MAX_CONSECUTIVE_violation emp s day]
    | None => []
    end.
Proof.
  unfold check_consecutive, first_overrun.
  destruct (emp_assignments_sorted emp_id assignments) as [|a later]; [reflexivity|].
  unfold adjacent_pairs. cbn [tl map streaks_of find fst].
  change (MAX_CONSECUTIVE_WORKING_DAYS <? 1) with false. cbv iota.
  apply consecutive_walk_first_overrun.
Qed.

Lemma next_day_eqb d k : (d + Z.of_nat (S k) - (d + Z.of_nat k) =? 1) = true.
Proof. apply Z.eqb_eq. lia. Qed.

Lemma first_overrun_run d n :
  (7 <= n)%nat -> first_overrun (run_of_days d n) = Some (7, d + 6).
Proof.
  intros L. unfold run_of_days.
  do 7 (destruct n as [|n]; [lia|]).
  unfold first_overrun. cbn [seq map streaks_of running_streaks].
  rewrite !next_day_eqb. reflexivity.
Qed.

(* ===================================================================== *)
(** ** The codes each step of [check_roster] can emit *)

Lemma filter_flat_map {A B} (f : B -> bool) (g : A -> list B) l :
  filter f (flat_map g l) = flat_map (fun x => filter f (g x)) l.
Proof.
  induction l as [|x l IH]; simpl; auto.
  now rewrite filter_app, IH.
Qed.

Lemma flat_map_all_nil {A B} (g : A -> list B) l :
  (forall x, In x l -> g x = []) -> flat_map g l = [].
Proof.
  induction l as [|x l IH]; simpl; intros E; auto.
  rewrite (E x), IH; auto.
Qed.

Lemma filter_all_false {A} (f : A -> bool) l :
  Forall (fun v => f v = false) l -> filter f l = [].
Proof. induction 1 as [|x l E F IH]; simpl; auto. now rewrite E. Qed.

Lemma with_code_other cs c vs :
  only_codes cs vs -> ~ In c cs -> with_code c vs = [].
Proof.
  intros O N. apply filter_all_false.
  eapply Forall_impl; [|exact O]. intros v I; simpl in I.
  destruct (String.eqb_spec (v_code v) c); auto. subst; contradiction.
Qed.

Lemma with_code_of_other cs c e vs :
  only_codes cs vs -> ~ In c cs -> with_code_of c e vs = [].
Proof.
  intros O N. apply filter_all_false.
  eapply Forall_impl; [|exact O]. intros v I; simpl in I.
  destruct (String.eqb_spec (v_code v) c); auto. subst; contradiction.
Qed.

Lemma with_code_app c l1 l2 :
  with_code c (l1 ++ l2) = with_code c l1 ++ with_code c l2.
Proof. apply filter_app. Qed.

Lemma with_code_of_app c e l1 l2 :
  with_code_of c e (l1 ++ l2) = with_code_of c e l1 ++ with_code_of c e l2.
Proof. apply filter_app. Qed.

Lemma only_codes_for_employees cs ctx body :
  (forall emp_id emp, only_codes cs (body emp_id emp)) ->
  only_codes cs (for_employees ctx body).
Proof.
  intros B. unfold only_codes, for_employees.
  apply Forall_flat_map, Forall_forall. intros kv _. apply B.
Qed.

Ltac codes_by_cases :=
  repeat match goal with
         | |- context [match ?x with _ => _ end] => destruct x
         | |- context [if ?b then _ else _] => destruct b
         end;
  repeat apply Forall_cons; try apply Forall_nil; simpl; auto 6.

Lemma codes_contract_hours emp_id emp hours :
  only_codes ["MIN_HOURS_NOT_MET"; "MAX_HOURS_EXCEEDED"]
             (check_contract_hours emp_id emp hours).
Proof. unfold only_codes, check_contract_hours. codes_by_cases. Qed.

Lemma codes_check_week emp_id emp min_w max_w weekly_hours w :
  only_codes ["WEEKLY_MIN_HOURS_NOT_MET"; "WEEKLY_MAX_HOURS_EXCEEDED"]
             (check_week emp_id emp min_w max_w weekly_hours w).
Proof. unfold only_codes, check_week. codes_by_cases. Qed.

Lemma codes_weekly_hours emp_id emp weekly_hours :
  only_codes ["WEEKLY_MIN_HOURS_NOT_MET"; "WEEKLY_MAX_HOURS_EXCEEDED"]
             (check_weekly_hours emp_id emp weekly_hours).
Proof.
  unfold only_codes, check_weekly_hours.
  destruct (WEEKLY_CONTRACT_HOURS_BOUNDS _) as [[min_w max_w]|]; [|constructor].
  apply Forall_flat_map, Forall_forall. intros w _. apply codes_check_week.
Qed.

Lemma codes_casual_shift T ctx a :
  only_codes ["MIN_SHIFT_LENGTH_CASUAL"] (check_casual_shift T ctx a).
Proof. unfold only_codes, check_casual_shift. codes_by_cases. Qed.

Lemma codes_rest T emp_id emp assignments :
  only_codes ["INSUFFICIENT_REST"] (check_rest T emp_id emp assignments).
Proof.
  unfold only_codes, check_rest.
  apply Forall_flat_map, Forall_forall. intros [prev nxt] _.
  unfold check_rest_pair. codes_by_cases.
Qed.

Lemma codes_consecutive emp_id emp assignments :
  only_codes ["MAX_CONSECUTIVE_DAYS_EXCEEDED"] (check_consecutive emp_id emp assignments).
Proof.
  rewrite check_consecutive_first_overrun. unfold only_codes.
  destruct (first_overrun _) as [[s day]|];
    repeat apply Forall_cons; try apply Forall_nil; simpl; auto.
Qed.

Lemma codes_unknown_employee ctx a :
  only_codes ["UNKNOWN_EMPLOYEE"] (check_unknown_employee ctx a).
Proof. unfold only_codes, check_unknown_employee. codes_by_cases. Qed.

Lemma only_codes_flat_map {A} cs (g : A -> list Violation) l :
  (forall x, only_codes cs (g x)) -> only_codes cs (flat_map g l).
Proof.
  intros G. unfold only_codes. apply Forall_flat_map, Forall_forall. intros x _. apply G.
Qed.

Ltac not_in_codes := simpl; intuition discriminate.

Lemma check_roster_steps T ctx roster :
  check_roster T ctx roster
  = step_contract T ctx roster ++ step_weekly T ctx roster ++ step_casual T ctx roster
    ++ step_rest T ctx roster ++ step_consecutive ctx roster ++ step_unknown ctx roster.
Proof. reflexivity. Qed.

Lemma codes_step_contract T ctx roster :
  only_codes ["MIN_HOURS_NOT_MET"; "MAX_HOURS_EXCEEDED"] (step_contract T ctx roster).
Proof. apply only_codes_for_employees; intros; apply codes_contract_hours. Qed.

Lemma codes_step_weekly T ctx roster :
  only_codes ["WEEKLY_MIN_HOURS_NOT_MET"; "WEEKLY_MAX_HOURS_EXCEEDED"]
             (step_weekly T ctx roster).
Proof. apply only_codes_for_employees; intros; apply codes_weekly_hours. Qed.

Lemma codes_step_casual T ctx roster :
  only_codes ["MIN_SHIFT_LENGTH_CASUAL"] (step_casual T ctx roster).
Proof. apply only_codes_flat_map; intros; apply codes_casual_shift. Qed.

Lemma codes_step_rest T ctx roster :
  only_codes ["INSUFFICIENT_REST"] (step_rest T ctx roster).
Proof. apply only_codes_for_employees; intros; apply codes_rest. Qed.

Lemma codes_step_consecutive ctx roster :
  only_codes ["MAX_CONSECUTIVE_DAYS_EXCEEDED"] (step_consecutive ctx roster).
Proof. apply only_codes_for_employees; intros; apply codes_consecutive. Qed.

Lemma codes_step_unknown ctx roster :
  only_codes ["UNKNOWN_EMPLOYEE"] (step_unknown ctx roster).
Proof. apply only_codes_flat_map; intros; apply codes_unknown_employee. Qed.

(** The MAX_CONSECUTIVE_DAYS_EXCEEDED violations of a roster come from
    step 5 alone. *)
Lemma check_roster_consecutive T ctx roster e :
  with_code_of "MAX_CONSECUTIVE_DAYS_EXCEEDED" e (check_roster T ctx roster)
  = with_code_of "MAX_CONSECUTIVE_DAYS_EXCEEDED" e (step_consecutive ctx roster).
Proof.
  rewrite check_roster_steps, !with_code_of_app.
  rewrite (with_code_of_other _ _ e _ (codes_step_contract T ctx roster)) by not_in_codes.
  rewrite (with_code_of_other _ _ e _ (codes_step_weekly T ctx roster)) by not_in_codes.
  rewrite (with_code_of_other _ _ e _ (codes_step_casual T ctx roster)) by not_in_codes.
  rewrite (with_code_of_other _ _ e _ (codes_step_rest T ctx roster)) by not_in_codes.
  rewrite (with_code_of_other _ _ e _ (codes_step_unknown ctx roster)) by not_in_codes.
  simpl. now rewrite app_nil_r.
Qed.

Lemma consecutive_of_other_employee emp_id emp assignments e :
  e_id emp <> e ->
  with_code_of "MAX_CONSECUTIVE_DAYS_EXCEEDED" e
               (check_consecutive emp_id emp assignments) = [].
Proof.
  intros N. rewrite check_consecutive_first_overrun.
  destruct (first_overrun _) as [[s day]|]; [|reflexivity].
  unfold with_code_of; simpl.
  destruct (String.eqb_spec (e_id emp) e); [contradiction|reflexivity].
Qed.

(** C7.  The walk of step 5 is the search for the first date whose streak
    is above 6, and it reports that date alone; an employee whose
    assignments fall on [n >= 7] consecutive calendar days starting at [d]
    gets exactly one MAX_CONSECUTIVE_DAYS_EXCEEDED, of severity HARD, dated
    at the seventh day [d + 6] with streak 7. *)
Theorem consecutive_days_cap :
  (forall emp_id emp assignments,
      check_consecutive emp_id emp assignments
      = match first_overrun (map a_date (emp_assignments_sorted emp_id assignments)) with
        | Some (s, day) => [MAX_CONSECUTIVE_violation emp s day]
        | None => []
        end)
  /\
  (forall T ctx roster before emp_id emp after d n,
      employees ctx = before ++ (emp_id, emp) :: after ->
      (forall kv, In kv (before ++ after) -> e_id (snd kv) <> e_id emp) ->
      Permutation
        (map a_date (filter (fun a => String.eqb (a_employee_id a) emp_id)
                            (r_assignments roster)))
        (run_of_days d n) ->
      (7 <= n)%nat ->
      with_code_of "MAX_CONSECUTIVE_DAYS_EXCEEDED" (e_id emp) (check_roster T ctx roster)
      = [MAX_CONSECUTIVE_violation emp 7 (d + 6)]).
Proof.
  split; [exact check_consecutive_first_overrun|].
  intros T ctx roster before emp_id emp after d n E O P L.
  rewrite check_roster_consecutive.
  unfold step_consecutive, for_employees, with_code_of.
  rewrite E, filter_flat_map, flat_map_app.
  cbn [flat_map fst snd].
  fold (with_code_of "MAX_CONSECUTIVE_DAYS_EXCEEDED" (e_id emp)).
  rewrite !flat_map_all_nil.
  - rewrite check_consecutive_first_overrun.
    rewrite (emp_assignments_sorted_dates _ _ (run_of_days d n));
      [|apply days_from_sorted|exact P].
    rewrite first_overrun_run by exact L.
    unfold with_code_of; simpl. now rewrite String.eqb_refl.
  - intros kv I. apply consecutive_of_other_employee. apply O.
    apply in_or_app; now right.
  - intros kv I. apply consecutive_of_other_employee. apply O.
    apply in_or_app; now left.
Qed.

Lemma consecutive_days_cap_witness :
  with_code_of "MAX_CONSECUTIVE_DAYS_EXCEEDED" "e1"
               (check_roster DEFAULT_SHIFT_TEMPLATES ctx_one_casual roster_seven_days)
  = [MAX_CONSECUTIVE_violation casual_e1 7 106].
Proof.
  refine (proj2 consecutive_days_cap DEFAULT_SHIFT_TEMPLATES ctx_one_casual
            roster_seven_days [] "e1" casual_e1 [] 100 7%nat _ _ _ _).
  - reflexivity.
  - intros kv [].
  - apply Permutation_refl.
  - lia.
Defined.

(* ===================================================================== *)
(** ** Weekly buckets *)

Section WeeklyHours.
Variable T : dict string ShiftTemplate.
Variable roster : Roster.
Variables (emp_id : string) (w : Z).







End WeeklyHours.

(** The WEEKLY_MIN_HOURS_NOT_MET violations of a roster come from step 2b
    alone, that is from the buckets 0 and 1 of the employees. *)
Lemma check_roster_weekly_min T ctx roster :
  with_code "WEEKLY_MIN_HOURS_NOT_MET" (check_roster T ctx roster)
  = with_code "WEEKLY_MIN_HOURS_NOT_MET" (step_weekly T ctx roster).
Proof.
  rewrite check_roster_steps, !with_code_app.
  rewrite (with_code_other _ _ _ (codes_step_contract T ctx roster)) by not_in_codes.
  rewrite (with_code_other _ _ _ (codes_step_casual T ctx roster)) by not_in_codes.
  rewrite (with_code_other _ _ _ (codes_step_rest T ctx roster)) by not_in_codes.
  rewrite (with_code_other _ _ _ (codes_step_consecutive ctx roster)) by not_in_codes.
  rewrite (with_code_other _ _ _ (codes_step_unknown ctx roster)) by not_in_codes.
  simpl. now rewrite app_nil_r.
Qed.




(* ===================================================================== *)
(** ** Under-coverage on a day without staff *)

Section NoStaffDay.
Variable T : dict string ShiftTemplate.
Variables (ctx : SystemContext) (start_date end_date : date).

Let t := build_tables ctx start_date end_date.

Lemma allowed_cache_absent (emp : Employee) (dt : date) (l : list (Employee * date)) :
  sorted_allowed (availability_map_of ctx) (e_id emp) dt = [] ->
  forall cache,
    PyDict.get (e_id emp, dt) cache = None ->
    PyDict.get (e_id emp, dt)
      (fold_left
         (fun cache ed =>
            let allowed_codes :=
              sorted_allowed (availability_map_of ctx) (e_id (fst ed)) (snd ed) in
            match allowed_codes with
            | [] => cache
            | _ => PyDict.set (e_id (fst ed), snd ed) allowed_codes cache
            end) l cache) = None.
Proof.
  intros E. induction l as [|ed l IH]; intros cache G; simpl; [exact G|].
  apply IH.
  destruct (sorted_allowed (availability_map_of ctx) (e_id (fst ed)) (snd ed))
    as [|c cs] eqn:A; [exact G|].
  rewrite get_set_neq; [exact G|].
  intros K. injection K as K1 K2. rewrite <- K1, <- K2 in A. congruence.
Qed.

Lemma codes_of_no_staff emp dt :
  sorted_allowed (availability_map_of ctx) (e_id emp) dt = [] ->
  codes_of t emp dt = [].
Proof.
  intros E. unfold codes_of, PyDict.get_or, t, build_tables.
  cbn [t_allowed_shift_codes].
  now rewrite (allowed_cache_absent emp dt _ E).
Qed.

Lemma day_vars_no_staff dt : no_staff_on ctx dt -> day_vars_of t dt = [].
Proof.
  intros N. unfold day_vars_of. apply flat_map_all_nil. intros emp I.
  rewrite codes_of_no_staff; [reflexivity|]. apply N. exact I.
Qed.

Lemma demand_constraint_no_staff dt :
  no_staff_on ctx dt ->
  demand_constraint ctx t dt = under_coverage_is_zero ctx start_date end_date dt.
Proof.
  intros N. unfold demand_constraint. now rewrite day_vars_no_staff.
Qed.

Lemma demand_constraint_posted dt :
  In dt (planning_dates start_date end_date) ->
  In (demand_constraint ctx t dt) (m_constraints (build_model T ctx start_date end_date)).
Proof.
  intros I. unfold build_model. cbn [m_constraints]. fold t.
  do 4 (apply in_or_app; right). apply in_or_app; left.
  unfold demand_coverage, post_all. cbn [snd].
  apply in_flat_map. exists dt. split; [exact I|now left].
Qed.

Lemma satisfies_constraint val m c :
  satisfies val m = true -> In c (m_constraints m) -> constraint_holds val c = true.
Proof.
  unfold satisfies. rewrite andb_true_iff. intros [_ H] I.
  rewrite forallb_forall in H. now apply H.
Qed.

Lemma under_coverage_is_zero_holds val dt :
  constraint_holds val (under_coverage_is_zero ctx start_date end_date dt) = true
  <-> val (UNDER_COV (d_idx_of t dt)) = 0.
Proof.
  unfold t, constraint_holds, under_coverage_is_zero, Add, lin_sum, lin_of_const, eval_lin.
  cbn [c_enforce c_rel c_lhs c_rhs lin_terms lin_const map fold_right fst snd rel_holds].
  rewrite Z.eqb_eq. lia.
Qed.
End NoStaffDay.

(** The tables depend on the employees and on availability alone. *)
Lemma build_tables_demand ctx ctx' start_date end_date :
  employees ctx' = employees ctx -> availability ctx' = availability ctx ->
  build_tables ctx' start_date end_date = build_tables ctx start_date end_date.
Proof.
  intros E A. unfold build_tables, availability_map_of. now rewrite E, A.
Qed.

(** What the builder does on a day without staff.  On a date of the
    planning window on which no employee has an allowed shift code,
    whatever the demand, the builder posts [under_coverage == 0]: every
    valuation that satisfies the model gives the slack of that day the
    value 0, the constraint of the day holds exactly for these valuations,
    and the model is the same model for any other demand on that day. *)
Theorem no_staff_day_pins_slack_to_zero T ctx start_date end_date dt :
  In dt (planning_dates start_date end_date) ->
  no_staff_on ctx dt ->
  let t := build_tables ctx start_date end_date in
  let model := build_model T ctx start_date end_date in
  let uc := UNDER_COV (d_idx_of t dt) in
  demand_constraint ctx t dt = Add (lin_sum [uc]) REL_EQ (lin_of_const 0)
  /\ In (Add (lin_sum [uc]) REL_EQ (lin_of_const 0)) (m_constraints model)
  /\ (forall val, satisfies val model = true -> val uc = 0)
  /\ (forall val, constraint_holds val (demand_constraint ctx t dt) = true <-> val uc = 0)
  /\ (forall ctx',
         employees ctx' = employees ctx -> availability ctx' = availability ctx ->
         (forall dt', dt' <> dt -> demand_today_of ctx' dt' = demand_today_of ctx dt') ->
         build_model T ctx' start_date end_date = model).
Proof.
  intros I N t model uc.
  pose proof (demand_constraint_no_staff ctx start_date end_date dt N) as D.
  pose proof (demand_constraint_posted T ctx start_date end_date dt I) as P.
  fold t in D, P. fold model in P.
  change (Add (lin_sum [uc]) REL_EQ (lin_of_const 0))
    with (under_coverage_is_zero ctx start_date end_date dt).
  split; [exact D|]. split; [now rewrite <- D|]. split; [|split].
  - intros val S.
    apply (under_coverage_is_zero_holds ctx start_date end_date val dt).
    rewrite <- D. eapply satisfies_constraint; eauto.
  - intros val. rewrite D.
    apply (under_coverage_is_zero_holds ctx start_date end_date val dt).
  - intros ctx' E A O. subst model. unfold build_model.
    rewrite (build_tables_demand ctx ctx' start_date end_date E A). fold t.
    assert (C : demand_coverage ctx' t = demand_coverage ctx t).
    { unfold demand_coverage, post_all. f_equal. cbn [snd].
      apply flat_map_ext. intros dt'. f_equal.
      destruct (Z.eq_dec dt' dt) as [-> | Ne].
      - rewrite D. unfold demand_constraint.
        pose proof (day_vars_no_staff ctx start_date end_date dt N) as V.
        fold t in V. now rewrite V.
      - unfold demand_constraint. now rewrite (O dt' Ne). }
    now rewrite C.
Qed.

Lemma no_staff_day_pins_slack_to_zero_witness :
  In (Add (lin_sum [UNDER_COV 1]) REL_EQ (lin_of_const 0))
     (m_constraints (build_model DEFAULT_SHIFT_TEMPLATES ctx_shortfall 100 101))
  /\ work_day_100 (UNDER_COV 1) = 0.
Proof.
  assert (D : In 101 (planning_dates 100 101)) by (right; left; reflexivity).
  assert (N : no_staff_on ctx_shortfall 101) by (intros emp [<- | []]; reflexivity).
  pose proof (no_staff_day_pins_slack_to_zero DEFAULT_SHIFT_TEMPLATES ctx_shortfall
                100 101 101 D N) as (_ & P & Z & _).
  split; [exact P|].
  apply Z. vm_compute. reflexivity.
Defined.

(** C2.  The docstring of the generator has, for each date,
    total_assigned[d] + under_coverage[d] >= demand[d], and that is the
    constraint the builder posts for a staffed day with demand.  In
    [ctx_no_staff_day] day 101 has a demand of 2 and nobody available, and
    the slack of the day ranges over 0..2, so it could absorb the demand:
    [slack_absorbs_day_101] meets the stated constraint of every day.  The
    builder posts [under_coverage == 0] for day 101 instead of the stated
    constraint.  The model stays feasible ([work_day_100] satisfies it),
    but in every valuation that satisfies it the slack of day 101 is 0:
    the assigned staff and the slack add up to 0, below the demand, the
    stated constraint fails, and nothing absorbs the shortfall of the
    day. *)
Theorem no_staff_day_drops_stated_constraint :
  let t := build_tables ctx_no_staff_day 100 101 in
  let model := build_model DEFAULT_SHIFT_TEMPLATES ctx_no_staff_day 100 101 in
  demand_today_of ctx_no_staff_day 101 = 2
  /\ no_staff_on ctx_no_staff_day 101
  /\ In (NewIntVar 0 2 (UNDER_COV 1)) (m_vars model)
  /\ constraint_holds slack_absorbs_day_101
       (stated_demand_constraint ctx_no_staff_day t 100) = true
  /\ constraint_holds slack_absorbs_day_101
       (stated_demand_constraint ctx_no_staff_day t 101) = true
  /\ demand_constraint ctx_no_staff_day t 101
     = Add (lin_sum [UNDER_COV 1]) REL_EQ (lin_of_const 0)
  /\ In (demand_constraint ctx_no_staff_day t 101) (m_constraints model)
  /\ ~ In (stated_demand_constraint ctx_no_staff_day t 101) (m_constraints model)
  /\ In (stated_demand_constraint ctx_no_staff_day t 100) (m_constraints model)
  /\ satisfies work_day_100 model = true
  /\ satisfies slack_absorbs_day_101 model = false
  /\ (forall val,
         satisfies val model = true ->
         val (UNDER_COV 1) = 0
         /\ eval_lin val (lin_sum (day_vars_of t 101)) + val (UNDER_COV 1)
            < demand_today_of ctx_no_staff_day 101
         /\ constraint_holds val (stated_demand_constraint ctx_no_staff_day t 101)
            = false).
Proof.
  intros t model.
  assert (D : In 101 (planning_dates 100 101)) by (right; left; reflexivity).
  assert (N : no_staff_on ctx_no_staff_day 101)
    by (intros emp [<- | [<- | []]]; reflexivity).
  split; [reflexivity|]. split; [exact N|].
  split; [vm_compute; tauto|].
  split; [reflexivity|]. split; [reflexivity|]. split; [reflexivity|].
  split; [apply demand_constraint_posted; exact D|].
  split.
  { intros I. vm_compute in I.
    repeat (destruct I as [I | I]; [discriminate|]). exact I. }
  split.
  { replace (stated_demand_constraint ctx_no_staff_day t 100)
      with (demand_constraint ctx_no_staff_day t 100) by reflexivity.
    apply demand_constraint_posted. left; reflexivity. }
  split; [vm_compute; reflexivity|].
  split; [vm_compute; reflexivity|].
  intros val S.
  assert (U : val (UNDER_COV 1) = 0).
  { apply (under_coverage_is_zero_holds ctx_no_staff_day 100 101 val 101).
    rewrite <- (demand_constraint_no_staff ctx_no_staff_day 100 101 101 N).
    apply (satisfies_constraint val model); [exact S|].
    apply demand_constraint_posted. exact D. }
  split; [exact U|].
  assert (V : day_vars_of t 101 = []) by reflexivity.
  split.
  - rewrite V, U. reflexivity.
  - unfold stated_demand_constraint. rewrite V.
    change (d_idx_of t 101) with 1%nat.
    change (demand_today_of ctx_no_staff_day 101) with 2.
    unfold constraint_holds, Add, lin_add, lin_sum, lin_of_const, eval_lin.
    cbn [c_enforce c_rel c_lhs c_rhs lin_terms lin_const map app fold_right fst snd
         rel_holds].
    rewrite U. reflexivity.
Qed.

(* ===================================================================== *)
(** ** The resolver changes employee ids and nothing else *)

Lemma same_slots_refl h : same_slots h h.
Proof. intros r. reflexivity. Qed.

Lemma same_slots_trans h1 h2 h3 :
  same_slots h1 h2 -> same_slots h2 h3 -> same_slots h1 h3.
Proof. intros A B r. now rewrite B, A. Qed.

Lemma set_employee_id_slots h a new_id : same_slots h (set_employee_id h a new_id).
Proof.
  intros r. unfold set_employee_id.
  destruct (Nat.eqb_spec r a) as [-> | N]; reflexivity.
Qed.

Section ResolverSlots.
Variable T : dict string ShiftTemplate.
Variable ctx : SystemContext.
Variable assignments : list ref.

Lemma relieve_slots st overloaded_id :
  same_slots (rs_heap st) (rs_heap (relieve T ctx assignments st overloaded_id)).
Proof.
  unfold relieve.
  destruct (PyDict.get overloaded_id (employees ctx)) as [emp|];
    [|apply same_slots_refl].
  destruct (CONTRACT_HOURS_BOUNDS (e_contract_type emp)) as [[min_h max_h]|];
    [|apply same_slots_refl].
  destruct (Qle_bool _ max_h); [apply same_slots_refl|].
  destruct (first_movable _ _ _ _ _ _ _) as [[[a candidate_id] shift_hours]|];
    [|apply same_slots_refl].
  cbn [rs_heap]. apply set_employee_id_slots.
Qed.

Lemma relieve_all_slots ids : forall st,
  same_slots (rs_heap st) (rs_heap (fold_left (relieve T ctx assignments) ids st)).
Proof.
  induction ids as [|o ids IH]; intros st; simpl; [apply same_slots_refl|].
  eapply same_slots_trans; [apply relieve_slots|apply IH].
Qed.

Lemma repair_loop_slots iterations : forall h logs,
  same_slots h (fst (repair_loop T ctx assignments iterations h logs)).
Proof.
  induction iterations as [|i later IH]; intros h logs; simpl;
    [apply same_slots_refl|].
  destruct (overloaded_ids_of ctx _) as [|o ids] eqn:O; [apply same_slots_refl|].
  set (st := fold_left _ _ _).
  assert (S : same_slots h (rs_heap st)).
  { subst st. apply (relieve_all_slots (o :: ids)
                       (mk_state h (_compute_hours_by_employee T (map h assignments))
                                 false logs)). }
  destruct (rs_progress_made st); [|exact S].
  eapply same_slots_trans; [exact S|apply IH].
Qed.
End ResolverSlots.

(** C9.  The roster returned by [rebalance_hours], read in the store the
    call leaves, has as many assignments as the input roster read in the
    store the call found; position by position they agree on date, shift
    code, station and store id, so the multisets of these tuples are equal;
    and the store id and the date range of the roster are those of the
    input. *)
Theorem rebalance_hours_keeps_slots T max_iterations ctx h roster :
  let result := rebalance_hours T max_iterations ctx h roster in
  let roster_in := roster_value h roster in
  let roster_out := roster_value (fst (fst result)) (snd (fst result)) in
  List.length (r_assignments roster_out) = List.length (r_assignments roster_in)
  /\ map slot (r_assignments roster_out) = map slot (r_assignments roster_in)
  /\ Permutation (map slot (r_assignments roster_out))
                 (map slot (r_assignments roster_in))
  /\ r_store_id roster_out = r_store_id roster_in
  /\ r_start_date roster_out = r_start_date roster_in
  /\ r_end_date roster_out = r_end_date roster_in.
Proof.
  intros result roster_in roster_out.
  assert (S : same_slots h (fst (fst result))).
  { subst result. unfold rebalance_hours.
    pose proof (repair_loop_slots T ctx (ro_assignments roster)
                  (seq 0 (Z.to_nat max_iterations)) h []) as S.
    destruct (repair_loop _ _ _ _ _ _) as [h' logs]. exact S. }
  assert (R : snd (fst result)
              = mk_RosterObj (ro_store_id roster) (ro_start_date roster)
                             (ro_end_date roster) (ro_assignments roster)).
  { subst result. unfold rebalance_hours.
    destruct (repair_loop _ _ _ _ _ _) as [h' logs]. reflexivity. }
  assert (M : map slot (r_assignments roster_out) = map slot (r_assignments roster_in)).
  { subst roster_out roster_in. rewrite R. unfold roster_value; cbn [r_assignments ro_assignments].
    rewrite !map_map. apply map_ext. intros r. apply S. }
  split.
  - rewrite <- (length_map slot), M. apply length_map.
  - split; [exact M|]. split; [rewrite M; apply Permutation_refl|].
    subst roster_out roster_in. rewrite R. repeat split.
Qed.

(* ===================================================================== *)
(** ** The resolver writes to the caller's assignments *)

(** C4.  [rebalance_hours] returns a new roster object over a copy of the
    list, but the copy holds the caller's assignment objects, and the
    reassignment writes to them.  After the call the caller's roster
    [roster_before] reads differently: its assignment of day 105 is held by
    e2, where it was held by e1 before. *)
Theorem rebalance_hours_writes_to_input_assignments :
  let heap_after := fst (fst rebalanced) in
  let roster_after := snd (fst rebalanced) in
  ro_assignments roster_after = ro_assignments roster_before
  /\ snd rebalanced = [LogReassigning "2F" 105 "e1" "e2"; LogNoOverloaded 1]
  /\ a_employee_id (heap_before 5%nat) = "e1"
  /\ a_employee_id (heap_after 5%nat) = "e2"
  /\ r_assignments (roster_value heap_before roster_before) = six_late_shifts
  /\ r_assignments (roster_value heap_after roster_before)
     = map (fun dt => mk_ShiftAssignment "e1" dt "2F" None "store_1")
           [100; 101; 102; 103; 104]
       ++ [mk_ShiftAssignment "e2" 105 "2F" None "store_1"]
  /\ roster_value heap_after roster_before <> roster_value heap_before roster_before.
Proof.
  cbv zeta. repeat split; try (vm_compute; reflexivity).
  intros E. apply (f_equal r_assignments) in E. vm_compute in E. discriminate.
Qed.

(* ===================================================================== *)
(** ** The resolver never overloads an employee *)

Lemma compute_hours_fold T l : forall acc e,
  (PyDict.get_or e 0
     (fold_left
        (fun hours_by_emp a =>
           add_hours (a_employee_id a) (shift_hours_of T (a_shift_code a)) hours_by_emp)
        l acc)
   == PyDict.get_or e 0%Q acc + hours_of T l e)%Q.
Proof.
  induction l as [|a l IH]; intros acc e; simpl.
  - ring.
  - rewrite IH. destruct (String.eqb_spec (a_employee_id a) e) as [E | N].
    + rewrite E, get_or_add_hours_eq. ring.
    + rewrite get_or_add_hours_neq by congruence. reflexivity.
Qed.

Lemma aggregated_hours_spec T roster e :
  (aggregated_hours T roster e == hours_of T (r_assignments roster) e)%Q.
Proof.
  unfold aggregated_hours, _compute_hours_by_employee.
  rewrite compute_hours_fold. unfold PyDict.get_or; simpl. ring.
Qed.

Lemma map_set_employee_id_other h a c l :
  ~ In a l -> map (set_employee_id h a c) l = map h l.
Proof.
  intros N. apply map_ext_in. intros r I. unfold set_employee_id.
  destruct (Nat.eqb_spec r a); [subst; contradiction|reflexivity].
Qed.

(** Moving the object [a] to [c] adds its hours to [c] and takes them from
    its former holder. *)
Lemma hours_after_move T h a c l e :
  NoDup l -> In a l ->
  (hours_of T (map (set_employee_id h a c) l) e
   == hours_of T (map h l) e
      + (if String.eqb c e then shift_hours_of T (a_shift_code (h a)) else 0)
      - (if String.eqb (a_employee_id (h a)) e
         then shift_hours_of T (a_shift_code (h a)) else 0))%Q.
Proof.
  induction l as [|r l IH]; intros ND I; [contradiction|].
  inversion ND as [|? ? NI ND']; subst.
  destruct (Nat.eq_dec r a) as [-> | Ne].
  - cbn [map]. rewrite (map_set_employee_id_other h a c l NI).
    unfold set_employee_id at 1. rewrite Nat.eqb_refl.
    cbn [hours_of fold_right a_employee_id a_shift_code].
    fold (hours_of T (map h l) e).
    destruct (String.eqb c e), (String.eqb (a_employee_id (h a)) e); ring.
  - destruct I as [E | I]; [contradiction|].
    cbn [map]. unfold set_employee_id at 1.
    destruct (Nat.eqb_spec r a) as [E | _]; [contradiction|].
    cbn [hours_of fold_right].
    fold (hours_of T (map (set_employee_id h a c) l) e).
    fold (hours_of T (map h l) e).
    destruct (String.eqb (a_employee_id (h r)) e); rewrite (IH ND' I); ring.
Qed.

Lemma candidacy_within_max am assigned hb d code sh ex k emp :
  candidacy am assigned hb d code sh ex k emp <> NotEligible ->
  k <> ex
  /\ exists min_h max_h,
       CONTRACT_HOURS_BOUNDS (e_contract_type emp) = Some (min_h, max_h)
       /\ (PyDict.get_or k 0%Q hb + sh <= max_h)%Q.
Proof.
  unfold candidacy.
  destruct (String.eqb_spec k ex) as [E | N]; [congruence|].
  destruct (negb _); [congruence|].
  destruct (list_mem k assigned); [congruence|].
  destruct (CONTRACT_HOURS_BOUNDS (e_contract_type emp)) as [[min_h max_h]|];
    [|congruence].
  destruct (Qlt_bool max_h (PyDict.get_or k 0%Q hb + sh)%Q) eqn:L; [congruence|].
  intros _. split; [exact N|]. exists min_h, max_h. split; [reflexivity|].
  now apply Qlt_bool_false.
Qed.

(** A replacement is an employee of the context, other than the excluded
    one, whose hours plus the hours of the shift stay within the maximum of
    their contract. *)
Lemma find_replacement_within_max ctx assignments hb d code sh ex c :
  _find_replacement_employee ctx assignments hb d code sh ex = Some c ->
  c <> ex
  /\ exists emp min_h max_h,
       In (c, emp) (employees ctx)
       /\ CONTRACT_HOURS_BOUNDS (e_contract_type emp) = Some (min_h, max_h)
       /\ (PyDict.get_or c 0%Q hb + sh <= max_h)%Q.
Proof.
  unfold _find_replacement_employee. cbv zeta.
  set (verdict := fun kv : string * Employee =>
         candidacy (resolver_availability_map ctx)
           (map a_employee_id (filter (fun a => a_date a =? d) assignments))
           hb d code sh ex (fst kv) (snd kv)).
  assert (P : forall (pick : Candidacy -> bool) rest,
             pick NotEligible = false ->
             map fst (filter (fun kv => pick (verdict kv)) (employees ctx)) = c :: rest ->
             c <> ex
             /\ exists emp min_h max_h,
                  In (c, emp) (employees ctx)
                  /\ CONTRACT_HOURS_BOUNDS (e_contract_type emp) = Some (min_h, max_h)
                  /\ (PyDict.get_or c 0%Q hb + sh <= max_h)%Q).
  { intros pick rest PN E.
    assert (I : In c (map fst (filter (fun kv => pick (verdict kv)) (employees ctx))))
      by (rewrite E; now left).
    apply in_map_iff in I. destruct I as ([k emp] & Ek & I). simpl in Ek. subst k.
    apply filter_In in I. destruct I as [I V].
    destruct (candidacy_within_max (resolver_availability_map ctx)
                (map a_employee_id (filter (fun a => a_date a =? d) assignments))
                hb d code sh ex c emp) as (N & mn & mx & B & L).
    { intros F. unfold verdict in V. cbn [fst snd] in V. rewrite F in V. congruence. }
    split; [exact N|]. exists emp, mn, mx. auto. }
  match goal with
  | |- context [match map fst (filter ?f (employees ctx)) with _ => _ end] =>
      destruct (map fst (filter f (employees ctx))) as [|u us] eqn:U
  end.
  - match goal with
    | |- context [match map fst (filter ?f (employees ctx)) with _ => _ end] =>
        destruct (map fst (filter f (employees ctx))) as [|n ns] eqn:Nm
    end; [intros [=]|].
    intros [= ->].
    apply (P (fun v => match v with Normal => true | _ => false end) ns eq_refl Nm).
  - intros [= ->].
    apply (P (fun v => match v with UnderMin => true | _ => false end) us eq_refl U).
Qed.

Lemma first_movable_spec T ctx h assignments hb o emp_assignments a c sh :
  first_movable T ctx h assignments hb o emp_assignments = Some (a, c, sh) ->
  In a emp_assignments
  /\ sh = shift_hours_of T (a_shift_code (h a))
  /\ _find_replacement_employee ctx (map h assignments) hb (a_date (h a))
       (a_shift_code (h a)) sh o = Some c.
Proof.
  induction emp_assignments as [|b l IH]; simpl; [discriminate|].
  destruct (_find_replacement_employee ctx (map h assignments) hb (a_date (h b))
              (a_shift_code (h b)) (shift_hours_of T (a_shift_code (h b))) o)
    as [cand|] eqn:F.
  - intros E. injection E as E1 E2 E3. subst b cand sh. auto.
  - intros E. destruct (IH E) as (I & S & R). auto.
Qed.

Lemma emp_refs_latest_first_spec h assignments o a :
  In a (emp_refs_latest_first h assignments o) ->
  In a assignments /\ a_employee_id (h a) = o.
Proof.
  unfold emp_refs_latest_first. intros I.
  eapply Permutation_in in I; [|apply sorted_by_perm].
  apply filter_In in I. destruct I as [I E]. apply String.eqb_eq in E. auto.
Qed.

Section ResolverHours.
Variable T : dict string ShiftTemplate.
Variable ctx : SystemContext.
Hypothesis keys_nodup : NoDup (PyDict.keys (employees ctx)).
Variable refs : list ref.
Hypothesis refs_nodup : NoDup refs.
Variable h0 : Heap.

Local Abbreviation consistent := (hours_consistent T refs).
Local Abbreviation still_within_max := (within_max_kept T ctx refs h0).

Lemma relieve_invariant st o :
  consistent st -> still_within_max (rs_heap st) ->
  consistent (relieve T ctx refs st o)
  /\ still_within_max (rs_heap (relieve T ctx refs st o)).
Proof.
  intros C W. unfold relieve.
  destruct (PyDict.get o (employees ctx)) as [emp_o|] eqn:G; [|auto].
  destruct (CONTRACT_HOURS_BOUNDS (e_contract_type emp_o)) as [[min_o max_o]|] eqn:B;
    [|auto].
  destruct (Qle_bool (PyDict.get_or o 0%Q (rs_hours_by_emp st)) max_o) eqn:L; [auto|].
  destruct (first_movable _ _ _ _ _ _ _) as [[[a c] sh]|] eqn:F; [|auto].
  apply first_movable_spec in F. destruct F as (Ia & Esh & R).
  apply find_replacement_within_max in R.
  destruct R as (Nco & emp_c & min_c & max_c & Ic & Bc & Lc).
  apply emp_refs_latest_first_spec in Ia. destruct Ia as (Ia & Eo).
  cbn [rs_heap rs_hours_by_emp].
  pose proof (fun e => hours_after_move T (rs_heap st) a c refs e refs_nodup Ia) as M.
  rewrite Eo, <- Esh in M.
  assert (Over : ~ (PyDict.get_or o 0%Q (rs_hours_by_emp st) <= max_o)%Q).
  { intros Le. apply Qle_bool_iff in Le. congruence. }
  split.
  - unfold hours_consistent. cbn [rs_heap rs_hours_by_emp].
    intros e. rewrite M, <- (C e). unfold PyDict.get_or.
    destruct (String.eqb_spec c e) as [Ec | Nc].
    + subst e. rewrite get_set_eq.
      destruct (String.eqb_spec o c) as [Eoc | _]; [congruence|].
      rewrite get_set_neq by exact Nco. ring.
    + rewrite get_set_neq by congruence.
      destruct (String.eqb_spec o e) as [Eoe | Noe].
      * subst e. rewrite get_set_eq. ring.
      * rewrite get_set_neq by congruence. ring.
  - unfold within_max_kept. cbn [rs_heap].
    intros k emp min_h max_h Ik Bk Hin. rewrite M.
    destruct (String.eqb_spec c k) as [Ec | Nc].
    + subst k.
      destruct (String.eqb_spec o c) as [Eoc | _]; [congruence|].
      assert (emp = emp_c).
      { pose proof (In_get _ _ _ keys_nodup Ik) as G1.
        pose proof (In_get _ _ _ keys_nodup Ic) as G2. congruence. }
      subst emp. rewrite Bc in Bk. injection Bk as -> ->.
      rewrite <- (C c). lra.
    + destruct (String.eqb_spec o k) as [Eok | Nok].
      * subst k. exfalso. apply Over.
        pose proof (In_get _ _ _ keys_nodup Ik) as G1.
        rewrite G in G1. injection G1 as ->.
        rewrite B in Bk. injection Bk as -> ->.
        rewrite (C o). eapply W; eauto.
      * pose proof (W k emp min_h max_h Ik Bk Hin). lra.
Qed.

Lemma relieve_all_invariant ids : forall st,
  consistent st -> still_within_max (rs_heap st) ->
  consistent (fold_left (relieve T ctx refs) ids st)
  /\ still_within_max (rs_heap (fold_left (relieve T ctx refs) ids st)).
Proof.
  induction ids as [|o ids IH]; intros st C W; simpl; [auto|].
  destruct (relieve_invariant st o C W) as [C' W']. now apply IH.
Qed.

Lemma repair_loop_invariant iterations : forall h logs,
  still_within_max h ->
  still_within_max (fst (repair_loop T ctx refs iterations h logs)).
Proof.
  induction iterations as [|i later IH]; intros h logs W; simpl; [exact W|].
  destruct (overloaded_ids_of ctx _) as [|o ids] eqn:O; [exact W|].
  set (st0 := mk_state h (_compute_hours_by_employee T (map h refs)) false logs).
  assert (C0 : consistent st0).
  { intros e. unfold st0; cbn [rs_hours_by_emp rs_heap].
    apply (aggregated_hours_spec T (mk_Roster "" 0 0 (map h refs)) e). }
  destruct (relieve_all_invariant (o :: ids) st0 C0 W) as [_ W1].
  change (fold_left (relieve T ctx refs) ids (relieve T ctx refs st0 o))
    with (fold_left (relieve T ctx refs) (o :: ids) st0).
  destruct (rs_progress_made _); [|exact W1].
  now apply IH.
Qed.
End ResolverHours.

(** What the resolver's test achieves when no sum rounds, with the hours
    as rationals.  A replacement is accepted only when the candidate's
    aggregated hours plus the hours of the shift are at most the two-week
    maximum of the candidate's contract; and an employee of the context
    whose aggregated hours are at most their maximum in the input roster is
    at most at their maximum in the roster returned.  The employees are the
    entries of a dictionary (distinct keys) and the assignments of the
    roster are distinct objects. *)
Theorem rebalance_hours_never_overloads T max_iterations ctx h roster :
  NoDup (PyDict.keys (employees ctx)) ->
  NoDup (ro_assignments roster) ->
  (forall assignments hours_by_emp date_ shift_code shift_hours exclude_emp_id c,
      _find_replacement_employee ctx assignments hours_by_emp date_ shift_code
        shift_hours exclude_emp_id = Some c ->
      exists emp min_h max_h,
        In (c, emp) (employees ctx)
        /\ CONTRACT_HOURS_BOUNDS (e_contract_type emp) = Some (min_h, max_h)
        /\ (PyDict.get_or c 0%Q hours_by_emp + shift_hours <= max_h)%Q)
  /\
  (forall emp_id emp min_h max_h,
      In (emp_id, emp) (employees ctx) ->
      CONTRACT_HOURS_BOUNDS (e_contract_type emp) = Some (min_h, max_h) ->
      let result := rebalance_hours T max_iterations ctx h roster in
      let roster_in := roster_value h roster in
      let roster_out := roster_value (fst (fst result)) (snd (fst result)) in
      (aggregated_hours T roster_in emp_id <= max_h)%Q ->
      (aggregated_hours T roster_out emp_id <= max_h)%Q).
Proof.
  intros KN RN. split.
  - intros assignments hb d code sh ex c F.
    destruct (find_replacement_within_max _ _ _ _ _ _ _ _ F)
      as (_ & emp & mn & mx & I & B & L).
    exists emp, mn, mx. auto.
  - intros emp_id emp min_h max_h I B result roster_in roster_out Hin.
    rewrite aggregated_hours_spec in Hin |- *.
    subst result roster_in roster_out. unfold rebalance_hours.
    pose proof (repair_loop_invariant T ctx KN (ro_assignments roster) RN h
                  (seq 0 (Z.to_nat max_iterations)) h []) as W.
    destruct (repair_loop _ _ _ _ _ _) as [h' logs].
    cbn [fst snd roster_value r_assignments ro_assignments] in *.
    apply (W (fun _ _ _ _ _ _ L => L) emp_id emp min_h max_h I B Hin).
Qed.

Lemma rebalance_hours_never_overloads_witness :
  (aggregated_hours DEFAULT_SHIFT_TEMPLATES
     (roster_value (fst (fst rebalanced)) (snd (fst rebalanced))) "e2" <= 48)%Q.
Proof.
  assert (KN : NoDup (PyDict.keys (employees ctx_two_casuals))).
  { repeat constructor; simpl; intuition discriminate. }
  assert (RN : NoDup (ro_assignments roster_before)).
  { repeat constructor; simpl; intuition discriminate. }
  refine (proj2 (rebalance_hours_never_overloads DEFAULT_SHIFT_TEMPLATES 20
                   ctx_two_casuals heap_before roster_before KN RN)
                "e2" casual_e2 16%Q 48%Q _ _ _).
  - right; left; reflexivity.
  - reflexivity.
  - vm_compute. discriminate.
Defined.

(* ===================================================================== *)
(** ** What the tables of the builder hold *)

Lemma In_set {K V} `{Key K} (d : dict K V) k v k' v' :
  In (k, v) (PyDict.set k' v' d) -> In (k, v) d \/ (k = k' /\ v = v').
Proof.
  induction d as [|[k0 v0] d IH]; simpl.
  - intros [E | []]. inversion E; auto.
  - destruct (keqb k' k0) eqn:E; simpl.
    + apply keqb_spec in E; subst k0. intros [E | I]; [|auto].
      inversion E; auto.
    + intros [E' | I]; [auto|]. destruct (IH I); auto.
Qed.

Lemma set_fresh {K V} `{Key K} (d : dict K V) k v :
  ~ In k (PyDict.keys d) -> PyDict.set k v d = d ++ [(k, v)].
Proof.
  induction d as [|[k0 v0] d IH]; simpl; intros N; [reflexivity|].
  destruct (keqb k k0) eqn:E.
  - apply keqb_spec in E. subst. tauto.
  - rewrite IH; tauto.
Qed.

(** A fold of keyed writes, the value a function of the key. *)
Section KeyedWrites.
Context {K V Y : Type} `{Key K} (kf : Y -> K) (vf : K -> V).

Let write (d : dict K V) (y : Y) : dict K V := PyDict.set (kf y) (vf (kf y)) d.

Lemma keyed_writes_keep l : forall d k,
  PyDict.get k d = Some (vf k) -> PyDict.get k (fold_left write l d) = Some (vf k).
Proof.
  induction l as [|y l IH]; intros d k G; simpl; [exact G|].
  apply IH. unfold write.
  destruct (keqb k (kf y)) eqn:E.
  - apply keqb_spec in E. subst k. apply get_set_eq.
  - apply keqb_neq in E. now rewrite get_set_neq.
Qed.

Lemma keyed_writes_get l : forall d k,
  In k (map kf l) -> PyDict.get k (fold_left write l d) = Some (vf k).
Proof.
  induction l as [|y l IH]; intros d k I; simpl in *; [contradiction|].
  destruct (keqb k (kf y)) eqn:E.
  - apply keqb_spec in E. subst k. apply keyed_writes_keep. apply get_set_eq.
  - apply keqb_neq in E. destruct I as [I | I]; [congruence|]. now apply IH.
Qed.

Lemma keyed_writes_In l : forall d k v,
  In (k, v) (fold_left write l d) ->
  In (k, v) d \/ (In k (map kf l) /\ v = vf k).
Proof.
  induction l as [|y l IH]; intros d k v I; simpl in *; [auto|].
  destruct (IH _ _ _ I) as [J | [J E]]; [|auto].
  destruct (In_set _ _ _ _ _ J) as [J' | [-> ->]]; auto.
Qed.

Lemma keyed_writes_fresh l : forall d,
  NoDup (PyDict.keys d ++ map kf l) ->
  fold_left write l d = d ++ map (fun y => (kf y, vf (kf y))) l.
Proof.
  induction l as [|y l IH]; intros d ND; simpl; [now rewrite app_nil_r|].
  assert (F : ~ In (kf y) (PyDict.keys d)).
  { intros I. apply NoDup_remove_2 in ND. apply ND. apply in_or_app; now left. }
  unfold write at 2. rewrite (set_fresh d _ _ F), IH.
  - now rewrite <- app_assoc.
  - unfold PyDict.keys in *. rewrite map_app; simpl. rewrite <- app_assoc. exact ND.
Qed.
End KeyedWrites.

Lemma fold_left_flat_map {A B C} (f : A -> C -> A) (g : B -> list C) l : forall acc,
  fold_left (fun acc b => fold_left f (g b) acc) l acc = fold_left f (flat_map g l) acc.
Proof.
  induction l as [|b l IH]; intros acc; simpl; [reflexivity|].
  now rewrite fold_left_app, IH.
Qed.

Lemma fold_left_invariant {A B} (P : A -> Prop) (f : A -> B -> A) l : forall acc,
  (forall acc b, P acc -> P (f acc b)) -> P acc -> P (fold_left f l acc).
Proof. induction l as [|b l IH]; intros acc S I; simpl; auto. Qed.

Lemma grows_fold {A B C} (f : list A -> B -> list A) (g : C -> list B) :
  grows f -> grows (fun acc c => fold_left f (g c) acc).
Proof.
  intros G acc c x I. revert acc I.
  induction (g c) as [|b l IH]; intros acc I; simpl; auto.
Qed.

Lemma grows_covers {A B} (f : list A -> B -> list A) l x b :
  grows f -> In b l -> (forall acc, In x (f acc b)) ->
  forall acc, In x (fold_left f l acc).
Proof.
  intros G I C. induction l as [|b' l IH]; intros acc; simpl in *; [contradiction|].
  destruct I as [-> | I]; [|now apply IH].
  apply (grows_fold f (fun l : list B => l) G (f acc b) l x). apply C.
Qed.

Lemma list_mem_In {K} `{Key K} (k : K) l : list_mem k l = true <-> In k l.
Proof.
  unfold list_mem. rewrite existsb_exists. split.
  - intros (x & I & E). apply keqb_spec in E. now subst.
  - intros I. exists k. split; auto. apply keqb_refl.
Qed.

Lemma dedup_In {K} `{Key K} (k : K) l : In k (dedup l) <-> In k l.
Proof.
  induction l as [|x l IH]; simpl; [tauto|].
  destruct (list_mem x l) eqn:M.
  - apply list_mem_In in M. rewrite IH. split; [auto|]. intros [-> | I]; auto.
  - simpl. rewrite IH. tauto.
Qed.

Lemma dedup_NoDup {K} `{Key K} (l : list K) : NoDup (dedup l).
Proof.
  induction l as [|x l IH]; simpl; [constructor|].
  destruct (list_mem x l) eqn:M; auto.
  constructor; auto. rewrite dedup_In. intros I. apply list_mem_In in I. congruence.
Qed.

(** [index_dict] gives each element of a list without repeated keys its
    position. *)
Section IndexDict.
Context {A K : Type} `{Key K} (key : A -> K).

Let enter (d : dict K nat) (iv : nat * A) : dict K nat :=
  PyDict.set (key (snd iv)) (fst iv) d.

Lemma index_fold_other l : forall n d k,
  ~ In k (map key l) ->
  PyDict.get k (fold_left enter (enumerate_from n l) d) = PyDict.get k d.
Proof.
  induction l as [|x l IH]; intros n d k N; simpl in *; [reflexivity|].
  rewrite IH by tauto. unfold enter; simpl. apply get_set_neq. intros E. subst. tauto.
Qed.

Lemma index_fold_get l : forall n d i x,
  NoDup (map key l) -> nth_error l i = Some x ->
  PyDict.get (key x) (fold_left enter (enumerate_from n l) d) = Some (n + i)%nat.
Proof.
  induction l as [|y l IH]; intros n d i x ND E; [destruct i; discriminate|].
  inversion ND as [|? ? NI ND']; subst. destruct i as [|i]; simpl in *.
  - injection E as ->. rewrite index_fold_other by exact NI.
    unfold enter; simpl. rewrite get_set_eq. f_equal. lia.
  - rewrite (IH (S n) _ i x ND' E). f_equal. lia.
Qed.

Lemma index_dict_get l i x :
  NoDup (map key l) -> nth_error l i = Some x ->
  PyDict.get (key x) (index_dict key l) = Some i.
Proof. intros ND E. apply (index_fold_get l 0%nat [] i x ND E). Qed.
End IndexDict.

Lemma planning_dates_In start_date end_date dt :
  In dt (planning_dates start_date end_date) <-> start_date <= dt <= end_date.
Proof.
  unfold planning_dates. rewrite in_map_iff. split.
  - intros (i & <- & I). apply in_seq in I. lia.
  - intros R. exists (Z.to_nat (dt - start_date)). split; [lia|].
    apply in_seq. lia.
Qed.

Lemma planning_dates_nth start_date end_date dt :
  In dt (planning_dates start_date end_date) ->
  nth_error (planning_dates start_date end_date) (Z.to_nat (dt - start_date)) = Some dt.
Proof.
  intros I. apply planning_dates_In in I. unfold planning_dates.
  rewrite nth_error_map, nth_error_seq.
  destruct (Nat.ltb_spec (Z.to_nat (dt - start_date)) (Z.to_nat (end_date - start_date + 1)));
    [|lia].
  simpl. f_equal. lia.
Qed.

Lemma planning_dates_NoDup start_date end_date :
  NoDup (planning_dates start_date end_date).
Proof.
  unfold planning_dates. apply NoDup_map_NoDup_ForallPairs; [|apply seq_NoDup].
  intros i j _ _ E. lia.
Qed.

Lemma adjacent_pairs_cons {A} (x y : A) l :
  adjacent_pairs (x :: y :: l) = (x, y) :: adjacent_pairs (y :: l).
Proof. reflexivity. Qed.

Lemma adjacent_pairs_seq {A} (f : nat -> A) n : forall k i,
  (k <= i)%nat -> (S i < k + n)%nat ->
  In (f i, f (S i)) (adjacent_pairs (map f (seq k n))).
Proof.
  induction n as [|n IH]; intros k i L U; [lia|].
  destruct n as [|n]; [lia|].
  cbn [seq map]. rewrite adjacent_pairs_cons.
  destruct (Nat.eq_dec i k) as [-> | N].
  - now left.
  - right. apply (IH (S k) i); lia.
Qed.

Lemma planning_dates_adjacent start_date end_date dt :
  In dt (planning_dates start_date end_date) ->
  In (dt + 1) (planning_dates start_date end_date) ->
  In (dt, dt + 1) (adjacent_pairs (planning_dates start_date end_date)).
Proof.
  intros I J. apply planning_dates_In in I. apply planning_dates_In in J.
  unfold planning_dates.
  pose proof (adjacent_pairs_seq (fun i => start_date + Z.of_nat i)
                (Z.to_nat (end_date - start_date + 1)) 0%nat
                (Z.to_nat (dt - start_date))) as P.
  cbv beta in P.
  replace (start_date + Z.of_nat (Z.to_nat (dt - start_date))) with dt in P by lia.
  replace (start_date + Z.of_nat (S (Z.to_nat (dt - start_date)))) with (dt + 1) in P
    by lia.
  apply P; lia.
Qed.

Lemma fold_left_map_arg {A B C} (f : A -> C -> A) (h : B -> C) l : forall acc,
  fold_left f (map h l) acc = fold_left (fun a b => f a (h b)) l acc.
Proof. induction l as [|b l IH]; intros acc; simpl; auto. Qed.

Lemma fold_left_ext_eq {A B} (f g : A -> B -> A) l : forall acc,
  (forall a b, f a b = g a b) -> fold_left f l acc = fold_left g l acc.
Proof.
  induction l as [|b l IH]; intros acc E; simpl; [reflexivity|].
  rewrite E. now apply IH.
Qed.

(** A fold of cached writes: the value is a function of the key and an
    empty value is not stored. *)
Section CachedWrites.
Context {K C Y : Type} `{Key K} (kf : Y -> K) (F : K -> list C).

Let store (d : dict K (list C)) (y : Y) : dict K (list C) :=
  match F (kf y) with
  | [] => d
  | _ :: _ => PyDict.set (kf y) (F (kf y)) d
  end.

Let fits (k : K) (d : dict K (list C)) : Prop :=
  PyDict.get k d = None \/ PyDict.get k d = Some (F k).

Let settled (k : K) (d : dict K (list C)) : Prop :=
  PyDict.get_or k [] d = F k /\ fits k d.

Lemma store_fits k d y : fits k d -> fits k (store d y).
Proof.
  unfold fits, store. intros I.
  destruct (F (kf y)) as [|c cs] eqn:E; [exact I|].
  destruct (keqb k (kf y)) eqn:Q.
  - apply keqb_spec in Q. subst k. right. rewrite get_set_eq. now rewrite E.
  - apply keqb_neq in Q. now rewrite get_set_neq.
Qed.

Lemma store_settled k d y : settled k d -> settled k (store d y).
Proof.
  unfold settled. intros [G I]. split; [|now apply store_fits].
  unfold store. destruct (F (kf y)) as [|c cs] eqn:E; [exact G|].
  unfold PyDict.get_or.
  destruct (keqb k (kf y)) eqn:Q.
  - apply keqb_spec in Q. subst k. rewrite get_set_eq. now rewrite E.
  - apply keqb_neq in Q. rewrite get_set_neq by exact Q. exact G.
Qed.

Lemma store_own_key d y : fits (kf y) d -> settled (kf y) (store d y).
Proof.
  intros I. split; [|now apply store_fits].
  unfold store, PyDict.get_or. destruct (F (kf y)) as [|c cs] eqn:E.
  - destruct I as [-> | ->]; [reflexivity|now rewrite E].
  - now rewrite get_set_eq.
Qed.

Lemma cached_writes_get l : forall d k,
  fits k d -> In k (map kf l) -> PyDict.get_or k [] (fold_left store l d) = F k.
Proof.
  induction l as [|y l IH]; intros d k I J; simpl in *; [contradiction|].
  destruct (keqb k (kf y)) eqn:Q.
  - apply keqb_spec in Q. subst k.
    apply (fold_left_invariant (settled (kf y)) store l (store d y)).
    + intros acc b S. now apply store_settled.
    + now apply store_own_key.
  - apply keqb_neq in Q. destruct J as [J | J]; [congruence|].
    apply IH; [now apply store_fits|exact J].
Qed.
End CachedWrites.

Section TablesFacts.
Variables (ctx : SystemContext) (start_date end_date : date).
Hypothesis ids_distinct : NoDup (map e_id (PyDict.values (employees ctx))).

Let t := build_tables ctx start_date end_date.
Let amap := availability_map_of ctx.

Lemma t_employees_eq : t_employees t = PyDict.values (employees ctx).
Proof. reflexivity. Qed.

Lemma t_dates_eq : t_dates t = planning_dates start_date end_date.
Proof. reflexivity. Qed.

Lemma all_shift_codes_NoDup : NoDup (t_all_shift_codes t).
Proof.
  unfold t, build_tables; cbn [t_all_shift_codes]. unfold all_shift_codes_of.
  apply fold_left_invariant; [|constructor]. intros acc by_date N.
  apply fold_left_invariant; [|exact N]. clear. intros acc codes N.
  apply fold_left_invariant; [|exact N]. clear. intros acc code N.
  destruct (list_mem code acc) eqn:M; [exact N|].
  apply NoDup_app; [exact N|repeat constructor; simpl; tauto|].
  intros x I [<- | []]. apply list_mem_In in I. congruence.
Qed.

Lemma add_code_grows :
  grows (fun (acc : list string) code =>
           if list_mem code acc then acc else acc ++ [code]).
Proof.
  intros acc code x I. destruct (list_mem code acc); [exact I|].
  apply in_or_app; now left.
Qed.

Lemma allowed_in_all_shift_codes emp_id dt code :
  In code (sorted_allowed amap emp_id dt) -> In code (t_all_shift_codes t).
Proof.
  unfold sorted_allowed. intros I.
  eapply Permutation_in in I; [|apply sorted_by_perm].
  unfold PyDict.get_or in I. revert I.
  match goal with
  | |- In code (match ?g with _ => _ end) -> _ => destruct g as [codes|] eqn:G2
  end; [|intros []].
  intros I. revert G2.
  match goal with
  | |- PyDict.get dt (match ?g with _ => _ end) = _ -> _ =>
      destruct g as [by_date|] eqn:G1
  end; [|simpl; discriminate].
  intros G2.
  apply get_In in G1. destruct G1 as (k1 & _ & I1).
  apply get_In in G2. destruct G2 as (k2 & _ & I2).
  unfold t, build_tables; cbn [t_all_shift_codes]. unfold all_shift_codes_of.
  fold amap.
  apply (grows_covers _ (PyDict.values amap) code by_date).
  - apply (grows_fold _ PyDict.values
             (grows_fold _ (fun codes : list string => codes) add_code_grows)).
  - unfold PyDict.values. change by_date with (snd (k1, by_date)). now apply in_map.
  - intros acc.
    apply (grows_covers _ (PyDict.values by_date) code codes).
    + apply (grows_fold _ (fun codes : list string => codes) add_code_grows).
    + unfold PyDict.values. change codes with (snd (k2, codes)). now apply in_map.
    + intros acc'. apply (grows_covers _ codes code code add_code_grows I).
      intros acc''. destruct (list_mem code acc'') eqn:M.
      * now apply list_mem_In.
      * apply in_or_app; right; now left.
Qed.

Lemma e_idx_nth emp :
  In emp (t_employees t) -> nth_error (t_employees t) (e_idx_of t emp) = Some emp.
Proof.
  intros I. destruct (In_nth_error _ _ I) as [i E].
  unfold e_idx_of, PyDict.get_or, t, build_tables; cbn [t_emp_index].
  rewrite (index_dict_get e_id _ i emp ids_distinct E). exact E.
Qed.

Lemma d_idx_nth dt :
  In dt (t_dates t) -> nth_error (t_dates t) (d_idx_of t dt) = Some dt.
Proof.
  intros I. destruct (In_nth_error _ _ I) as [i E].
  unfold d_idx_of, PyDict.get_or, t, build_tables; cbn [t_date_index].
  rewrite (index_dict_get (fun dt : date => dt) _ i dt); [exact E| |exact E].
  rewrite map_id. apply planning_dates_NoDup.
Qed.

Lemma s_idx_nth code :
  In code (t_all_shift_codes t) ->
  nth_error (t_all_shift_codes t) (s_idx_of t code) = Some code.
Proof.
  intros I. destruct (In_nth_error _ _ I) as [i E].
  unfold s_idx_of, PyDict.get_or, t, build_tables; cbn [t_shift_index].
  rewrite (index_dict_get (fun c : string => c) _ i code); [exact E| |exact E].
  rewrite map_id. apply all_shift_codes_NoDup.
Qed.

Lemma employee_dates_In employees_ dates (emp : Employee) (dt : date) :
  In (emp, dt) (employee_dates employees_ dates) <-> In emp employees_ /\ In dt dates.
Proof.
  unfold employee_dates. rewrite in_flat_map. split.
  - intros (e & I & J). apply in_map_iff in J. destruct J as (d & E & J).
    inversion E; subst. auto.
  - intros [I J]. exists emp. split; [exact I|]. apply in_map_iff. eauto.
Qed.

(** The cache holds, for an employee and a date of the window, the sorted
    allowed codes. *)
Lemma codes_of_allowed emp dt :
  In emp (t_employees t) -> In dt (t_dates t) ->
  codes_of t emp dt = sorted_allowed amap (e_id emp) dt.
Proof.
  intros I J. unfold codes_of, t, build_tables; cbn [t_allowed_shift_codes].
  apply (cached_writes_get
           (fun ed : Employee * date => (e_id (fst ed), snd ed))
           (fun k : string * date => sorted_allowed amap (fst k) (snd k))
           (employee_dates (PyDict.values (employees ctx))
                           (planning_dates start_date end_date))
           [] (e_id emp, dt)).
  - now left.
  - apply in_map_iff. exists (emp, dt). split; [reflexivity|].
    apply employee_dates_In. auto.
Qed.

Local Abbreviation triples := (variable_triples ctx start_date end_date).
Local Abbreviation key_of := (key_of_triple ctx start_date end_date).

Lemma variable_triples_In emp dt code :
  In (emp, dt, code) triples
  <-> In emp (t_employees t) /\ In dt (t_dates t)
      /\ In code (sorted_allowed amap (e_id emp) dt).
Proof.
  unfold triples. rewrite in_flat_map. split.
  - intros ([e d] & I & J). apply in_map_iff in J. destruct J as (c & E & J).
    inversion E; subst. apply employee_dates_In in I. simpl in J. tauto.
  - intros (I & J & L). exists (emp, dt). split; [now apply employee_dates_In|].
    apply in_map_iff. exists code. auto.
Qed.

Lemma t_x_as_writes :
  t_x t = fold_left (fun x tr => PyDict.set (key_of tr)
                                            (var_of_key (key_of tr)) x)
                    triples [].
Proof.
  unfold triples. rewrite <- fold_left_flat_map.
  unfold t at 1, build_tables; cbn [t_x].
  apply fold_left_ext_eq. intros x ed. rewrite fold_left_map_arg. reflexivity.
Qed.

Lemma x_get_triple emp dt code :
  In (emp, dt, code) triples ->
  x_get t emp dt code = Some (X (e_idx_of t emp) (d_idx_of t dt) (s_idx_of t code)).
Proof.
  intros I. unfold x_get. rewrite t_x_as_writes.
  apply (keyed_writes_get key_of var_of_key triples []
                          (key_of (emp, dt, code))).
  apply in_map. exact I.
Qed.

Lemma t_x_entry k v :
  In (k, v) (t_x t) ->
  exists emp dt code,
    In (emp, dt, code) triples
    /\ k = key_of (emp, dt, code) /\ v = var_of_key k.
Proof.
  rewrite t_x_as_writes. intros I.
  apply keyed_writes_In in I. destruct I as [[] | [I E]].
  apply in_map_iff in I. destruct I as ([[emp dt] code] & Ek & I).
  exists emp, dt, code. auto.
Qed.

(** What [decode] returns: an assignment for each created variable that
    the solver set to 1, and nothing else. *)
Lemma decode_In val store_id a :
  In a (decode t val store_id) ->
  exists emp dt code,
    In (emp, dt, code) triples
    /\ val (X (e_idx_of t emp) (d_idx_of t dt) (s_idx_of t code)) = 1
    /\ a = mk_ShiftAssignment (e_id emp) dt code None store_id.
Proof.
  unfold decode. rewrite in_flat_map. intros ([[[e d] s] var] & I & J).
  destruct (t_x_entry _ _ I) as (emp & dt & code & Tr & Ek & Ev).
  exists emp, dt, code. split; [exact Tr|].
  apply variable_triples_In in Tr. destruct Tr as (Ie & Id & Ic).
  unfold key_of in Ek; cbn [fst snd] in Ek. injection Ek as -> -> ->.
  subst var. unfold var_of_key in J; cbn [fst snd] in J. fold t in J.
  destruct (Z.eqb_spec (val (X (e_idx_of t emp) (d_idx_of t dt) (s_idx_of t code))) 1)
    as [V | V]; [|contradiction].
  rewrite (e_idx_nth emp Ie), (d_idx_nth dt Id) in J.
  rewrite (s_idx_nth code (allowed_in_all_shift_codes _ _ _ Ic)) in J.
  destruct J as [<- | []]. auto.
Qed.
End TablesFacts.

(* ===================================================================== *)
(** ** Generated rosters and the rest rule *)

Lemma nonempty_In {A} (x : A) l : In x l -> nonempty l = true.
Proof. destruct l; simpl; [contradiction|reflexivity]. Qed.

Lemma rest_exclusion_posted T t emp day next_day code_today code_next var_today var_next :
  In emp (t_employees t) ->
  In (day, next_day) (adjacent_pairs (t_dates t)) ->
  In code_today (codes_of t emp day) ->
  In code_next (codes_of t emp next_day) ->
  Qlt_bool (_rest_hours_between_codes T code_today code_next)
           MIN_REST_HOURS_BETWEEN_DAYS = true ->
  x_get t emp day code_today = Some var_today ->
  x_get t emp next_day code_next = Some var_next ->
  In (Add (lin_sum [var_today; var_next]) REL_LE (lin_of_const 1)) (rest_exclusions T t).
Proof.
  intros Ie Id It In_ R Xt Xn. unfold rest_exclusions.
  apply in_flat_map. exists emp. split; [exact Ie|].
  apply in_flat_map. exists (day, next_day). split; [exact Id|].
  cbv beta iota.
  rewrite (nonempty_In _ _ It), (nonempty_In _ _ In_). cbn [negb orb].
  apply in_flat_map. exists code_today. split; [exact It|].
  apply in_flat_map. exists code_next. split; [exact In_|].
  rewrite R, Xt, Xn. now left.
Qed.

Lemma rest_exclusions_in_model T ctx start_date end_date c :
  In c (rest_exclusions T (build_tables ctx start_date end_date)) ->
  In c (m_constraints (build_model T ctx start_date end_date)).
Proof.
  intros I. unfold build_model. cbn [m_constraints].
  do 3 (apply in_or_app; right). apply in_or_app; now left.
Qed.

Lemma rest_hours_next_day T prev nxt :
  a_date nxt - a_date prev = 1 ->
  rest_hours_between T prev nxt
  = _rest_hours_between_codes T (a_shift_code prev) (a_shift_code nxt).
Proof.
  intros E. unfold rest_hours_between, _rest_hours_between_codes. now rewrite E.
Qed.

Lemma in_adjacent_pairs {A} (x y : A) l :
  In (x, y) (adjacent_pairs l) -> In x l /\ In y l.
Proof.
  unfold adjacent_pairs. intros I. split.
  - eapply in_combine_l; eauto.
  - apply in_combine_r in I. destruct l; simpl in *; auto.
Qed.

Lemma same_id_same_employee (l : list Employee) a b :
  NoDup (map e_id l) -> In a l -> In b l -> e_id a = e_id b -> a = b.
Proof.
  induction l as [|x l IH]; simpl; [tauto|].
  intros ND Ia Ib E. inversion ND as [|? ? NI ND']; subst.
  destruct Ia as [-> | Ia], Ib as [-> | Ib]; auto.
  - exfalso. apply NI. rewrite E. now apply in_map.
  - exfalso. apply NI. rewrite <- E. now apply in_map.
Qed.

Section GeneratedRest.
Variable T : dict string ShiftTemplate.
Variables (ctx : SystemContext) (store_id : string) (start_date end_date : date).
Variable val : Valuation.
Hypothesis ids_distinct : NoDup (map e_id (PyDict.values (employees ctx))).
Hypothesis solved : satisfies val (build_model T ctx start_date end_date) = true.

Let t := build_tables ctx start_date end_date.
Let assignments := decode t val store_id.

Lemma generated_pair_rested emp_id emp prev nxt :
  In (prev, nxt) (adjacent_pairs (emp_assignments_sorted emp_id assignments)) ->
  check_rest_pair T emp (prev, nxt) = [].
Proof.
  intros I. apply in_adjacent_pairs in I. destruct I as [Ip In_].
  assert (M : forall a, In a (emp_assignments_sorted emp_id assignments) ->
                        In a assignments /\ a_employee_id a = emp_id).
  { intros a Ia. unfold emp_assignments_sorted in Ia.
    eapply Permutation_in in Ia; [|apply sorted_by_perm].
    apply filter_In in Ia. destruct Ia as [Ia E]. apply String.eqb_eq in E. auto. }
  destruct (M _ Ip) as [Dp Ep]. destruct (M _ In_) as [Dn En].
  destruct (decode_In ctx start_date end_date ids_distinct val store_id prev Dp)
    as (e1 & d1 & c1 & Tr1 & V1 & ->).
  destruct (decode_In ctx start_date end_date ids_distinct val store_id nxt Dn)
    as (e2 & d2 & c2 & Tr2 & V2 & ->).
  cbn [a_employee_id] in Ep, En.
  unfold check_rest_pair. cbn [a_date].
  destruct (Z.eqb_spec (d2 - d1) 1) as [D | D]; [|reflexivity].
  cbn [negb].
  destruct (Qlt_bool (rest_hours_between T _ _) MIN_REST_HOURS_BETWEEN_DAYS) eqn:R;
    [|reflexivity].
  exfalso.
  rewrite rest_hours_next_day in R by exact D. cbn [a_shift_code] in R.
  pose proof (proj1 (variable_triples_In ctx start_date end_date e1 d1 c1) Tr1)
    as (Ie1 & Id1 & Ic1).
  pose proof (proj1 (variable_triples_In ctx start_date end_date e2 d2 c2) Tr2)
    as (Ie2 & Id2 & Ic2).
  assert (e2 = e1).
  { apply (same_id_same_employee _ _ _ ids_distinct Ie2 Ie1). congruence. }
  subst e2. assert (d2 = d1 + 1) by lia. subst d2.
  assert (C : In (Add (lin_sum [X (e_idx_of t e1) (d_idx_of t d1) (s_idx_of t c1);
                                X (e_idx_of t e1) (d_idx_of t (d1 + 1)) (s_idx_of t c2)])
                      REL_LE (lin_of_const 1))
                 (rest_exclusions T t)).
  { apply (rest_exclusion_posted T t e1 d1 (d1 + 1) c1 c2); auto.
    - apply planning_dates_adjacent; assumption.
    - unfold t. rewrite codes_of_allowed; assumption.
    - unfold t. rewrite codes_of_allowed; assumption.
    - apply x_get_triple; assumption.
    - apply x_get_triple; assumption. }
  apply rest_exclusions_in_model in C.
  pose proof (satisfies_constraint val _ _ solved C) as Hc.
  unfold constraint_holds, Add, lin_sum, lin_of_const, eval_lin in Hc.
  cbn [c_enforce c_rel c_lhs c_rhs lin_terms lin_const map fold_right fst snd rel_holds]
    in Hc.
  fold t in V1, V2. rewrite V1, V2 in Hc. discriminate.
Qed.

Lemma generated_rest_step :
  step_rest T ctx (mk_Roster store_id start_date end_date assignments) = [].
Proof.
  unfold step_rest, for_employees. apply flat_map_all_nil. intros [k e] _.
  cbn [fst snd r_assignments]. unfold check_rest.
  apply flat_map_all_nil. intros [prev nxt] I.
  now apply (generated_pair_rested k e).
Qed.
End GeneratedRest.

Lemma check_roster_rest T ctx roster :
  with_code "INSUFFICIENT_REST" (check_roster T ctx roster)
  = with_code "INSUFFICIENT_REST" (step_rest T ctx roster).
Proof.
  rewrite check_roster_steps, !with_code_app.
  rewrite (with_code_other _ _ _ (codes_step_contract T ctx roster)) by not_in_codes.
  rewrite (with_code_other _ _ _ (codes_step_weekly T ctx roster)) by not_in_codes.
  rewrite (with_code_other _ _ _ (codes_step_casual T ctx roster)) by not_in_codes.
  rewrite (with_code_other _ _ _ (codes_step_consecutive ctx roster)) by not_in_codes.
  rewrite (with_code_other _ _ _ (codes_step_unknown ctx roster)) by not_in_codes.
  simpl. now rewrite app_nil_r.
Qed.

(** The rest half of the invariant holds: a roster decoded from values
    that satisfy the model draws no INSUFFICIENT_REST, when no two
    employees of the context share an id. *)
Lemma generated_roster_is_rested T ctx store_id start_date end_date val :
  NoDup (map e_id (PyDict.values (employees ctx))) ->
  satisfies val (build_model T ctx start_date end_date) = true ->
  with_code "INSUFFICIENT_REST"
    (check_roster T ctx
       (mk_Roster store_id start_date end_date
          (decode (build_tables ctx start_date end_date) val store_id))) = [].
Proof.
  intros ND S. rewrite check_roster_rest.
  now rewrite (generated_rest_step T ctx store_id start_date end_date val ND S).
Qed.

(* ===================================================================== *)
(** ** Generated rosters and the contract maximum, for known codes *)

Lemma flat_map_of_map {A B C} (f : B -> list C) (g : A -> B) l :
  flat_map f (map g l) = flat_map (fun x => f (g x)) l.
Proof. induction l as [|x l IH]; simpl; [reflexivity|]. now rewrite IH. Qed.

Lemma flat_map_ext_on {A B} (f g : A -> list B) l :
  (forall x, In x l -> f x = g x) -> flat_map f l = flat_map g l.
Proof.
  induction l as [|x l IH]; intros E; simpl; [reflexivity|].
  rewrite (E x) by (now left). rewrite IH; [reflexivity|].
  intros y I. apply E. now right.
Qed.

Lemma NoDup_flat_map_pairs {A B} (l : list A) (g : A -> list B) :
  NoDup l -> (forall a, In a l -> NoDup (g a)) ->
  NoDup (flat_map (fun a => map (fun b => (a, b)) (g a)) l).
Proof.
  induction l as [|a l IH]; intros ND G; simpl; [constructor|].
  inversion ND as [|? ? NI ND']; subst.
  apply NoDup_app.
  - apply NoDup_map_NoDup_ForallPairs; [|apply G; now left].
    intros x y _ _ E. now inversion E.
  - apply IH; [exact ND'|]. intros x I. apply G. now right.
  - intros [a' b] I J. apply in_map_iff in I. destruct I as (b' & E & _).
    inversion E; subst. apply in_flat_map in J. destruct J as (a'' & Ia & J).
    apply in_map_iff in J. destruct J as (b'' & E' & _). inversion E'; subst.
    contradiction.
Qed.

(** Every set of codes in [availability_map] is without repetition. *)
Lemma availability_map_sets ctx emp_id dt :
  NoDup (PyDict.get_or dt [] (PyDict.get_or emp_id [] (availability_map_of ctx))).
Proof.
  assert (I : forall (d : dict date (list string)) l,
             (forall k v, In (k, v) d -> NoDup v) ->
             forall k v,
               In (k, v) (fold_left (fun inner (dc : date * list string) =>
                                       PyDict.set (fst dc) (dedup (snd dc)) inner) l d) ->
               NoDup v).
  { intros d l. revert d. induction l as [|dc l IH]; intros d D k v I; simpl in I.
    - eauto.
    - apply (IH _ (fun k v J => match In_set _ _ _ _ _ J with
                                | or_introl J' => D _ _ J'
                                | or_intror (conj _ E) =>
                                    eq_ind_r (fun v => NoDup v) (dedup_NoDup _) E
                                end) k v I). }
  assert (O : forall (d : dict string (dict date (list string))) l,
             (forall k inner, In (k, inner) d -> forall k' v, In (k', v) inner -> NoDup v) ->
             forall k inner,
               In (k, inner)
                  (fold_left
                     (fun amap (kv : string * EmployeeAvailability) =>
                        let inner :=
                          fold_left (fun inner (dc : date * list string) =>
                                       PyDict.set (fst dc) (dedup (snd dc)) inner)
                                    (allowed_shift_codes_by_date (snd kv)) [] in
                        PyDict.set (fst kv) inner amap) l d) ->
               forall k' v, In (k', v) inner -> NoDup v).
  { intros d l. revert d. induction l as [|kv l IH]; intros d D k inner J; simpl in J.
    - eauto.
    - apply (IH _ (fun k inner J =>
                     match In_set _ _ _ _ _ J with
                     | or_introl J' => D _ _ J'
                     | or_intror (conj _ E) =>
                         eq_ind_r (fun inner => forall k' v, In (k', v) inner -> NoDup v)
                                  (I [] _ (fun _ _ (F : In _ []) => match F with end)) E
                     end) k inner J). }
  unfold PyDict.get_or.
  match goal with
  | |- NoDup (match ?g with _ => _ end) => destruct g as [codes|] eqn:G2
  end; [|constructor].
  revert G2.
  match goal with
  | |- PyDict.get dt (match ?g with _ => _ end) = _ -> _ =>
      destruct g as [inner|] eqn:G1
  end; [|simpl; discriminate].
  intros G2.
  apply get_In in G1. destruct G1 as (k1 & _ & I1).
  apply get_In in G2. destruct G2 as (k2 & _ & I2).
  apply (O [] (availability ctx) (fun _ _ (F : In _ []) => match F with end)
           k1 inner I1 k2 codes I2).
Qed.

Lemma sorted_allowed_NoDup ctx emp_id dt :
  NoDup (sorted_allowed (availability_map_of ctx) emp_id dt).
Proof.
  unfold sorted_allowed.
  eapply Permutation_NoDup; [symmetry; apply sorted_by_perm|].
  apply availability_map_sets.
Qed.

Section TriplesFacts.
Variables (ctx : SystemContext) (start_date end_date : date).
Hypothesis ids_distinct : NoDup (map e_id (PyDict.values (employees ctx))).

Let t := build_tables ctx start_date end_date.
Let amap := availability_map_of ctx.
Let triples := variable_triples ctx start_date end_date.
Let key := key_of_triple ctx start_date end_date.

Lemma variable_triples_NoDup : NoDup triples.
Proof.
  unfold triples, variable_triples.
  apply (NoDup_flat_map_pairs _
           (fun ed : Employee * date => sorted_allowed amap (e_id (fst ed)) (snd ed))).
  - unfold employee_dates.
    apply (NoDup_flat_map_pairs _ (fun _ : Employee => t_dates t)).
    + apply NoDup_map_inv with (f := e_id). exact ids_distinct.
    + intros _ _. apply planning_dates_NoDup.
  - intros ed _. apply sorted_allowed_NoDup.
Qed.

Lemma key_of_triple_injective tr1 tr2 :
  In tr1 triples -> In tr2 triples -> key tr1 = key tr2 -> tr1 = tr2.
Proof.
  destruct tr1 as [[e1 d1] c1], tr2 as [[e2 d2] c2]. intros I1 I2 E.
  apply variable_triples_In in I1. destruct I1 as (Ie1 & Id1 & Ic1).
  apply variable_triples_In in I2. destruct I2 as (Ie2 & Id2 & Ic2).
  unfold key, key_of_triple in E. cbn [fst snd] in E. injection E as Ee Ed Ec.
  pose proof (e_idx_nth ctx start_date end_date ids_distinct e1 Ie1) as N1.
  pose proof (e_idx_nth ctx start_date end_date ids_distinct e2 Ie2) as N2.
  pose proof (d_idx_nth ctx start_date end_date d1 Id1) as M1.
  pose proof (d_idx_nth ctx start_date end_date d2 Id2) as M2.
  pose proof (s_idx_nth ctx start_date end_date c1
                (allowed_in_all_shift_codes ctx start_date end_date _ _ _ Ic1)) as S1.
  pose proof (s_idx_nth ctx start_date end_date c2
                (allowed_in_all_shift_codes ctx start_date end_date _ _ _ Ic2)) as S2.
  rewrite Ee in N1. rewrite Ed in M1. rewrite Ec in S1.
  congruence.
Qed.

(** [x] holds one entry per triple, in the order of the triples. *)
Lemma t_x_entries :
  t_x t = map (fun tr => (key tr, var_of_key (key tr))) triples.
Proof.
  unfold t. rewrite t_x_as_writes.
  rewrite (keyed_writes_fresh key var_of_key triples []); [reflexivity|].
  cbn [PyDict.keys map app].
  apply NoDup_map_NoDup_ForallPairs; [|apply variable_triples_NoDup].
  intros a b Ia Ib. now apply key_of_triple_injective.
Qed.

Lemma decode_by_triples val store_id :
  decode t val store_id = flat_map (decode_triple ctx start_date end_date val store_id) triples.
Proof.
  unfold decode. rewrite t_x_entries, flat_map_of_map.
  apply flat_map_ext_on. intros [[emp dt] code] I.
  apply variable_triples_In in I. destruct I as (Ie & Id & Ic).
  unfold decode_triple, key, key_of_triple, var_of_key, t. cbn [fst snd].
  destruct (val _ =? 1); [|reflexivity].
  rewrite (e_idx_nth ctx start_date end_date ids_distinct emp Ie).
  rewrite (d_idx_nth ctx start_date end_date dt Id).
  rewrite (s_idx_nth ctx start_date end_date code
             (allowed_in_all_shift_codes ctx start_date end_date _ _ _ Ic)).
  reflexivity.
Qed.
End TriplesFacts.

Lemma flat_map_flat_map {A B C} (f : B -> list C) (g : A -> list B) l :
  flat_map f (flat_map g l) = flat_map (fun x => flat_map f (g x)) l.
Proof.
  induction l as [|x l IH]; simpl; [reflexivity|].
  now rewrite flat_map_app, IH.
Qed.

Lemma get_mapped_values {K V W} `{Key K} (f : V -> W) (d : dict K V) k :
  PyDict.get k (map (fun kv => (fst kv, f (snd kv))) d)
  = match PyDict.get k d with Some v => Some (f v) | None => None end.
Proof.
  induction d as [|[k0 v0] d IH]; simpl; [reflexivity|].
  destruct (keqb k k0); auto.
Qed.

(** The two ways of reading the hours of a code agree. *)
Lemma template_hours_shift_hours T code : template_hours T code = shift_hours_of T code.
Proof.
  unfold template_hours, shift_hours_of, SHIFT_HOURS, PyDict.get_or.
  rewrite get_mapped_values. now destruct (PyDict.get code T).
Qed.

Lemma total_hours_by_emp_compute T l :
  total_hours_by_emp T l = _compute_hours_by_employee T l.
Proof.
  unfold total_hours_by_emp, _compute_hours_by_employee.
  apply fold_left_ext_eq. intros d a. now rewrite template_hours_shift_hours.
Qed.

Lemma hours_of_app T l1 l2 e :
  (hours_of T (l1 ++ l2) e == hours_of T l1 e + hours_of T l2 e)%Q.
Proof.
  induction l1 as [|a l1 IH]; simpl.
  - ring.
  - fold (hours_of T (l1 ++ l2) e). fold (hours_of T l1 e).
    destruct (String.eqb (a_employee_id a) e); rewrite IH; ring.
Qed.

Lemma hours_of_others T l e :
  (forall a, In a l -> a_employee_id a <> e) -> hours_of T l e = 0%Q.
Proof.
  induction l as [|a l IH]; intros N; simpl; [reflexivity|].
  fold (hours_of T l e).
  destruct (String.eqb_spec (a_employee_id a) e) as [E | _].
  - exfalso. apply (N a); [now left|exact E].
  - apply IH. intros b I. apply N. now right.
Qed.

(** With distinct ids, the hours of an employee come from their own block. *)
Lemma hours_of_own_block T (G : Employee -> list ShiftAssignment) l e :
  (forall emp a, In a (G emp) -> a_employee_id a = e_id emp) ->
  NoDup (map e_id l) -> In e l ->
  (hours_of T (flat_map G l) (e_id e) == hours_of T (G e) (e_id e))%Q.
Proof.
  intros Own. induction l as [|x l IH]; intros ND I; [contradiction|].
  inversion ND as [|? ? NI ND']; subst. simpl. rewrite hours_of_app.
  destruct I as [-> | I].
  - rewrite (hours_of_others T (flat_map G l)); [ring|].
    intros a Ia E. apply in_flat_map in Ia. destruct Ia as (emp & Ie & Ia).
    apply Own in Ia. apply NI. rewrite <- E, Ia. now apply in_map.
  - rewrite (hours_of_others T (G x)); [rewrite IH by assumption; ring|].
    intros a Ia E. apply Own in Ia. apply NI. rewrite <- Ia, E. now apply in_map.
Qed.

Lemma eval_terms_app val l1 l2 :
  eval_terms val (l1 ++ l2) = eval_terms val l1 + eval_terms val l2.
Proof.
  induction l1 as [|cv l1 IH]; simpl; [reflexivity|].
  fold (eval_terms val (l1 ++ l2)). fold (eval_terms val l1). rewrite IH. lia.
Qed.

Section GeneratedHours.
Variable T : dict string ShiftTemplate.
Variables (ctx : SystemContext) (store_id : string) (start_date end_date : date).
Variable val : Valuation.
Hypothesis ids_distinct : NoDup (map e_id (PyDict.values (employees ctx))).
Hypothesis known : codes_known T ctx start_date end_date.
Hypothesis solved : satisfies val (build_model T ctx start_date end_date) = true.

Let t := build_tables ctx start_date end_date.
Let amap := availability_map_of ctx.
Let triples := variable_triples ctx start_date end_date.
Let key := key_of_triple ctx start_date end_date.
Let dec := decode_triple ctx start_date end_date val store_id.

Lemma created_variable_is_boolean tr :
  In tr triples -> val (var_of_key (key tr)) = 0 \/ val (var_of_key (key tr)) = 1.
Proof.
  intros I. unfold satisfies in solved. apply andb_true_iff in solved.
  destruct solved as [R _]. rewrite forallb_forall in R.
  assert (D : In (NewBoolVar (var_of_key (key tr)))
                 (m_vars (build_model T ctx start_date end_date))).
  { unfold build_model. cbn [m_vars]. apply in_or_app; left.
    apply in_map. unfold PyDict.values.
    rewrite (t_x_entries ctx start_date end_date ids_distinct), map_map.
    cbn [snd]. apply in_map_iff. exists tr. auto. }
  specialize (R _ D). unfold in_range, NewBoolVar in R. cbn [d_var d_lo d_hi] in R.
  apply andb_true_iff in R. destruct R as [R1 R2].
  apply Z.leb_le in R1. apply Z.leb_le in R2. lia.
Qed.

Local Abbreviation hours_term := (hours_term T ctx start_date end_date).

Lemma day_hours_are_units emp dt : forall codes,
  (forall code, In code codes -> In (emp, dt, code) triples) ->
  (2 * hours_of T (flat_map dec (map (fun code => (emp, dt, code)) codes)) (e_id emp)
   == inject_Z (eval_terms val (flat_map (hours_term emp dt) codes)))%Q.
Proof.
  induction codes as [|code codes IH]; intros I; [reflexivity|].
  assert (Tr : In (emp, dt, code) triples) by (apply I; now left).
  assert (IH' := IH (fun c J => I c (or_intror J))).
  cbn [map flat_map]. rewrite hours_of_app, eval_terms_app, inject_Z_plus, <- IH'.
  destruct (known emp dt code Tr) as (tpl & G & U).
  unfold hours_term at 1. rewrite G.
  rewrite (x_get_triple ctx start_date end_date emp dt code Tr).
  unfold dec, decode_triple. cbn [fst snd].
  change (X (e_idx_of (build_tables ctx start_date end_date) emp)
            (d_idx_of (build_tables ctx start_date end_date) dt)
            (s_idx_of (build_tables ctx start_date end_date) code))
    with (var_of_key (key_of_triple ctx start_date end_date (emp, dt, code))).
  unfold eval_terms at 1. cbn [fold_right fst snd].
  destruct (created_variable_is_boolean _ Tr) as [V | V]; unfold key in V; rewrite V.
  - cbn [Z.eqb hours_of fold_right]. rewrite Z.mul_0_r. cbn [Z.add inject_Z]. ring.
  - cbn [Z.eqb Pos.eqb hours_of fold_right a_employee_id a_shift_code].
    rewrite String.eqb_refl, Z.mul_1_r, Z.add_0_r, U.
    unfold shift_hours_of, SHIFT_HOURS, PyDict.get_or.
    rewrite get_mapped_values, G. ring.
Qed.

Lemma hour_terms_cons emp dt dates :
  hour_terms T t emp (dt :: dates)
  = flat_map (hours_term emp dt) (codes_of t emp dt) ++ hour_terms T t emp dates.
Proof. reflexivity. Qed.

Lemma block_hours_are_units emp : forall dates,
  In emp (t_employees t) ->
  (forall dt, In dt dates -> In dt (t_dates t)) ->
  (2 * hours_of T
         (flat_map dec
            (flat_map (fun dt => map (fun code => (emp, dt, code))
                                     (sorted_allowed amap (e_id emp) dt)) dates))
         (e_id emp)
   == inject_Z (eval_terms val (hour_terms T t emp dates)))%Q.
Proof.
  intros dates Ie. induction dates as [|dt dates IH]; intros Id; [reflexivity|].
  assert (D : In dt (t_dates t)) by (apply Id; now left).
  assert (IH' := IH (fun d J => Id d (or_intror J))).
  rewrite hour_terms_cons. cbn [flat_map].
  rewrite flat_map_app, hours_of_app, eval_terms_app, inject_Z_plus, <- IH'.
  assert (C : codes_of t emp dt = sorted_allowed amap (e_id emp) dt)
    by (apply codes_of_allowed; assumption).
  rewrite C.
  rewrite <- (day_hours_are_units emp dt (sorted_allowed amap (e_id emp) dt)); [ring|].
  intros code Ic. apply variable_triples_In. auto.
Qed.
End GeneratedHours.

Lemma contract_max_units ct min_h max_h :
  CONTRACT_HOURS_BOUNDS ct = Some (min_h, max_h) ->
  (inject_Z (py_round (max_h * HOURS_SCALE)) == 2 * max_h)%Q
  /\ 0 <= py_round (max_h * HOURS_SCALE).
Proof.
  destruct ct; simpl; intros [= <- <-]; split; vm_compute; congruence.
Qed.

Lemma check_roster_max_hours T ctx roster :
  with_code "MAX_HOURS_EXCEEDED" (check_roster T ctx roster)
  = with_code "MAX_HOURS_EXCEEDED" (step_contract T ctx roster).
Proof.
  rewrite check_roster_steps, !with_code_app.
  rewrite (with_code_other _ _ _ (codes_step_weekly T ctx roster)) by not_in_codes.
  rewrite (with_code_other _ _ _ (codes_step_casual T ctx roster)) by not_in_codes.
  rewrite (with_code_other _ _ _ (codes_step_rest T ctx roster)) by not_in_codes.
  rewrite (with_code_other _ _ _ (codes_step_consecutive ctx roster)) by not_in_codes.
  rewrite (with_code_other _ _ _ (codes_step_unknown ctx roster)) by not_in_codes.
  simpl. now rewrite app_nil_r.
Qed.

Lemma check_contract_hours_within emp_id emp hours_by_emp min_h max_h :
  CONTRACT_HOURS_BOUNDS (e_contract_type emp) = Some (min_h, max_h) ->
  (PyDict.get_or emp_id 0%Q hours_by_emp <= max_h)%Q ->
  with_code "MAX_HOURS_EXCEEDED" (check_contract_hours emp_id emp hours_by_emp) = [].
Proof.
  intros B L. unfold check_contract_hours. rewrite B.
  assert (F : Qlt_bool max_h (PyDict.get_or emp_id 0%Q hours_by_emp) = false)
    by now apply Qlt_bool_false.
  rewrite F. destruct (Qlt_bool _ min_h); reflexivity.
Qed.

Section GeneratedWithinMax.
Variable T : dict string ShiftTemplate.
Variables (ctx : SystemContext) (store_id : string) (start_date end_date : date).
Variable val : Valuation.
Hypothesis ids_distinct : NoDup (map e_id (PyDict.values (employees ctx))).
Hypothesis known : codes_known T ctx start_date end_date.
Hypothesis solved : satisfies val (build_model T ctx start_date end_date) = true.

Let t := build_tables ctx start_date end_date.
Let amap := availability_map_of ctx.
Let dec := decode_triple ctx start_date end_date val store_id.

Local Abbreviation employee_block := (employee_block ctx start_date end_date).

Lemma variable_triples_by_employee :
  variable_triples ctx start_date end_date = flat_map employee_block (t_employees t).
Proof.
  unfold variable_triples, employee_dates. rewrite flat_map_flat_map.
  apply flat_map_ext. intros emp. now rewrite flat_map_of_map.
Qed.

Lemma decode_by_employee :
  decode t val store_id
  = flat_map (fun emp => flat_map dec (employee_block emp)) (t_employees t).
Proof.
  unfold t at 1. rewrite (decode_by_triples ctx start_date end_date ids_distinct).
  now rewrite variable_triples_by_employee, flat_map_flat_map.
Qed.

Lemma decoded_hours_are_units emp :
  In emp (t_employees t) ->
  (2 * hours_of T (decode t val store_id) (e_id emp)
   == inject_Z (eval_terms val (hour_terms T t emp (t_dates t))))%Q.
Proof.
  intros I. rewrite decode_by_employee.
  rewrite (hours_of_own_block T (fun emp => flat_map dec (employee_block emp)));
    [| |exact ids_distinct|exact I].
  - apply (block_hours_are_units T ctx store_id start_date end_date val
             ids_distinct known solved emp (t_dates t) I). auto.
  - intros e a Ia. apply in_flat_map in Ia. destruct Ia as ([[e' d] c] & Ib & Ia).
    unfold employee_block in Ib. apply in_flat_map in Ib. destruct Ib as (d' & _ & Ib).
    apply in_map_iff in Ib. destruct Ib as (c' & E & _). inversion E; subst.
    unfold dec, decode_triple in Ia. cbn [fst snd] in Ia.
    destruct (val _ =? 1); [|contradiction]. destruct Ia as [<- | []]. reflexivity.
Qed.

Lemma hours_constraint_holds emp min_h max_h :
  In emp (t_employees t) ->
  CONTRACT_HOURS_BOUNDS (e_contract_type emp) = Some (min_h, max_h) ->
  eval_terms val (hour_terms T t emp (t_dates t)) <= py_round (max_h * HOURS_SCALE).
Proof.
  intros I B.
  destruct (hour_terms T t emp (t_dates t)) as [|term terms] eqn:E.
  - apply (contract_max_units _ _ _ B).
  - assert (C : In (Add (mk_lin (term :: terms) 0) REL_LE
                        (lin_of_const (py_round (max_h * HOURS_SCALE))))
                   (m_constraints (build_model T ctx start_date end_date))).
    { unfold build_model. cbn [m_constraints]. fold t.
      apply in_or_app; right. apply in_or_app; left.
      unfold contract_max_hours. apply in_flat_map. exists emp. split; [exact I|].
      rewrite B, E. now left. }
    pose proof (satisfies_constraint val _ _ solved C) as Hc.
    unfold constraint_holds, Add, lin_of_const, eval_lin in Hc.
    cbn [c_enforce c_rel c_lhs c_rhs lin_terms lin_const rel_holds] in Hc.
    apply Z.leb_le in Hc. exact Hc.
Qed.

Lemma decoded_hours_within_max emp min_h max_h :
  In emp (t_employees t) ->
  CONTRACT_HOURS_BOUNDS (e_contract_type emp) = Some (min_h, max_h) ->
  (PyDict.get_or (e_id emp) 0
     (total_hours_by_emp T (decode t val store_id)) <= max_h)%Q.
Proof.
  intros I B.
  pose proof (decoded_hours_are_units emp I) as U.
  pose proof (hours_constraint_holds emp min_h max_h I B) as C.
  destruct (contract_max_units _ _ _ B) as [M _].
  rewrite total_hours_by_emp_compute.
  pose proof (aggregated_hours_spec T
                (mk_Roster store_id start_date end_date (decode t val store_id))
                (e_id emp)) as A.
  unfold aggregated_hours in A. cbn [r_assignments] in A. rewrite A.
  rewrite Zle_Qle in C. lra.
Qed.
End GeneratedWithinMax.

(** What the generator does guarantee about the contract maximum.  In a
    context whose employees are keyed by their distinct ids, and whose
    allowed codes all have a template with a whole number of half hours, a
    roster decoded from values that satisfy the model draws no
    MAX_HOURS_EXCEEDED and no INSUFFICIENT_REST. *)
Lemma generated_roster_respects_hard_rules T ctx store_id start_date end_date val :
  NoDup (map e_id (PyDict.values (employees ctx))) ->
  (forall k emp, In (k, emp) (employees ctx) -> k = e_id emp) ->
  codes_known T ctx start_date end_date ->
  satisfies val (build_model T ctx start_date end_date) = true ->
  let roster :=
    mk_Roster store_id start_date end_date
              (decode (build_tables ctx start_date end_date) val store_id) in
  with_code "MAX_HOURS_EXCEEDED" (check_roster T ctx roster) = []
  /\ with_code "INSUFFICIENT_REST" (check_roster T ctx roster) = [].
Proof.
  intros ND KI KN S roster. split.
  - rewrite check_roster_max_hours. unfold step_contract, for_employees, with_code.
    rewrite filter_flat_map. apply flat_map_all_nil. intros [k emp] I.
    cbn [fst snd]. fold (with_code "MAX_HOURS_EXCEEDED").
    destruct (CONTRACT_HOURS_BOUNDS (e_contract_type emp)) as [[min_h max_h]|] eqn:B.
    + apply (check_contract_hours_within k emp _ min_h max_h B).
      rewrite (KI k emp I). subst roster. cbn [r_assignments].
      apply (decoded_hours_within_max T ctx store_id start_date end_date val ND KN S
               emp min_h max_h); [|exact B].
      change (In (snd (k, emp)) (map snd (employees ctx))). now apply in_map.
    + unfold check_contract_hours. now rewrite B.
  - now apply generated_roster_is_rested.
Qed.

(** The hypotheses hold of [ctx_shortfall] and [work_day_100]: its one
    allowed code "S" has a template of 8.5 hours, 17 half hours. *)
Example shortfall_roster_respects_hard_rules :
  let roster :=
    mk_Roster "store_1" 100 101
      (decode (build_tables ctx_shortfall 100 101) work_day_100 "store_1") in
  r_assignments roster = [mk_ShiftAssignment "e1" 100 "S" None "store_1"]
  /\ with_code "MAX_HOURS_EXCEEDED"
       (check_roster DEFAULT_SHIFT_TEMPLATES ctx_shortfall roster) = []
  /\ with_code "INSUFFICIENT_REST"
       (check_roster DEFAULT_SHIFT_TEMPLATES ctx_shortfall roster) = [].
Proof.
  split; [reflexivity|].
  apply (generated_roster_respects_hard_rules DEFAULT_SHIFT_TEMPLATES ctx_shortfall
           "store_1" 100 101 work_day_100).
  - repeat constructor. simpl. tauto.
  - intros k emp [E | []]. now inversion E.
  - intros emp dt code I. vm_compute in I. destruct I as [E | []].
    inversion E; subst. eexists. split; reflexivity.
  - vm_compute. reflexivity.
Qed.

(* ===================================================================== *)
(** ** Generated rosters and the contract maximum, for an unknown code *)

(** In the model of [ctx_unknown_code] the objective is never negative,
    and a valuation that satisfies the model with an objective of 0 decodes
    to the seven assignments of [roster_unknown_code]: an optimal answer of
    the solver leaves no other roster. *)
Lemma unknown_code_optimum val :
  satisfies val (build_model DEFAULT_SHIFT_TEMPLATES ctx_unknown_code 100 106) = true ->
  0 <= eval_lin val (m_objective (build_model DEFAULT_SHIFT_TEMPLATES ctx_unknown_code 100 106))
  /\ (eval_lin val (m_objective (build_model DEFAULT_SHIFT_TEMPLATES ctx_unknown_code 100 106)) = 0 ->
      decode (build_tables ctx_unknown_code 100 106) val "store_1"
      = r_assignments roster_unknown_code).
Proof.
  intros S.
  set (m := build_model DEFAULT_SHIFT_TEMPLATES ctx_unknown_code 100 106) in *.
  set (t := build_tables ctx_unknown_code 100 106).
  vm_compute in m, t. subst m t.
  unfold satisfies in S.
  cbv [m_vars m_constraints m_objective forallb in_range constraint_holds c_rel
       c_lhs c_rhs c_enforce rel_holds eval_lin lin_terms lin_const fold_right
       fst snd d_var d_lo d_hi] in S |- *.
  repeat match goal with
         | H : _ && _ = true |- _ => apply andb_prop in H; destruct H
         end.
  repeat match goal with
         | H : (_ <=? _) = true |- _ => apply Z.leb_le in H
         | H : true = true |- _ => clear H
         end.
  split; [lia|]. intros O.
  assert (E0 : val (X 0 0 0) = 1) by lia.
  assert (E1 : val (X 0 1 0) = 1) by lia.
  assert (E2 : val (X 0 2 0) = 1) by lia.
  assert (E3 : val (X 0 3 0) = 1) by lia.
  assert (E4 : val (X 0 4 0) = 1) by lia.
  assert (E5 : val (X 0 5 0) = 1) by lia.
  assert (E6 : val (X 0 6 0) = 1) by lia.
  unfold decode. cbn [t_x flat_map]. rewrite E0, E1, E2, E3, E4, E5, E6.
  reflexivity.
Qed.

(** C1.  The model of [ctx_unknown_code] has no contract-maximum
    constraint at all, because the code "X" contributes no term to it;
    [work_every_day] satisfies every constraint with an objective of 0, the
    least there is; the roster decoded from it holds seven assignments of
    "X", which [check_roster] counts at 8.0 hours each, 56 hours against a
    maximum of 48: one MAX_HOURS_EXCEEDED. *)
Theorem generated_roster_exceeds_max_hours :
  let model := build_model DEFAULT_SHIFT_TEMPLATES ctx_unknown_code 100 106 in
  PyDict.get "X" DEFAULT_SHIFT_TEMPLATES = None
  /\ contract_max_hours DEFAULT_SHIFT_TEMPLATES (build_tables ctx_unknown_code 100 106) = []
  /\ satisfies work_every_day model = true
  /\ eval_lin work_every_day (m_objective model) = 0
  /\ generate_initial_roster DEFAULT_SHIFT_TEMPLATES (fun _ => (OPTIMAL, work_every_day))
       ctx_unknown_code "store_1" 100 106
     = Returned roster_unknown_code
  /\ with_code "MAX_HOURS_EXCEEDED"
       (check_roster DEFAULT_SHIFT_TEMPLATES ctx_unknown_code roster_unknown_code)
     = [mk_Violation HARD "MAX_HOURS_EXCEEDED"
          (MsgMaxHours "Ann" "e1" (aggregated_hours DEFAULT_SHIFT_TEMPLATES
                                     roster_unknown_code "e1") 48 CASUAL)
          (Some "e1") None]
  /\ (aggregated_hours DEFAULT_SHIFT_TEMPLATES roster_unknown_code "e1" == 56)%Q
  /\ with_code "INSUFFICIENT_REST"
       (check_roster DEFAULT_SHIFT_TEMPLATES ctx_unknown_code roster_unknown_code) = [].
Proof. cbv zeta. repeat split; vm_compute; reflexivity. Qed.

(* ===================================================================== *)
(** * Further properties *)

(** ** What a generated roster holds *)

Lemma fold_left_invariant_in {A B} (P : A -> Prop) (f : A -> B -> A) l : forall acc,
  (forall acc b, In b l -> P acc -> P (f acc b)) -> P acc -> P (fold_left f l acc).
Proof.
  induction l as [|b l IH]; intros acc S I; simpl; [exact I|].
  apply IH.
  - intros acc' b' J. apply S. now right.
  - apply S; [now left|exact I].
Qed.

(** A code that [availability_map] holds for an employee and a date is a
    code of the employee's availability entry for that date. *)
Lemma availability_map_sound ctx emp_id dt code :
  In code (PyDict.get_or dt [] (PyDict.get_or emp_id [] (availability_map_of ctx))) ->
  exists av codes,
    In (emp_id, av) (availability ctx)
    /\ In (dt, codes) (allowed_shift_codes_by_date av)
    /\ In code codes.
Proof.
  set (Inner := fun (av : EmployeeAvailability) (inner : dict date (list string)) =>
         forall d cs, In (d, cs) inner -> forall c, In c cs ->
           exists codes, In (d, codes) (allowed_shift_codes_by_date av) /\ In c codes).
  set (Outer := fun (amap : dict string (dict date (list string))) =>
         forall k inner, In (k, inner) amap ->
           exists av, In (k, av) (availability ctx) /\ Inner av inner).
  assert (O : Outer (availability_map_of ctx)).
  { unfold availability_map_of. apply fold_left_invariant_in.
    - intros amap [k av] Ik PO k' inner' J. cbn [fst snd] in J.
      apply In_set in J. destruct J as [J | [-> ->]]; [exact (PO k' inner' J)|].
      exists av. split; [exact Ik|].
      apply (fold_left_invariant_in (Inner av)).
      + intros inner [d cs] Id PI d' cs' J c Ic. cbn [fst snd] in J.
        apply In_set in J. destruct J as [J | [-> ->]]; [exact (PI d' cs' J c Ic)|].
        exists cs. split; [exact Id|]. exact (proj1 (dedup_In c cs) Ic).
      + intros d cs [].
    - intros k inner []. }
  unfold PyDict.get_or.
  match goal with
  | |- In code (match ?g with _ => _ end) -> _ => destruct g as [codes|] eqn:G2
  end; [|intros []].
  revert G2.
  match goal with
  | |- PyDict.get dt (match ?g with _ => _ end) = _ -> _ =>
      destruct g as [inner|] eqn:G1
  end; [|simpl; discriminate].
  intros G2 I.
  apply get_In in G1. destruct G1 as (k1 & -> & I1).
  apply get_In in G2. destruct G2 as (k2 & -> & I2).
  destruct (O _ _ I1) as (av & Ia & PI).
  destruct (PI _ _ I2 _ I) as (cs & Id & Ic).
  exists av, cs. auto.
Qed.

(** Every assignment of a roster that [generate_initial_roster] returns,
    whatever the solver answered, is for an employee of the context, on a
    date of the planning window, with a shift code that the availability
    entry of that employee lists for that date; its station is [None] and
    its store is the store asked for.  The employees have distinct ids. *)
Theorem generated_assignments_are_available
        T Solve ctx store_id start_date end_date roster a :
  NoDup (map e_id (PyDict.values (employees ctx))) ->
  generate_initial_roster T Solve ctx store_id start_date end_date = Returned roster ->
  In a (r_assignments roster) ->
  exists emp av codes,
    In emp (PyDict.values (employees ctx))
    /\ a_employee_id a = e_id emp
    /\ start_date <= a_date a <= end_date
    /\ In (e_id emp, av) (availability ctx)
    /\ In (a_date a, codes) (allowed_shift_codes_by_date av)
    /\ In (a_shift_code a) codes
    /\ a_station a = None
    /\ a_store_id a = store_id.
Proof.
  intros ND G I. unfold generate_initial_roster in G.
  destruct (negb (nonempty _)); [discriminate|].
  destruct (negb (nonempty _)); [discriminate|].
  destruct (Solve _) as [status val].
  destruct (negb (status_accepted status)); [discriminate|].
  injection G as <-. cbn [r_assignments] in I.
  destruct (decode_In ctx start_date end_date ND val store_id a I)
    as (emp & dt & code & Tr & _ & ->).
  apply variable_triples_In in Tr. destruct Tr as (Ie & Id & Ic).
  unfold sorted_allowed in Ic.
  eapply Permutation_in in Ic; [|apply sorted_by_perm].
  destruct (availability_map_sound _ _ _ _ Ic) as (av & codes & Ia & Idc & Icc).
  exists emp, av, codes. cbn [a_employee_id a_date a_shift_code a_station a_store_id].
  rewrite t_dates_eq in Id. apply planning_dates_In in Id.
  repeat split; try assumption; lia.
Qed.

Lemma generated_assignments_are_available_witness :
  exists emp av codes,
    In emp (PyDict.values (employees ctx_shortfall))
    /\ "e1" = e_id emp
    /\ 100 <= 100 <= 101
    /\ In (e_id emp, av) (availability ctx_shortfall)
    /\ In (100, codes) (allowed_shift_codes_by_date av)
    /\ In "S" codes
    /\ @None SkillTag = None
    /\ "store_1" = "store_1".
Proof.
  refine (generated_assignments_are_available DEFAULT_SHIFT_TEMPLATES
            (fun _ => (OPTIMAL, work_day_100)) ctx_shortfall "store_1" 100 101
            (mk_Roster "store_1" 100 101 [mk_ShiftAssignment "e1" 100 "S" None "store_1"])
            (mk_ShiftAssignment "e1" 100 "S" None "store_1") _ _ _).
  - repeat constructor. simpl. tauto.
  - reflexivity.
  - left. reflexivity.
Defined.

(** ** One shift per employee and day *)

Lemma NoDup_flat_map_keyed {A B K} (l : list A) (g : A -> list B)
      (kb : B -> K) (ka : A -> K) :
  NoDup (map ka l) ->
  (forall a b, In a l -> In b (g a) -> kb b = ka a) ->
  (forall a, In a l -> (List.length (g a) <= 1)%nat) ->
  NoDup (map kb (flat_map g l)).
Proof.
  induction l as [|a l IH]; intros ND Own One; simpl; [constructor|].
  inversion ND as [|? ? NI ND']; subst.
  rewrite map_app. apply NoDup_app.
  - assert (L := One a (or_introl eq_refl)).
    destruct (g a) as [|b [|b' r]]; simpl in *; [constructor| |lia].
    constructor; [tauto|constructor].
  - apply IH; [exact ND'| |].
    + intros x b Ix Ib. apply Own; [now right|exact Ib].
    + intros x Ix. apply One. now right.
  - intros k I J. apply in_map_iff in I. destruct I as (b & <- & Ib).
    apply in_map_iff in J. destruct J as (b' & E & Ib').
    apply in_flat_map in Ib'. destruct Ib' as (a' & Ia' & Ib').
    apply NI. rewrite <- (Own a b (or_introl eq_refl) Ib), <- E.
    rewrite (Own a' b' (or_intror Ia') Ib'). now apply in_map.
Qed.

Lemma eval_lin_sum_cons val v vars :
  eval_lin val (lin_sum (v :: vars)) = val v + eval_lin val (lin_sum vars).
Proof. unfold eval_lin, lin_sum. cbn [lin_terms lin_const map fold_right fst snd]. lia. Qed.

Lemma one_shift_posted t emp dt :
  In emp (t_employees t) -> In dt (t_dates t) ->
  vars_of_codes t emp dt (codes_of t emp dt) <> [] ->
  In (Add (lin_sum (vars_of_codes t emp dt (codes_of t emp dt))) REL_LE (lin_of_const 1))
     (one_shift_per_day t).
Proof.
  intros Ie Id N. unfold one_shift_per_day. apply in_flat_map.
  exists (emp, dt). split; [now apply employee_dates_In|].
  cbv beta iota.
  destruct (codes_of t emp dt) as [|c cs] eqn:C; [now elim N|].
  cbn [nonempty].
  destruct (vars_of_codes t emp dt (c :: cs)) as [|v vs]; [now elim N|].
  now left.
Qed.

Section GeneratedDays.
Variable T : dict string ShiftTemplate.
Variables (ctx : SystemContext) (store_id : string) (start_date end_date : date).
Variable val : Valuation.
Hypothesis ids_distinct : NoDup (map e_id (PyDict.values (employees ctx))).
Hypothesis solved : satisfies val (build_model T ctx start_date end_date) = true.

Let t := build_tables ctx start_date end_date.
Let amap := availability_map_of ctx.
Let dec := decode_triple ctx start_date end_date val store_id.

(** The assignments decoded for an employee and a day are as many as the
    sum of that day's variables. *)
Lemma day_block_count emp dt : forall codes,
  (forall code, In code codes ->
                In (emp, dt, code) (variable_triples ctx start_date end_date)) ->
  Z.of_nat (List.length (flat_map dec (map (fun code => (emp, dt, code)) codes)))
  = eval_lin val (lin_sum (vars_of_codes t emp dt codes)).
Proof.
  induction codes as [|code codes IH]; intros I; [reflexivity|].
  assert (Tr : In (emp, dt, code) (variable_triples ctx start_date end_date))
    by (apply I; now left).
  assert (IH' := IH (fun c J => I c (or_intror J))).
  cbn [map flat_map vars_of_codes]. unfold t.
  rewrite (x_get_triple ctx start_date end_date emp dt code Tr).
  cbn [app]. rewrite eval_lin_sum_cons, length_app, Nat2Z.inj_add.
  fold t. fold (vars_of_codes t emp dt codes). rewrite IH'.
  f_equal. unfold dec, decode_triple, var_of_key, key_of_triple. cbn [fst snd].
  fold t.
  destruct (created_variable_is_boolean T ctx start_date end_date val
              ids_distinct solved _ Tr) as [V | V];
    unfold var_of_key, key_of_triple in V; cbn [fst snd] in V; fold t in V;
    rewrite V; reflexivity.
Qed.

Lemma day_block_single emp dt :
  In emp (t_employees t) -> In dt (t_dates t) ->
  (List.length (flat_map dec (map (fun code => (emp, dt, code))
                                  (sorted_allowed amap (e_id emp) dt))) <= 1)%nat.
Proof.
  intros Ie Id.
  assert (C : codes_of t emp dt = sorted_allowed amap (e_id emp) dt)
    by (apply codes_of_allowed; assumption).
  assert (Tr : forall code, In code (sorted_allowed amap (e_id emp) dt) ->
                            In (emp, dt, code) (variable_triples ctx start_date end_date)).
  { intros code Ic. apply variable_triples_In. auto. }
  pose proof (day_block_count emp dt _ Tr) as N. rewrite <- C in N |- *.
  destruct (vars_of_codes t emp dt (codes_of t emp dt)) as [|v vs] eqn:V.
  - cbn in N. lia.
  - assert (P : In (Add (lin_sum (vars_of_codes t emp dt (codes_of t emp dt)))
                        REL_LE (lin_of_const 1))
                   (m_constraints (build_model T ctx start_date end_date))).
    { unfold build_model. cbn [m_constraints]. apply in_or_app; left.
      apply one_shift_posted; try assumption. fold t. rewrite V. discriminate. }
    pose proof (satisfies_constraint val _ _ solved P) as Hc.
    unfold constraint_holds, Add in Hc.
    cbn [c_enforce c_rel c_lhs c_rhs rel_holds] in Hc.
    apply Z.leb_le in Hc. rewrite V, <- N in Hc.
    unfold lin_of_const, eval_lin in Hc. cbn [lin_terms lin_const fold_right] in Hc.
    lia.
Qed.

Lemma decode_by_days :
  decode t val store_id
  = flat_map (fun ed : Employee * date =>
                flat_map dec (map (fun code => (ed, code))
                                  (sorted_allowed amap (e_id (fst ed)) (snd ed))))
             (employee_dates (t_employees t) (t_dates t)).
Proof.
  unfold t at 1. rewrite (decode_by_triples ctx start_date end_date ids_distinct).
  unfold variable_triples. now rewrite flat_map_flat_map.
Qed.

Lemma employee_dates_keys_NoDup :
  NoDup (map (fun ed : Employee * date => (e_id (fst ed), snd ed))
             (employee_dates (t_employees t) (t_dates t))).
Proof.
  apply NoDup_map_NoDup_ForallPairs.
  - intros [e1 d1] [e2 d2] I1 I2 E. cbn [fst snd] in E. injection E as Ee Ed.
    apply employee_dates_In in I1. apply employee_dates_In in I2.
    f_equal; [|exact Ed].
    apply (same_id_same_employee _ _ _ ids_distinct); tauto.
  - unfold employee_dates.
    apply (NoDup_flat_map_pairs _ (fun _ : Employee => t_dates t)).
    + apply NoDup_map_inv with (f := e_id). exact ids_distinct.
    + intros _ _. apply planning_dates_NoDup.
Qed.

Lemma decoded_days_NoDup :
  NoDup (map (fun a => (a_employee_id a, a_date a)) (decode t val store_id)).
Proof.
  rewrite decode_by_days.
  apply (NoDup_flat_map_keyed _ _ _ (fun ed : Employee * date => (e_id (fst ed), snd ed))).
  - apply employee_dates_keys_NoDup.
  - intros [emp dt] a _ Ia. cbn [fst snd] in *.
    apply in_flat_map in Ia. destruct Ia as (tr & Itr & Ia).
    apply in_map_iff in Itr. destruct Itr as (code & <- & _).
    unfold dec, decode_triple in Ia. cbn [fst snd] in Ia.
    destruct (val _ =? 1); [|contradiction]. destruct Ia as [<- | []]. reflexivity.
  - intros [emp dt] I. apply employee_dates_In in I. cbn [fst snd].
    now apply day_block_single.
Qed.
End GeneratedDays.

(** When the solver's answer satisfies the model, the roster returned
    holds at most one assignment per employee and date: no two of its
    assignments share both.  The employees have distinct ids. *)
Theorem generated_one_shift_per_day T Solve ctx store_id start_date end_date roster :
  NoDup (map e_id (PyDict.values (employees ctx))) ->
  satisfies (snd (Solve (build_model T ctx start_date end_date)))
            (build_model T ctx start_date end_date) = true ->
  generate_initial_roster T Solve ctx store_id start_date end_date = Returned roster ->
  NoDup (map (fun a => (a_employee_id a, a_date a)) (r_assignments roster)).
Proof.
  intros ND S G. unfold generate_initial_roster in G.
  destruct (negb (nonempty _)); [discriminate|].
  destruct (negb (nonempty _)); [discriminate|].
  destruct (Solve _) as [status val]. cbn [snd] in S.
  destruct (negb (status_accepted status)); [discriminate|].
  injection G as <-. cbn [r_assignments].
  now apply (decoded_days_NoDup T).
Qed.

Lemma generated_one_shift_per_day_witness :
  NoDup (map (fun a => (a_employee_id a, a_date a))
             (r_assignments
                (mk_Roster "store_1" 100 101
                   [mk_ShiftAssignment "e1" 100 "S" None "store_1"]))).
Proof.
  refine (generated_one_shift_per_day DEFAULT_SHIFT_TEMPLATES
            (fun _ => (OPTIMAL, work_day_100)) ctx_shortfall "store_1" 100 101 _ _ _ _).
  - repeat constructor. simpl. tauto.
  - vm_compute. reflexivity.
  - reflexivity.
Defined.

(** ** Generated rosters against the oracle *)

(** When the solver's answer satisfies the model, the roster returned
    draws no INSUFFICIENT_REST from [check_roster].  The employees have
    distinct ids. *)
Theorem generator_never_schedules_short_rest
        T Solve ctx store_id start_date end_date roster :
  NoDup (map e_id (PyDict.values (employees ctx))) ->
  satisfies (snd (Solve (build_model T ctx start_date end_date)))
            (build_model T ctx start_date end_date) = true ->
  generate_initial_roster T Solve ctx store_id start_date end_date = Returned roster ->
  with_code "INSUFFICIENT_REST" (check_roster T ctx roster) = [].
Proof.
  intros ND S G. unfold generate_initial_roster in G.
  destruct (negb (nonempty _)); [discriminate|].
  destruct (negb (nonempty _)); [discriminate|].
  destruct (Solve _) as [status val]. cbn [snd] in S.
  destruct (negb (status_accepted status)); [discriminate|].
  injection G as <-.
  rewrite check_roster_rest.
  now rewrite (generated_rest_step T ctx store_id start_date end_date val ND S).
Qed.

Lemma generator_never_schedules_short_rest_witness :
  with_code "INSUFFICIENT_REST"
    (check_roster DEFAULT_SHIFT_TEMPLATES ctx_shortfall
       (mk_Roster "store_1" 100 101 [mk_ShiftAssignment "e1" 100 "S" None "store_1"]))
  = [].
Proof.
  refine (generator_never_schedules_short_rest DEFAULT_SHIFT_TEMPLATES
            (fun _ => (OPTIMAL, work_day_100)) ctx_shortfall "store_1" 100 101 _ _ _ _).
  - repeat constructor. simpl. tauto.
  - vm_compute. reflexivity.
  - reflexivity.
Defined.

(** When every code for which a variable is created has a template of a
    whole number of half hours, and the solver's answer satisfies the
    model, the roster returned draws no MAX_HOURS_EXCEEDED.  The employees
    are keyed by their distinct ids. *)
Theorem generator_keeps_contract_maximum
        T Solve ctx store_id start_date end_date roster :
  NoDup (map e_id (PyDict.values (employees ctx))) ->
  (forall k emp, In (k, emp) (employees ctx) -> k = e_id emp) ->
  codes_known T ctx start_date end_date ->
  satisfies (snd (Solve (build_model T ctx start_date end_date)))
            (build_model T ctx start_date end_date) = true ->
  generate_initial_roster T Solve ctx store_id start_date end_date = Returned roster ->
  with_code "MAX_HOURS_EXCEEDED" (check_roster T ctx roster) = [].
Proof.
  intros ND KI KN S G. unfold generate_initial_roster in G.
  destruct (negb (nonempty _)); [discriminate|].
  destruct (negb (nonempty _)); [discriminate|].
  destruct (Solve _) as [status val]. cbn [snd] in S.
  destruct (negb (status_accepted status)); [discriminate|].
  injection G as <-.
  rewrite check_roster_max_hours. unfold step_contract, for_employees, with_code.
  rewrite filter_flat_map. apply flat_map_all_nil. intros [k emp] I.
  cbn [fst snd]. fold (with_code "MAX_HOURS_EXCEEDED").
  destruct (CONTRACT_HOURS_BOUNDS (e_contract_type emp)) as [[min_h max_h]|] eqn:B.
  - apply (check_contract_hours_within k emp _ min_h max_h B).
    rewrite (KI k emp I). cbn [r_assignments].
    apply (decoded_hours_within_max T ctx store_id start_date end_date val ND KN S
             emp min_h max_h); [|exact B].
    change (In (snd (k, emp)) (map snd (employees ctx))). now apply in_map.
  - unfold check_contract_hours. now rewrite B.
Qed.

Lemma generator_keeps_contract_maximum_witness :
  with_code "MAX_HOURS_EXCEEDED"
    (check_roster DEFAULT_SHIFT_TEMPLATES ctx_shortfall
       (mk_Roster "store_1" 100 101 [mk_ShiftAssignment "e1" 100 "S" None "store_1"]))
  = [].
Proof.
  refine (generator_keeps_contract_maximum DEFAULT_SHIFT_TEMPLATES
            (fun _ => (OPTIMAL, work_day_100)) ctx_shortfall "store_1" 100 101 _ _ _ _ _ _).
  - repeat constructor. simpl. tauto.
  - intros k emp [E | []]. now inversion E.
  - intros emp dt code I. vm_compute in I. destruct I as [E | []].
    inversion E; subst. eexists. split; reflexivity.
  - vm_compute. reflexivity.
  - reflexivity.
Defined.

(** ** Unknown employees *)

Ltac only_step :=
  rewrite check_roster_steps, !with_code_app;
  try rewrite (with_code_other _ _ _ (codes_step_contract _ _ _)) by not_in_codes;
  try rewrite (with_code_other _ _ _ (codes_step_weekly _ _ _)) by not_in_codes;
  try rewrite (with_code_other _ _ _ (codes_step_casual _ _ _)) by not_in_codes;
  try rewrite (with_code_other _ _ _ (codes_step_rest _ _ _)) by not_in_codes;
  try rewrite (with_code_other _ _ _ (codes_step_consecutive _ _)) by not_in_codes;
  try rewrite (with_code_other _ _ _ (codes_step_unknown _ _)) by not_in_codes;
  cbn [app]; rewrite ?app_nil_r.

Lemma with_code_same c vs : only_codes [c] vs -> with_code c vs = vs.
Proof.
  induction 1 as [|v vs I F IH]; [reflexivity|].
  cbn [with_code filter]. destruct I as [<- | []].
  rewrite String.eqb_refl. f_equal. exact IH.
Qed.

Lemma check_roster_unknown T ctx roster :
  with_code "UNKNOWN_EMPLOYEE" (check_roster T ctx roster) = step_unknown ctx roster.
Proof. only_step. apply with_code_same, codes_step_unknown. Qed.

(** [check_roster] reports UNKNOWN_EMPLOYEE once for each assignment whose
    employee id is not a key of [ctx.employees], in roster order, and for
    no other assignment. *)
Theorem unknown_employee_violations T ctx roster :
  with_code "UNKNOWN_EMPLOYEE" (check_roster T ctx roster)
  = map UNKNOWN_EMPLOYEE_violation
        (filter (fun a => negb (PyDict.mem (a_employee_id a) (employees ctx)))
                (r_assignments roster)).
Proof.
  rewrite check_roster_unknown. unfold step_unknown.
  induction (r_assignments roster) as [|a l IH]; [reflexivity|].
  cbn [flat_map filter]. rewrite IH.
  unfold check_unknown_employee.
  destruct (PyDict.mem (a_employee_id a) (employees ctx)); reflexivity.
Qed.

Lemma mem_key {K V} `{Key K} (d : dict K V) k :
  In k (PyDict.keys d) -> PyDict.mem k d = true.
Proof.
  intros I. unfold PyDict.mem. destruct (PyDict.get k d) eqn:G; [reflexivity|].
  now apply get_none_not_key in G.
Qed.

(** A roster that [generate_initial_roster] returns, whatever the solver
    answered, draws no UNKNOWN_EMPLOYEE.  The employees are keyed by their
    distinct ids. *)
Theorem generated_roster_has_known_employees
        T Solve ctx store_id start_date end_date roster :
  NoDup (map e_id (PyDict.values (employees ctx))) ->
  (forall k emp, In (k, emp) (employees ctx) -> k = e_id emp) ->
  generate_initial_roster T Solve ctx store_id start_date end_date = Returned roster ->
  with_code "UNKNOWN_EMPLOYEE" (check_roster T ctx roster) = [].
Proof.
  intros ND KI G. rewrite check_roster_unknown. unfold step_unknown.
  apply flat_map_all_nil. intros a I.
  unfold generate_initial_roster in G.
  destruct (negb (nonempty _)); [discriminate|].
  destruct (negb (nonempty _)); [discriminate|].
  destruct (Solve _) as [status val].
  destruct (negb (status_accepted status)); [discriminate|].
  injection G as <-. cbn [r_assignments] in I.
  destruct (decode_In ctx start_date end_date ND val store_id a I)
    as (emp & dt & code & Tr & _ & ->).
  apply variable_triples_In in Tr. destruct Tr as (Ie & _ & _).
  rewrite t_employees_eq in Ie. unfold PyDict.values in Ie.
  apply in_map_iff in Ie. destruct Ie as ([k e] & E & Ik). cbn [snd] in E. subst e.
  unfold check_unknown_employee. cbn [a_employee_id].
  rewrite mem_key; [reflexivity|].
  rewrite <- (KI k emp Ik). unfold PyDict.keys.
  change k with (fst (k, emp)). now apply in_map.
Qed.

Lemma generated_roster_has_known_employees_witness :
  with_code "UNKNOWN_EMPLOYEE"
    (check_roster DEFAULT_SHIFT_TEMPLATES ctx_shortfall
       (mk_Roster "store_1" 100 101 [mk_ShiftAssignment "e1" 100 "S" None "store_1"]))
  = [].
Proof.
  refine (generated_roster_has_known_employees DEFAULT_SHIFT_TEMPLATES
            (fun _ => (OPTIMAL, work_day_100)) ctx_shortfall "store_1" 100 101 _ _ _ _).
  - repeat constructor. simpl. tauto.
  - intros k emp [E | []]. now inversion E.
  - reflexivity.
Defined.

(** ** An inverted planning window *)

Lemma planning_dates_inverted start_date end_date :
  end_date < start_date -> planning_dates start_date end_date = [].
Proof.
  intros L. unfold planning_dates.
  replace (Z.to_nat (end_date - start_date + 1)) with 0%nat by lia. reflexivity.
Qed.

Lemma employee_dates_no_dates emps : employee_dates emps [] = [].
Proof. unfold employee_dates. now apply flat_map_all_nil. Qed.

Lemma build_tables_inverted ctx start_date end_date :
  end_date < start_date ->
  t_dates (build_tables ctx start_date end_date) = []
  /\ t_x (build_tables ctx start_date end_date) = [].
Proof.
  intros L. unfold build_tables. cbn [t_dates t_x].
  rewrite (planning_dates_inverted _ _ L), employee_dates_no_dates. auto.
Qed.

Lemma post_all_nil {A} (f : A -> Posted) l :
  (forall a, In a l -> f a = ([], [])) -> post_all f l = ([], []).
Proof.
  intros E. unfold post_all.
  rewrite !flat_map_all_nil; [reflexivity| |]; intros a I; now rewrite (E a I).
Qed.

Section NoDates.
Variable T : dict string ShiftTemplate.
Variable ctx : SystemContext.
Variable t : Tables.
Hypothesis no_dates : t_dates t = [].

Lemma one_shift_no_dates : one_shift_per_day t = [].
Proof. unfold one_shift_per_day. now rewrite no_dates, employee_dates_no_dates. Qed.

Lemma contract_max_no_dates : contract_max_hours T t = [].
Proof.
  unfold contract_max_hours. apply flat_map_all_nil. intros emp _.
  rewrite no_dates. destruct (CONTRACT_HOURS_BOUNDS _) as [[mn mx]|]; reflexivity.
Qed.

Lemma weekly_max_no_dates start_date : weekly_max_hours T t start_date = ([], []).
Proof.
  unfold weekly_max_hours. apply post_all_nil. intros emp _.
  rewrite no_dates. destruct (WEEKLY_CONTRACT_HOURS_BOUNDS _) as [[mn mx]|]; reflexivity.
Qed.

Lemma rest_no_dates : rest_exclusions T t = [].
Proof.
  unfold rest_exclusions. apply flat_map_all_nil. intros emp _.
  now rewrite no_dates.
Qed.

Lemma demand_no_dates : demand_coverage ctx t = ([], []).
Proof. unfold demand_coverage. now rewrite no_dates. Qed.

Lemma manager_no_dates : manager_coverage T t = ([], []).
Proof.
  unfold manager_coverage. rewrite no_dates.
  now destruct (nonempty (manager_ids_of t)).
Qed.

Lemma peak_no_dates : peak_two_managers T t = ([], []).
Proof.
  unfold peak_two_managers. rewrite no_dates.
  now destruct (nonempty (manager_ids_of t)).
Qed.
End NoDates.

(** When [end_date] is before [start_date] the window has no date: the
    model has no variable and no constraint, and whenever the generator
    returns, it returns the roster without assignments; it does return as
    soon as there are employees and shift codes and the solver's status is
    accepted. *)
Theorem inverted_window_gives_empty_roster T Solve ctx store_id start_date end_date :
  end_date < start_date ->
  let model := build_model T ctx start_date end_date in
  let result := generate_initial_roster T Solve ctx store_id start_date end_date in
  m_vars model = [] /\ m_constraints model = []
  /\ (forall roster, result = Returned roster ->
                     roster = mk_Roster store_id start_date end_date [])
  /\ (employees ctx <> [] ->
      all_shift_codes_of (availability_map_of ctx) <> [] ->
      status_accepted (fst (Solve model)) = true ->
      result = Returned (mk_Roster store_id start_date end_date [])).
Proof.
  intros L model result.
  destruct (build_tables_inverted ctx start_date end_date L) as [D X].
  assert (Dec : forall val,
             decode (build_tables ctx start_date end_date) val store_id = []).
  { intros val. unfold decode. now rewrite X. }
  split; [|split; [|split]].
  - subst model. unfold build_model. cbn [m_vars].
    rewrite X, (weekly_max_no_dates T _ D), (demand_no_dates ctx _ D),
      (manager_no_dates T _ D), (peak_no_dates T _ D). reflexivity.
  - subst model. unfold build_model. cbn [m_constraints].
    rewrite (one_shift_no_dates _ D), (contract_max_no_dates T _ D),
      (weekly_max_no_dates T _ D), (rest_no_dates T _ D), (demand_no_dates ctx _ D),
      (manager_no_dates T _ D), (peak_no_dates T _ D). reflexivity.
  - subst result. unfold generate_initial_roster. intros roster G.
    destruct (negb (nonempty _)); [discriminate|].
    destruct (negb (nonempty _)); [discriminate|].
    destruct (Solve _) as [status val].
    destruct (negb (status_accepted status)); [discriminate|].
    injection G as <-. now rewrite Dec.
  - subst result model. unfold generate_initial_roster. intros E C S.
    cbn [build_tables t_employees t_all_shift_codes].
    unfold PyDict.values.
    destruct (employees ctx) as [|kv emps]; [now elim E|]. cbn [map nonempty negb].
    destruct (all_shift_codes_of (availability_map_of ctx)) as [|c cs] eqn:A;
      [now elim C|].
    cbn [nonempty negb].
    destruct (Solve _) as [status val]. cbn [fst] in S. rewrite S. cbn [negb].
    now rewrite Dec.
Qed.

Lemma inverted_window_gives_empty_roster_witness :
  generate_initial_roster DEFAULT_SHIFT_TEMPLATES (fun _ => (OPTIMAL, work_day_100))
    ctx_shortfall "store_1" 101 100
  = Returned (mk_Roster "store_1" 101 100 []).
Proof.
  refine (proj2 (proj2 (proj2
            (inverted_window_gives_empty_roster DEFAULT_SHIFT_TEMPLATES
               (fun _ => (OPTIMAL, work_day_100)) ctx_shortfall "store_1" 101 100 _)))
            _ _ _).
  - reflexivity.
  - discriminate.
  - discriminate.
  - reflexivity.
Defined.

(** ** Severity, and the roster without assignments *)

Ltac in_codes := solve [repeat (first [left; reflexivity | right])].

Ltac classify_by_cases :=
  repeat match goal with
         | |- context [match ?x with _ => _ end] => destruct x
         | |- context [if ?b then _ else _] => destruct b
         end;
  repeat (apply Forall_cons;
          [first [left; split; [reflexivity|in_codes]
                 |right; split; [reflexivity|in_codes]]|]);
  try apply Forall_nil.

Lemma classified_for_employees ctx body :
  (forall emp_id emp, Forall classified (body emp_id emp)) ->
  Forall classified (for_employees ctx body).
Proof.
  intros B. unfold for_employees.
  apply Forall_flat_map, Forall_forall. intros kv _. apply B.
Qed.

(** Every violation [check_roster] reports carries one of eight codes, and
    the code fixes the severity: MAX_HOURS_EXCEEDED,
    MIN_SHIFT_LENGTH_CASUAL, INSUFFICIENT_REST, MAX_CONSECUTIVE_DAYS_EXCEEDED
    and UNKNOWN_EMPLOYEE are HARD; MIN_HOURS_NOT_MET, WEEKLY_MIN_HOURS_NOT_MET
    and WEEKLY_MAX_HOURS_EXCEEDED are SOFT. *)
Theorem severity_follows_code T ctx roster :
  Forall classified (check_roster T ctx roster).
Proof.
  unfold check_roster. rewrite !Forall_app. repeat split.
  - apply classified_for_employees. intros emp_id emp.
    unfold check_contract_hours. classify_by_cases.
  - apply classified_for_employees. intros emp_id emp.
    unfold check_weekly_hours.
    destruct (WEEKLY_CONTRACT_HOURS_BOUNDS _) as [[min_w max_w]|]; [|constructor].
    apply Forall_flat_map, Forall_forall. intros w _.
    unfold check_week. classify_by_cases.
  - apply Forall_flat_map, Forall_forall. intros a _.
    unfold check_casual_shift. classify_by_cases.
  - apply classified_for_employees. intros emp_id emp.
    unfold check_rest. apply Forall_flat_map, Forall_forall. intros [prev nxt] _.
    unfold check_rest_pair. classify_by_cases.
  - apply classified_for_employees. intros emp_id emp.
    rewrite check_consecutive_first_overrun.
    destruct (first_overrun _) as [[s day]|]; classify_by_cases.
  - apply Forall_flat_map, Forall_forall. intros a _.
    unfold check_unknown_employee. classify_by_cases.
Qed.

(** A roster without assignments draws one SOFT MIN_HOURS_NOT_MET per
    employee of the context, with a total of 0 hours against the minimum of
    the contract type, and nothing else. *)
Theorem empty_roster_violations T ctx store_id start_date end_date :
  check_roster T ctx (mk_Roster store_id start_date end_date [])
  = map (fun kv : string * Employee =>
           MIN_HOURS_violation (snd kv) 0 (contract_minimum (e_contract_type (snd kv))))
        (employees ctx).
Proof.
  rewrite check_roster_steps.
  assert (W : step_weekly T ctx (mk_Roster store_id start_date end_date []) = []).
  { unfold step_weekly, for_employees. apply flat_map_all_nil. intros [k e] _.
    cbn [fst snd]. unfold check_weekly_hours.
    destruct (WEEKLY_CONTRACT_HOURS_BOUNDS _) as [[mn mx]|]; reflexivity. }
  assert (R : step_rest T ctx (mk_Roster store_id start_date end_date []) = []).
  { unfold step_rest, for_employees. now apply flat_map_all_nil. }
  assert (C : step_consecutive ctx (mk_Roster store_id start_date end_date []) = []).
  { unfold step_consecutive, for_employees. now apply flat_map_all_nil. }
  rewrite W, R, C. cbn [step_casual step_unknown r_assignments flat_map app].
  rewrite app_nil_r. unfold step_contract, for_employees. cbn [r_assignments].
  induction (employees ctx) as [|[k e] l IH]; [reflexivity|].
  cbn [flat_map map fst snd]. rewrite IH.
  unfold check_contract_hours, contract_minimum, MIN_HOURS_violation.
  destruct (e_contract_type e); reflexivity.
Qed.

(** ** The minimum shift length of casuals *)

Lemma check_roster_casual T ctx roster :
  with_code "MIN_SHIFT_LENGTH_CASUAL" (check_roster T ctx roster) = step_casual T ctx roster.
Proof. only_step. apply with_code_same, codes_step_casual. Qed.

(** With a catalogue whose templates all last at least
    [MIN_SHIFT_HOURS_CASUAL] hours, [check_roster] never reports
    MIN_SHIFT_LENGTH_CASUAL, whatever the roster; an assignment whose code
    has no template draws none either. *)
Theorem casual_minimum_needs_a_short_template T ctx roster :
  (forall code tpl, In (code, tpl) T -> (MIN_SHIFT_HOURS_CASUAL <= tpl_hours tpl)%Q) ->
  with_code "MIN_SHIFT_LENGTH_CASUAL" (check_roster T ctx roster) = [].
Proof.
  intros Long. rewrite check_roster_casual. unfold step_casual.
  apply flat_map_all_nil. intros a _. unfold check_casual_shift.
  destruct (PyDict.get (a_employee_id a) (employees ctx)) as [emp|]; [|reflexivity].
  destruct (PyDict.get (a_shift_code a) T) as [tpl|] eqn:G; [|reflexivity].
  apply get_In in G. destruct G as (k & _ & I).
  assert (F : Qlt_bool (tpl_hours tpl) MIN_SHIFT_HOURS_CASUAL = false)
    by (apply Qlt_bool_false; now apply (Long k)).
  rewrite F, andb_false_r. reflexivity.
Qed.

Lemma casual_minimum_needs_a_short_template_witness :
  with_code "MIN_SHIFT_LENGTH_CASUAL"
    (check_roster DEFAULT_SHIFT_TEMPLATES ctx_one_casual roster_seven_days) = [].
Proof.
  apply (casual_minimum_needs_a_short_template DEFAULT_SHIFT_TEMPLATES
           ctx_one_casual roster_seven_days).
  intros code tpl I. simpl in I.
  repeat (destruct I as [E | I]; [inversion E; subst; vm_compute; discriminate|]).
  contradiction.
Defined.

(* ===================================================================== *)
(** ** The slack of a staffed day *)

Lemma flat_map_select {A B} (eqb : A -> A -> bool) (g : A -> list B) x l :
  (forall a b, eqb a b = true <-> a = b) ->
  NoDup l -> In x l ->
  flat_map (fun y => if eqb y x then g y else []) l = g x.
Proof.
  intros Eq ND I. induction l as [|y l IH]; [contradiction|].
  inversion ND as [|? ? NI ND']; subst. cbn [flat_map].
  destruct I as [-> | I].
  - rewrite (proj2 (Eq x x) eq_refl).
    rewrite flat_map_all_nil; [apply app_nil_r|].
    intros z Iz. destruct (eqb z x) eqn:E; [|reflexivity].
    apply Eq in E. subst. contradiction.
  - destruct (eqb y x) eqn:E.
    + apply Eq in E. subst. contradiction.
    + now apply IH.
Qed.

Lemma eval_lin_sum_app val l1 l2 :
  eval_lin val (lin_sum (l1 ++ l2))
  = eval_lin val (lin_sum l1) + eval_lin val (lin_sum l2).
Proof.
  induction l1 as [|v l1 IH]; [reflexivity|].
  cbn [app]. rewrite !eval_lin_sum_cons, IH. lia.
Qed.

Lemma eval_lin_add val a b :
  eval_lin val (lin_add a b) = eval_lin val a + eval_lin val b.
Proof.
  unfold eval_lin, lin_add. cbn [lin_terms lin_const].
  induction (lin_terms a) as [|cv l IH]; cbn [app fold_right].
  - induction (lin_terms b) as [|cv l IH]; cbn [fold_right]; lia.
  - lia.
Qed.

Section GeneratedCoverage.
Variable T : dict string ShiftTemplate.
Variables (ctx : SystemContext) (store_id : string) (start_date end_date : date).
Variable val : Valuation.
Hypothesis ids_distinct : NoDup (map e_id (PyDict.values (employees ctx))).
Hypothesis solved : satisfies val (build_model T ctx start_date end_date) = true.

Let t := build_tables ctx start_date end_date.
Let amap := availability_map_of ctx.
Let dec := decode_triple ctx start_date end_date val store_id.

Let block (ed : Employee * date) : list ShiftAssignment :=
  flat_map dec (map (fun code => (ed, code))
                    (sorted_allowed amap (e_id (fst ed)) (snd ed))).

Lemma block_dates ed a : In a (block ed) -> a_date a = snd ed.
Proof.
  unfold block. intros Ia. apply in_flat_map in Ia. destruct Ia as (tr & Itr & Ia).
  apply in_map_iff in Itr. destruct Itr as (code & <- & _).
  unfold dec, decode_triple in Ia. cbn [fst snd] in Ia.
  destruct (val _ =? 1); [|contradiction]. destruct Ia as [<- | []]. reflexivity.
Qed.

Lemma block_on_date ed dt :
  filter (fun a => a_date a =? dt) (block ed)
  = if snd ed =? dt then block ed else [].
Proof.
  destruct (Z.eqb_spec (snd ed) dt) as [E | N].
  - apply forallb_filter_id. apply forallb_forall. intros a Ia.
    apply Z.eqb_eq. rewrite (block_dates _ _ Ia). exact E.
  - apply filter_all_false. apply Forall_forall. intros a Ia.
    apply Z.eqb_neq. rewrite (block_dates _ _ Ia). exact N.
Qed.

(** The assignments decoded for a date of the window are those of the
    blocks of that date, one block per employee. *)
Lemma decoded_on_date dt :
  In dt (t_dates t) ->
  filter (fun a => a_date a =? dt) (decode t val store_id)
  = flat_map (fun emp => block (emp, dt)) (t_employees t).
Proof.
  intros Id. unfold t at 1.
  rewrite (decode_by_days ctx store_id start_date end_date val ids_distinct).
  fold t amap dec. change (fun ed : Employee * date =>
                             flat_map dec (map (fun code => (ed, code))
                                               (sorted_allowed amap (e_id (fst ed)) (snd ed))))
    with block.
  rewrite filter_flat_map. unfold employee_dates. rewrite flat_map_flat_map.
  apply flat_map_ext. intros emp. rewrite flat_map_of_map.
  rewrite (flat_map_ext _ (fun d => if d =? dt then block (emp, d) else []));
    [|intros d; apply (block_on_date (emp, d) dt)].
  apply (flat_map_select Z.eqb (fun d => block (emp, d)) dt (t_dates t));
    [apply Z.eqb_eq|apply planning_dates_NoDup|exact Id].
Qed.

Lemma assigned_is_sum_of_day_vars dt :
  In dt (t_dates t) ->
  Z.of_nat (List.length (filter (fun a => a_date a =? dt) (decode t val store_id)))
  = eval_lin val (lin_sum (day_vars_of t dt)).
Proof.
  intros Id. rewrite (decoded_on_date dt Id). unfold day_vars_of.
  assert (E : forall emp, In emp (t_employees t) ->
                Z.of_nat (List.length (block (emp, dt)))
                = eval_lin val (lin_sum (vars_of_codes t emp dt (codes_of t emp dt)))).
  { intros emp Ie.
    assert (C : codes_of t emp dt = sorted_allowed amap (e_id emp) dt)
      by (apply codes_of_allowed; assumption).
    rewrite C. unfold block. cbn [fst snd].
    apply (day_block_count T ctx store_id start_date end_date val ids_distinct solved).
    intros code Ic. apply variable_triples_In. auto. }
  induction (t_employees t) as [|emp emps IH]; [reflexivity|].
  cbn [flat_map]. rewrite length_app, Nat2Z.inj_add, eval_lin_sum_app.
  rewrite (E emp (or_introl eq_refl)), IH; [reflexivity|].
  intros e Ie. apply E. now right.
Qed.

Lemma slack_in_range dt :
  In dt (t_dates t) -> 0 <= val (UNDER_COV (d_idx_of t dt)).
Proof.
  intros Id. unfold satisfies in solved. apply andb_true_iff in solved.
  destruct solved as [R _]. rewrite forallb_forall in R.
  assert (D : In (NewIntVar 0 (Z.of_nat (List.length (t_employees t)))
                            (UNDER_COV (d_idx_of t dt)))
                 (m_vars (build_model T ctx start_date end_date))).
  { unfold build_model. cbn [m_vars]. fold t.
    do 2 (apply in_or_app; right). apply in_or_app; left.
    unfold demand_coverage, post_all. cbn [fst].
    apply in_flat_map. exists dt. split; [exact Id|now left]. }
  specialize (R _ D). unfold in_range, NewIntVar in R. cbn [d_var d_lo d_hi] in R.
  apply andb_true_iff in R. destruct R as [R1 _]. now apply Z.leb_le in R1.
Qed.

Lemma staffed_day_slack dt :
  In dt (t_dates t) ->
  day_vars_of t dt <> [] ->
  demand_today_of ctx dt
  - Z.of_nat (List.length (filter (fun a => a_date a =? dt) (decode t val store_id)))
  <= val (UNDER_COV (d_idx_of t dt)).
Proof.
  intros Id N. rewrite (assigned_is_sum_of_day_vars dt Id).
  pose proof (slack_in_range dt Id) as P.
  pose proof (demand_constraint_posted T ctx start_date end_date dt Id) as C.
  pose proof (satisfies_constraint val _ _ solved C) as Hc. fold t in Hc.
  unfold demand_constraint in Hc.
  destruct (day_vars_of t dt) as [|v vs] eqn:V; [now elim N|].
  cbn [nonempty andb] in Hc.
  destruct (Z.ltb_spec 0 (demand_today_of ctx dt)) as [L | L].
  - unfold constraint_holds, Add in Hc.
    cbn [c_enforce c_rel c_lhs c_rhs rel_holds] in Hc. apply Z.leb_le in Hc.
    rewrite eval_lin_add, (eval_lin_sum_cons val (UNDER_COV _) []) in Hc.
    change (eval_lin val (lin_sum [])) with 0 in Hc.
    change (eval_lin val (lin_of_const (demand_today_of ctx dt)))
      with (demand_today_of ctx dt) in Hc.
    lia.
  - assert (0 <= eval_lin val (lin_sum (v :: vs))).
    { rewrite <- V, <- (assigned_is_sum_of_day_vars dt Id). lia. }
    lia.
Qed.
End GeneratedCoverage.

Lemma staffed_day_has_vars ctx start_date end_date dt :
  NoDup (map e_id (PyDict.values (employees ctx))) ->
  start_date <= dt <= end_date ->
  staffed_on ctx dt ->
  day_vars_of (build_tables ctx start_date end_date) dt <> [].
Proof.
  intros ND R (emp & Ie & N).
  destruct (sorted_allowed (availability_map_of ctx) (e_id emp) dt) as [|code codes] eqn:A;
    [now elim N|].
  assert (Id : In dt (t_dates (build_tables ctx start_date end_date)))
    by (rewrite t_dates_eq; now apply planning_dates_In).
  assert (Tr : In (emp, dt, code) (variable_triples ctx start_date end_date)).
  { apply variable_triples_In. rewrite A. repeat split; [exact Ie|exact Id|now left]. }
  assert (V : In (X (e_idx_of (build_tables ctx start_date end_date) emp)
                    (d_idx_of (build_tables ctx start_date end_date) dt)
                    (s_idx_of (build_tables ctx start_date end_date) code))
                 (day_vars_of (build_tables ctx start_date end_date) dt)).
  { unfold day_vars_of. apply in_flat_map. exists emp. split; [exact Ie|].
    rewrite (codes_of_allowed ctx start_date end_date emp dt Ie Id), A.
    cbn [vars_of_codes flat_map].
    rewrite (x_get_triple ctx start_date end_date emp dt code Tr). now left. }
  intros E. rewrite E in V. exact V.
Qed.

(** When the solver's answer satisfies the model then, on every date of
    the window on which some employee has an allowed shift code, the
    under-coverage variable of the date is at least the demand of the date
    minus the number of assignments the returned roster holds on it.  The
    employees have distinct ids. *)
Theorem slack_covers_shortfall_of_staffed_day
        T Solve ctx store_id start_date end_date roster dt :
  NoDup (map e_id (PyDict.values (employees ctx))) ->
  satisfies (snd (Solve (build_model T ctx start_date end_date)))
            (build_model T ctx start_date end_date) = true ->
  generate_initial_roster T Solve ctx store_id start_date end_date = Returned roster ->
  start_date <= dt <= end_date ->
  staffed_on ctx dt ->
  demand_today_of ctx dt - assigned_on roster dt
  <= snd (Solve (build_model T ctx start_date end_date))
         (UNDER_COV (d_idx_of (build_tables ctx start_date end_date) dt)).
Proof.
  intros ND S G R St. unfold generate_initial_roster in G.
  destruct (negb (nonempty _)); [discriminate|].
  destruct (negb (nonempty _)); [discriminate|].
  destruct (Solve _) as [status val]. cbn [snd] in S |- *.
  destruct (negb (status_accepted status)); [discriminate|].
  injection G as <-. unfold assigned_on. cbn [r_assignments].
  apply (staffed_day_slack T ctx store_id start_date end_date val ND S).
  - rewrite t_dates_eq. now apply planning_dates_In.
  - now apply staffed_day_has_vars.
Qed.

Lemma slack_covers_shortfall_of_staffed_day_witness :
  demand_today_of ctx_shortfall 100
  - assigned_on (mk_Roster "store_1" 100 101
                   [mk_ShiftAssignment "e1" 100 "S" None "store_1"]) 100
  <= work_day_100 (UNDER_COV (d_idx_of (build_tables ctx_shortfall 100 101) 100)).
Proof.
  refine (slack_covers_shortfall_of_staffed_day DEFAULT_SHIFT_TEMPLATES
            (fun _ => (OPTIMAL, work_day_100)) ctx_shortfall "store_1" 100 101 _ 100
            _ _ _ _ _).
  - repeat constructor. simpl. tauto.
  - vm_compute. reflexivity.
  - reflexivity.
  - lia.
  - exists casual_e1. split; [now left|]. vm_compute. discriminate.
Defined.

(* ===================================================================== *)
(** ** The replacement the resolver picks *)

(** A code the resolver's availability map holds for an employee and a
    date is a code of an availability entry of that employee for that
    date. *)
Lemma available_to_listed ctx emp_id dt code :
  available_to ctx emp_id dt code = true -> listed_available ctx emp_id dt code.
Proof.
  set (Outer := fun (amap : dict string (dict date (list string))) =>
         forall k inner, In (k, inner) amap ->
           forall d cs, In (d, cs) inner -> forall c, In c cs ->
             listed_available ctx k d c).
  assert (O : Outer (resolver_availability_map ctx)).
  { unfold resolver_availability_map. apply fold_left_invariant_in.
    - intros amap [k av] Ik PO. cbn [fst snd].
      apply fold_left_invariant_in.
      + intros am [d cs] Id PI k' inner' J d' cs' J' c Ic. cbn [fst snd] in J.
        apply In_set in J. destruct J as [J | [-> ->]];
          [exact (PI k' inner' J d' cs' J' c Ic)|].
        apply In_set in J'. destruct J' as [J' | [-> ->]].
        * unfold PyDict.get_or in J'.
          destruct (PyDict.get k am) as [inner0|] eqn:G; [|contradiction].
          apply get_In in G. destruct G as (k0 & -> & I0).
          exact (PI k inner0 I0 d' cs' J' c Ic).
        * exists av, cs. split; [exact Ik|]. split; [exact Id|].
          exact (proj1 (dedup_In c cs) Ic).
      + destruct (PyDict.mem k amap); [exact PO|].
        intros k' inner' J. apply In_set in J. destruct J as [J | [-> ->]];
          [exact (PO k' inner' J)|].
        intros d cs [].
    - intros k inner []. }
  unfold available_to, PyDict.get_or. intros M. apply list_mem_In in M. revert M.
  match goal with
  | |- In code (match ?g with _ => _ end) -> _ => destruct g as [codes|] eqn:G2
  end; [|intros []].
  revert G2.
  match goal with
  | |- PyDict.get dt (match ?g with _ => _ end) = _ -> _ =>
      destruct g as [inner|] eqn:G1
  end; [|simpl; discriminate].
  intros G2 I.
  apply get_In in G1. destruct G1 as (k1 & -> & I1).
  apply get_In in G2. destruct G2 as (k2 & -> & I2).
  exact (O _ _ I1 _ _ I2 _ I).
Qed.

Lemma not_assigned_spec (assignments : list ShiftAssignment) d k :
  list_mem k (map a_employee_id (filter (fun a => a_date a =? d) assignments)) = false
  <-> (forall a, In a assignments -> a_date a = d -> a_employee_id a <> k).
Proof.
  split.
  - intros M a Ia Ed E.
    assert (I : In k (map a_employee_id (filter (fun a => a_date a =? d) assignments))).
    { apply in_map_iff. exists a. split; [exact E|].
      apply filter_In. split; [exact Ia|]. now apply Z.eqb_eq. }
    apply list_mem_In in I. congruence.
  - intros N.
    destruct (list_mem k _) eqn:M; [|reflexivity].
    apply list_mem_In in M. apply in_map_iff in M. destruct M as (a & E & Ia).
    apply filter_In in Ia. destruct Ia as [Ia Ed]. apply Z.eqb_eq in Ed.
    exfalso. now apply (N a).
Qed.

Section Candidacy.
Variable ctx : SystemContext.
Variable assignments : list ShiftAssignment.
Variable hb : dict string Q.
Variables (d : date) (code : string) (sh : Q) (ex : string).

Let verdict (k : string) (emp : Employee) : Candidacy :=
  candidacy (resolver_availability_map ctx)
    (map a_employee_id (filter (fun a => a_date a =? d) assignments))
    hb d code sh ex k emp.

Lemma candidacy_eligible k emp :
  verdict k emp <> NotEligible <-> eligible ctx assignments hb d code sh ex k emp.
Proof.
  unfold verdict, candidacy, eligible. fold (available_to ctx k d code).
  rewrite <- not_assigned_spec.
  destruct (String.eqb_spec k ex) as [E | N]; [tauto|].
  destruct (available_to ctx k d code); cbn [negb]; [|intuition congruence].
  destruct (list_mem k _); [intuition congruence|].
  destruct (CONTRACT_HOURS_BOUNDS (e_contract_type emp)) as [[min_h max_h]|].
  - destruct (Qlt_bool max_h (PyDict.get_or k 0%Q hb + sh)%Q) eqn:L.
    + split; [congruence|]. intros (_ & _ & _ & mn & mx & [= <- <-] & Le).
      apply Qlt_bool_false in Le. congruence.
    + apply Qlt_bool_false in L. split.
      * intros _. repeat split; auto. exists min_h, max_h. auto.
      * intros _. destruct (Qlt_bool _ min_h); discriminate.
  - split; [congruence|]. intros (_ & _ & _ & mn & mx & [=] & _).
Qed.


Lemma find_replacement_cases :
  match _find_replacement_employee ctx assignments hb d code sh ex with
  | Some c =>
      exists emp,
        In (c, emp) (employees ctx)
        /\ verdict c emp <> NotEligible
        /\ ((exists k e, In (k, e) (employees ctx) /\ verdict k e = UnderMin) ->
            verdict c emp = UnderMin)
  | None => forall k e, In (k, e) (employees ctx) -> verdict k e = NotEligible
  end.
Proof.
  unfold _find_replacement_employee. cbv zeta.
  change (fun kv : string * Employee =>
            match candidacy (resolver_availability_map ctx)
                    (map a_employee_id (filter (fun a => a_date a =? d) assignments))
                    hb d code sh ex (fst kv) (snd kv) with
            | UnderMin => true
            | _ => false
            end)
    with (fun kv : string * Employee =>
            match verdict (fst kv) (snd kv) with UnderMin => true | _ => false end).
  change (fun kv : string * Employee =>
            match candidacy (resolver_availability_map ctx)
                    (map a_employee_id (filter (fun a => a_date a =? d) assignments))
                    hb d code sh ex (fst kv) (snd kv) with
            | Normal => true
            | _ => false
            end)
    with (fun kv : string * Employee =>
            match verdict (fst kv) (snd kv) with Normal => true | _ => false end).
  destruct (map fst (filter (fun kv : string * Employee =>
                               match verdict (fst kv) (snd kv) with
                               | UnderMin => true | _ => false end) (employees ctx)))
    as [|u us] eqn:U.
  - assert (NoU : forall k e, In (k, e) (employees ctx) -> verdict k e <> UnderMin).
    { intros k e I V.
      assert (J : In k (map fst (filter (fun kv : string * Employee =>
                                           match verdict (fst kv) (snd kv) with
                                           | UnderMin => true | _ => false end)
                                        (employees ctx)))).
      { apply in_map_iff. exists (k, e). split; [reflexivity|].
        apply filter_In. split; [exact I|]. cbn [fst snd]. now rewrite V. }
      rewrite U in J. exact J. }
    destruct (map fst (filter (fun kv : string * Employee =>
                                 match verdict (fst kv) (snd kv) with
                                 | Normal => true | _ => false end) (employees ctx)))
      as [|n ns] eqn:Nm.
    + intros k e I.
      destruct (verdict k e) eqn:V; [reflexivity| |].
      * now elim (NoU k e I).
      * assert (J : In k (map fst (filter (fun kv : string * Employee =>
                                             match verdict (fst kv) (snd kv) with
                                             | Normal => true | _ => false end)
                                          (employees ctx)))).
        { apply in_map_iff. exists (k, e). split; [reflexivity|].
          apply filter_In. split; [exact I|]. cbn [fst snd]. now rewrite V. }
        rewrite Nm in J. contradiction.
    + assert (J : In n (map fst (filter (fun kv : string * Employee =>
                                           match verdict (fst kv) (snd kv) with
                                           | Normal => true | _ => false end)
                                        (employees ctx))))
        by (rewrite Nm; now left).
      apply in_map_iff in J. destruct J as ([k e] & <- & J).
      apply filter_In in J. destruct J as [I V]. cbn [fst snd] in *.
      exists e. split; [exact I|]. split.
      * intros F. now rewrite F in V.
      * intros (k' & e' & I' & V'). now elim (NoU k' e' I').
  - assert (J : In u (map fst (filter (fun kv : string * Employee =>
                                         match verdict (fst kv) (snd kv) with
                                         | UnderMin => true | _ => false end)
                                      (employees ctx))))
      by (rewrite U; now left).
    apply in_map_iff in J. destruct J as ([k e] & <- & J).
    apply filter_In in J. destruct J as [I V]. cbn [fst snd] in *.
    destruct (verdict k e) eqn:Vk; try discriminate.
    exists e. split; [exact I|]. split; [congruence|auto].
Qed.
End Candidacy.


(* ===================================================================== *)
(** ** What every reassignment keeps *)

Section ResolverMoves.
Variable T : dict string ShiftTemplate.
Variable ctx : SystemContext.
Variable assignments : list ref.
Variable P : Heap -> Prop.

Hypothesis move_keeps :
  forall h hb o a c,
    P h -> In a assignments -> a_employee_id (h a) = o ->
    _find_replacement_employee ctx (map h assignments) hb (a_date (h a))
      (a_shift_code (h a)) (shift_hours_of T (a_shift_code (h a))) o = Some c ->
    P (set_employee_id h a c).

Lemma relieve_keeps st o :
  P (rs_heap st) -> P (rs_heap (relieve T ctx assignments st o)).
Proof.
  intros H. unfold relieve.
  destruct (PyDict.get o (employees ctx)) as [emp|]; [|exact H].
  destruct (CONTRACT_HOURS_BOUNDS (e_contract_type emp)) as [[min_h max_h]|]; [|exact H].
  destruct (Qle_bool _ max_h); [exact H|].
  destruct (first_movable _ _ _ _ _ _ _) as [[[a c] sh]|] eqn:F; [|exact H].
  apply first_movable_spec in F. destruct F as (Ia & -> & R).
  apply emp_refs_latest_first_spec in Ia. destruct Ia as (Ia & Eo).
  cbn [rs_heap]. eapply move_keeps; eauto.
Qed.

Lemma relieve_all_keep ids : forall st,
  P (rs_heap st) -> P (rs_heap (fold_left (relieve T ctx assignments) ids st)).
Proof.
  induction ids as [|o ids IH]; intros st H; simpl; [exact H|].
  apply IH. now apply relieve_keeps.
Qed.

Lemma repair_loop_keeps iterations : forall h logs,
  P h -> P (fst (repair_loop T ctx assignments iterations h logs)).
Proof.
  induction iterations as [|i later IH]; intros h logs H; simpl; [exact H|].
  destruct (overloaded_ids_of ctx _) as [|o ids] eqn:O; [exact H|].
  set (st := fold_left _ _ _).
  assert (S : P (rs_heap st)).
  { subst st.
    apply (relieve_all_keep (o :: ids)
             (mk_state h (_compute_hours_by_employee T (map h assignments)) false logs)).
    exact H. }
  destruct (rs_progress_made st); [|exact S].
  now apply IH.
Qed.

Lemma rebalance_hours_keeps max_iterations h roster :
  assignments = ro_assignments roster ->
  P h -> P (fst (fst (rebalance_hours T max_iterations ctx h roster))).
Proof.
  intros E H. unfold rebalance_hours. rewrite <- E.
  pose proof (repair_loop_keeps (seq 0 (Z.to_nat max_iterations)) h [] H) as K.
  destruct (repair_loop _ _ _ _ _ _) as [h' logs]. exact K.
Qed.
End ResolverMoves.

Lemma map_replace_NoDup {B} (f : ref -> B) (a : ref) (v : B) (l : list ref) :
  NoDup (map f l) ->
  (forall r, In r l -> r <> a -> f r <> v) ->
  NoDup (map (fun r => if Nat.eqb r a then v else f r) l).
Proof.
  intros ND Fresh.
  assert (NDl : NoDup l) by (eapply NoDup_map_inv; exact ND).
  induction l as [|r l IH]; [constructor|].
  cbn [map] in *. inversion ND as [|? ? NI ND']; subst.
  inversion NDl as [|? ? NIl NDl']; subst.
  constructor.
  - intros I. apply in_map_iff in I. destruct I as (r' & E & I').
    destruct (Nat.eq_dec r a) as [Era | Nra], (Nat.eq_dec r' a) as [Er'a | Nr'a].
    + apply NIl. now rewrite Era, <- Er'a.
    + rewrite (proj2 (Nat.eqb_eq r a) Era), (proj2 (Nat.eqb_neq r' a) Nr'a) in E.
      apply (Fresh r' (or_intror I') Nr'a). exact E.
    + rewrite (proj2 (Nat.eqb_neq r a) Nra), (proj2 (Nat.eqb_eq r' a) Er'a) in E.
      apply (Fresh r (or_introl eq_refl) Nra). now symmetry.
    + rewrite (proj2 (Nat.eqb_neq r a) Nra), (proj2 (Nat.eqb_neq r' a) Nr'a) in E.
      apply NI. rewrite <- E. now apply in_map.
  - apply IH; [exact ND'| |exact NDl'].
    intros r' I'. apply Fresh. now right.
Qed.

(** [rebalance_hours] never books an employee twice on a date: when no two
    assignments of the input roster share both the employee and the date,
    none of the returned roster do. *)
Theorem rebalance_hours_never_double_books T max_iterations ctx h roster :
  let result := rebalance_hours T max_iterations ctx h roster in
  no_double_booking (r_assignments (roster_value h roster)) ->
  no_double_booking
    (r_assignments (roster_value (fst (fst result)) (snd (fst result)))).
Proof.
  intros result H. subst result.
  assert (E : snd (fst (rebalance_hours T max_iterations ctx h roster))
              = mk_RosterObj (ro_store_id roster) (ro_start_date roster)
                             (ro_end_date roster) (ro_assignments roster)).
  { unfold rebalance_hours. now destruct (repair_loop _ _ _ _ _ _). }
  rewrite E. cbn [roster_value r_assignments ro_assignments] in *.
  apply (rebalance_hours_keeps T ctx (ro_assignments roster)
           (fun h => no_double_booking (map h (ro_assignments roster))));
    [|reflexivity|exact H].
  clear. intros h hb o a c H Ia Eo F.
  pose proof (find_replacement_cases ctx (map h (ro_assignments roster)) hb
                (a_date (h a)) (a_shift_code (h a))
                (shift_hours_of T (a_shift_code (h a))) o) as C.
  rewrite F in C. destruct C as (emp & _ & V & _).
  apply candidacy_eligible in V. destruct V as (_ & _ & Free & _).
  unfold no_double_booking in *. rewrite map_map in *.
  rewrite (map_ext (fun r => (a_employee_id (set_employee_id h a c r),
                              a_date (set_employee_id h a c r)))
                   (fun r => if Nat.eqb r a then (c, a_date (h a))
                             else (a_employee_id (h r), a_date (h r)))).
  - apply map_replace_NoDup; [exact H|].
    intros r Ir _ E. injection E as E1 E2.
    apply (Free (h r)); [now apply in_map|exact E2|exact E1].
  - intros r. unfold set_employee_id. now destruct (Nat.eqb r a).
Qed.

Lemma rebalance_hours_never_double_books_witness :
  no_double_booking
    (r_assignments (roster_value (fst (fst rebalanced)) (snd (fst rebalanced)))).
Proof.
  apply (rebalance_hours_never_double_books DEFAULT_SHIFT_TEMPLATES 20
           ctx_two_casuals heap_before roster_before).
  unfold no_double_booking. vm_compute.
  repeat constructor; simpl; intuition discriminate.
Defined.

(** After [rebalance_hours] every assignment object is held either by the
    employee who held it before or by an employee of the context whose
    availability entry lists the shift code of the assignment for its
    date; objects that are not in the roster are as they were. *)
Theorem rebalance_hours_moves_to_available_employees T max_iterations ctx h roster r :
  let h' := fst (fst (rebalance_hours T max_iterations ctx h roster)) in
  (a_employee_id (h' r) = a_employee_id (h r)
   \/ ((exists emp, In (a_employee_id (h' r), emp) (employees ctx))
       /\ listed_available ctx (a_employee_id (h' r)) (a_date (h' r))
                           (a_shift_code (h' r))))
  /\ (~ In r (ro_assignments roster) -> h' r = h r).
Proof.
  intros h'. subst h'.
  apply (rebalance_hours_keeps T ctx (ro_assignments roster)
           (fun h' =>
              (a_employee_id (h' r) = a_employee_id (h r)
               \/ ((exists emp, In (a_employee_id (h' r), emp) (employees ctx))
                   /\ listed_available ctx (a_employee_id (h' r)) (a_date (h' r))
                                       (a_shift_code (h' r))))
              /\ (~ In r (ro_assignments roster) -> h' r = h r)));
    [|reflexivity|split; [now left|reflexivity]].
  clear. intros h1 hb o a c [H Out] Ia Eo F.
  pose proof (find_replacement_cases ctx (map h1 (ro_assignments roster)) hb
                (a_date (h1 a)) (a_shift_code (h1 a))
                (shift_hours_of T (a_shift_code (h1 a))) o) as C.
  rewrite F in C. destruct C as (emp & Ic & V & _).
  apply candidacy_eligible in V. destruct V as (_ & Av & _ & _).
  apply available_to_listed in Av.
  unfold set_employee_id. destruct (Nat.eqb_spec r a) as [-> | N].
  - cbn [a_employee_id a_date a_shift_code]. split.
    + right. split; [now exists emp|exact Av].
    + intros NI. contradiction.
  - split; [exact H|exact Out].
Qed.

Lemma rebalance_hours_moves_to_available_employees_witness :
  fst (fst (rebalance_hours DEFAULT_SHIFT_TEMPLATES 20 ctx_two_casuals
                            heap_before roster_before)) 7%nat
  = heap_before 7%nat.
Proof.
  apply (proj2 (rebalance_hours_moves_to_available_employees
                  DEFAULT_SHIFT_TEMPLATES 20 ctx_two_casuals heap_before
                  roster_before 7%nat)).
  simpl. intuition discriminate.
Defined.

(* ===================================================================== *)
(** ** A roster the oracle finds within the maximum *)

Lemma flat_map_nil_iff {A B} (f : A -> list B) l :
  flat_map f l = [] <-> (forall x, In x l -> f x = []).
Proof.
  split; [|apply flat_map_all_nil].
  induction l as [|x l IH]; intros E y I; [contradiction|].
  cbn [flat_map] in E. apply app_eq_nil in E. destruct E as [E1 E2].
  destruct I as [<- | I]; auto.
Qed.

(** The oracle and the resolver agree on who is over the maximum. *)
Lemma overloaded_iff_violation T ctx assignments :
  overloaded_ids_of ctx (_compute_hours_by_employee T assignments) = []
  <-> with_code "MAX_HOURS_EXCEEDED"
        (check_roster T ctx (mk_Roster "" 0 0 assignments)) = [].
Proof.
  rewrite check_roster_max_hours. unfold step_contract, for_employees, with_code.
  rewrite filter_flat_map. cbn [r_assignments].
  rewrite total_hours_by_emp_compute. unfold overloaded_ids_of.
  rewrite !flat_map_nil_iff.
  split; intros E [k e] I; specialize (E (k, e) I); cbn [fst snd] in *;
    unfold check_contract_hours in *;
    destruct (CONTRACT_HOURS_BOUNDS (e_contract_type e)) as [[mn mx]|];
    try reflexivity;
    destruct (Qlt_bool mx _); destruct (Qlt_bool _ mn); cbn in *;
    try reflexivity; try discriminate.
Qed.

Lemma check_roster_fields T ctx s1 d1 s2 e1 e2 assignments :
  with_code "MAX_HOURS_EXCEEDED" (check_roster T ctx (mk_Roster s1 d1 e1 assignments))
  = with_code "MAX_HOURS_EXCEEDED" (check_roster T ctx (mk_Roster s2 0 e2 assignments)).
Proof. now rewrite !check_roster_max_hours. Qed.

(** When [check_roster] reports no MAX_HOURS_EXCEEDED for a roster,
    [rebalance_hours] (with at least one iteration allowed) leaves the
    store as it is, returns a roster object with the same fields and
    references, and logs the one line "Iteration 0: no overloaded employees
    remaining". *)
Theorem rebalance_hours_leaves_roster_within_maximum T max_iterations ctx h roster :
  0 < max_iterations ->
  with_code "MAX_HOURS_EXCEEDED" (check_roster T ctx (roster_value h roster)) = [] ->
  rebalance_hours T max_iterations ctx h roster
  = (h,
     mk_RosterObj (ro_store_id roster) (ro_start_date roster) (ro_end_date roster)
                  (ro_assignments roster),
     [LogNoOverloaded 0]).
Proof.
  intros L V. unfold roster_value in V.
  rewrite (check_roster_fields T ctx _ _ "" _ 0) in V.
  apply overloaded_iff_violation in V.
  unfold rebalance_hours.
  destruct (Z.to_nat max_iterations) as [|n] eqn:N; [lia|].
  cbn [seq repair_loop]. rewrite V. reflexivity.
Qed.

Lemma rebalance_hours_leaves_roster_within_maximum_witness :
  rebalance_hours DEFAULT_SHIFT_TEMPLATES 20 ctx_two_casuals heap_before roster_five_shifts
  = (heap_before, roster_five_shifts, [LogNoOverloaded 0]).
Proof.
  apply (rebalance_hours_leaves_roster_within_maximum DEFAULT_SHIFT_TEMPLATES 20
           ctx_two_casuals heap_before roster_five_shifts).
  - lia.
  - vm_compute. reflexivity.
Defined.

(* ===================================================================== *)
(** ** What the log of the resolver tells *)

Section ResolverLog.
Variable T : dict string ShiftTemplate.
Variable ctx : SystemContext.
Variable assignments : list ref.

(** A pass either leaves the state as it is or sets the progress flag and
    appends a reassignment line. *)
Lemma relieve_logs st o :
  relieve T ctx assignments st o = st
  \/ (rs_progress_made (relieve T ctx assignments st o) = true
      /\ exists line,
           rs_logs (relieve T ctx assignments st o) = rs_logs st ++ [line]
           /\ is_reassigning line = true).
Proof.
  unfold relieve.
  destruct (PyDict.get o (employees ctx)) as [emp|]; [|now left].
  destruct (CONTRACT_HOURS_BOUNDS (e_contract_type emp)) as [[min_h max_h]|]; [|now left].
  destruct (Qle_bool _ max_h); [now left|].
  destruct (first_movable _ _ _ _ _ _ _) as [[[a c] sh]|]; [|now left].
  right. cbn [rs_progress_made rs_logs]. split; [reflexivity|]. eauto.
Qed.

Lemma relieve_all_logs ids : forall st,
  fold_left (relieve T ctx assignments) ids st = st
  \/ (rs_progress_made (fold_left (relieve T ctx assignments) ids st) = true
      /\ exists pre line,
           rs_logs (fold_left (relieve T ctx assignments) ids st)
           = rs_logs st ++ pre ++ [line]
           /\ is_reassigning line = true).
Proof.
  induction ids as [|o ids IH]; intros st; cbn [fold_left]; [now left|].
  destruct (relieve_logs st o) as [E | (Pg & line & El & Rl)].
  - rewrite E. apply IH.
  - right. destruct (IH (relieve T ctx assignments st o))
      as [E | (Pg' & pre & line' & El' & Rl')].
    + rewrite E. split; [exact Pg|]. exists [], line. auto.
    + split; [exact Pg'|]. exists (line :: pre), line'.
      rewrite El', El, <- app_assoc. auto.
Qed.

Let overloaded (h : Heap) : list string :=
  overloaded_ids_of ctx (_compute_hours_by_employee T (map h assignments)).

Lemma repair_loop_no_overloaded iterations : forall h logs,
  ((exists pre i, logs = pre ++ [LogNoOverloaded i]) -> overloaded h = []) ->
  (exists pre i,
      snd (repair_loop T ctx assignments iterations h logs) = pre ++ [LogNoOverloaded i]) ->
  overloaded (fst (repair_loop T ctx assignments iterations h logs)) = [].
Proof.
  induction iterations as [|i later IH]; intros h logs H; cbn [repair_loop];
    [exact H|].
  fold (overloaded h).
  destruct (overloaded h) as [|o ids] eqn:O; [intros _; exact O|].
  set (st0 := mk_state h (_compute_hours_by_employee T (map h assignments)) false logs).
  change (fold_left (relieve T ctx assignments) (o :: ids) st0)
    with (fold_left (relieve T ctx assignments) ids (relieve T ctx assignments st0 o)).
  destruct (relieve_all_logs (o :: ids) st0) as [E | (Pg & pre & line & El & Rl)];
    cbn [fold_left] in *.
  - rewrite E. cbn [rs_progress_made st0 rs_heap rs_logs snd fst].
    intros (pre & j & F). apply app_inj_tail in F. destruct F as [_ F]. discriminate.
  - rewrite Pg. apply IH. intros (pre' & j & F). exfalso.
    rewrite El, app_assoc in F. apply app_inj_tail in F. destruct F as [_ F].
    subst line. discriminate.
Qed.

Lemma repair_loop_logs_grow iterations : forall h logs line,
  In line logs -> In line (snd (repair_loop T ctx assignments iterations h logs)).
Proof.
  induction iterations as [|i later IH]; intros h logs line I; cbn [repair_loop];
    [exact I|].
  destruct (overloaded_ids_of ctx _) as [|o ids];
    [cbn [snd]; apply in_or_app; now left|].
  set (st0 := mk_state h (_compute_hours_by_employee T (map h assignments)) false logs).
  assert (G : In line (rs_logs (fold_left (relieve T ctx assignments) (o :: ids) st0))).
  { destruct (relieve_all_logs (o :: ids) st0) as [E | (_ & pre & l & El & _)].
    - rewrite E. exact I.
    - rewrite El. apply in_or_app. now left. }
  cbn [fold_left] in G.
  destruct (rs_progress_made _).
  - now apply IH.
  - cbn [snd]. apply in_or_app. now left.
Qed.

Lemma repair_loop_silent iterations : forall h logs,
  (forall line,
      In line (snd (repair_loop T ctx assignments iterations h logs)) ->
      is_reassigning line = false) ->
  fst (repair_loop T ctx assignments iterations h logs) = h.
Proof.
  induction iterations as [|i later IH]; intros h logs; cbn [repair_loop];
    [reflexivity|].
  destruct (overloaded_ids_of ctx _) as [|o ids]; [reflexivity|].
  set (st0 := mk_state h (_compute_hours_by_employee T (map h assignments)) false logs).
  change (fold_left (relieve T ctx assignments) (o :: ids) st0)
    with (fold_left (relieve T ctx assignments) ids (relieve T ctx assignments st0 o)).
  destruct (relieve_all_logs (o :: ids) st0) as [E | (Pg & pre & line & El & Rl)];
    cbn [fold_left] in *.
  - rewrite E. reflexivity.
  - rewrite Pg. intros Silent. exfalso.
    assert (I : In line (rs_logs (fold_left (relieve T ctx assignments) ids
                                            (relieve T ctx assignments st0 o)))).
    { rewrite El. apply in_or_app; right. apply in_or_app; right. now left. }
    apply (repair_loop_logs_grow later
             (rs_heap (fold_left (relieve T ctx assignments) ids
                                 (relieve T ctx assignments st0 o)))
             _ line) in I.
    apply Silent in I. congruence.
Qed.
End ResolverLog.

(** When the log of [rebalance_hours] ends with the line "no overloaded
    employees remaining", [check_roster] reports no MAX_HOURS_EXCEEDED for
    the roster returned. *)
Theorem rebalance_hours_log_is_truthful T max_iterations ctx h roster pre i :
  let result := rebalance_hours T max_iterations ctx h roster in
  snd result = pre ++ [LogNoOverloaded i] ->
  with_code "MAX_HOURS_EXCEEDED"
    (check_roster T ctx (roster_value (fst (fst result)) (snd (fst result)))) = [].
Proof.
  intros result E. subst result. unfold rebalance_hours in *.
  pose proof (repair_loop_no_overloaded T ctx (ro_assignments roster)
                (seq 0 (Z.to_nat max_iterations)) h []) as L.
  destruct (repair_loop _ _ _ _ _ _) as [h' logs].
  cbn [fst snd] in *. unfold roster_value.
  cbn [ro_store_id ro_start_date ro_end_date ro_assignments].
  rewrite (check_roster_fields T ctx _ _ "" _ 0).
  apply overloaded_iff_violation. apply L.
  - intros (p & j & F). destruct p; discriminate.
  - eauto.
Qed.

Lemma rebalance_hours_log_is_truthful_witness :
  with_code "MAX_HOURS_EXCEEDED"
    (check_roster DEFAULT_SHIFT_TEMPLATES ctx_two_casuals
       (roster_value (fst (fst rebalanced)) (snd (fst rebalanced)))) = [].
Proof.
  apply (rebalance_hours_log_is_truthful DEFAULT_SHIFT_TEMPLATES 20 ctx_two_casuals
           heap_before roster_before [LogReassigning "2F" 105 "e1" "e2"] 1%nat).
  reflexivity.
Defined.

(** [rebalance_hours] changes the store only when it logs a reassignment:
    when no line of the log is a "Reassigning" line, the store returned is
    the store it was given. *)
Theorem rebalance_hours_logs_every_change T max_iterations ctx h roster :
  let result := rebalance_hours T max_iterations ctx h roster in
  (forall line, In line (snd result) -> is_reassigning line = false) ->
  fst (fst result) = h.
Proof.
  intros result Silent. subst result. unfold rebalance_hours in *.
  pose proof (repair_loop_silent T ctx (ro_assignments roster)
                (seq 0 (Z.to_nat max_iterations)) h []) as L.
  destruct (repair_loop _ _ _ _ _ _) as [h' logs]. cbn [fst snd] in *.
  now apply L.
Qed.

Lemma rebalance_hours_logs_every_change_witness :
  fst (fst (rebalance_hours DEFAULT_SHIFT_TEMPLATES 20 ctx_two_casuals heap_before
              roster_five_shifts))
  = heap_before.
Proof.
  apply (rebalance_hours_logs_every_change DEFAULT_SHIFT_TEMPLATES 20 ctx_two_casuals
           heap_before roster_five_shifts).
  intros line I. vm_compute in I. destruct I as [<- | []]. reflexivity.
Defined.

(* ===================================================================== *)
(** ** The labour cost estimate *)

Lemma add_cost_unknown T ctx total a :
  PyDict.mem (a_employee_id a) (employees ctx) = false ->
  add_cost T ctx total a = total.
Proof.
  unfold PyDict.mem, add_cost.
  destruct (PyDict.get (a_employee_id a) (employees ctx)); [discriminate|reflexivity].
Qed.

(** [estimate_cost] passes over every assignment whose employee id is not
    a key of [ctx.employees]: the estimate is that of the roster without
    these assignments, and 0 for a roster that has no other. *)
Theorem estimate_cost_skips_unknown_employees T ctx roster :
  estimate_cost T ctx roster
  = estimate_cost T ctx
      (mk_Roster (r_store_id roster) (r_start_date roster) (r_end_date roster)
                 (of_known_employees ctx (r_assignments roster)))
  /\ (of_known_employees ctx (r_assignments roster) = [] ->
      estimate_cost T ctx roster = 0%Q).
Proof.
  assert (E : forall l total,
             fold_left (add_cost T ctx) l total
             = fold_left (add_cost T ctx) (of_known_employees ctx l) total).
  { induction l as [|a l IH]; intros total; [reflexivity|].
    cbn [fold_left of_known_employees filter].
    destruct (PyDict.mem (a_employee_id a) (employees ctx)) eqn:M.
    - cbn [fold_left]. apply IH.
    - rewrite (add_cost_unknown T ctx total a M). apply IH. }
  unfold estimate_cost. cbn [r_assignments]. split; [apply E|].
  intros N. rewrite E, N. reflexivity.
Qed.

Lemma estimate_cost_skips_unknown_employees_witness :
  estimate_cost DEFAULT_SHIFT_TEMPLATES ctx_two_casuals
    (mk_Roster "store_1" 100 113 [mk_ShiftAssignment "e9" 100 "2F" None "store_1"])
  = 0%Q.
Proof.
  apply (proj2 (estimate_cost_skips_unknown_employees
                  DEFAULT_SHIFT_TEMPLATES ctx_two_casuals
                  (mk_Roster "store_1" 100 113
                             [mk_ShiftAssignment "e9" 100 "2F" None "store_1"]))).
  reflexivity.
Defined.

Lemma cost_per_hour T ctx total a emp :
  PyDict.get (a_employee_id a) (employees ctx) = Some emp ->
  (0 <= template_hours T (a_shift_code a))%Q ->
  (total + 26 * template_hours T (a_shift_code a) <= add_cost T ctx total a)%Q
  /\ (add_cost T ctx total a <= total + 46 * template_hours T (a_shift_code a))%Q.
Proof.
  intros G H. unfold add_cost, template_hours in *. rewrite G.
  destruct (PyDict.get (a_shift_code a) T) as [tpl|];
    unfold WEEKEND_LOADING, LATE_NIGHT_LOADING, DEFAULT_SHIFT_HOURS in *;
    destruct (e_contract_type emp); cbn [BASE_HOURLY_RATES];
    destruct (5 <=? weekday (a_date a));
    try destruct (22 <=? hour (tpl_end tpl));
    split; lra.
Qed.

Lemma template_hours_nonneg T code :
  (forall c tpl, In (c, tpl) T -> (0 <= tpl_hours tpl)%Q) ->
  (0 <= template_hours T code)%Q.
Proof.
  intros H. unfold template_hours.
  destruct (PyDict.get code T) as [tpl|] eqn:G.
  - apply get_In in G. destruct G as (k & _ & I). now apply (H k).
  - unfold DEFAULT_SHIFT_HOURS. lra.
Qed.

(** With a catalogue of non-negative durations, the estimate lies between
    26 and 46 times the hours of the assignments of known employees: 26 is
    the lowest base rate, 46 the casual rate with the weekend and the
    late-night loading. *)
Theorem estimate_cost_per_hour_bounds T ctx roster :
  (forall code tpl, In (code, tpl) T -> (0 <= tpl_hours tpl)%Q) ->
  let hours := sum_hours T (of_known_employees ctx (r_assignments roster)) in
  (26 * hours <= estimate_cost T ctx roster)%Q
  /\ (estimate_cost T ctx roster <= 46 * hours)%Q.
Proof.
  intros H hours. subst hours. unfold estimate_cost.
  assert (B : forall l total,
             (total + 26 * sum_hours T (of_known_employees ctx l)
              <= fold_left (add_cost T ctx) l total)%Q
             /\ (fold_left (add_cost T ctx) l total
                 <= total + 46 * sum_hours T (of_known_employees ctx l))%Q).
  { induction l as [|a l IH]; intros total.
    - cbn. split; lra.
    - cbn [fold_left of_known_employees filter].
      fold (of_known_employees ctx l).
      destruct (PyDict.mem (a_employee_id a) (employees ctx)) eqn:M.
      + unfold PyDict.mem in M.
        destruct (PyDict.get (a_employee_id a) (employees ctx)) as [emp|] eqn:G;
          [|discriminate].
        destruct (cost_per_hour T ctx total a emp G
                    (template_hours_nonneg T (a_shift_code a) H)) as [Lo Hi].
        destruct (IH (add_cost T ctx total a)) as [L1 L2].
        cbn [sum_hours fold_right].
        fold (sum_hours T (of_known_employees ctx l)). split; lra.
      + rewrite (add_cost_unknown T ctx total a M). apply IH. }
  destruct (B (r_assignments roster) 0%Q) as [Lo Hi]. split; lra.
Qed.

Lemma estimate_cost_per_hour_bounds_witness :
  (26 * sum_hours DEFAULT_SHIFT_TEMPLATES
          (of_known_employees ctx_one_casual (r_assignments roster_seven_days))
   <= estimate_cost DEFAULT_SHIFT_TEMPLATES ctx_one_casual roster_seven_days)%Q
  /\ (estimate_cost DEFAULT_SHIFT_TEMPLATES ctx_one_casual roster_seven_days
      <= 46 * sum_hours DEFAULT_SHIFT_TEMPLATES
                (of_known_employees ctx_one_casual (r_assignments roster_seven_days)))%Q.
Proof.
  apply (estimate_cost_per_hour_bounds DEFAULT_SHIFT_TEMPLATES ctx_one_casual
           roster_seven_days).
  intros code tpl I. simpl in I.
  repeat (destruct I as [E | I]; [inversion E; subst; vm_compute; discriminate|]).
  contradiction.
Defined.

(* ===================================================================== *)
(** ** The coverage scores *)

Lemma sum_counts_nonneg (d : dict SkillTag Z) :
  (forall s c, In (s, c) d -> 0 <= c) -> 0 <= fold_right Z.add 0 (PyDict.values d).
Proof.
  induction d as [|[s c] d IH]; intros H; cbn; [lia|].
  assert (0 <= c) by (apply (H s); now left).
  assert (0 <= fold_right Z.add 0 (PyDict.values d))
    by (apply IH; intros s' c' I; apply (H s'); now right).
  unfold PyDict.values in *. lia.
Qed.

Lemma demand_today_nonneg ctx dt :
  demand_is_nonnegative ctx -> 0 <= demand_today_of ctx dt.
Proof.
  intros H. unfold demand_today_of, PyDict.get_or.
  match goal with
  | |- context [match ?g with _ => _ end] => destruct g as [d|] eqn:G
  end; [|simpl; lia].
  apply get_In in G. destruct G as (k & _ & I).
  apply sum_counts_nonneg. intros s c J. exact (H k d s c I J).
Qed.

Lemma max_0_bounds d a :
  (0 <= d)%Q -> (0 <= a)%Q -> (0 <= max_0 (d - a) /\ max_0 (d - a) <= d)%Q.
Proof.
  intros D A. unfold max_0. destruct (Qlt_bool (d - a) 0) eqn:L.
  - split; lra.
  - apply Qlt_bool_false in L. split; lra.
Qed.

Lemma size_on_nonneg by_date dt : 0 <= size_on by_date dt.
Proof. unfold size_on. lia. Qed.

Lemma inject_Z_nonneg z : 0 <= z -> (0 <= inject_Z z)%Q.
Proof. intros H. change 0%Q with (inject_Z 0). now rewrite <- Zle_Qle. Qed.

Lemma tally_in_order ctx sets t current :
  0 <= demand_today_of ctx current ->
  totals_in_order t -> totals_in_order (tally ctx sets t current).
Proof.
  intros D (S & L & N & Wd & We & Dd & De & M & O & C & P).
  pose proof (inject_Z_nonneg _ D) as Dq.
  pose proof (max_0_bounds _ _ Dq
                (inject_Z_nonneg _ (size_on_nonneg (assigned_by_date sets) current))) as B1.
  pose proof (max_0_bounds _ _ Dq
                (inject_Z_nonneg _ (size_on_nonneg (lunch_assigned_by_date sets) current)))
    as B2.
  pose proof (max_0_bounds _ _ Dq
                (inject_Z_nonneg _ (size_on_nonneg (dinner_assigned_by_date sets) current)))
    as B3.
  pose proof (inject_Z_nonneg _ (size_on_nonneg (assigned_by_date sets) current)) as A.
  unfold totals_in_order, tally.
  cbn [total_demand total_shortfall total_lunch_demand total_lunch_shortfall
       total_dinner_demand total_dinner_shortfall weekday_staff_total weekday_days
       weekend_staff_total weekend_days total_days days_with_manager
       days_with_manager_opening days_with_manager_closing total_peak_windows
       peak_windows_with_two_managers].
  repeat split;
    try (destruct (5 <=? weekday current));
    try (destruct (0 <? size_on _ current));
    try (destruct (Qlt_bool 0 (inject_Z (demand_today_of ctx current))));
    try (destruct (2 <=? size_on (manager_lunch_by_date sets) current));
    try (destruct (2 <=? size_on (manager_dinner_by_date sets) current));
    try lra; try lia.
Qed.

Lemma totals_stay_in_order ctx sets dates : forall t,
  (forall dt, In dt dates -> 0 <= demand_today_of ctx dt) ->
  totals_in_order t -> totals_in_order (fold_left (tally ctx sets) dates t).
Proof.
  induction dates as [|dt dates IH]; intros t D H; cbn [fold_left]; [exact H|].
  apply IH; [intros d I; apply D; now right|].
  apply tally_in_order; [apply D; now left|exact H].
Qed.

Lemma fraction_of_whole s d :
  (0 <= s)%Q -> (s <= d)%Q -> (0 < d)%Q -> (0 <= 1 - s / d /\ 1 - s / d <= 1)%Q.
Proof.
  intros S L D.
  assert (U : (s / d <= 1)%Q) by (apply Qle_shift_div_r; [exact D|lra]).
  assert (Lo : (0 <= s / d)%Q) by (apply Qle_shift_div_l; [exact D|lra]).
  split; lra.
Qed.

Lemma share_of_days k n :
  0 <= k <= n -> 0 < n ->
  (0 <= inject_Z k / inject_Z n /\ inject_Z k / inject_Z n <= 1)%Q.
Proof.
  intros [K L] N.
  assert (Nq : (0 < inject_Z n)%Q).
  { change 0%Q with (inject_Z 0). now rewrite <- Zlt_Qlt. }
  assert (Kq : (0 <= inject_Z k)%Q) by now apply inject_Z_nonneg.
  assert (Lq : (inject_Z k <= inject_Z n)%Q) by now rewrite <- Zle_Qle.
  split.
  - apply Qle_shift_div_l; [exact Nq|lra].
  - apply Qle_shift_div_r; [exact Nq|lra].
Qed.

(** With non-negative demand, every score [evaluate] computes is a
    fraction: the overall and the peak coverage, the three manager
    coverages and the two-managers-in-peaks score lie between 0 and 1; the
    weekend uplift is not negative; and the labour cost is left at 0. *)
Theorem coverage_scores_are_fractions T ctx roster start_date end_date :
  demand_is_nonnegative ctx ->
  let m := evaluate T ctx roster start_date end_date in
  (0 <= coverage_score m /\ coverage_score m <= 1)%Q
  /\ (0 <= peak_coverage_score m /\ peak_coverage_score m <= 1)%Q
  /\ (0 <= manager_coverage_score m /\ manager_coverage_score m <= 1)%Q
  /\ (0 <= manager_opening_coverage m /\ manager_opening_coverage m <= 1)%Q
  /\ (0 <= manager_closing_coverage m /\ manager_closing_coverage m <= 1)%Q
  /\ (0 <= manager_peak_two_coverage_score m
      /\ manager_peak_two_coverage_score m <= 1)%Q
  /\ (0 <= fairness_score m)%Q
  /\ labour_cost_estimate m = 0%Q.
Proof.
  intros D m. subst m. unfold evaluate.
  set (sets := fold_left (collect T ctx) (r_assignments roster) no_sets).
  assert (H : totals_in_order
                (fold_left (tally ctx sets) (planning_dates start_date end_date)
                           zero_totals)).
  { apply totals_stay_in_order.
    - intros dt _. now apply demand_today_nonneg.
    - unfold totals_in_order, zero_totals. cbn. repeat split; (lra || lia). }
  destruct (fold_left (tally ctx sets) _ zero_totals) as
    [td ts tld tls tdd tds wst wd west wed days dm dmo dmc tpw pw2].
  unfold totals_in_order in H.
  cbn [total_demand total_shortfall total_lunch_demand total_lunch_shortfall
       total_dinner_demand total_dinner_shortfall weekday_staff_total weekday_days
       weekend_staff_total weekend_days total_days days_with_manager
       days_with_manager_opening days_with_manager_closing total_peak_windows
       peak_windows_with_two_managers] in H.
  destruct H as (S & L & N & Wd & We & Dd & De & M & O & C & P).
  unfold metrics_of.
  cbn [total_demand total_shortfall total_lunch_demand total_lunch_shortfall
       total_dinner_demand total_dinner_shortfall weekday_staff_total weekday_days
       weekend_staff_total weekend_days total_days days_with_manager
       days_with_manager_opening days_with_manager_closing total_peak_windows
       peak_windows_with_two_managers coverage_score peak_coverage_score
       manager_coverage_score labour_cost_estimate fairness_score
       manager_opening_coverage manager_closing_coverage
       manager_peak_two_coverage_score].
  repeat match goal with |- _ /\ _ => split end; try reflexivity.
  - destruct (Qlt_bool 0 td) eqn:E; [|lra].
    apply Qlt_bool_iff in E. apply fraction_of_whole; tauto.
  - destruct (Qlt_bool 0 td) eqn:E; [|lra].
    apply Qlt_bool_iff in E. apply fraction_of_whole; tauto.
  - destruct (Qlt_bool 0 (tld + tdd)) eqn:E; [|lra].
    apply Qlt_bool_iff in E. apply fraction_of_whole; [lra|lra|exact E].
  - destruct (Qlt_bool 0 (tld + tdd)) eqn:E; [|lra].
    apply Qlt_bool_iff in E. apply fraction_of_whole; [lra|lra|exact E].
  - destruct (Z.ltb_spec 0 days); [|lra]. now apply share_of_days.
  - destruct (Z.ltb_spec 0 days); [|lra]. now apply share_of_days.
  - destruct (Z.ltb_spec 0 days); [|lra]. now apply share_of_days.
  - destruct (Z.ltb_spec 0 days); [|lra]. now apply share_of_days.
  - destruct (Z.ltb_spec 0 days); [|lra]. now apply share_of_days.
  - destruct (Z.ltb_spec 0 days); [|lra]. now apply share_of_days.
  - destruct (Z.ltb_spec 0 tpw); [|lra]. now apply share_of_days.
  - destruct (Z.ltb_spec 0 tpw); [|lra]. now apply share_of_days.
  - destruct (Z.ltb_spec 0 wd); cbn [andb]; [|lra].
    destruct (Z.ltb_spec 0 wed); [|lra].
    destruct (Qlt_bool 0 (wst / inject_Z wd)) eqn:E; [|lra].
    apply Qlt_bool_iff in E.
    apply Qle_shift_div_l; [exact E|].
    assert (Wq : (0 < inject_Z wed)%Q).
    { change 0%Q with (inject_Z 0). now rewrite <- Zlt_Qlt. }
    assert (0 <= west / inject_Z wed)%Q by (apply Qle_shift_div_l; [exact Wq|lra]).
    lra.
Qed.

Lemma coverage_scores_are_fractions_witness :
  let m := evaluate DEFAULT_SHIFT_TEMPLATES ctx_shortfall
             (mk_Roster "store_1" 100 101
                [mk_ShiftAssignment "e1" 100 "S" None "store_1"]) 100 101 in
  (0 <= coverage_score m /\ coverage_score m <= 1)%Q
  /\ (0 <= peak_coverage_score m /\ peak_coverage_score m <= 1)%Q
  /\ (0 <= manager_coverage_score m /\ manager_coverage_score m <= 1)%Q
  /\ (0 <= manager_opening_coverage m /\ manager_opening_coverage m <= 1)%Q
  /\ (0 <= manager_closing_coverage m /\ manager_closing_coverage m <= 1)%Q
  /\ (0 <= manager_peak_two_coverage_score m
      /\ manager_peak_two_coverage_score m <= 1)%Q
  /\ (0 <= fairness_score m)%Q
  /\ labour_cost_estimate m = 0%Q.
Proof.
  apply (coverage_scores_are_fractions DEFAULT_SHIFT_TEMPLATES ctx_shortfall).
  intros dt by_station station count I J. simpl in I.
  destruct I as [E | [E | []]]; inversion E; subst; simpl in J;
    repeat (destruct J as [E' | J]; [inversion E'; lia|]); contradiction.
Defined.

Lemma no_demand_totals ctx sets dates : forall t,
  (forall dt, In dt dates -> demand_today_of ctx dt = 0) ->
  (total_demand t == 0)%Q /\ (total_lunch_demand t == 0)%Q
  /\ (total_dinner_demand t == 0)%Q /\ total_peak_windows t = 0 ->
  let t' := fold_left (tally ctx sets) dates t in
  (total_demand t' == 0)%Q /\ (total_lunch_demand t' == 0)%Q
  /\ (total_dinner_demand t' == 0)%Q /\ total_peak_windows t' = 0.
Proof.
  induction dates as [|dt dates IH]; intros t D H; cbn [fold_left]; [exact H|].
  apply IH; [intros d I; apply D; now right|].
  destruct H as (H1 & H2 & H3 & H4).
  unfold tally.
  cbn [total_demand total_lunch_demand total_dinner_demand total_peak_windows].
  rewrite (D dt (or_introl eq_refl)).
  change (Qlt_bool 0 (inject_Z 0)) with false. cbv iota.
  rewrite H1, H2, H3. repeat split; try reflexivity. exact H4.
Qed.

(** When no date of the window has any demand, [evaluate] reports an
    overall coverage of 0.0, a peak coverage of 0.0 and a
    two-managers-in-peaks score of 0.0, whatever the roster holds: the
    scores are only computed over a positive total. *)
Theorem coverage_is_zero_without_demand T ctx roster start_date end_date :
  (forall dt, start_date <= dt <= end_date -> demand_today_of ctx dt = 0) ->
  let m := evaluate T ctx roster start_date end_date in
  coverage_score m = 0%Q
  /\ peak_coverage_score m = 0%Q
  /\ manager_peak_two_coverage_score m = 0%Q.
Proof.
  intros D m. subst m. unfold evaluate.
  set (sets := fold_left (collect T ctx) (r_assignments roster) no_sets).
  pose proof (no_demand_totals ctx sets (planning_dates start_date end_date) zero_totals)
    as H.
  destruct H as (H1 & H2 & H3 & H4).
  - intros dt I. apply D. now apply planning_dates_In.
  - cbn. repeat split; reflexivity.
  - destruct (fold_left (tally ctx sets) _ zero_totals) as
      [td ts tld tls tdd tds wst wd west wed days dm dmo dmc tpw pw2].
    cbn [total_demand total_lunch_demand total_dinner_demand total_peak_windows] in *.
    unfold metrics_of.
    cbn [total_demand total_shortfall total_lunch_demand total_lunch_shortfall
         total_dinner_demand total_dinner_shortfall total_peak_windows
         peak_windows_with_two_managers coverage_score peak_coverage_score
         manager_peak_two_coverage_score].
    assert (F1 : Qlt_bool 0 td = false) by (apply Qlt_bool_false; lra).
    assert (F2 : Qlt_bool 0 (tld + tdd) = false) by (apply Qlt_bool_false; lra).
    rewrite F1, F2, H4. repeat split; reflexivity.
Qed.

Lemma coverage_is_zero_without_demand_witness :
  let m := evaluate DEFAULT_SHIFT_TEMPLATES ctx_one_casual roster_seven_days 100 113 in
  coverage_score m = 0%Q
  /\ peak_coverage_score m = 0%Q
  /\ manager_peak_two_coverage_score m = 0%Q.
Proof.
  apply (coverage_is_zero_without_demand DEFAULT_SHIFT_TEMPLATES ctx_one_casual
           roster_seven_days 100 113).
  intros dt _. reflexivity.
Defined.

(** ** Windows *)

Lemma time_le_spec a b :
  time_le a b = true
  <-> hour a < hour b \/ (hour a = hour b /\ minute a <= minute b).
Proof.
  unfold time_le. rewrite orb_true_iff, andb_true_iff, Z.ltb_lt, Z.eqb_eq, Z.leb_le.
  tauto.
Qed.

(** [_covers_window] is false for a code without a template.  For a
    template that does not end before it starts, and a window likewise, it
    is true exactly when some time of day lies both within the shift and
    within the window.  The generator's lunch and dinner tests are
    [_covers_window] on the windows 11:00-14:00 and 17:00-21:00. *)
Theorem covers_window_is_overlap T shift_code window_start window_end :
  (PyDict.get shift_code T = None ->
   _covers_window T shift_code window_start window_end = false)
  /\ (forall tpl,
         PyDict.get shift_code T = Some tpl ->
         time_le (tpl_start tpl) (tpl_end tpl) = true ->
         time_le window_start window_end = true ->
         (_covers_window T shift_code window_start window_end = true
          <-> exists t, time_within (tpl_start tpl) (tpl_end tpl) t = true
                        /\ time_within window_start window_end t = true))
  /\ _covers_lunch_window T shift_code
     = _covers_window T shift_code lunch_start lunch_end
  /\ _covers_dinner_window T shift_code
     = _covers_window T shift_code dinner_start dinner_end.
Proof.
  split; [|split; [|split; reflexivity]].
  - intros G. unfold _covers_window. now rewrite G.
  - intros tpl G S W. unfold _covers_window, time_within. rewrite G.
    rewrite andb_true_iff. split.
    + intros [A B].
      destruct (time_le (tpl_start tpl) window_start) eqn:C.
      * exists window_start. rewrite C, B, W. cbn [andb].
        split; [reflexivity|]. rewrite andb_true_r.
        apply time_le_spec. right. split; [reflexivity|lia].
      * exists (tpl_start tpl). rewrite S, A. cbn [andb].
        assert (R : time_le (tpl_start tpl) (tpl_start tpl) = true)
          by (apply time_le_spec; right; split; [reflexivity|lia]).
        rewrite R. split; [reflexivity|]. rewrite andb_true_r.
        apply time_le_spec.
        assert (N : ~ (hour (tpl_start tpl) < hour window_start
                       \/ (hour (tpl_start tpl) = hour window_start
                           /\ minute (tpl_start tpl) <= minute window_start))).
        { intros F. apply time_le_spec in F. congruence. }
        lia.
    + intros (t & I1 & I2).
      apply andb_true_iff in I1. apply andb_true_iff in I2.
      destruct I1 as [A1 A2], I2 as [B1 B2].
      apply time_le_spec in A1, A2, B1, B2.
      split; apply time_le_spec; lia.
Qed.

Lemma covers_window_is_overlap_witness :
  _covers_window DEFAULT_SHIFT_TEMPLATES "SC" lunch_start lunch_end = true
  <-> exists t, time_within (mk_time 11 0) (mk_time 20 0) t = true
                /\ time_within lunch_start lunch_end t = true.
Proof.
  apply (proj1 (proj2 (covers_window_is_overlap DEFAULT_SHIFT_TEMPLATES "SC"
                         lunch_start lunch_end))
               (mk_tpl (mk_time 11 0) (mk_time 20 0) 9%Q));
    reflexivity.
Defined.

(* ===================================================================== *)
(** ** Stations are read by none of the checks *)

Lemma insert_by_map {A B} (g : A -> B) (le : B -> B -> bool) x l :
  insert_by le (g x) (map g l) = map g (insert_by (fun a b => le (g a) (g b)) x l).
Proof.
  induction l as [|y l IH]; [reflexivity|].
  cbn [map insert_by]. destruct (le (g x) (g y)); [reflexivity|].
  cbn [map]. now rewrite IH.
Qed.

Lemma sorted_by_map {A B} (g : A -> B) (le : B -> B -> bool) l :
  sorted_by le (map g l) = map g (sorted_by (fun a b => le (g a) (g b)) l).
Proof.
  induction l as [|x l IH]; [reflexivity|].
  cbn [map sorted_by fold_right].
  fold (sorted_by le (map g l)). fold (sorted_by (fun a b => le (g a) (g b)) l).
  rewrite IH. apply insert_by_map.
Qed.

Lemma filter_map_comm {A B} (g : A -> B) (p : B -> bool) l :
  filter p (map g l) = map g (filter (fun a => p (g a)) l).
Proof.
  induction l as [|x l IH]; [reflexivity|].
  cbn [map filter]. destruct (p (g x)); cbn [map]; now rewrite IH.
Qed.

Lemma adjacent_pairs_map {A B} (g : A -> B) l :
  adjacent_pairs (map g l) = map (fun p => (g (fst p), g (snd p))) (adjacent_pairs l).
Proof.
  unfold adjacent_pairs. destruct l as [|x l]; [reflexivity|].
  cbn [map tl]. revert x. induction l as [|y l IH]; intros x; [reflexivity|].
  cbn [map combine fst snd]. f_equal. apply IH.
Qed.

Lemma emp_assignments_sorted_without_station emp_id l :
  emp_assignments_sorted emp_id (map without_station l)
  = map without_station (emp_assignments_sorted emp_id l).
Proof.
  unfold emp_assignments_sorted. rewrite filter_map_comm.
  apply (sorted_by_map without_station (fun x y => a_date x <=? a_date y)).
Qed.

Lemma consecutive_walk_without_station emp pairs : forall streak,
  consecutive_walk emp streak
    (map (fun p => (without_station (fst p), without_station (snd p))) pairs)
  = consecutive_walk emp streak pairs.
Proof.
  induction pairs as [|[prev nxt] pairs IH]; intros streak; [reflexivity|].
  cbn [map consecutive_walk fst snd without_station a_date].
  destruct (MAX_CONSECUTIVE_WORKING_DAYS <? _); [reflexivity|apply IH].
Qed.

(** [check_roster], [estimate_cost] and [evaluate] read the employee id,
    the date and the shift code of an assignment, never its station. *)
Lemma checks_without_station T ctx s d e l :
  check_roster T ctx (mk_Roster s d e (map without_station l))
  = check_roster T ctx (mk_Roster s d e l)
  /\ estimate_cost T ctx (mk_Roster s d e (map without_station l))
     = estimate_cost T ctx (mk_Roster s d e l)
  /\ (forall start_date end_date,
         evaluate T ctx (mk_Roster s d e (map without_station l)) start_date end_date
         = evaluate T ctx (mk_Roster s d e l) start_date end_date).
Proof.
  split; [|split].
  - unfold check_roster. cbn [r_assignments].
    assert (H1 : total_hours_by_emp T (map without_station l) = total_hours_by_emp T l).
    { unfold total_hours_by_emp. now rewrite fold_left_map_arg. }
    assert (H2 : weekly_hours_of T (mk_Roster s d e (map without_station l))
                 = weekly_hours_of T (mk_Roster s d e l)).
    { unfold weekly_hours_of. cbn [r_assignments r_start_date].
      now rewrite fold_left_map_arg. }
    rewrite H1, H2, !flat_map_of_map.
    assert (R : forall emp_id emp,
               check_rest T emp_id emp (map without_station l)
               = check_rest T emp_id emp l).
    { intros emp_id emp. unfold check_rest.
      rewrite emp_assignments_sorted_without_station, adjacent_pairs_map, flat_map_of_map.
      apply flat_map_ext. intros [prev nxt]. reflexivity. }
    assert (C : forall emp_id emp,
               check_consecutive emp_id emp (map without_station l)
               = check_consecutive emp_id emp l).
    { intros emp_id emp. unfold check_consecutive.
      rewrite emp_assignments_sorted_without_station.
      destruct (emp_assignments_sorted emp_id l) as [|a rest] eqn:E; [reflexivity|].
      rewrite <- E, adjacent_pairs_map. cbn [map]. rewrite E.
      cbn [map]. rewrite <- E at 1.
      rewrite consecutive_walk_without_station. now rewrite E. }
    unfold for_employees.
    rewrite (flat_map_ext _ _ (fun kv => R (fst kv) (snd kv))).
    rewrite (flat_map_ext _ _ (fun kv => C (fst kv) (snd kv))).
    reflexivity.
  - unfold estimate_cost. cbn [r_assignments]. now rewrite fold_left_map_arg.
  - intros start_date end_date. unfold evaluate. cbn [r_assignments].
    now rewrite fold_left_map_arg.
Qed.

(* ===================================================================== *)
(** ** Station assignment *)

Lemma group_by_date_In h refs dt l a :
  In (dt, l) (group_by_date h refs) -> In a l -> In a refs /\ a_date (h a) = dt.
Proof.
  unfold group_by_date.
  assert (G : forall done rest (d : dict date (list ref)),
             (forall dt l a, In (dt, l) d -> In a l -> In a done /\ a_date (h a) = dt) ->
             forall dt l a,
               In (dt, l)
                  (fold_left
                     (fun by_date a =>
                        PyDict.set (a_date (h a))
                                   (PyDict.get_or (a_date (h a)) [] by_date ++ [a]) by_date)
                     rest d) ->
               In a l -> In a (done ++ rest) /\ a_date (h a) = dt).
  { intros done rest. revert done.
    induction rest as [|x rest IH]; intros done d H dt0 l0 a0 I J; cbn [fold_left] in I.
    - rewrite app_nil_r. now apply (H dt0 l0).
    - replace (done ++ x :: rest) with ((done ++ [x]) ++ rest)
        by (now rewrite <- app_assoc).
      refine (IH (done ++ [x]) _ _ dt0 l0 a0 I J).
      intros dt1 l1 a1 I1 J1. apply In_set in I1.
      destruct I1 as [I1 | [-> ->]].
      + destruct (H _ _ _ I1 J1). split; [apply in_or_app; now left|assumption].
      + apply in_app_or in J1. destruct J1 as [J1 | [<- | []]].
        * unfold PyDict.get_or in J1.
          destruct (PyDict.get (a_date (h x)) d) as [l2|] eqn:G2; [|contradiction].
          apply get_In in G2. destruct G2 as (k & -> & I2).
          destruct (H _ _ _ I2 J1). split; [apply in_or_app; now left|assumption].
        * split; [apply in_or_app; right; now left|reflexivity]. }
  intros I J. apply (G [] refs [] (fun _ _ _ (F : In _ []) => match F with end) dt l a I J).
Qed.

Lemma take_one_bounded (demand rem : dict SkillTag Z) s :
  PyDict.get s rem <> None ->
  (forall s' c, In (s', c) rem -> exists c0, In (s', c0) demand /\ c <= c0) ->
  forall s' c, In (s', c) (take_one rem s) -> exists c0, In (s', c0) demand /\ c <= c0.
Proof.
  intros G R s' c I. unfold take_one in I. apply In_set in I.
  destruct I as [I | [-> ->]]; [now apply R|].
  unfold PyDict.get_or. destruct (PyDict.get s rem) as [c1|] eqn:G1; [|now elim G].
  apply get_In in G1. destruct G1 as (k & -> & I1).
  destruct (R _ _ I1) as (c0 & I0 & L). exists c0. split; [exact I0|lia].
Qed.

Section StationMoves.
Variable ctx : SystemContext.
Variable refs : list ref.
Variable h0 : Heap.
Variable P : Heap -> Prop.

(** A station is only written to an object of the roster, and it is a
    station whose head count in the demand of the object's date is
    positive. *)
Hypothesis station_keeps :
  forall h a s count,
    P h -> In a refs ->
    In (s, count) (PyDict.get_or (a_date (h0 a)) [] (demand_by_date ctx)) ->
    0 < count ->
    P (set_station h a (Some s)).

Section OneDay.
Variable dt : date.
Let demand := PyDict.get_or dt [] (demand_by_date ctx).
Let on_day (a : ref) : Prop := In a refs /\ a_date (h0 a) = dt.
Let bounded (rem : dict SkillTag Z) : Prop :=
  forall s c, In (s, c) rem -> exists c0, In (s, c0) demand /\ c <= c0.

Lemma first_pass_keeps skills day : forall h rem un,
  (forall a, In a day -> on_day a) -> (forall a, In a un -> on_day a) ->
  bounded rem -> P h ->
  let '(h', rem', un') := fold_left (first_pass skills) day (h, rem, un) in
  P h' /\ bounded rem' /\ (forall a, In a un' -> on_day a).
Proof.
  induction day as [|a day IH]; intros h rem un D U R H; cbn [fold_left]; [auto|].
  unfold first_pass at 2.
  destruct (find _ _) as [s|] eqn:F.
  - apply find_some in F. destruct F as [_ F]. apply Z.ltb_lt in F.
    unfold PyDict.get_or in F.
    destruct (PyDict.get s rem) as [c|] eqn:G; [|lia].
    pose proof G as G'. apply get_In in G'. destruct G' as (k & -> & I).
    destruct (R _ _ I) as (c0 & I0 & L).
    destruct (D a (or_introl eq_refl)) as [Ia Ea].
    apply IH; [intros x J; apply D; now right|exact U| |].
    + refine (take_one_bounded demand rem s _ R). congruence.
    + apply (station_keeps h a s c0); [exact H|exact Ia| |lia].
      rewrite Ea. exact I0.
  - apply IH; [intros x I; apply D; now right| |exact R|exact H].
    intros x I. apply in_app_or in I. destruct I as [I | [<- | []]];
      [now apply U|apply D; now left].
Qed.

Lemma second_pass_keeps un : forall h rem,
  (forall a, In a un -> on_day a) -> bounded rem -> P h ->
  P (fst (fold_left second_pass un (h, rem))).
Proof.
  induction un as [|a un IH]; intros h rem U R H; cbn [fold_left]; [exact H|].
  unfold second_pass at 2.
  destruct (find _ rem) as [[s c]|] eqn:F.
  - apply find_some in F. destruct F as [I F]. cbn [snd] in F. apply Z.ltb_lt in F.
    destruct (R _ _ I) as (c0 & I0 & L).
    destruct (U a (or_introl eq_refl)) as [Ia Ea].
    apply IH; [intros x J; apply U; now right| |].
    + refine (take_one_bounded demand rem s _ R).
      intros N. apply get_none_not_key in N. apply N.
      change s with (fst (s, c)). now apply in_map.
    + apply (station_keeps h a s c0); [exact H|exact Ia| |lia].
      rewrite Ea. exact I0.
  - apply IH; [intros x I; apply U; now right|exact R|exact H].
Qed.

Lemma assign_day_keeps skills h day :
  (forall a, In a day -> on_day a) -> P h ->
  P (assign_day ctx skills h (dt, day)).
Proof.
  intros D H. unfold assign_day.
  assert (R : bounded demand) by (intros s c I; exists c; split; [exact I|lia]).
  pose proof (first_pass_keeps skills day h demand []
                D (fun _ (F : In _ []) => match F with end) R H) as K.
  fold demand.
  destruct (fold_left (first_pass skills) day _) as [[h1 rem1] un1].
  destruct K as (K1 & K2 & K3). now apply second_pass_keeps.
Qed.
End OneDay.

Lemma assign_stations_keeps roster :
  refs = ro_assignments roster -> P h0 -> P (fst (assign_stations ctx h0 roster)).
Proof.
  intros E H. unfold assign_stations. cbn [fst]. rewrite <- E.
  assert (G : forall days h1,
             (forall dt day a, In (dt, day) days -> In a day ->
                               In a refs /\ a_date (h0 a) = dt) ->
             P h1 -> P (fold_left (assign_day ctx (skills_by_emp_of ctx)) days h1)).
  { induction days as [|[dt day] days IH]; intros h1 D H1; cbn [fold_left]; [exact H1|].
    apply IH; [intros dt' day' a I J; apply (D dt' day'); [now right|exact J]|].
    apply assign_day_keeps; [|exact H1].
    intros a J. apply (D dt day); [now left|exact J]. }
  apply G; [|exact H].
  intros dt day a I J. exact (group_by_date_In h0 refs dt day a I J).
Qed.
End StationMoves.

(** [assign_stations] writes stations and nothing else: every assignment
    object keeps its employee id, date, shift code and store; an object
    that is not in the roster is as it was; and the roster object returned
    has the fields and the references of the one given. *)
Theorem assign_stations_writes_stations_only ctx h roster r :
  let result := assign_stations ctx h roster in
  without_station (fst result r) = without_station (h r)
  /\ (~ In r (ro_assignments roster) -> fst result r = h r)
  /\ snd result
     = mk_RosterObj (ro_store_id roster) (ro_start_date roster) (ro_end_date roster)
                    (ro_assignments roster).
Proof.
  intros result. subst result. split; [|split; [|reflexivity]].
  - apply (assign_stations_keeps ctx (ro_assignments roster) h
             (fun h' => without_station (h' r) = without_station (h r)));
      [|reflexivity|reflexivity].
    intros h1 a s c H _ _ _. unfold set_station.
    destruct (Nat.eqb_spec r a) as [-> | N]; [|exact H].
    rewrite <- H. reflexivity.
  - intros NI.
    apply (assign_stations_keeps ctx (ro_assignments roster) h
             (fun h' => h' r = h r)); [|reflexivity|reflexivity].
    intros h1 a s c H I _ _. unfold set_station.
    destruct (Nat.eqb_spec r a) as [-> | N]; [contradiction|exact H].
Qed.

Lemma assign_stations_writes_stations_only_witness :
  fst (assign_stations ctx_stations heap_before roster_before) 7%nat = heap_before 7%nat.
Proof.
  apply (proj1 (proj2 (assign_stations_writes_stations_only
                         ctx_stations heap_before roster_before 7%nat))).
  simpl. intuition discriminate.
Defined.

(** Assigning stations changes nothing [check_roster], [estimate_cost] or
    [evaluate] report: on the roster as it is after [assign_stations] they
    return what they return on the roster as it was before. *)
Theorem assign_stations_is_invisible_to_checks T ctx h roster :
  let result := assign_stations ctx h roster in
  let before := roster_value h roster in
  let after := roster_value (fst result) (snd result) in
  check_roster T ctx after = check_roster T ctx before
  /\ estimate_cost T ctx after = estimate_cost T ctx before
  /\ (forall start_date end_date,
         evaluate T ctx after start_date end_date
         = evaluate T ctx before start_date end_date).
Proof.
  intros result before after. subst result before after.
  assert (E : map without_station (map (fst (assign_stations ctx h roster))
                                       (ro_assignments roster))
              = map without_station (map h (ro_assignments roster))).
  { rewrite !map_map. apply map_ext. intros r.
    apply (assign_stations_keeps ctx (ro_assignments roster) h
             (fun h' => without_station (h' r) = without_station (h r)));
      [|reflexivity|reflexivity].
    intros h1 a s c H _ _ _. unfold set_station.
    destruct (Nat.eqb_spec r a) as [-> | N]; [|exact H].
    rewrite <- H. reflexivity. }
  unfold roster_value. cbn [assign_stations snd ro_store_id ro_start_date ro_end_date
                                            ro_assignments].
  set (s := ro_store_id roster). set (d := ro_start_date roster).
  set (e := ro_end_date roster).
  destruct (checks_without_station T ctx s d e
              (map (fst (assign_stations ctx h roster)) (ro_assignments roster)))
    as (A1 & A2 & A3).
  destruct (checks_without_station T ctx s d e (map h (ro_assignments roster)))
    as (B1 & B2 & B3).
  rewrite E in A1, A2, A3.
  split; [|split].
  - now rewrite <- A1, B1.
  - now rewrite <- A2, B2.
  - intros sd ed. now rewrite <- A3, B3.
Qed.

(** [assign_stations] gives an assignment a station only from the demand
    of the assignment's date, and only one whose head count there is
    positive: an object that holds a station after the call held it before
    or the demand of its date lists the station with a positive count. *)
Theorem assigned_station_is_demanded ctx h roster r s :
  let h' := fst (assign_stations ctx h roster) in
  a_station (h' r) = Some s ->
  a_station (h r) = Some s
  \/ exists count,
       In (s, count) (PyDict.get_or (a_date (h r)) [] (demand_by_date ctx))
       /\ 0 < count.
Proof.
  intros h'. subst h'.
  apply (assign_stations_keeps ctx (ro_assignments roster) h
           (fun h' =>
              a_station (h' r) = Some s ->
              a_station (h r) = Some s
              \/ exists count,
                   In (s, count) (PyDict.get_or (a_date (h r)) [] (demand_by_date ctx))
                   /\ 0 < count));
    [|reflexivity|now left].
  intros h1 a s1 c H Ia Ic Pc. unfold set_station.
  destruct (Nat.eqb_spec r a) as [-> | N]; [|exact H].
  cbn [a_station]. intros [= ->]. right. now exists c.
Qed.

Lemma assigned_station_is_demanded_witness :
  a_station (heap_before 0%nat) = Some COUNTER
  \/ exists count,
       In (COUNTER, count)
          (PyDict.get_or (a_date (heap_before 0%nat)) [] (demand_by_date ctx_stations))
       /\ 0 < count.
Proof.
  apply (assigned_station_is_demanded ctx_stations heap_before roster_before 0%nat COUNTER).
  reflexivity.
Defined.

(** When no head count of the demand is positive (in particular when the
    context has no demand), [assign_stations] leaves the store as it is. *)
Theorem assign_stations_without_demand ctx h roster :
  (forall dt by_station station count,
      In (dt, by_station) (demand_by_date ctx) -> In (station, count) by_station ->
      count <= 0) ->
  fst (assign_stations ctx h roster) = h.
Proof.
  intros D.
  apply (assign_stations_keeps ctx (ro_assignments roster) h (fun h' => h' = h));
    [|reflexivity|reflexivity].
  intros h1 a s c _ _ I Pc. exfalso.
  unfold PyDict.get_or in I.
  match type of I with
  | context [match ?g with _ => _ end] => destruct g as [d|] eqn:G
  end; [|contradiction].
  apply get_In in G. destruct G as (k & _ & J).
  pose proof (D k d s c J I). lia.
Qed.

Lemma assign_stations_without_demand_witness :
  fst (assign_stations ctx_two_casuals heap_before roster_before) = heap_before.
Proof.
  apply (assign_stations_without_demand ctx_two_casuals heap_before roster_before).
  intros dt by_station station count [].
Defined.

(* ===================================================================== *)
(** ** The shift catalogue: [_load_shift_templates_from_excel] *)

Lemma not_key_get_none {K V} `{Key K} (d : dict K V) k :
  ~ In k (PyDict.keys d) -> PyDict.get k d = None.
Proof.
  induction d as [|[k0 v0] d IH]; simpl; [reflexivity|].
  intros N. destruct (keqb k k0) eqn:E.
  - apply keqb_spec in E. subst. tauto.
  - apply IH. tauto.
Qed.

Lemma keys_set_NoDup {K V} `{Key K} (d : dict K V) k v :
  NoDup (PyDict.keys d) -> NoDup (PyDict.keys (PyDict.set k v d)).
Proof.
  intros ND. destruct (PyDict.get k d) as [v0|] eqn:G.
  - assert (E : PyDict.keys (PyDict.set k v d) = PyDict.keys d).
    { clear ND. revert G. induction d as [|[k1 v1] d IH]; simpl; [discriminate|].
      destruct (keqb k k1) eqn:E; simpl; [reflexivity|].
      intros G. f_equal. now apply IH. }
    now rewrite E.
  - apply get_none_not_key in G. rewrite (set_fresh d k v G).
    unfold PyDict.keys. rewrite map_app. simpl.
    apply NoDup_app; [exact ND | constructor; [tauto | constructor] |].
    intros x I [<- | []]. now apply G.
Qed.

(** [merged.update(templates)] for a dict: the entry of [templates] where
    it has one, the entry of [merged] elsewhere. *)
Lemma get_dict_update {K V} `{Key K} (d other : dict K V) k :
  NoDup (PyDict.keys other) ->
  PyDict.get k (dict_update d other)
  = match PyDict.get k other with
    | Some v => Some v
    | None => PyDict.get k d
    end.
Proof.
  unfold dict_update. revert d.
  induction other as [|[k1 v1] other IH]; intros d ND; simpl; [reflexivity|].
  inversion ND as [|? ? NI ND']; subst.
  rewrite IH by exact ND'.
  destruct (keqb k k1) eqn:E.
  - apply keqb_spec in E. subst k1.
    rewrite (not_key_get_none other k NI). apply get_set_eq.
  - apply keqb_neq in E. now rewrite get_set_neq.
Qed.

Lemma row_template_spec row code tpl :
  row_template row = Some (code, tpl) ->
  code = row_code row
  /\ code <> "" /\ lower code <> "code"
  /\ tpl_hours tpl = row_hours row
  /\ match row_times row with
     | Some (s, e) => tpl_start tpl = s /\ tpl_end tpl = e
     | None =>
         exists d, PyDict.get code DEFAULT_SHIFT_TEMPLATES = Some d
                   /\ tpl_start tpl = tpl_start d /\ tpl_end tpl = tpl_end d
     end.
Proof.
  unfold row_template.
  destruct (String.eqb (row_code row) "") eqn:E1; [discriminate|].
  destruct (String.eqb (lower (row_code row)) "code") eqn:E2; [discriminate|].
  apply String.eqb_neq in E1, E2.
  destruct (PyDict.get (row_code row) DEFAULT_SHIFT_TEMPLATES) as [d|] eqn:G;
    destruct (row_times row) as [[s e]|]; cbn [orb option_map fst snd];
    try discriminate; intros [= <- <-]; cbn [tpl_start tpl_end tpl_hours];
    repeat split; auto.
  exists d. rewrite G. auto.
Qed.

Lemma add_rows_NoDup rows templates :
  NoDup (PyDict.keys templates) ->
  NoDup (PyDict.keys (fold_left add_row rows templates)).
Proof.
  revert templates. induction rows as [|row rows IH]; intros templates ND; simpl; auto.
  apply IH. unfold add_row. destruct (row_template row) as [[c t]|]; auto.
  now apply keys_set_NoDup.
Qed.

(** Rows that add nothing under a code leave its entry as it is. *)
Lemma add_rows_keep rows templates code :
  (forall row tpl, In row rows -> row_template row <> Some (code, tpl)) ->
  PyDict.get code (fold_left add_row rows templates) = PyDict.get code templates.
Proof.
  revert templates. induction rows as [|row rows IH]; intros templates N; simpl; auto.
  rewrite IH by (intros r t I; apply N; now right).
  unfold add_row. destruct (row_template row) as [[c t]|] eqn:E; auto.
  apply get_set_neq. intros <-. now apply (N row t (or_introl eq_refl)).
Qed.

(** An entry of [templates] was there before the loop or comes from a row. *)
Lemma add_rows_origin rows templates code tpl :
  PyDict.get code (fold_left add_row rows templates) = Some tpl ->
  PyDict.get code templates = Some tpl
  \/ exists row, In row rows /\ row_template row = Some (code, tpl).
Proof.
  revert templates. induction rows as [|row rows IH]; intros templates G; simpl in *; auto.
  destruct (IH _ G) as [G' | (r & I & E)]; [|right; exists r; auto].
  unfold add_row in G'. destruct (row_template row) as [[c t]|] eqn:E; auto.
  destruct (string_dec code c) as [-> | N].
  - rewrite get_set_eq in G'. injection G' as ->. right. exists row. auto.
  - rewrite get_set_neq in G' by exact N. auto.
Qed.

(** The catalogue is the defaults with the entries of the sheet laid over
    them, also when the sheet yields none. *)
Lemma get_loaded rows code :
  PyDict.get code (_load_shift_templates_from_excel (Some rows))
  = match PyDict.get code (fold_left add_row rows []) with
    | Some tpl => Some tpl
    | None => PyDict.get code DEFAULT_SHIFT_TEMPLATES
    end.
Proof.
  unfold _load_shift_templates_from_excel.
  assert (ND : NoDup (PyDict.keys (fold_left add_row rows []))).
  { apply add_rows_NoDup. constructor. }
  destruct (fold_left add_row rows []) as [|kv templates] eqn:E; [reflexivity|].
  now apply get_dict_update.
Qed.

(** The defaults are the floor: whatever the workbook holds, every code of
    [DEFAULT_SHIFT_TEMPLATES] has a template in the catalogue.  The
    template is the default one, or it carries the hours of a row of the
    sheet with that code, and then with the default start and end when the
    time cell of the row could not be read. *)
Theorem default_templates_are_the_floor sheet code d :
  PyDict.get code DEFAULT_SHIFT_TEMPLATES = Some d ->
  exists tpl,
    PyDict.get code (_load_shift_templates_from_excel sheet) = Some tpl
    /\ (tpl = d
        \/ exists rows row,
             sheet = Some rows /\ In row rows /\ row_code row = code
             /\ tpl_hours tpl = row_hours row
             /\ (row_times row = None ->
                 tpl_start tpl = tpl_start d /\ tpl_end tpl = tpl_end d)).
Proof.
  intros D. destruct sheet as [rows|]; [|exists d; auto].
  rewrite get_loaded.
  destruct (PyDict.get code (fold_left add_row rows [])) as [tpl|] eqn:G;
    [|exists d; auto].
  exists tpl. split; [reflexivity|]. right.
  destruct (add_rows_origin rows [] code tpl G) as [G0 | (row & I & E)];
    [discriminate|].
  destruct (row_template_spec row code tpl E) as (C & _ & _ & Hh & Ht).
  exists rows, row.
  split; [reflexivity|]. split; [exact I|]. split; [now symmetry|].
  split; [exact Hh|].
  intros N. rewrite N in Ht. destruct Ht as (d' & D' & S' & E').
  rewrite D in D'. injection D' as <-. auto.
Qed.

Lemma default_templates_are_the_floor_witness :
  exists tpl,
    PyDict.get "S" (_load_shift_templates_from_excel (Some sheet_three_rows)) = Some tpl
    /\ (tpl = mk_tpl (mk_time 6 30) (mk_time 15 0) (17 # 2)
        \/ exists rows row,
             Some sheet_three_rows = Some rows /\ In row rows /\ row_code row = "S"
             /\ tpl_hours tpl = row_hours row
             /\ (row_times row = None ->
                 tpl_start tpl = tpl_start (mk_tpl (mk_time 6 30) (mk_time 15 0) (17 # 2))
                 /\ tpl_end tpl = tpl_end (mk_tpl (mk_time 6 30) (mk_time 15 0) (17 # 2)))).
Proof.
  apply (default_templates_are_the_floor (Some sheet_three_rows) "S").
  reflexivity.
Defined.

(** A row of the sheet with a code, a readable time cell and no later row
    of the same code sets the template of its code: the catalogue holds
    the start and end of the time cell with the hours of the row, for a
    default code as for a new one, and [template_hours] is the hours of
    the row. *)
Theorem sheet_row_with_times_sets_the_template pre row post s e :
  row_code row <> "" ->
  lower (row_code row) <> "code" ->
  row_times row = Some (s, e) ->
  (forall r, In r post -> row_code r <> row_code row) ->
  let T := _load_shift_templates_from_excel (Some (pre ++ row :: post)) in
  PyDict.get (row_code row) T = Some (mk_tpl s e (row_hours row))
  /\ template_hours T (row_code row) = row_hours row.
Proof.
  intros C1 C2 Ht N T.
  assert (G : PyDict.get (row_code row) T = Some (mk_tpl s e (row_hours row))).
  { unfold T. rewrite get_loaded, fold_left_app. simpl.
    rewrite add_rows_keep.
    - assert (E : row_template row = Some (row_code row, mk_tpl s e (row_hours row))).
      { unfold row_template.
        apply String.eqb_neq in C1, C2. rewrite C1, C2, Ht.
        now destruct (PyDict.get (row_code row) DEFAULT_SHIFT_TEMPLATES). }
      unfold add_row at 1. rewrite E. now rewrite get_set_eq.
    - intros r t I E. apply row_template_spec in E. apply (N r I). symmetry. tauto. }
  split; [exact G|]. unfold template_hours. now rewrite G.
Qed.

Lemma sheet_row_with_times_sets_the_template_witness :
  let T := _load_shift_templates_from_excel (Some (sheet_three_rows ++ row_late :: [])) in
  PyDict.get "L" T = Some LATE_SHIFT /\ template_hours T "L" = (17 # 2).
Proof.
  refine (sheet_row_with_times_sets_the_template
            sheet_three_rows row_late [] (mk_time 14 0) (mk_time 22 30) _ _ _ _).
  - discriminate.
  - discriminate.
  - reflexivity.
  - intros r [].
Defined.

(** A code that is not a default code and whose rows have no readable
    time cell ("Varies") gets no template, whatever hours the sheet gives
    for it: the catalogue has no entry for the code and [template_hours]
    counts it as [DEFAULT_SHIFT_HOURS]. *)
Theorem sheet_code_without_times_is_dropped rows code :
  PyDict.get code DEFAULT_SHIFT_TEMPLATES = None ->
  (forall row, In row rows -> row_code row = code -> row_times row = None) ->
  let T := _load_shift_templates_from_excel (Some rows) in
  PyDict.get code T = None
  /\ template_hours T code = DEFAULT_SHIFT_HOURS.
Proof.
  intros D N T.
  assert (G : PyDict.get code T = None).
  { unfold T. rewrite get_loaded, add_rows_keep; [exact D|].
    intros row tpl I E. apply row_template_spec in E.
    destruct E as (C & _ & _ & _ & Ht).
    rewrite (N row I (eq_sym C)) in Ht. destruct Ht as (d & D' & _).
    rewrite D in D'. discriminate. }
  split; [exact G|]. unfold template_hours. now rewrite G.
Qed.

Lemma sheet_code_without_times_is_dropped_witness :
  let T := _load_shift_templates_from_excel (Some sheet_three_rows) in
  PyDict.get "M" T = None /\ template_hours T "M" = DEFAULT_SHIFT_HOURS.
Proof.
  refine (sheet_code_without_times_is_dropped sheet_three_rows "M" _ _).
  - reflexivity.
  - intros row [<- | [<- | [<- | []]]]; reflexivity.
Defined.

(* ===================================================================== *)
(** ** The cell parsers of the availability sheet *)

Lemma prefix_contains p s : String.prefix p s = true -> contains p s = true.
Proof. intros P. destruct s; cbn [contains]; rewrite P; reflexivity. Qed.

Lemma contains_tail p c s : contains p s = true -> contains p (String c s) = true.
Proof. intros C. cbn [contains]. rewrite C. apply orb_true_r. Qed.

Lemma prefix_app_contains p1 p2 s :
  String.prefix (p1 ++ p2) s = true -> contains p2 s = true.
Proof.
  revert s. induction p1 as [|a p1 IH]; intros s P.
  - now apply prefix_contains.
  - destruct s as [|b s]; [discriminate|].
    simpl in P. destruct (ascii_dec a b); [|discriminate].
    apply contains_tail. now apply IH.
Qed.

(** A text that contains a word contains the end of the word. *)
Lemma contains_app p1 p2 s :
  contains (p1 ++ p2) s = true -> contains p2 s = true.
Proof.
  induction s as [|c s IH]; cbn [contains]; intros C.
  - rewrite orb_false_r in C. now apply (prefix_app_contains p1 p2 "").
  - apply orb_true_iff in C. destruct C as [P | C].
    + now apply (prefix_app_contains p1 p2 (String c s)).
    + apply contains_tail. now apply IH.
Qed.

(** [_parse_skill_tags] never returns the empty list and never a tag
    twice; it never returns DELIVERY or MANAGER, whatever the cell says; it
    returns MCCAFe exactly when the cell, stripped and in lower case,
    contains "cafe" (the test for "mccafe" adds nothing); and a cell with
    none of the four words gives COUNTER alone. *)
Theorem parsed_skill_tags raw :
  let s := lower (strip raw) in
  let tags := _parse_skill_tags raw in
  tags <> []
  /\ NoDup tags
  /\ ~ In DELIVERY tags /\ ~ In MANAGER tags
  /\ (In MCCAFe tags <-> contains "cafe" s = true)
  /\ (contains "kitchen" s = false -> contains "counter" s = false ->
      contains "cafe" s = false -> contains "dessert" s = false ->
      tags = [COUNTER]).
Proof.
  intros s tags. unfold tags, _parse_skill_tags. fold s.
  assert (M : contains "mccafe" s = true -> contains "cafe" s = true)
    by apply (contains_app "mc" "cafe").
  destruct (contains "kitchen" s), (contains "counter" s), (contains "cafe" s),
    (contains "mccafe" s), (contains "dessert" s);
    try (specialize (M eq_refl); discriminate);
    cbn [orb app];
    (split; [discriminate|]);
    (split; [repeat constructor; simpl; intuition discriminate|]);
    (split; [simpl; intuition discriminate|]);
    (split; [simpl; intuition discriminate|]);
    (split; [simpl; intuition discriminate|]);
    intros; try discriminate; reflexivity.
Qed.

Lemma parsed_skill_tags_witness :
  _parse_skill_tags "Delivery" = [COUNTER].
Proof.
  apply (parsed_skill_tags "Delivery"); reflexivity.
Defined.

(** The parsers read back the values of the enumerations, except for the
    two skill tags they do not know: every contract type is parsed from its
    own value, KITCHEN, COUNTER, MCCAFe and DESSERT from theirs, and the
    values of DELIVERY and MANAGER are read as COUNTER.  Case and
    surrounding white space do not count. *)
Theorem parsers_read_enum_values :
  (forall ct, _parse_contract_type (ContractType_value ct) = Some ct)
  /\ (forall tag,
         _parse_skill_tags (SkillTag_value tag)
         = match tag with
           | DELIVERY | MANAGER => [COUNTER]
           | _ => [tag]
           end)
  /\ _parse_contract_type "  Full-Time " = Some FULL_TIME
  /\ _parse_contract_type "permanent" = None.
Proof.
  split; [intros []; reflexivity|].
  split; [intros []; reflexivity|].
  split; reflexivity.
Qed.

(* ===================================================================== *)
(** ** Stations against the head counts of the demand *)

(** The group of a date is the assignments of the date, in roster order. *)
Lemma group_by_date_get h refs dt :
  PyDict.get_or dt [] (group_by_date h refs)
  = filter (fun r => a_date (h r) =? dt) refs.
Proof.
  unfold group_by_date.
  assert (G : forall rest (d : dict date (list ref)),
             PyDict.get_or dt []
               (fold_left
                  (fun by_date a =>
                     PyDict.set (a_date (h a))
                                (PyDict.get_or (a_date (h a)) [] by_date ++ [a]) by_date)
                  rest d)
             = PyDict.get_or dt [] d ++ filter (fun r => a_date (h r) =? dt) rest).
  { induction rest as [|x rest IH]; intros d; cbn [fold_left filter].
    - now rewrite app_nil_r.
    - rewrite IH. destruct (Z.eqb_spec (a_date (h x)) dt) as [E | N].
      + rewrite E. unfold PyDict.get_or at 1. rewrite get_set_eq.
        now rewrite <- app_assoc.
      + unfold PyDict.get_or at 1. rewrite get_set_neq by congruence. reflexivity. }
  apply (G refs []).
Qed.

Lemma group_by_date_NoDup h refs : NoDup (PyDict.keys (group_by_date h refs)).
Proof.
  unfold group_by_date.
  assert (G : forall rest (d : dict date (list ref)),
             NoDup (PyDict.keys d) ->
             NoDup (PyDict.keys
                      (fold_left
                         (fun by_date a =>
                            PyDict.set (a_date (h a))
                                       (PyDict.get_or (a_date (h a)) [] by_date ++ [a])
                                       by_date)
                         rest d))).
  { induction rest as [|x rest IH]; intros d ND; cbn [fold_left]; [exact ND|].
    apply IH. now apply keys_set_NoDup. }
  apply G. constructor.
Qed.

Lemma group_by_date_groups h refs dt l :
  In (dt, l) (group_by_date h refs) -> l = filter (fun r => a_date (h r) =? dt) refs.
Proof.
  intros I. rewrite <- group_by_date_get.
  unfold PyDict.get_or. now rewrite (In_get _ _ _ (group_by_date_NoDup h refs) I).
Qed.

Lemma holders_ext h h' s l :
  (forall r, In r l -> h' r = h r) -> holders h' s l = holders h s l.
Proof.
  intros E. unfold holders. do 2 f_equal. apply filter_ext_in.
  intros r I. now rewrite E.
Qed.

Lemma holders_none h s l :
  (forall r, In r l -> a_station (h r) = None) -> holders h s l = 0.
Proof.
  intros N. unfold holders.
  replace (filter (fun r => placed_at s (h r)) l) with (@nil ref); [reflexivity|].
  symmetry. induction l as [|x l IH]; [reflexivity|]. cbn [filter].
  unfold placed_at at 1. rewrite (N x (or_introl eq_refl)).
  apply IH. intros r I. apply N. now right.
Qed.

(** Placing an object that holds no station at [s] adds one holder of [s]
    and no holder of another station. *)
Lemma holders_set_station h a s s' l :
  NoDup l -> In a l -> a_station (h a) = None ->
  holders (set_station h a (Some s)) s' l
  = holders h s' l + (if SkillTag_eqb s s' then 1 else 0).
Proof.
  intros ND I N. unfold holders.
  induction l as [|x l IH]; [contradiction|].
  inversion ND as [|? ? NI ND']; subst.
  cbn [filter]. destruct (Nat.eq_dec x a) as [-> | X].
  - assert (E : filter (fun r => placed_at s' (set_station h a (Some s) r)) l
                = filter (fun r => placed_at s' (h r)) l).
    { apply filter_ext_in. intros r J. unfold set_station.
      destruct (Nat.eqb_spec r a) as [-> | _]; [contradiction|reflexivity]. }
    assert (P1 : placed_at s' (set_station h a (Some s) a) = SkillTag_eqb s s').
    { unfold placed_at, set_station. now rewrite Nat.eqb_refl. }
    assert (P2 : placed_at s' (h a) = false).
    { unfold placed_at. now rewrite N. }
    rewrite E, P1, P2.
    destruct (SkillTag_eqb s s'); cbn [List.length]; lia.
  - destruct I as [I | I]; [congruence|].
    specialize (IH ND' I).
    assert (E : placed_at s' (set_station h a (Some s) x) = placed_at s' (h x)).
    { unfold set_station. destruct (Nat.eqb_spec x a); [contradiction|reflexivity]. }
    rewrite E. destruct (placed_at s' (h x)); cbn [List.length]; lia.
Qed.

Section DayCount.
Variable demand : dict SkillTag Z.
Variable day : list ref.
Variable h0 : Heap.
Hypothesis day_nodup : NoDup day.

(** What holds between the turns of the two passes: the objects still to
    be placed hold no station, and for every station the holders and the
    remaining demand do not exceed the demand. *)
Let inv (h : Heap) (rem : dict SkillTag Z) (pending : list ref) : Prop :=
  NoDup pending
  /\ (forall r, In r pending -> In r day /\ a_station (h r) = None)
  /\ NoDup (PyDict.keys rem)
  /\ (forall s, holders h s day + Z.max 0 (PyDict.get_or s 0 rem)
                <= Z.max 0 (PyDict.get_or s 0 demand))
  /\ (forall r, ~ In r day -> h r = h0 r).

Lemma inv_perm h rem p p' : Permutation p p' -> inv h rem p -> inv h rem p'.
Proof.
  intros Pm (A & B & C & D & E). repeat split; auto.
  - now apply (Permutation_NoDup Pm).
  - apply B. now apply (Permutation_in _ (Permutation_sym Pm)).
  - apply B. now apply (Permutation_in _ (Permutation_sym Pm)).
Qed.

Lemma inv_drop h rem a p : inv h rem (a :: p) -> inv h rem p.
Proof.
  intros (A & B & C & D & E). repeat split; auto.
  - now inversion A.
  - apply B. now right.
  - apply B. now right.
Qed.

Lemma inv_place h rem a p s :
  0 < PyDict.get_or s 0 rem ->
  inv h rem (a :: p) -> inv (set_station h a (Some s)) (take_one rem s) p.
Proof.
  intros G (A & B & C & D & E).
  inversion A as [|? ? NI A']; subst.
  destruct (B a (or_introl eq_refl)) as [Ia Na].
  repeat split.
  - exact A'.
  - apply B. now right.
  - unfold set_station. destruct (Nat.eqb_spec r a) as [-> | _]; [contradiction|].
    apply B. now right.
  - unfold take_one. now apply keys_set_NoDup.
  - intros s'. rewrite (holders_set_station h a s s' day day_nodup Ia Na).
    specialize (D s'). unfold take_one.
    destruct (SkillTag_eqb s s') eqn:Q.
    + apply SkillTag_eqb_spec in Q. subst s'.
      unfold PyDict.get_or at 1. rewrite get_set_eq. lia.
    + unfold PyDict.get_or at 1. rewrite get_set_neq; [fold (PyDict.get_or s' 0 rem); lia|].
      intros ->. rewrite (proj2 (SkillTag_eqb_spec s s) eq_refl) in Q. discriminate.
  - intros r N. unfold set_station.
    destruct (Nat.eqb_spec r a) as [-> | _]; [contradiction|]. now apply E.
Qed.

Lemma first_pass_inv skills todo : forall h rem un,
  inv h rem (todo ++ un) ->
  let '(h', rem', un') := fold_left (first_pass skills) todo (h, rem, un) in
  inv h' rem' un'.
Proof.
  induction todo as [|a todo IH]; intros h rem un I; cbn [fold_left]; [exact I|].
  unfold first_pass at 2.
  destruct (find _ _) as [s|] eqn:F.
  - apply find_some in F. destruct F as [_ F]. apply Z.ltb_lt in F.
    apply IH. now apply inv_place.
  - apply IH. refine (inv_perm _ _ _ _ _ I).
    cbn [app]. rewrite app_assoc. apply Permutation_cons_append.
Qed.

Lemma second_pass_inv un : forall h rem,
  inv h rem un ->
  inv (fst (fold_left second_pass un (h, rem)))
      (snd (fold_left second_pass un (h, rem))) [].
Proof.
  induction un as [|a un IH]; intros h rem I; cbn [fold_left]; [exact I|].
  unfold second_pass at 2 4.
  destruct (find _ rem) as [[s c]|] eqn:F.
  - apply find_some in F. destruct F as [J F]. cbn [snd] in F. apply Z.ltb_lt in F.
    apply IH. apply inv_place; [|exact I].
    destruct I as (_ & _ & C & _).
    unfold PyDict.get_or. now rewrite (In_get _ _ _ C J).
  - apply IH. now apply (inv_drop h rem a).
Qed.
End DayCount.

(** One day of [assign_stations]: when the objects of the day are distinct
    and hold no station, no station gets more holders than its head count
    in the demand of the day, and the objects of other days are not
    touched. *)
Lemma assign_day_count ctx skills h dt day :
  NoDup day ->
  (forall r, In r day -> a_station (h r) = None) ->
  NoDup (PyDict.keys (PyDict.get_or dt [] (demand_by_date ctx))) ->
  let h' := assign_day ctx skills h (dt, day) in
  (forall s, holders h' s day
             <= Z.max 0 (PyDict.get_or s 0 (PyDict.get_or dt [] (demand_by_date ctx))))
  /\ (forall r, ~ In r day -> h' r = h r).
Proof.
  intros ND N KD. unfold assign_day.
  set (demand := PyDict.get_or dt [] (demand_by_date ctx)) in *.
  pose proof (first_pass_inv demand day h ND skills day h demand []) as K.
  cbv beta in K.
  destruct (fold_left (first_pass skills) day (h, demand, [])) as [[h1 rem1] un1] eqn:F1.
  match type of K with
  | context [match ?t with _ => _ end] =>
      replace t with (h1, rem1, un1) in K by (symmetry; exact F1)
  end.
  match goal with
  | |- context [match ?t with _ => _ end] =>
      replace t with (h1, rem1, un1) by (symmetry; exact F1)
  end.
  assert (I1 : NoDup un1
               /\ (forall r, In r un1 -> In r day /\ a_station (h1 r) = None)
               /\ NoDup (PyDict.keys rem1)
               /\ (forall s, holders h1 s day + Z.max 0 (PyDict.get_or s 0 rem1)
                             <= Z.max 0 (PyDict.get_or s 0 demand))
               /\ (forall r, ~ In r day -> h1 r = h r)).
  { apply K. rewrite app_nil_r. repeat split; auto.
    intros s. rewrite (holders_none h s day N). lia. }
  pose proof (second_pass_inv demand day h ND un1 h1 rem1 I1) as (_ & _ & _ & D & E).
  split; [|exact E].
  intros s. specialize (D s). lia.
Qed.

Lemma demand_keys_NoDup ctx dt :
  (forall d by_station, In (d, by_station) (demand_by_date ctx) ->
                        NoDup (PyDict.keys by_station)) ->
  NoDup (PyDict.keys (PyDict.get_or dt [] (demand_by_date ctx))).
Proof.
  intros W. unfold PyDict.get_or.
  match goal with
  | |- context [match ?g with _ => _ end] => destruct g as [by_station|] eqn:G
  end; [|constructor].
  apply get_In in G. destruct G as (k & -> & I). now apply (W dt).
Qed.

(** The days one after the other: a day writes to its own objects only,
    so the count of a date is settled by the turn of that date. *)
Lemma assign_days_count ctx skills h refs dt s :
  (forall d by_station, In (d, by_station) (demand_by_date ctx) ->
                        NoDup (PyDict.keys by_station)) ->
  NoDup refs ->
  forall days h1,
    NoDup (PyDict.keys days) ->
    (forall d l, In (d, l) days -> l = filter (fun r => a_date (h r) =? d) refs) ->
    (forall d l r, In (d, l) days -> In r l -> a_station (h1 r) = None) ->
    (~ In dt (PyDict.keys days) ->
     holders h1 s (filter (fun r => a_date (h r) =? dt) refs)
     <= Z.max 0 (PyDict.get_or s 0 (PyDict.get_or dt [] (demand_by_date ctx)))) ->
    holders (fold_left (assign_day ctx skills) days h1) s
            (filter (fun r => a_date (h r) =? dt) refs)
    <= Z.max 0 (PyDict.get_or s 0 (PyDict.get_or dt [] (demand_by_date ctx))).
Proof.
  intros W ND.
  induction days as [|[d l] days IH]; intros h1 KD G N B; cbn [fold_left].
  - apply B. intros [].
  - inversion KD as [|? ? NI KD']; subst.
    pose proof (G d l (or_introl eq_refl)) as El.
    assert (NDl : NoDup l) by (rewrite El; now apply NoDup_filter).
    destruct (assign_day_count ctx skills h1 d l NDl
                (fun r I => N d l r (or_introl eq_refl) I)
                (demand_keys_NoDup ctx d W)) as [A U].
    assert (Other : forall d' r, d' <> d -> a_date (h r) = d' ->
                                 assign_day ctx skills h1 (d, l) r = h1 r).
    { intros d' r Nd Er. apply U. rewrite El. intros I.
      apply filter_In in I. destruct I as [_ I]. apply Z.eqb_eq in I. congruence. }
    apply IH.
    + exact KD'.
    + intros d' l' I. apply G. now right.
    + intros d' l' r I J.
      rewrite (Other d' r).
      * apply (N d' l'); [now right|exact J].
      * intros ->. apply NI. change d with (fst (d, l')). now apply in_map.
      * pose proof (G d' l' (or_intror I)) as El'. rewrite El' in J.
        apply filter_In in J. destruct J as [_ J]. now apply Z.eqb_eq in J.
    + intros Nk. destruct (Z.eq_dec d dt) as [-> | Nd].
      * rewrite <- El. apply A.
      * rewrite (holders_ext h1).
        -- apply B. intros [E | I]; [now apply Nd|now apply Nk].
        -- intros r I. apply (Other dt); [congruence|].
           apply filter_In in I. destruct I as [_ I]. now apply Z.eqb_eq in I.
Qed.

Lemma placed_on_holders h h' roster dt s :
  (forall r, a_date (h' r) = a_date (h r)) ->
  placed_on (roster_value h' roster) dt s
  = holders h' s (filter (fun r => a_date (h r) =? dt) (ro_assignments roster)).
Proof.
  intros E. unfold placed_on, holders, roster_value. cbn [r_assignments].
  f_equal. induction (ro_assignments roster) as [|x l IH]; [reflexivity|].
  cbn [map filter]. rewrite E.
  destruct (a_date (h x) =? dt); cbn [andb filter];
    [destruct (placed_at s (h' x))|]; cbn [List.length]; now rewrite IH.
Qed.

(** [assign_stations] never places more assignments at a station than the
    demand of the day asks for: in a roster of distinct assignment objects
    that hold no station yet, as the generator returns it, the assignments
    of a date placed at a station are at most the head count of the station
    in the demand of the date (none when the count is missing or
    negative).  The demand of a date has each station once. *)
Theorem station_head_count_is_kept ctx h roster dt s :
  NoDup (ro_assignments roster) ->
  (forall r, In r (ro_assignments roster) -> a_station (h r) = None) ->
  (forall d by_station, In (d, by_station) (demand_by_date ctx) ->
                        NoDup (PyDict.keys by_station)) ->
  let result := assign_stations ctx h roster in
  placed_on (roster_value (fst result) (snd result)) dt s
  <= Z.max 0 (PyDict.get_or s 0 (PyDict.get_or dt [] (demand_by_date ctx))).
Proof.
  intros ND N W result.
  assert (E : forall r, a_date (fst result r) = a_date (h r)).
  { intros r.
    apply (assign_stations_keeps ctx (ro_assignments roster) h
             (fun h' => a_date (h' r) = a_date (h r))); [|reflexivity|reflexivity].
    intros h1 a s0 c H _ _ _. rewrite <- H. unfold set_station.
    destruct (Nat.eqb_spec r a) as [-> | _]; reflexivity. }
  assert (R : roster_value (fst result) (snd result) = roster_value (fst result) roster)
    by reflexivity.
  rewrite R, (placed_on_holders h (fst result) roster dt s E).
  unfold result, assign_stations. cbn [fst].
  apply assign_days_count; auto.
  - apply group_by_date_NoDup.
  - apply group_by_date_groups.
  - intros d l r I J. apply N.
    now apply (group_by_date_In h (ro_assignments roster) d l r).
  - intros _. rewrite holders_none; [lia|].
    intros r I. apply N. apply filter_In in I. tauto.
Qed.

Lemma station_head_count_is_kept_witness :
  placed_on (roster_value (fst (assign_stations ctx_stations heap_before roster_before))
                          (snd (assign_stations ctx_stations heap_before roster_before)))
            100 COUNTER
  <= Z.max 0 (PyDict.get_or COUNTER 0
                            (PyDict.get_or 100 [] (demand_by_date ctx_stations))).
Proof.
  apply (station_head_count_is_kept ctx_stations heap_before roster_before 100 COUNTER).
  - repeat constructor; simpl; intuition discriminate.
  - intros r I. simpl in I.
    repeat (destruct I as [<- | I]; [reflexivity|]). contradiction.
  - intros d by_station [E | []]. injection E as <- <-.
    repeat constructor; simpl; tauto.
Defined.

(* ===================================================================== *)
(** ** When generation aborts *)

Lemma fold_set_other {K A V} `{Key K} (g : A -> V) (l : list (K * A)) : forall d k,
  ~ In k (map fst l) ->
  PyDict.get k (fold_left (fun d kv => PyDict.set (fst kv) (g (snd kv)) d) l d)
  = PyDict.get k d.
Proof.
  induction l as [|[k1 a1] l IH]; intros d k N; cbn [fold_left fst snd]; [reflexivity|].
  rewrite IH by (intros I; apply N; now right).
  apply get_set_neq. intros ->. apply N. now left.
Qed.

(** Item assignment over the items of a dict: every key ends up with the
    value made from its own item. *)
Lemma fold_set_get {K A V} `{Key K} (g : A -> V) (l : list (K * A)) : forall d k a,
  NoDup (map fst l) -> In (k, a) l ->
  PyDict.get k (fold_left (fun d kv => PyDict.set (fst kv) (g (snd kv)) d) l d)
  = Some (g a).
Proof.
  induction l as [|[k1 a1] l IH]; intros d k a ND I; [contradiction|].
  inversion ND as [|? ? NI ND']; subst. cbn [fold_left fst snd].
  destruct I as [E | I].
  - injection E as -> ->. rewrite fold_set_other by exact NI. apply get_set_eq.
  - now apply IH.
Qed.

(** A code of [all_shift_codes] is a code some availability entry lists. *)
Lemma all_shift_codes_origin ctx code :
  In code (all_shift_codes_of (availability_map_of ctx)) ->
  exists emp_id avail dt codes,
    In (emp_id, avail) (availability ctx)
    /\ In (dt, codes) (allowed_shift_codes_by_date avail)
    /\ In code codes.
Proof.
  set (Inner := fun (av : EmployeeAvailability) (inner : dict date (list string)) =>
         forall d cs, In (d, cs) inner -> forall c, In c cs ->
           exists codes, In (d, codes) (allowed_shift_codes_by_date av) /\ In c codes).
  set (Outer := fun (amap : dict string (dict date (list string))) =>
         forall k inner, In (k, inner) amap ->
           exists av, In (k, av) (availability ctx) /\ Inner av inner).
  assert (O : Outer (availability_map_of ctx)).
  { unfold availability_map_of. apply fold_left_invariant_in.
    - intros amap [k av] Ik PO k' inner' J. cbn [fst snd] in J.
      apply In_set in J. destruct J as [J | [-> ->]]; [exact (PO k' inner' J)|].
      exists av. split; [exact Ik|].
      apply (fold_left_invariant_in (Inner av)).
      + intros inner [d cs] Id PI d' cs' J c Ic. cbn [fst snd] in J.
        apply In_set in J. destruct J as [J | [-> ->]]; [exact (PI d' cs' J c Ic)|].
        exists cs. split; [exact Id|]. exact (proj1 (dedup_In c cs) Ic).
      + intros d cs [].
    - intros k inner []. }
  set (amap := availability_map_of ctx) in *.
  set (From := fun (acc : list string) =>
         forall c, In c acc ->
           exists k inner d cs, In (k, inner) amap /\ In (d, cs) inner /\ In c cs).
  assert (F : From (all_shift_codes_of amap)).
  { unfold all_shift_codes_of. apply fold_left_invariant_in.
    - intros acc by_date Ib PA.
      apply in_map_iff in Ib. destruct Ib as ([k inner] & <- & Ik). cbn [snd].
      apply fold_left_invariant_in; [|exact PA].
      intros acc1 codes Ic PA1.
      apply in_map_iff in Ic. destruct Ic as ([d cs] & <- & Id). cbn [snd].
      apply fold_left_invariant_in; [|exact PA1].
      intros acc2 c Icc PA2 c' J.
      destruct (list_mem c acc2); [now apply PA2|].
      apply in_app_or in J. destruct J as [J | [<- | []]]; [now apply PA2|].
      exists k, inner, d, cs. auto.
    - intros c []. }
  intros I. destruct (F code I) as (k & inner & d & cs & Ik & Id & Ic).
  destruct (O k inner Ik) as (av & Ia & PI).
  destruct (PI d cs Id code Ic) as (codes & Jd & Jc).
  exists k, av, d, codes. auto.
Qed.

(** What the generator's search for shift codes comes to, on the context:
    it finds none exactly when no availability entry lists one. *)
Lemma no_codes_discovered ctx :
  availability_is_dicts ctx ->
  all_shift_codes_of (availability_map_of ctx) = []
  <-> no_shift_code_in_availability ctx.
Proof.
  intros [DA DI]. split.
  - intros E emp_id avail dt codes I1 I2.
    destruct codes as [|c cs]; [reflexivity|]. exfalso.
    assert (G1 : PyDict.get emp_id (availability_map_of ctx)
                 = Some (fold_left
                           (fun inner (dc : date * list string) =>
                              PyDict.set (fst dc) (dedup (snd dc)) inner)
                           (allowed_shift_codes_by_date avail) [])).
    { exact (fold_set_get
               (fun av : EmployeeAvailability =>
                  fold_left
                    (fun inner (dc : date * list string) =>
                       PyDict.set (fst dc) (dedup (snd dc)) inner)
                    (allowed_shift_codes_by_date av) [])
               (availability ctx) [] emp_id avail DA I1). }
    assert (G2 : PyDict.get dt
                   (fold_left
                      (fun inner (dc : date * list string) =>
                         PyDict.set (fst dc) (dedup (snd dc)) inner)
                      (allowed_shift_codes_by_date avail) [])
                 = Some (dedup (c :: cs))).
    { exact (fold_set_get (fun codes : list string => dedup codes)
               (allowed_shift_codes_by_date avail) [] dt (c :: cs)
               (DI emp_id avail I1) I2). }
    assert (J : In c (sorted_allowed (availability_map_of ctx) emp_id dt)).
    { unfold sorted_allowed.
      apply (Permutation_in _ (Permutation_sym (sorted_by_perm String.leb _))).
      unfold PyDict.get_or.
      match goal with
      | |- context [PyDict.get dt (match ?g with _ => _ end)] =>
          replace g with (Some (fold_left
                                  (fun inner (dc : date * list string) =>
                                     PyDict.set (fst dc) (dedup (snd dc)) inner)
                                  (allowed_shift_codes_by_date avail) []))
            by (symmetry; exact G1)
      end.
      match goal with
      | |- context [match ?g with _ => _ end] =>
          replace g with (Some (dedup (c :: cs))) by (symmetry; exact G2)
      end.
      exact (proj2 (dedup_In c (c :: cs)) (or_introl eq_refl)). }
    apply (allowed_in_all_shift_codes ctx 0 0) in J.
    change (t_all_shift_codes (build_tables ctx 0 0))
      with (all_shift_codes_of (availability_map_of ctx)) in J.
    rewrite E in J. exact J.
  - intros N.
    destruct (all_shift_codes_of (availability_map_of ctx)) as [|c cs] eqn:E;
      [reflexivity|]. exfalso.
    destruct (all_shift_codes_origin ctx c) as (k & av & d & codes & I1 & I2 & I3).
    { rewrite E. now left. }
    rewrite (N k av d codes I1 I2) in I3. exact I3.
Qed.

(** C8.  [generate_initial_roster] raises, and returns no roster, exactly
    when the context has no employee, or no availability entry lists a
    shift code, or the solver's status is neither OPTIMAL nor FEASIBLE; in
    every other case it returns the roster decoded from the solver's
    values.  The hypothesis says that [ctx.availability] and the
    availability of each employee are dicts, which holds of every Python
    dict: the association lists have each key once. *)
Theorem generation_aborts_exactly_when_fatal
        T Solve ctx store_id start_date end_date :
  availability_is_dicts ctx ->
  let answer := Solve (build_model T ctx start_date end_date) in
  ((exists err, generate_initial_roster T Solve ctx store_id start_date end_date
                = Raised err) <-> fatal_condition ctx (fst answer))
  /\ (~ fatal_condition ctx (fst answer) ->
      generate_initial_roster T Solve ctx store_id start_date end_date
      = Returned (mk_Roster store_id start_date end_date
                    (decode (build_tables ctx start_date end_date)
                            (snd answer) store_id))).
Proof.
  intros W answer. pose proof (no_codes_discovered ctx W) as C.
  unfold fatal_condition, generate_initial_roster. cbv zeta.
  change (t_employees (build_tables ctx start_date end_date))
    with (PyDict.values (employees ctx)).
  change (t_all_shift_codes (build_tables ctx start_date end_date))
    with (all_shift_codes_of (availability_map_of ctx)).
  fold answer.
  destruct (employees ctx) as [|kv es] eqn:Ee; simpl.
  { split; [split; eauto|]. intros N; exfalso; apply N; auto. }
  destruct (all_shift_codes_of (availability_map_of ctx)) as [|c cs] eqn:Ec; simpl.
  { assert (F : no_shift_code_in_availability ctx) by now apply C.
    split; [split; eauto|]. intros N; exfalso; apply N; auto. }
  assert (F : ~ no_shift_code_in_availability ctx).
  { intros F. apply C in F. discriminate. }
  destruct answer as [st val]; simpl.
  destruct (status_accepted st) eqn:Es; simpl.
  - split.
    + split; [intros [err E]; discriminate|].
      intros [K | [K | K]]; [discriminate|contradiction|].
      apply status_accepted_false in K. congruence.
    + reflexivity.
  - apply status_accepted_false in Es. split.
    + split; eauto.
    + intros N; exfalso; apply N; auto.
Qed.

Lemma generation_aborts_exactly_when_fatal_witness :
  generate_initial_roster DEFAULT_SHIFT_TEMPLATES (fun _ => (OPTIMAL, work_day_100))
    ctx_shortfall "store_1" 100 101
  = Returned (mk_Roster "store_1" 100 101
                (decode (build_tables ctx_shortfall 100 101) work_day_100 "store_1")).
Proof.
  refine (proj2 (generation_aborts_exactly_when_fatal DEFAULT_SHIFT_TEMPLATES
                   (fun _ => (OPTIMAL, work_day_100)) ctx_shortfall "store_1" 100 101 _)
                _).
  - split.
    + repeat constructor; simpl; tauto.
    + intros emp_id avail [E | []]. injection E as <- <-.
      repeat constructor; simpl; tauto.
  - intros [F | [F | [F _]]].
    + discriminate.
    + specialize (F "e1" (mk_EmployeeAvailability "e1" [(100, ["S"])]) 100 ["S"]
                    (or_introl eq_refl) (or_introl eq_refl)).
      discriminate.
    + now apply F.
Defined.

(* ===================================================================== *)
(** ** The weekly tolerance band, on the floats *)

Lemma float_consecutive_walk_codes emp code :
  code <> "MAX_CONSECUTIVE_DAYS_EXCEEDED" ->
  forall pairs streak,
    Float64.with_code code (Float64.consecutive_walk emp streak pairs) = [].
Proof.
  intros N. induction pairs as [|[prev nxt] pairs IH]; intros streak; [reflexivity|].
  cbn [Float64.consecutive_walk].
  destruct (MAX_CONSECUTIVE_WORKING_DAYS <? _); [|apply IH].
  unfold Float64.with_code. cbn [filter Float64.v_code].
  destruct (String.eqb_spec "MAX_CONSECUTIVE_DAYS_EXCEEDED" code); [congruence|reflexivity].
Qed.

(** The WEEKLY_MAX_HOURS_EXCEEDED violations of the float oracle come from
    step 2b alone. *)
Lemma float_check_roster_weekly_max T ctx roster :
  Float64.with_code "WEEKLY_MAX_HOURS_EXCEEDED" (Float64.check_roster T ctx roster)
  = Float64.with_code "WEEKLY_MAX_HOURS_EXCEEDED"
      (for_employees ctx (fun emp_id emp =>
         Float64.check_weekly_hours emp_id emp (Float64.weekly_hours_of T roster))).
Proof.
  unfold Float64.check_roster, Float64.with_code. cbv zeta.
  rewrite !filter_app.
  set (f := fun v : Float64.Violation =>
              String.eqb (Float64.v_code v) "WEEKLY_MAX_HOURS_EXCEEDED").
  assert (E1 : filter f (for_employees ctx (fun emp_id emp =>
                 Float64.check_contract_hours emp_id emp
                   (Float64.total_hours_by_emp T (r_assignments roster)))) = []).
  { unfold for_employees. rewrite filter_flat_map. apply flat_map_all_nil.
    intros [k e] _. cbn [fst snd]. unfold Float64.check_contract_hours.
    destruct (Float64.CONTRACT_HOURS_BOUNDS _) as [[mn mx]|]; [|reflexivity].
    destruct (PrimFloat.ltb _ mn), (PrimFloat.ltb mx _); reflexivity. }
  assert (E3 : filter f (flat_map (Float64.check_casual_shift T ctx)
                                  (r_assignments roster)) = []).
  { rewrite filter_flat_map. apply flat_map_all_nil. intros a _.
    unfold Float64.check_casual_shift.
    destruct (PyDict.get (a_employee_id a) (employees ctx)); [|reflexivity].
    destruct (PyDict.get (a_shift_code a) T); [|reflexivity].
    destruct (_ && _); reflexivity. }
  assert (E4 : filter f (for_employees ctx (fun emp_id emp =>
                 Float64.check_rest T emp_id emp (r_assignments roster))) = []).
  { unfold for_employees. rewrite filter_flat_map. apply flat_map_all_nil.
    intros [k e] _. cbn [fst snd]. unfold Float64.check_rest.
    rewrite filter_flat_map. apply flat_map_all_nil. intros [prev nxt] _.
    unfold Float64.check_rest_pair.
    destruct (negb _); [reflexivity|].
    destruct (PrimFloat.ltb _ _); reflexivity. }
  assert (E5 : filter f (for_employees ctx (fun emp_id emp =>
                 Float64.check_consecutive emp_id emp (r_assignments roster))) = []).
  { unfold for_employees. rewrite filter_flat_map. apply flat_map_all_nil.
    intros [k e] _. cbn [fst snd]. unfold Float64.check_consecutive.
    destruct (emp_assignments_sorted k (r_assignments roster)); [reflexivity|].
    apply (float_consecutive_walk_codes e "WEEKLY_MAX_HOURS_EXCEEDED"). discriminate. }
  assert (E6 : filter f (flat_map (Float64.check_unknown_employee ctx)
                                  (r_assignments roster)) = []).
  { rewrite filter_flat_map. apply flat_map_all_nil. intros a _.
    unfold Float64.check_unknown_employee.
    destruct (PyDict.mem _ _); reflexivity. }
  rewrite E1, E3, E4, E5, E6. cbn [app]. now rewrite app_nil_r.
Qed.

(** A checked bucket gives at most the violation of its own employee and
    week. *)
Lemma weekly_max_bucket_shape emp_id emp min_w max_w weekly_hours w :
  Float64.with_code "WEEKLY_MAX_HOURS_EXCEEDED"
    (Float64.check_week emp_id emp min_w max_w weekly_hours w) = []
  \/ exists total_week,
       Float64.with_code "WEEKLY_MAX_HOURS_EXCEEDED"
         (Float64.check_week emp_id emp min_w max_w weekly_hours w)
       = [WEEKLY_MAX_violation emp total_week w max_w].
Proof.
  unfold Float64.check_week, Float64.with_code.
  destruct (PyDict.get (emp_id, w) weekly_hours) as [t|]; [|now left].
  cbv zeta. rewrite filter_app.
  destruct (PrimFloat.ltb t min_w), (PrimFloat.ltb max_w t);
    try destruct (PrimFloat.leb _ 2); cbn; try (now left); right; now exists t.
Qed.

Lemma weekly_max_about_other_employee emp_id emp min_w max_w weekly_hours w w' id :
  e_id emp <> id ->
  filter (weekly_max_about id w')
    (Float64.with_code "WEEKLY_MAX_HOURS_EXCEEDED"
       (Float64.check_week emp_id emp min_w max_w weekly_hours w)) = [].
Proof.
  intros N.
  destruct (weekly_max_bucket_shape emp_id emp min_w max_w weekly_hours w)
    as [-> | [t ->]]; [reflexivity|].
  unfold weekly_max_about, WEEKLY_MAX_violation.
  cbn [filter Float64.v_employee_id Float64.v_message].
  destruct (String.eqb_spec (e_id emp) id); [contradiction|reflexivity].
Qed.

Lemma weekly_max_about_other_week emp_id emp min_w max_w weekly_hours w w' id :
  w <> w' ->
  filter (weekly_max_about id w')
    (Float64.with_code "WEEKLY_MAX_HOURS_EXCEEDED"
       (Float64.check_week emp_id emp min_w max_w weekly_hours w)) = [].
Proof.
  intros N.
  destruct (weekly_max_bucket_shape emp_id emp min_w max_w weekly_hours w)
    as [-> | [t ->]]; [reflexivity|].
  unfold weekly_max_about, WEEKLY_MAX_violation.
  cbn [filter Float64.v_employee_id Float64.v_message].
  destruct (Z.eqb_spec (w + 1) (w' + 1)); [lia|].
  now rewrite andb_false_r.
Qed.

(** When a function tells the elements of a list apart, what only one of
    them contributes to is that one's contribution. *)
Lemma flat_map_only {A B C} (f : A -> C) (h : A -> list B) x l :
  NoDup (map f l) -> In x l ->
  (forall y, f y <> f x -> h y = []) ->
  flat_map h l = h x.
Proof.
  intros ND I H. induction l as [|y l IH]; [contradiction|].
  cbn [map] in ND. inversion ND as [|? ? NI ND']; subst. cbn [flat_map].
  destruct I as [-> | I].
  - rewrite flat_map_all_nil; [apply app_nil_r|].
    intros z Iz. apply H. intros Ez. apply NI. rewrite <- Ez. now apply in_map.
  - rewrite (H y), (IH ND' I); [reflexivity|].
    intros Ey. apply NI. rewrite Ey. now apply in_map.
Qed.

(** C6.  The WEEKLY_MAX_HOURS_EXCEEDED part of the output of
    [check_roster] is made of the checked buckets, in order: for each
    employee of the context, what week 0 and then week 1 give.  A checked
    bucket whose total, the float the oracle has added up, exceeds the
    weekly maximum by at most 2.0 hours gives none; one whose total exceeds
    it by more than 2.0 hours gives exactly one, of severity SOFT, and
    that one is in the output.  When the employees have distinct ids, the
    output holds no WEEKLY_MAX_HOURS_EXCEEDED about that employee and week
    in the first case, and that one alone in the second. *)
Theorem weekly_max_tolerance_band T ctx roster emp_id emp min_w max_w w total_week :
  In (emp_id, emp) (employees ctx) ->
  Float64.WEEKLY_CONTRACT_HOURS_BOUNDS (e_contract_type emp) = Some (min_w, max_w) ->
  In w CHECKED_WEEKS ->
  PyDict.get (emp_id, w) (Float64.weekly_hours_of T roster) = Some total_week ->
  let weekly_hours := Float64.weekly_hours_of T roster in
  let of_bucket emp_id emp min_w max_w w :=
    Float64.with_code "WEEKLY_MAX_HOURS_EXCEEDED"
      (Float64.check_week emp_id emp min_w max_w weekly_hours w) in
  let output :=
    Float64.with_code "WEEKLY_MAX_HOURS_EXCEEDED" (Float64.check_roster T ctx roster) in
  output
  = for_employees ctx (fun emp_id emp =>
      match Float64.WEEKLY_CONTRACT_HOURS_BOUNDS (e_contract_type emp) with
      | None => []
      | Some (min_w, max_w) =>
          of_bucket emp_id emp min_w max_w 0 ++ of_bucket emp_id emp min_w max_w 1
      end)
  /\ (exceeds_within_band total_week max_w ->
      of_bucket emp_id emp min_w max_w w = []
      /\ (NoDup (map e_id (PyDict.values (employees ctx))) ->
          filter (weekly_max_about (e_id emp) w) output = []))
  /\ (exceeds_beyond_band total_week max_w ->
      of_bucket emp_id emp min_w max_w w = [WEEKLY_MAX_violation emp total_week w max_w]
      /\ Float64.v_severity (WEEKLY_MAX_violation emp total_week w max_w) = SOFT
      /\ In (WEEKLY_MAX_violation emp total_week w max_w) output
      /\ (NoDup (map e_id (PyDict.values (employees ctx))) ->
          filter (weekly_max_about (e_id emp) w) output
          = [WEEKLY_MAX_violation emp total_week w max_w])).
Proof.
  intros I B W G weekly_hours of_bucket output.
  assert (E : output
              = for_employees ctx (fun emp_id emp =>
                  match Float64.WEEKLY_CONTRACT_HOURS_BOUNDS (e_contract_type emp) with
                  | None => []
                  | Some (min_w, max_w) =>
                      of_bucket emp_id emp min_w max_w 0
                      ++ of_bucket emp_id emp min_w max_w 1
                  end)).
  { unfold output. rewrite float_check_roster_weekly_max.
    unfold Float64.with_code, for_employees. rewrite filter_flat_map.
    apply flat_map_ext. intros [k e]. cbn [fst snd].
    unfold Float64.check_weekly_hours.
    destruct (Float64.WEEKLY_CONTRACT_HOURS_BOUNDS (e_contract_type e)) as [[mn mx]|];
      [|reflexivity].
    unfold CHECKED_WEEKS. cbn [flat_map]. rewrite app_nil_r, filter_app. reflexivity. }
  assert (Beyond : exceeds_beyond_band total_week max_w ->
                   of_bucket emp_id emp min_w max_w w
                   = [WEEKLY_MAX_violation emp total_week w max_w]).
  { intros [A O]. unfold of_bucket, Float64.check_week, Float64.with_code.
    fold weekly_hours in G. rewrite G. cbv zeta. rewrite A, O, filter_app.
    destruct (PrimFloat.ltb total_week min_w); reflexivity. }
  assert (Within : exceeds_within_band total_week max_w ->
                   of_bucket emp_id emp min_w max_w w = []).
  { intros [A O]. unfold of_bucket, Float64.check_week, Float64.with_code.
    fold weekly_hours in G. rewrite G. cbv zeta. rewrite A, O, filter_app.
    destruct (PrimFloat.ltb total_week min_w); reflexivity. }
  assert (About : NoDup (map e_id (PyDict.values (employees ctx))) ->
                  filter (weekly_max_about (e_id emp) w) output
                  = filter (weekly_max_about (e_id emp) w)
                           (of_bucket emp_id emp min_w max_w w)).
  { intros ND. rewrite E. unfold for_employees. rewrite filter_flat_map.
    rewrite (flat_map_only (fun kv : string * Employee => e_id (snd kv)) _
               (emp_id, emp) (employees ctx)).
    - cbv beta. cbn [fst snd]. rewrite B, filter_app. unfold of_bucket.
      destruct W as [<- | [<- | []]].
      + rewrite (weekly_max_about_other_week _ _ _ _ _ 1 0 (e_id emp)) by discriminate.
        apply app_nil_r.
      + now rewrite (weekly_max_about_other_week _ _ _ _ _ 0 1 (e_id emp)) by discriminate.
    - unfold PyDict.values in ND. now rewrite map_map in ND.
    - exact I.
    - intros [k e] N. cbn [fst snd] in *.
      destruct (Float64.WEEKLY_CONTRACT_HOURS_BOUNDS (e_contract_type e)) as [[mn mx]|];
        [|reflexivity].
      rewrite filter_app. unfold of_bucket.
      now rewrite !(weekly_max_about_other_employee _ _ _ _ _ _ w (e_id emp)) by exact N. }
  split; [exact E|]. split.
  - intros X. split; [exact (Within X)|].
    intros ND. now rewrite (About ND), (Within X).
  - intros X. split; [exact (Beyond X)|]. split; [reflexivity|]. split.
    + rewrite E. unfold for_employees. apply in_flat_map.
      exists (emp_id, emp). split; [exact I|]. cbn [fst snd]. rewrite B.
      destruct W as [<- | [<- | []]]; apply in_or_app; [left|right];
        rewrite (Beyond X); now left.
    + intros ND. rewrite (About ND), (Beyond X).
      unfold weekly_max_about, WEEKLY_MAX_violation.
      cbn [filter Float64.v_employee_id Float64.v_message].
      now rewrite String.eqb_refl, Z.eqb_refl.
Qed.

Lemma weekly_max_tolerance_band_witness :
  filter (weekly_max_about "e1" 0)
    (Float64.with_code "WEEKLY_MAX_HOURS_EXCEEDED"
       (Float64.check_roster TEMPLATES_P_Q ctx_one_casual roster_p_q_q))
  = [WEEKLY_MAX_violation casual_e1 26.000000000000004 0 24].
Proof.
  refine (proj2 (proj2 (proj2 (proj2 (proj2
    (weekly_max_tolerance_band TEMPLATES_P_Q ctx_one_casual roster_p_q_q
       "e1" casual_e1 8 24 0 26.000000000000004 _ _ _ _)) _))) _).
  - left; reflexivity.
  - reflexivity.
  - left; reflexivity.
  - reflexivity.
  - split; reflexivity.
  - repeat constructor; simpl; tauto.
Defined.

(** The band at its edge, on three rosters of the casual employee (weekly
    maximum 24.0): a week of 9.0 + 8.5 + 8.5 = 26.0 hours draws no
    WEEKLY_MAX_HOURS_EXCEEDED; a week of 26.01 hours draws exactly one; and
    a week of 8.4 + 8.8 + 8.8 hours draws one as well, because the floats
    add up to 26.000000000000004. *)
Lemma weekly_band_at_its_edge :
  Float64.with_code "WEEKLY_MAX_HOURS_EXCEEDED"
    (Float64.check_roster TEMPLATES_P_Q ctx_one_casual roster_at_the_band) = []
  /\ Float64.with_code "WEEKLY_MAX_HOURS_EXCEEDED"
       (Float64.check_roster TEMPLATES_P_Q ctx_one_casual roster_one_long)
     = [WEEKLY_MAX_violation casual_e1 26.01 0 24]
  /\ Float64.with_code "WEEKLY_MAX_HOURS_EXCEEDED"
       (Float64.check_roster TEMPLATES_P_Q ctx_one_casual roster_p_q_q)
     = [WEEKLY_MAX_violation casual_e1 26.000000000000004 0 24]
  /\ (8.4 + 8.8 + 8.8)%float = 26.000000000000004%float
  /\ (26.000000000000004 - 24 <=? 2)%float = false.
Proof. repeat split; vm_compute; reflexivity. Qed.

(* ===================================================================== *)
(** ** The resolver's hours, on the floats *)

(** C10.  [_find_replacement_employee] admits a candidate when
    [current_h + shift_hours > max_h] is false, on the running total
    [hours_by_emp].  In [ctx_rounding] e2 stands at 44.4 hours, within the
    maximum of 48.0, and e1 is overloaded.  The resolver moves the
    3.6-hour shift of day 100 from e1 to e2, since 44.4 + 3.6 is 48.0 in
    the floats.  The shift is first in the roster, so the hours of e2 now
    add up in another order, to 48.00000000000001: the next iteration of
    the resolver finds e2 overloaded and cannot repair it, and
    [check_roster] reports MAX_HOURS_EXCEEDED for e2 on the roster
    returned, where it reported none for e2 on the roster given. *)
Theorem rebalance_hours_overloads_by_rounding :
  let before := roster_value heap_rounding roster_rounding in
  let after := roster_value (fst (fst rounded)) (snd (fst rounded)) in
  let hours_of roster :=
    Float64._compute_hours_by_employee TEMPLATES_A_B (r_assignments roster) in
  let exceeded roster :=
    Float64.with_code "MAX_HOURS_EXCEEDED"
      (Float64.check_roster TEMPLATES_A_B ctx_rounding roster) in
  PyDict.get "e2" (hours_of before) = Some 44.4%float
  /\ (48 <? 44.4)%float = false
  /\ exceeded before = [MAX_HOURS_violation casual_e1 54.60000000000001 48]
  /\ (44.4 + 3.6)%float = 48%float
  /\ snd rounded = [LogReassigning "B" 100 "e1" "e2"; LogNoFeasible 1]
  /\ map (fun a => a_employee_id a) (r_assignments after)
     = ["e2"; "e2"; "e2"; "e2"; "e2"; "e2"; "e1"; "e1"; "e1"; "e1"; "e1"]
  /\ PyDict.get "e2" (hours_of after) = Some 48.00000000000001%float
  /\ (48 <? 48.00000000000001)%float = true
  /\ exceeded after
     = [MAX_HOURS_violation casual_e1 51 48;
        MAX_HOURS_violation casual_e2 48.00000000000001 48].
Proof. cbv zeta. repeat split; vm_compute; reflexivity. Qed.
